(** * IS-12 conformance suite (nmostesting/suites/IS1201Test.py)

    A shallow embedding of the checking routines of the IS-12 test suite and
    the properties that its design document states about them.

    Conventions of the embedding.
    - Values exchanged with the Node under test are JSON values decoded by
      Python: [pyval].  A JSON number without fraction or exponent is an
      [int] ([Z]); any other is a [float], here the number [m * 2 ^ e] that
      it stands for, or an infinity (a number too large for the format).
      The routines look at a [float] only through its truth value, [==],
      [isinstance] and [str]; they do not depend on the format.  [NaN] is no
      JSON value and is not part of the value type.
    - A Python [dict] is an association list in insertion order whose lookup
      takes the first binding; a Python [set] of keys is a [gset], and the
      order in which a loop visits it is an interface ([SetOrder]).
    - A routine that may raise returns an [outcome]; a routine that mutates a
      metadata dictionary or a flag of the suite takes the old state and
      returns the new one.  An exception that is not handled ends the test
      that runs; the state that the routine leaves behind at that point is
      part of the result of the two sequence checks
      ([check_get_sequence_item], [check_get_sequence_length]), which write
      to their metadata before they raise, and is not followed further up.
    - Text produced by [str(...)] of a value is kept symbolic in the detail of
      a failure; text built by [+] on strings is built with [+:+].
    - A recursive routine takes a bound [fuel] on the depth of its recursion
      and raises [RecursionError] when the bound is reached; the entry
      points give enough fuel, which the properties below establish.
    - A member descriptor comes from the control protocol as the JSON value
      received together with the fields that the suite reads in it, typed;
      the reads of the suite in it raise as they do on the JSON value.  A
      class descriptor of the Class Manager is a record of the fields that
      the suite reads.  The values of properties, the constraints, the
      notifications and the descriptors that [validate_descriptor] compares
      are untyped values. *)

From stdpp Require Import base decidable option list gmap strings pretty sorting.
From Stdlib Require Import ZArith Lia.

Local Open Scope Z_scope.
#[local] Set Warnings "-register-all,-clear-no-such-hyp".

(** ** Python values *)

Module Py.

(** A Python [float]: the number [m * 2 ^ e], or an infinity.  The two
    zeros [0.0] and [-0.0] are equal and both false in a condition; they are
    one value here. *)
Inductive pyfloat : Type :=
| Finite (m e : Z)
| Infinite (negative : bool).

#[global] Instance pyfloat_eq_dec : EqDecision pyfloat.
Proof. solve_decision. Defined.

(** Hashable scalars, as they behave as keys of a [dict]: [True], [1] and
    [1.0] (and [False], [0] and [0.0]) are the same key; a [float] that is
    no integer is a key [KFloat], in lowest terms. *)
Inductive pykey : Type :=
| KNone
| KInt (n : Z)
| KStr (s : string)
| KFloat (f : pyfloat).

#[global] Instance pykey_eq_dec : EqDecision pykey.
Proof. solve_decision. Defined.

#[global] Instance pykey_countable : Countable pykey.
Proof.
  refine (inj_countable'
    (fun k => match k with
              | KNone => inl tt
              | KInt n => inr (inl n)
              | KStr s => inr (inr (inl s))
              | KFloat (Finite m e) => inr (inr (inr (inl (m, e))))
              | KFloat (Infinite b) => inr (inr (inr (inr b)))
              end)
    (fun x => match x with
              | inl _ => KNone
              | inr (inl n) => KInt n
              | inr (inr (inl s)) => KStr s
              | inr (inr (inr (inl (m, e)))) => KFloat (Finite m e)
              | inr (inr (inr (inr b))) => KFloat (Infinite b)
              end) _).
  by intros [| | |[]].
Defined.

Inductive pyval : Type :=
| PNone
| PBool (b : bool)
| PInt (n : Z)
| PStr (s : string)
| PList (l : list pyval)
| PDict (d : list (pykey * pyval))
| PFloat (f : pyfloat).

Abbreviation pydict := (list (pykey * pyval)).

(** Exceptions that the modelled routines raise or let through.
    [NMOSTestException] carries the detail of [test.FAIL(...)]. *)
Inductive fail_detail : Type :=
| Message (s : string)
| KeyMismatch (context description : string) (key_diff : gset pykey)
| UnexpectedClassId (context : string) (expected actual : pyval)
| UnexpectedSequence (context : string) (expected actual : pyval)
| UnexpectedValue (context : string) (expected actual : pyval).

Inductive exn : Type :=
| NMOSTestException (detail : fail_detail)
| TypeError
| KeyError
| AttributeError
| ValueError
| RecursionError.

Inductive outcome (A : Type) : Type :=
| Return (a : A)
| Raise (e : exn).
Arguments Return {A} a.
Arguments Raise {A} e.

Definition bind {A B} (m : outcome A) (f : A -> outcome B) : outcome B :=
  match m with
  | Return a => f a
  | Raise e => Raise e
  end.

Notation "x <- m ;; k" := (bind m (fun x => k))
  (at level 100, m at next level, right associativity).
Notation "m ;;; k" := (bind m (fun _ => k))
  (at level 100, k at level 200, right associativity).

(** [for x in l: body(x)] where the body may raise: the loop stops at the
    first exception. *)
Fixpoint for_each {A} (l : list A) (body : A -> outcome unit) : outcome unit :=
  match l with
  | [] => Return tt
  | x :: l' => body x ;;; for_each l' body
  end.

(** [for x in l: state = body(x, state)], the body may raise. *)
Fixpoint for_each_st {A S} (l : list A) (body : A -> S -> outcome S) (s : S)
  : outcome S :=
  match l with
  | [] => Return s
  | x :: l' => s' <- body x s ;; for_each_st l' body s'
  end.

(** [f == g] on floats: the numbers are the same. *)
Definition float_eqb (f g : pyfloat) : bool :=
  match f, g with
  | Finite m1 e1, Finite m2 e2 =>
      let e := Z.min e1 e2 in
      m1 * 2 ^ (e1 - e) =? m2 * 2 ^ (e2 - e)
  | Infinite a, Infinite b => Bool.eqb a b
  | _, _ => false
  end.

(** [float(n)] where no rounding is needed: the float that is the integer
    [n]. *)
Definition float_of_int (n : Z) : pyfloat := Finite n 0.

(** Lowest terms of [m * 2 ^ e]: [m] odd, or zero. *)
Fixpoint odd_part (m : positive) (e : Z) : positive * Z :=
  match m with
  | xO m' => odd_part m' (e + 1)
  | _ => (m, e)
  end.

Definition float_key (f : pyfloat) : pykey :=
  match f with
  | Infinite _ => KFloat f
  | Finite 0 _ => KInt 0
  | Finite (Zpos m) e =>
      let '(m', e') := odd_part m e in
      if 0 <=? e' then KInt (Zpos m' * 2 ^ e') else KFloat (Finite (Zpos m') e')
  | Finite (Zneg m) e =>
      let '(m', e') := odd_part m e in
      if 0 <=? e' then KInt (Zneg m' * 2 ^ e') else KFloat (Finite (Zneg m') e')
  end.

(** Truth value of a value in a condition ([if v], [not v]). *)
Definition truthy (v : pyval) : bool :=
  match v with
  | PNone => false
  | PBool b => b
  | PInt n => negb (n =? 0)
  | PStr s => negb (String.eqb s "")
  | PList l => match l with [] => false | _ => true end
  | PDict d => match d with [] => false | _ => true end
  | PFloat (Finite m _) => negb (m =? 0)
  | PFloat (Infinite _) => true
  end.

Definition falsy (v : pyval) : bool := negb (truthy v).

Definition is_list (v : pyval) : bool :=
  match v with PList _ => true | _ => false end.
Definition is_dict (v : pyval) : bool :=
  match v with PDict _ => true | _ => false end.

(** The key that a value is when used as a [dict] key or [set] member;
    lists and dicts are unhashable. *)
Definition hash_key (v : pyval) : outcome pykey :=
  match v with
  | PNone => Return KNone
  | PBool b => Return (KInt (Z.b2z b))
  | PInt n => Return (KInt n)
  | PStr s => Return (KStr s)
  | PFloat f => Return (float_key f)
  | PList _ | PDict _ => Raise TypeError
  end.

Fixpoint dict_get {V} (d : list (pykey * V)) (k : pykey) : option V :=
  match d with
  | [] => None
  | (k', v) :: d' => if decide (k' = k) then Some v else dict_get d' k
  end.

(** [d[k] = v]: replaces the value of an existing key in place, appends a new
    key. *)
Fixpoint dict_set {V} (d : list (pykey * V)) (k : pykey) (v : V)
  : list (pykey * V) :=
  match d with
  | [] => [(k, v)]
  | (k', v') :: d' =>
      if decide (k' = k) then (k', v) :: d' else (k', v') :: dict_set d' k v
  end.

Definition dict_del {V} (d : list (pykey * V)) (k : pykey) : list (pykey * V) :=
  filter (fun kv => kv.1 <> k) d.

Definition keys {V} (d : list (pykey * V)) : list pykey := d.*1.

(** [set(d.keys())] *)
Definition key_set {V} (d : list (pykey * V)) : gset pykey :=
  list_to_set (keys d).

(** [d.get(k)] *)
Definition get (d : pydict) (k : string) : pyval :=
  default PNone (dict_get d (KStr k)).

(** [d[k]] on a dict *)
Definition getitem (d : pydict) (k : pykey) : outcome pyval :=
  match dict_get d k with
  | Some v => Return v
  | None => Raise KeyError
  end.

(** [a == b] *)
Fixpoint py_eqb (a b : pyval) {struct a} : bool :=
  match a, b with
  | PNone, PNone => true
  | PBool x, PBool y => Bool.eqb x y
  | PBool x, PInt n => Z.b2z x =? n
  | PInt n, PBool x => n =? Z.b2z x
  | PInt m, PInt n => m =? n
  | PFloat f, PFloat g => float_eqb f g
  | PFloat f, PInt n => float_eqb f (float_of_int n)
  | PInt n, PFloat f => float_eqb (float_of_int n) f
  | PFloat f, PBool x => float_eqb f (float_of_int (Z.b2z x))
  | PBool x, PFloat f => float_eqb (float_of_int (Z.b2z x)) f
  | PStr s, PStr t => String.eqb s t
  | PList l1, PList l2 =>
      (fix go (l1 l2 : list pyval) {struct l1} : bool :=
         match l1, l2 with
         | [], [] => true
         | x :: l1', y :: l2' => py_eqb x y && go l1' l2'
         | _, _ => false
         end) l1 l2
  | PDict d1, PDict d2 =>
      (length d1 =? length d2)%nat &&
      (fix go (d : pydict) {struct d} : bool :=
         match d with
         | [] => true
         | (k, v) :: d' =>
             match dict_get d2 k with
             | Some w => py_eqb v w
             | None => false
             end && go d'
         end) d1
  | _, _ => false
  end.

(** [a != b] *)
Definition py_neb (a b : pyval) : bool := negb (py_eqb a b).

Definition key_to_val (k : pykey) : pyval :=
  match k with
  | KNone => PNone
  | KInt n => PInt n
  | KStr s => PStr s
  | KFloat f => PFloat f
  end.

Fixpoint chars (s : string) : list pyval :=
  match s with
  | EmptyString => []
  | String c s' => PStr (String c EmptyString) :: chars s'
  end.

(** The items that [for item in v] visits. *)
Definition py_iter (v : pyval) : outcome (list pyval) :=
  match v with
  | PList l => Return l
  | PDict d => Return (key_to_val <$> keys d)
  | PStr s => Return (chars s)
  | _ => Raise TypeError
  end.

(** [len(v)] *)
Definition py_len (v : pyval) : outcome nat :=
  match v with
  | PList l => Return (length l)
  | PDict d => Return (length d)
  | PStr s => Return (String.length s)
  | _ => Raise TypeError
  end.

(** [x in l] for a list [l] *)
Definition py_in (x : pyval) (l : list pyval) : bool :=
  existsb (py_eqb x) l.

(** [isinstance(v, dict)], [v[name]] for a string [name]. *)
Definition getitem_str (v : pyval) (name : string) : outcome pyval :=
  match v with
  | PDict d => getitem d (KStr name)
  | _ => Raise TypeError
  end.


End Py.
Export Py.

(** ** External collaborators

    The suite reaches JSON-schema validation through [GenericTest] and the
    iteration order of a Python [set] is fixed by the interpreter; both are
    interfaces here. *)

Inductive schema_result : Type :=
| SchemaValid
| ValidationError (message : string)
| SchemaError (message : string).

(** [self.validate_schema(payload, schema)] of [GenericTest]. *)
Class SchemaValidator := {
  validate_schema : pyval -> pyval -> schema_result
}.

(** The order in which [for key in s] visits the set [s = set(d.keys())]:
    each key once.  The order is the interpreter's, and it may depend on
    the order in which the keys went into the set; [set_iter] is given the
    keys of the dict in their order. *)
Class SetOrder := {
  set_iter : list pykey -> list pykey;
  set_iter_NoDup : forall l, NoDup (set_iter l);
  set_iter_elem : forall l k, k ∈ set_iter l <-> k ∈ l
}.

(** [str(v)] of a value and of a set of keys, as Python prints them; the
    order in which the text of a set lists its members is the
    interpreter's, and [str_keys] stands for that text. *)
Class Rendering := {
  py_str : pyval -> string;
  str_keys : gset pykey -> string
}.

(** The metadata dictionaries of [set_up_tests]:
    [{"checked": False, "error": False, "error_msg": ""}]. *)
Record metadata : Type := {
  checked : bool;
  error : bool;
  error_msg : string
}.

Definition metadata_init : metadata :=
  {| checked := false; error := false; error_msg := "" |}.

Definition set_checked (m : metadata) : metadata :=
  {| checked := true; error := error m; error_msg := error_msg m |}.
Definition set_error (m : metadata) : metadata :=
  {| checked := checked m; error := true; error_msg := error_msg m |}.
Definition set_error_msg (m : metadata) (s : string) : metadata :=
  {| checked := checked m; error := error m; error_msg := s |}.
Definition add_error_msg (m : metadata) (s : string) : metadata :=
  set_error_msg m (error_msg m +:+ s).

(** [def _validate_schema(self, test, payload, schema, context="")] *)
Definition _validate_schema `{SchemaValidator} (payload schema : pyval)
    (context : string) : outcome unit :=
  if negb (truthy schema) then
    Raise (NMOSTestException (Message (context +:+ "Missing schema. ")))
  else
    match validate_schema payload schema with
    | SchemaValid => Return tt
    | ValidationError m =>
        Raise (NMOSTestException
                 (Message (context +:+ "Schema validation error: " +:+ m)))
    | SchemaError m =>
        Raise (NMOSTestException (Message (context +:+ "Schema error: " +:+ m)))
    end.

(** [str(e.args[0].detail)] for the detail of a failure. *)
Definition detail_str `{Rendering} (d : fail_detail) : string :=
  match d with
  | Message s => s
  | KeyMismatch context description key_diff =>
      context +:+ description +:+ str_keys key_diff
  | UnexpectedClassId context expected actual =>
      context +:+ "Unexpected ClassId. Expected: " +:+ py_str expected
      +:+ " actual: " +:+ py_str actual
  | UnexpectedSequence context expected actual =>
      context +:+ "Unexpected sequence. Expected: " +:+ py_str expected
      +:+ " actual: " +:+ py_str actual
  | UnexpectedValue context expected actual =>
      context +:+ "Expected value: " +:+ py_str expected
      +:+ ", actual value: " +:+ py_str actual
  end.

(** An operand of [+] on strings. *)
Definition as_str (v : pyval) : outcome string :=
  match v with
  | PStr s => Return s
  | _ => Raise TypeError
  end.

(** ** Constraint validation: [resolve_datatype], [check_constraint] *)

Module Constraints.
Section Constraints.
Context `{SchemaValidator}.

(** Positional arguments of a call: the suite object or a value. *)
Inductive pyarg : Type :=
| ASelf
| AVal (v : pyval).

(** [container[index]] for the two arguments of [resolve_datatype]. *)
Definition subscript (container index : pyarg) : outcome pyval :=
  match container with
  | AVal (PDict d) =>
      match index with
      | AVal v => k <- hash_key v ;; getitem d k
      | ASelf => Raise KeyError
      end
  | _ => Raise TypeError
  end.

(** [descriptor.get(name)] *)
Definition dot_get (descriptor : pyval) (name : string) : outcome pyval :=
  match descriptor with
  | PDict d => Return (get d name)
  | _ => Raise AttributeError
  end.

(** [def resolve_datatype(self, datatype, datatype_descriptors)], applied to
    the list of its positional arguments; a call with a number of arguments
    other than three raises [TypeError] before the body runs.  The method
    call [self.resolve_datatype(a, b, c)] passes [self :: [a; b; c]].
    [fuel] bounds the depth of the recursion. *)
Fixpoint resolve_datatype_def (fuel : nat) (args : list pyarg)
  : outcome pyarg :=
  match fuel with
  | O => Raise RecursionError
  | S fuel' =>
      match args with
      | [self; datatype; datatype_descriptors] =>
          match (descriptor <- subscript datatype_descriptors datatype ;;
                 dot_get descriptor "parentType") with
          | Raise e => Raise e
          | Return parentType =>
              if truthy parentType then
                (* return self.resolve_datatype(self, <parentType>,
                                                datatype_descriptors) *)
                resolve_datatype_def fuel'
                  (self :: [self; AVal parentType; datatype_descriptors])
              else
                Return datatype
          end
      | _ => Raise TypeError
      end
  end.

(** [self.resolve_datatype(datatype, datatype_descriptors)] as the suite calls
    it from [check_constraint], with a type name and the datatype
    descriptors of the Class Manager.  Two levels of recursion are enough:
    the inner call stops at its argument list.  The routine returns its own
    argument when it returns, so that the second branch is not reached. *)
Definition resolve_datatype (datatype : string) (datatype_descriptors : pydict)
  : outcome string :=
  match resolve_datatype_def 2
          [ASelf; AVal (PStr datatype); AVal (PDict datatype_descriptors)] with
  | Return (AVal (PStr s)) => Return s
  | Return _ => Raise TypeError
  | Raise e => Raise e
  end.

(** What the design document asks of base type resolution: follow
    [parentType] links until a datatype has none.  Used only to compare with
    [resolve_datatype]. *)
Fixpoint spec_ResolveBaseType (fuel : nat) (typeName : string) (catalog : pydict)
  : option string :=
  match fuel with
  | O => None
  | S fuel' =>
      match dict_get catalog (KStr typeName) with
      | Some (PDict d) =>
          match get d "parentType" with
          | PStr parent =>
              if truthy (PStr parent) then spec_ResolveBaseType fuel' parent catalog
              else Some typeName
          | _ => Some typeName
          end
      | _ => None
      end
  end.

Definition numeric_primitives : list string :=
  ["NcInt16"; "NcInt32"; "NcInt64"; "NcUint16"; "NcUint32";
   "NcUint64"; "NcFloat32"; "NcFloat64"].

Definition integer_primitives : list string :=
  ["NcInt16"; "NcInt32"; "NcInt64"; "NcUint16"; "NcUint32"; "NcUint64"].

Definition string_primitives : list string := ["NcString"].

(** The condition of [# check NcXXXConstraintsNumber]. *)
Definition has_number_constraint (constraint : pydict) : bool :=
  truthy (get constraint "minimum") || truthy (get constraint "maximum")
  || truthy (get constraint "step").

(** The condition of [# check NcXXXConstraintsString]. *)
Definition has_string_constraint (constraint : pydict) : bool :=
  truthy (get constraint "maxCharacters") || truthy (get constraint "pattern").

(** The part of [check_constraint] after the default value: resolution of the
    base type and the two legality checks. *)
Definition check_constraint_legality (constraint : pydict) (type_name : string)
    (datatype_descriptors : pydict) (constraint_type : string)
    (test_metadata : metadata) (context : string) : outcome metadata :=
  datatype <- resolve_datatype type_name datatype_descriptors ;;
  let test_metadata :=
    if has_number_constraint constraint then
      if negb (bool_decide (datatype ∈ numeric_primitives)) then
        set_error_msg (set_error test_metadata)
          (context +:+ " of type " +:+ datatype
           +:+ " can not be constrainted by " +:+ constraint_type +:+ ".")
      else test_metadata
    else test_metadata in
  let test_metadata :=
    if has_string_constraint constraint then
      if negb (bool_decide (datatype ∈ string_primitives)) then
        set_error_msg (set_error test_metadata)
          (context +:+ "of type " +:+ datatype
           +:+ " can not be constrainted by " +:+ constraint_type +:+ ".")
      else test_metadata
    else test_metadata in
  Return test_metadata.

(** [def check_constraint(self, test, constraint, type_name,
        datatype_descriptors, datatype_schema, is_sequence, constraint_type,
        test_metadata, context)]; the result is [test_metadata] after the
    call. *)
Definition check_constraint (constraint : pydict) (type_name : string)
    (datatype_descriptors : pydict) (datatype_schema : pyval)
    (is_sequence : bool) (constraint_type : string)
    (test_metadata : metadata) (context : string) : outcome metadata :=
  let defaultValue := get constraint "defaultValue" in
  if truthy defaultValue then
    if xorb (is_list defaultValue) is_sequence then
      Return (set_error_msg (set_error test_metadata)
                (context +:+ (if is_sequence
                              then " a default value sequence was expected"
                              else " unexpected default value sequence.")))
    else
      (if is_sequence then
         match defaultValue with
         | PList values =>
             for_each values (fun value =>
               _validate_schema value datatype_schema
                 (context +:+ ": defaultValue "))
         | _ => Raise TypeError
         end
       else
         _validate_schema defaultValue datatype_schema
           (context +:+ ": defaultValue ")) ;;;
      check_constraint_legality constraint type_name datatype_descriptors
        constraint_type test_metadata context
  else
    check_constraint_legality constraint type_name datatype_descriptors
      constraint_type test_metadata context.

End Constraints.
End Constraints.

(** ** Structural comparison of descriptors: [validate_descriptor] *)

Module Descriptor.
Section Descriptor.
Context `{SetOrder}.

(** [item['name']] *)
Definition item_name (item : pyval) : outcome pyval :=
  getitem_str item "name".

(** [{item['name']: item for item in items}], continuing from [acc]. *)
Fixpoint named_dict_from (items : list pyval) (acc : pydict) : outcome pydict :=
  match items with
  | [] => Return acc
  | item :: items' =>
      name <- item_name item ;;
      k <- hash_key name ;;
      named_dict_from items' (dict_set acc k item)
  end.

Definition named_dict (items : list pyval) : outcome pydict :=
  named_dict_from items [].

(** [len(reference) > 0 and isinstance(reference[0], dict)] *)
Definition first_is_dict (reference : list pyval) : bool :=
  match reference with
  | item :: _ => is_dict item
  | [] => false
  end.

(** [(R | D) - (R & D)] *)
Definition key_difference (reference_keys descriptor_keys : gset pykey)
  : gset pykey :=
  (reference_keys ∪ descriptor_keys) ∖ (reference_keys ∩ descriptor_keys).

(** [context + key + "->"] *)
Definition extend_context (context : string) (key : pykey) : outcome string :=
  match key with
  | KStr s => Return (context +:+ s +:+ "->")
  | _ => Raise TypeError
  end.

(** [def validate_descriptor(self, test, reference, descriptor, context="")];
    [fuel] bounds the depth of the recursion. *)
Fixpoint validate_descriptor_rec (fuel : nat) (reference descriptor : pyval)
    (context : string) : outcome unit :=
  match fuel with
  | O => Raise RecursionError
  | S fuel' =>
      match reference with
      | PDict r =>
          match descriptor with
          | PDict d =>
              let reference_keys := key_set r in
              let descriptor_keys := key_set d in
              let key_diff := key_difference reference_keys descriptor_keys in
              if bool_decide (0 < size key_diff)%nat then
                let error_description :=
                  if bool_decide (key_diff ⊆ reference_keys)
                  then "Missing keys " else "Additional keys " in
                Raise (NMOSTestException
                         (KeyMismatch context error_description key_diff))
              else
                for_each (set_iter (keys r)) (fun key =>
                  reference_key <- getitem r key ;;
                  if bool_decide (key = KStr "description")
                     && negb (is_dict reference_key) then
                    Return tt
                  else if bool_decide (key = KStr "classId")
                          && is_list reference_key then
                    descriptor_key <- getitem d key ;;
                    if py_neb reference_key descriptor_key then
                      Raise (NMOSTestException
                               (UnexpectedClassId context reference_key
                                  descriptor_key))
                    else Return tt
                  else
                    descriptor_key <- getitem d key ;;
                    context' <- extend_context context key ;;
                    validate_descriptor_rec fuel' reference_key descriptor_key
                      context')
          | _ => Raise AttributeError
          end
      | PList l =>
          if first_is_dict l then
            references <- named_dict l ;;
            items <- py_iter descriptor ;;
            descriptors <- named_dict items ;;
            validate_descriptor_rec fuel' (PDict references) (PDict descriptors)
              context
          else if py_neb reference descriptor then
            Raise (NMOSTestException
                     (UnexpectedSequence context reference descriptor))
          else Return tt
      | _ =>
          if py_neb reference descriptor then
            Raise (NMOSTestException
                     (UnexpectedValue context reference descriptor))
          else Return tt
      end
  end.

(** Depth of recursion that [validate_descriptor] can reach on a reference
    value: one call per dict, two per list (the list and the dict made of
    it). *)
Fixpoint depth (v : pyval) : nat :=
  match v with
  | PList l => 2 + foldr (fun x acc => Nat.max (depth x) acc) 0%nat l
  | PDict d => 1 + foldr (fun kv acc => Nat.max (depth kv.2) acc) 0%nat d
  | _ => 1
  end.

Definition validate_descriptor (reference descriptor : pyval)
    (context : string) : outcome unit :=
  validate_descriptor_rec (depth reference) reference descriptor context.

End Descriptor.
End Descriptor.

(** ** The mirror of the device model and the checks that walk it *)

Module DeviceModel.

(** What a call of [is12_utils] yields: a value, or an [NMOSTestException]
    with the [detail] of its failure. *)
Inductive response (A : Type) : Type :=
| Value (v : A)
| Failure (detail : string).
Arguments Value {A} v.
Arguments Failure {A} detail.

(** An item of the answer to the read of the members of a block: the JSON
    value [m_json] as received, and the values of the fields that the suite
    reads in it ([m["classId"]], [m["oid"]], [m["role"]], [m["owner"]]),
    of the types that the protocol gives them.  Whether a field is there is
    read off [m_json], for which the reads of the suite raise as they do in
    Python; the value of a field that is there is the typed one. *)
Record member_descriptor : Type := {
  m_classId : list Z;
  m_oid : Z;
  m_role : string;
  m_owner : Z;
  m_json : pyval
}.

(** A class or datatype descriptor as received from the Class Manager:
    [r.get('classId')] (empty when absent or null), [r['name']] and the JSON
    object itself. *)
Record model_descriptor : Type := {
  d_classId : list Z;
  d_name : string;
  d_json : pyval
}.

(** Modelled from the spec: the classes [NcObject], [NcBlock] and
    [NcClassManager] are declared in IS12Utils, outside the sources; the
    design document describes a node as class id, oid, role and runtime
    constraints, a block as a node with its ordered member descriptors and
    its child nodes, and the class manager as a node with the two descriptor
    catalogs.  The arguments follow the constructor calls of
    [nc_object_factory]. *)
Inductive nc_object : Type :=
| NcObject (class_id : list Z) (oid : Z) (role : string)
    (runtime_constraints : pyval)
| NcBlock (class_id : list Z) (oid : Z) (role : string)
    (member_descriptors : list member_descriptor)
    (runtime_constraints : pyval) (child_objects : list nc_object)
| NcClassManager (class_id : list Z) (oid : Z) (role : string)
    (class_descriptors datatype_descriptors : pydict)
    (runtime_constraints : pyval).

Definition nc_oid (o : nc_object) : Z :=
  match o with
  | NcObject _ oid _ _ | NcBlock _ oid _ _ _ _ | NcClassManager _ oid _ _ _ _ =>
      oid
  end.

Definition nc_role (o : nc_object) : string :=
  match o with
  | NcObject _ _ role _ | NcBlock _ _ role _ _ _
  | NcClassManager _ _ role _ _ _ => role
  end.

(** Python types that [primitive_to_python_type] answers. *)
Inductive pytype : Type := T_int | T_float | T_str | T_bool.

(** Constants and helpers of IS12Utils that the suite uses; they are declared
    outside the sources. *)
Class IS12Utils := {
  ROOT_BLOCK_OID : Z;
  get_base_class_id : list Z -> string;
  is_manager : list Z -> bool;
  is_non_standard_class : list Z -> bool;
  primitive_to_python_type : string -> option pytype;
  RUNTIME_PROPERTY_CONSTRAINTS : pyval;
  MEMBERS : pyval;
  CONTROL_CLASSES : pyval;
  DATATYPES : pyval;
  TOUCHPOINTS : pyval;
  USER_LABEL : pyval;
  PROPERTY_CHANGED : pyval;
  get_role_paths : nc_object -> list (list string);
  find_members_by_path : nc_object -> list string -> option nc_object
}.

(** The Node under test behind the control protocol: the answer to each
    request that the suite sends. *)
Class Device := {
  remote_get_property : Z -> pyval -> response pyval;
  remote_members : Z -> response (option (list member_descriptor));
  remote_model_descriptors : Z -> pyval -> response (option (list model_descriptor));
  remote_get_sequence_item : Z -> pyval -> nat -> response pyval;
  remote_get_sequence_length : Z -> pyval -> response pyval;
  remote_find_members_by_path : Z -> list string -> response pyval
}.

Section DeviceModel.
Context `{SchemaValidator} `{Rendering} `{IS12Utils} `{Device}.

(** [def get_property(self, test, oid, property_id, context)], given the
    answer of [self.is12_utils.get_property(test, oid, property_id)]; [none]
    is Python's [None] at the type of the value.  The second component is
    [self.device_model_metadata] after the call. *)
Definition get_property {A} (none : A) (answer : response A)
    (property_id : pyval) (context : string) (device_model_metadata : metadata)
  : A * metadata :=
  match answer with
  | Value v => (v, device_model_metadata)
  | Failure detail =>
      (none,
       add_error_msg (set_error device_model_metadata)
         (context +:+ "Error getting property: " +:+ py_str property_id
          +:+ ": " +:+ detail +:+ "; "))
  end.

(** [def key_lambda(classId, name)] *)
Definition key_lambda (classId : list Z) (name : string) : string :=
  match classId with
  | [] => name
  | _ => String.concat "." (pretty <$> classId)
  end.

(** [{key_lambda(r.get('classId'), r['name']): r for r in response}] *)
Definition descriptors_dict (response : list model_descriptor) : pydict :=
  foldl (fun d r => dict_set d (KStr (key_lambda (d_classId r) (d_name r)))
                      (d_json r)) [] response.

(** [def get_class_manager_descriptors(self, test, class_manager_oid,
        property_id, role)] *)
Definition get_class_manager_descriptors (class_manager_oid : Z)
    (property_id : pyval) (role : string) (device_model_metadata : metadata)
  : option pydict * metadata :=
  let '(response, device_model_metadata) :=
    get_property None (remote_model_descriptors class_manager_oid property_id)
      property_id role device_model_metadata in
  match response with
  | None | Some [] => (None, device_model_metadata)
  | Some rs => (Some (descriptors_dict rs), device_model_metadata)
  end.

(** [len(class_id) > 1 and class_id[0] == 1 and class_id[1] == 1] *)
Definition is_block_class (class_id : list Z) : bool :=
  match class_id with
  | a :: b :: _ => (a =? 1) && (b =? 1)
  | _ => false
  end.

(** [len(class_id) > 2 and class_id[0] == 1 and class_id[1] == 3
     and class_id[2] == 2] *)
Definition is_class_manager_class (class_id : list Z) : bool :=
  match class_id with
  | a :: b :: c :: _ => (a =? 1) && (b =? 3) && (c =? 2)
  | _ => false
  end.

(** [not d] for a dict that may be [None]. *)
Definition no_descriptors (d : option pydict) : bool :=
  match d with
  | None | Some [] => true
  | Some _ => false
  end.

(** [m[name]] where the suite reads a field of a member descriptor:
    [KeyError] when the object has no such key, [TypeError] when the value
    is no object. *)
Definition member_field (m : member_descriptor) (name : string) : outcome pyval :=
  getitem_str (m_json m) name.

(** The evaluation of the arguments [m["classId"], m["oid"], m["role"]] of
    the recursive call of [nc_object_factory], and of its first operation
    on them, [role + ": "], which asks for a string. *)
Definition member_arguments (m : member_descriptor) : outcome unit :=
  member_field m "classId" ;;;
  member_field m "oid" ;;;
  role <- member_field m "role" ;;
  as_str role ;;;
  Return tt.

(** The loop [for m in member_descriptors] of [nc_object_factory]: [build]
    is the recursive call, [children] the child objects added so far. *)
Fixpoint build_members
    (build : member_descriptor -> metadata -> outcome (option nc_object * metadata))
    (member_descriptors : list member_descriptor) (children : list nc_object)
    (device_model_metadata : metadata)
  : outcome (list nc_object * metadata) :=
  match member_descriptors with
  | [] => Return (children, device_model_metadata)
  | m :: ms =>
      built <- build m device_model_metadata ;;
      let '(child_object, device_model_metadata) := built in
      build_members build ms
        (match child_object with
         | Some c => children ++ [c]
         | None => children
         end) device_model_metadata
  end.

(** [def nc_object_factory(self, test, class_id, oid, role)]; the result is
    the object, or [None], with [self.device_model_metadata] after the call.
    [fuel] bounds the depth of the recursion. *)
Fixpoint nc_object_factory (fuel : nat) (class_id : list Z) (oid : Z)
    (role : string) (device_model_metadata : metadata)
  : outcome (option nc_object * metadata) :=
  match fuel with
  | O => Raise RecursionError
  | S fuel' =>
      let '(runtime_constraints, device_model_metadata) :=
        get_property PNone
          (remote_get_property oid RUNTIME_PROPERTY_CONSTRAINTS)
          RUNTIME_PROPERTY_CONSTRAINTS (role +:+ ": ") device_model_metadata in
      if is_block_class class_id then
        let '(member_descriptors, device_model_metadata) :=
          get_property None (remote_members oid) MEMBERS (role +:+ ": ")
            device_model_metadata in
        match member_descriptors with
        | None | Some [] =>
            (* An error has likely occured *)
            Return (None, device_model_metadata)
        | Some ms =>
            built <-
              build_members
                (fun m device_model_metadata =>
                   member_arguments m ;;;
                   nc_object_factory fuel' (m_classId m) (m_oid m) (m_role m)
                     device_model_metadata)
                ms [] device_model_metadata ;;
            let '(children, device_model_metadata) := built in
            Return (Some (NcBlock class_id oid role ms runtime_constraints
                            children),
                    device_model_metadata)
        end
      else if is_class_manager_class class_id then
        let '(class_descriptors, device_model_metadata) :=
          get_class_manager_descriptors oid CONTROL_CLASSES (role +:+ ": ")
            device_model_metadata in
        let '(datatype_descriptors, device_model_metadata) :=
          get_class_manager_descriptors oid DATATYPES (role +:+ ": ")
            device_model_metadata in
        match class_descriptors, datatype_descriptors with
        | Some (c :: cs), Some (d :: ds) =>
            Return (Some (NcClassManager class_id oid role (c :: cs) (d :: ds)
                            runtime_constraints),
                    device_model_metadata)
        | _, _ =>
            (* An error has likely occured *)
            Return (None, device_model_metadata)
        end
      else
        Return (Some (NcObject class_id oid role runtime_constraints),
                device_model_metadata)
  end.

(** Catalogs that the suite holds: [self.datatype_schemas] (generated from
    the datatype descriptors of the Node), [self.reference_class_descriptors]
    and [self.reference_datatype_schemas] (loaded from the specification). *)
Context (datatype_schemas reference_class_descriptors
           reference_datatype_schemas : pydict).

(** [isinstance(value, t)] for the types of [primitive_to_python_type];
    [bool] is a subclass of [int]. *)
Definition isinstance (value : pyval) (t : pytype) : bool :=
  match t, value with
  | T_int, PInt _ | T_int, PBool _ => true
  | T_float, PFloat _ => true
  | T_str, PStr _ => true
  | T_bool, PBool _ => true
  | _, _ => false
  end.

(** [def validate_property_type(self, test, value, data_type, is_nullable,
        context="")] *)
Definition validate_property_type (value data_type is_nullable : pyval)
    (context : string) : outcome unit :=
  match value with
  | PNone =>
      if truthy is_nullable then Return tt
      else Raise (NMOSTestException
                    (Message (context +:+ "Non-nullable property set to null.")))
  | _ =>
      type_name <- hash_key data_type ;;
      match (match type_name with
             | KStr s => primitive_to_python_type s
             | _ => None
             end) with
      | Some t =>
          if (match t with T_float => isinstance value T_int | _ => false end)
          then Return tt
          else if negb (isinstance value t) then
            Raise (NMOSTestException
                     (Message (context +:+ py_str value +:+ " is not of type "
                               +:+ py_str data_type)))
          else Return tt
      | None =>
          _validate_schema value
            (default PNone (dict_get datatype_schemas type_name)) context
      end
  end.

(** [property_metadata["name"]] as an operand of [context + ... + ": "], in
    the texts that the sequence checks add to their messages. *)
Definition property_name (property_metadata : pyval) : outcome string :=
  name <- getitem_str property_metadata "name" ;;
  as_str name.

(** The loop [for property_value in sequence_values] of
    [check_get_sequence_item], inside its [try] and with its handler:
    [self.get_sequence_item_metadata] as the loop leaves it, and how the
    loop ends. *)
Fixpoint get_sequence_items (oid : Z) (property_metadata : pyval)
    (context : string) (sequence_values : list pyval) (sequence_index : nat)
    (get_sequence_item_metadata : metadata) : metadata * outcome unit :=
  match sequence_values with
  | [] => (get_sequence_item_metadata, Return tt)
  | property_value :: rest =>
      match getitem_str property_metadata "id" with
      | Raise e => (get_sequence_item_metadata, Raise e)
      | Return id =>
          match remote_get_sequence_item oid id sequence_index with
          | Failure detail =>
              (* except NMOSTestException as e *)
              let get_sequence_item_metadata :=
                set_error get_sequence_item_metadata in
              match property_name property_metadata with
              | Return name =>
                  (add_error_msg get_sequence_item_metadata
                     (context +:+ name +:+ ": " +:+ detail +:+ ", "),
                   Return tt)
              | Raise e => (get_sequence_item_metadata, Raise e)
              end
          | Value value =>
              if py_neb property_value value then
                let get_sequence_item_metadata :=
                  set_error get_sequence_item_metadata in
                (* the text of the [+=] ends with
                   [" at index " + sequence_index + ", "], a string plus an
                   integer: the addition raises and nothing is stored *)
                (get_sequence_item_metadata,
                 property_name property_metadata ;;; Raise TypeError)
              else
                get_sequence_items oid property_metadata context rest
                  (S sequence_index) get_sequence_item_metadata
          end
      end
  end.

(** [sequence_values is None and not property_metadata["isNullable"]] *)
Definition null_not_nullable (sequence_values property_metadata : pyval)
  : outcome bool :=
  match sequence_values with
  | PNone =>
      nullable <- getitem_str property_metadata "isNullable" ;;
      Return (negb (truthy nullable))
  | _ => Return false
  end.

(** [def check_get_sequence_item(self, test, oid, sequence_values,
        property_metadata, context="")]: [self.get_sequence_item_metadata]
    as the call leaves it, and how the call ends. *)
Definition check_get_sequence_item (oid : Z)
    (sequence_values property_metadata : pyval) (context : string)
    (get_sequence_item_metadata : metadata) : metadata * outcome unit :=
  match null_not_nullable sequence_values property_metadata with
  | Raise e => (get_sequence_item_metadata, Raise e)
  | Return true =>
      let get_sequence_item_metadata := set_error get_sequence_item_metadata in
      match property_name property_metadata with
      | Return name =>
          (add_error_msg get_sequence_item_metadata
             (context +:+ name +:+ ": Non-nullable property set to null, "),
           Return tt)
      | Raise e => (get_sequence_item_metadata, Raise e)
      end
  | Return false =>
      let get_sequence_item_metadata :=
        set_checked get_sequence_item_metadata in
      match py_iter sequence_values with
      | Return items =>
          get_sequence_items oid property_metadata context items 0%nat
            get_sequence_item_metadata
      | Raise e => (get_sequence_item_metadata, Raise e)
      end
  end.

(** [def check_get_sequence_length(self, test, oid, sequence_values,
        property_metadata, context="")]: [self.get_sequence_length_metadata]
    as the call leaves it, and how the call ends. *)
Definition check_get_sequence_length (oid : Z)
    (sequence_values property_metadata : pyval) (context : string)
    (get_sequence_length_metadata : metadata) : metadata * outcome unit :=
  match null_not_nullable sequence_values property_metadata with
  | Raise e => (get_sequence_length_metadata, Raise e)
  | Return true =>
      let get_sequence_length_metadata :=
        set_error get_sequence_length_metadata in
      match property_name property_metadata with
      | Return name =>
          (add_error_msg get_sequence_length_metadata
             (context +:+ name +:+ ": Non-nullable property set to null, "),
           Return tt)
      | Raise e => (get_sequence_length_metadata, Raise e)
      end
  | Return false =>
      let get_sequence_length_metadata :=
        set_checked get_sequence_length_metadata in
      match getitem_str property_metadata "id" with
      | Raise e => (get_sequence_length_metadata, Raise e)
      | Return id =>
          match remote_get_sequence_length oid id with
          | Value length =>
              match py_len sequence_values with
              | Raise e => (get_sequence_length_metadata, Raise e)
              | Return n =>
                  if py_eqb length (PInt (Z.of_nat n)) then
                    (get_sequence_length_metadata, Return tt)
                  else
                    match property_name property_metadata with
                    | Return name =>
                        (set_error
                           (add_error_msg get_sequence_length_metadata
                              (context +:+ name
                               +:+ ": GetSequenceLength error. Expected: "
                               +:+ py_str (PInt (Z.of_nat n)) +:+ ", Actual: "
                               +:+ py_str length +:+ ", ")),
                         Return tt)
                    | Raise e => (get_sequence_length_metadata, Raise e)
                    end
              end
          | Failure detail =>
              match property_name property_metadata with
              | Return name =>
                  (set_error
                     (add_error_msg get_sequence_length_metadata
                        (context +:+ name +:+ ": " +:+ detail +:+ ", ")),
                   Return tt)
              | Raise e => (get_sequence_length_metadata, Raise e)
              end
          end
      end
  end.

(** The three metadata dictionaries that [check_object_properties]
    updates. *)
Record property_metadata_state : Type := {
  pm_device_model : metadata;
  pm_get_sequence_item : metadata;
  pm_get_sequence_length : metadata
}.

(** [def check_sequence_methods(self, test, oid, sequence_values,
        property_metadata, context="")] *)
Definition check_sequence_methods (oid : Z)
    (sequence_values property_metadata : pyval) (context : string)
    (st : property_metadata_state) : outcome property_metadata_state :=
  let '(item, ended) :=
    check_get_sequence_item oid sequence_values property_metadata context
      (pm_get_sequence_item st) in
  ended ;;;
  let '(len, ended) :=
    check_get_sequence_length oid sequence_values property_metadata context
      (pm_get_sequence_length st) in
  ended ;;;
  Return {| pm_device_model := pm_device_model st;
            pm_get_sequence_item := item;
            pm_get_sequence_length := len |}.

(** The body of the loop [for class_property in
    reference_class_descriptor['properties']] of
    [check_object_properties]. *)
Definition check_object_property (oid : Z) (context : string)
    (class_property : pyval) (st : property_metadata_state)
  : outcome property_metadata_state :=
  id <- Constraints.dot_get class_property "id" ;;
  let '(object_property, device_model_metadata) :=
    get_property PNone (remote_get_property oid id) id context
      (pm_device_model st) in
  let st := {| pm_device_model := device_model_metadata;
               pm_get_sequence_item := pm_get_sequence_item st;
               pm_get_sequence_length := pm_get_sequence_length st |} in
  if negb (truthy object_property) then
    (* continue *)
    Return st
  else
    isSequence <- getitem_str class_property "isSequence" ;;
    if truthy isSequence then
      values <- py_iter object_property ;;
      for_each values (fun property_value =>
        typeName <- getitem_str class_property "typeName" ;;
        isNullable <- getitem_str class_property "isNullable" ;;
        typeName_s <- as_str typeName ;;
        name <- getitem_str class_property "name" ;;
        name <- as_str name ;;
        validate_property_type property_value typeName isNullable
          (context +:+ typeName_s +:+ ": " +:+ name +:+ ": ")) ;;;
      check_sequence_methods oid object_property class_property context st
    else
      typeName <- getitem_str class_property "typeName" ;;
      isNullable <- getitem_str class_property "isNullable" ;;
      typeName_s <- as_str typeName ;;
      name <- getitem_str class_property "name" ;;
      name <- as_str name ;;
      validate_property_type object_property typeName isNullable
        (context +:+ typeName_s +:+ name +:+ ": ") ;;;
      Return st.

(** [def check_object_properties(self, test, reference_class_descriptor, oid,
        context)] *)
Definition check_object_properties (reference_class_descriptor : pyval)
    (oid : Z) (context : string) (st : property_metadata_state)
  : outcome property_metadata_state :=
  properties <- getitem_str reference_class_descriptor "properties" ;;
  properties <- py_iter properties ;;
  for_each_st properties (check_object_property oid context) st.


(** The flags and metadata dictionaries of the suite that the walk of the
    device model updates ([set_up_tests]). *)
Record suite : Type := {
  unique_roles_error : bool;
  unique_oids_error : bool;
  managers_are_singletons_error : bool;
  managers_members_root_block_error : bool;
  device_model_metadata : metadata;
  organization_metadata : metadata;
  touchpoints_metadata : metadata;
  get_sequence_item_metadata : metadata;
  get_sequence_length_metadata : metadata;
  oid_cache : list Z
}.

(** The state after [set_up_tests]. *)
Definition set_up_tests : suite :=
  {| unique_roles_error := false;
     unique_oids_error := false;
     managers_are_singletons_error := false;
     managers_members_root_block_error := false;
     device_model_metadata := metadata_init;
     organization_metadata := metadata_init;
     touchpoints_metadata := metadata_init;
     get_sequence_item_metadata := metadata_init;
     get_sequence_length_metadata := metadata_init;
     oid_cache := [] |}.

(** [def check_unique_roles(self, role, role_cache)]: the flag
    [self.unique_roles_error] and [role_cache] after the call. *)
Definition check_unique_roles (role : string) (role_cache : list string)
    (unique_roles_error : bool) : bool * list string :=
  if bool_decide (role ∈ role_cache) then (true, role_cache)
  else (unique_roles_error, role_cache ++ [role]).

(** [def check_unique_oid(self, oid)]: the flag [self.unique_oids_error] and
    [self.oid_cache] after the call. *)
Definition check_unique_oid (oid : Z) (oid_cache : list Z)
    (unique_oids_error : bool) : bool * list Z :=
  if bool_decide (oid ∈ oid_cache) then (true, oid_cache)
  else (unique_oids_error, oid_cache ++ [oid]).

(** The two manager flags of the suite and the [manager_cache] list that
    [check_manager] updates. *)
Record manager_state : Type := {
  ms_singletons_error : bool;
  ms_root_block_error : bool;
  ms_cache : list pyval
}.

(** [def check_manager(self, class_id, owner, class_descriptors,
        manager_cache)] *)
Definition check_manager (class_id : list Z) (owner : Z)
    (class_descriptors : pydict) (st : manager_state) : outcome manager_state :=
  (* detemine the standard base class name *)
  let base_id := get_base_class_id class_id in
  base_class <- getitem class_descriptors (KStr base_id) ;;
  base_class_name <- getitem_str base_class "name" ;;
  (* manager checks *)
  if is_manager class_id then
    let root_block_error :=
      if negb (owner =? ROOT_BLOCK_OID) then true
      else ms_root_block_error st in
    if py_in base_class_name (ms_cache st) then
      Return {| ms_singletons_error := true;
                ms_root_block_error := root_block_error;
                ms_cache := ms_cache st |}
    else
      Return {| ms_singletons_error := ms_singletons_error st;
                ms_root_block_error := root_block_error;
                ms_cache := ms_cache st ++ [base_class_name] |}
  else Return st.

(** [def check_touchpoints(self, test, oid, context)]: the result is
    [self.device_model_metadata] and [self.touchpoints_metadata] after the
    call. *)
Definition check_touchpoints (oid : Z) (context : string)
    (device_model_metadata touchpoints_metadata : metadata)
  : outcome (metadata * metadata) :=
  let '(touchpoints, device_model_metadata) :=
    get_property PNone (remote_get_property oid TOUCHPOINTS) TOUCHPOINTS
      context device_model_metadata in
  match touchpoints with
  | PNone => Return (device_model_metadata, touchpoints_metadata)
  | _ =>
      let touchpoints_metadata := set_checked touchpoints_metadata in
      match (items <- py_iter touchpoints ;;
             for_each items (fun touchpoint =>
               contextNamespace <- getitem_str touchpoint "contextNamespace" ;;
               let schema :=
                 if py_eqb contextNamespace (PStr "x-nmos")
                 then get datatype_schemas "NcTouchpointNmos"
                 else get datatype_schemas "NcTouchpointNmosChannelMapping" in
               title <- getitem_str schema "title" ;;
               title <- as_str title ;;
               _validate_schema touchpoint schema
                 (context +:+ title +:+ ": "))) with
      | Return _ => Return (device_model_metadata, touchpoints_metadata)
      | Raise (NMOSTestException e) =>
          Return (device_model_metadata,
                  set_error_msg (set_error touchpoints_metadata)
                    (context +:+ detail_str e))
      | Raise e => Raise e
      end
  end.

(** [".".join(map(str, class_id))] *)
Definition class_identifier_of (class_id : list Z) : string :=
  String.concat "." (pretty <$> class_id).

(** [str(descriptor['classId'])] *)
Definition str_class_id (class_id : list Z) : string :=
  py_str (PList (PInt <$> class_id)).

(** The state of the loop [for descriptor in block.member_descriptors] of
    [check_block]: the suite and the two caches of the block. *)
Record block_state : Type := {
  bs_suite : suite;
  bs_role_cache : list string;
  bs_manager_cache : list pyval
}.

(** The body of the loop [for descriptor in block.member_descriptors] of
    [check_block]. *)
Definition check_member (class_descriptors : pydict) (context : string)
    (descriptor : member_descriptor) (st : block_state) : outcome block_state :=
  let s := bs_suite st in
  _validate_schema (m_json descriptor)
    (get datatype_schemas "NcBlockMemberDescriptor")
    "NcBlockMemberDescriptor: " ;;;
  (* descriptor['role'], descriptor['oid'], descriptor['classId'],
     descriptor["owner"] *)
  member_field descriptor "role" ;;;
  member_field descriptor "oid" ;;;
  member_field descriptor "classId" ;;;
  member_field descriptor "owner" ;;;
  let '(roles_error, role_cache) :=
    check_unique_roles (m_role descriptor) (bs_role_cache st)
      (unique_roles_error s) in
  let '(oids_error, oids) :=
    check_unique_oid (m_oid descriptor) (oid_cache s) (unique_oids_error s) in
  (* check for non-standard classes *)
  let organization :=
    if is_non_standard_class (m_classId descriptor)
    then set_checked (organization_metadata s)
    else organization_metadata s in
  managers <-
    check_manager (m_classId descriptor) (m_owner descriptor) class_descriptors
      {| ms_singletons_error := managers_are_singletons_error s;
         ms_root_block_error := managers_members_root_block_error s;
         ms_cache := bs_manager_cache st |} ;;
  touch <-
    check_touchpoints (m_oid descriptor)
      (context +:+ m_role descriptor +:+ ": ")
      (device_model_metadata s) (touchpoints_metadata s) ;;
  let '(device_model, touchpoints) := touch in
  let class_identifier := class_identifier_of (m_classId descriptor) in
  properties <-
    (match (if negb (String.eqb class_identifier "")
            then dict_get class_descriptors (KStr class_identifier)
            else None) with
     | Some class_descriptor =>
         check_object_properties class_descriptor (m_oid descriptor)
           (context +:+ m_role descriptor +:+ ": ")
           {| pm_device_model := device_model;
              pm_get_sequence_item := get_sequence_item_metadata s;
              pm_get_sequence_length := get_sequence_length_metadata s |}
     | None =>
         Return
           {| pm_device_model :=
                add_error_msg (set_error device_model)
                  (m_role descriptor +:+ ": "
                   +:+ "Class not advertised by Class Manager: "
                   +:+ str_class_id (m_classId descriptor) +:+ ". ");
              pm_get_sequence_item := get_sequence_item_metadata s;
              pm_get_sequence_length := get_sequence_length_metadata s |}
     end) ;;
  let organization :=
    if negb (bool_decide
               (is_Some (dict_get reference_class_descriptors
                           (KStr class_identifier))))
       && negb (is_non_standard_class (m_classId descriptor))
    then
      (* Not a standard or non-standard class *)
      set_error_msg (set_error organization)
        (m_role descriptor +:+ ": "
         +:+ "Non-standard class id does not contain authority key: "
         +:+ str_class_id (m_classId descriptor) +:+ ". ")
    else organization in
  Return
    {| bs_suite :=
         {| unique_roles_error := roles_error;
            unique_oids_error := oids_error;
            managers_are_singletons_error := ms_singletons_error managers;
            managers_members_root_block_error := ms_root_block_error managers;
            device_model_metadata := pm_device_model properties;
            organization_metadata := organization;
            touchpoints_metadata := touchpoints;
            get_sequence_item_metadata := pm_get_sequence_item properties;
            get_sequence_length_metadata := pm_get_sequence_length properties;
            oid_cache := oids |};
       bs_role_cache := role_cache;
       bs_manager_cache := ms_cache managers |}.

(** [def check_block(self, test, block, class_descriptors, context="")]: the
    child blocks first, then the member descriptors of the block with fresh
    [role_cache] and [manager_cache]. *)
Fixpoint check_block (block : nc_object) (class_descriptors : pydict)
    (context : string) (s : suite) : outcome suite :=
  match block with
  | NcBlock _ _ _ member_descriptors _ child_objects =>
      s <- (fix children (l : list nc_object) (s : suite) : outcome suite :=
              match l with
              | [] => Return s
              | child_object :: l' =>
                  s <- match child_object with
                       | NcBlock _ _ role _ _ _ =>
                           (* If this child object is a Block, recurse *)
                           check_block child_object class_descriptors
                             (context +:+ role +:+ ": ") s
                       | _ => Return s
                       end ;;
                  children l' s
              end) child_objects s ;;
      st <- for_each_st member_descriptors
              (check_member class_descriptors context)
              {| bs_suite := s; bs_role_cache := []; bs_manager_cache := [] |} ;;
      Return (bs_suite st)
  | _ => Raise AttributeError
  end.

End DeviceModel.
End DeviceModel.

(** ** Search parity: [do_find_member_by_path_test] *)

Module Query.
Import DeviceModel.
Section Query.
Context `{SchemaValidator} `{Rendering} `{IS12Utils} `{Device}.
Context (reference_datatype_schemas : pydict).

(** [str(role_path)] *)
Definition str_role_path (role_path : list string) : string :=
  py_str (PList (PStr <$> role_path)).

(** [[m['oid'] for m in queried_members]] *)
Fixpoint member_oids (queried_members : list pyval) : outcome (list pyval) :=
  match queried_members with
  | [] => Return []
  | m :: ms =>
      oid <- getitem_str m "oid" ;;
      oids <- member_oids ms ;;
      Return (oid :: oids)
  end.

(** The body of the loop [for role_path in role_paths] of
    [do_find_member_by_path_test]. *)
Definition check_role_path (block : nc_object) (context : string)
    (role_path : list string) : outcome unit :=
  (* Get ground truth data from local device model object tree *)
  let expected_member := find_members_by_path block role_path in
  match remote_find_members_by_path (nc_oid block) role_path with
  | Failure detail => Raise (NMOSTestException (Message detail))
  | Value queried_members =>
      match queried_members with
      | PList members =>
          for_each members (fun queried_member =>
            schema <- getitem reference_datatype_schemas
                        (KStr "NcBlockMemberDescriptor") ;;
            _validate_schema queried_member schema
              (context +:+ nc_role block +:+ ": NcBlockMemberDescriptor: ")) ;;;
          if negb (length members =? 1)%nat then
            Raise (NMOSTestException
                     (Message (context +:+ nc_role block
                               +:+ ": Incorrect member found by role path: "
                               +:+ str_role_path role_path)))
          else
            queried_member_oids <- member_oids members ;;
            match expected_member with
            | None => Raise AttributeError
            | Some expected =>
                if negb (py_in (PInt (nc_oid expected)) queried_member_oids)
                then
                  Raise (NMOSTestException
                           (Message
                              (context +:+ nc_role block
                               +:+ ": Unsuccessful attempt to find member by role path: "
                               +:+ str_role_path role_path)))
                else Return tt
            end
      | _ =>
          Raise (NMOSTestException
                   (Message
                      (context +:+ nc_role block
                       +:+ ": Did not return an array of results for query: "
                       +:+ str_role_path role_path)))
      end
  end.

(** [def do_find_member_by_path_test(self, test, block, context="")] *)
Fixpoint do_find_member_by_path_test (block : nc_object) (context : string)
  : outcome unit :=
  match block with
  | NcBlock _ _ role _ _ child_objects =>
      (* Recurse through the child blocks *)
      (fix children (l : list nc_object) : outcome unit :=
         match l with
         | [] => Return tt
         | child_object :: l' =>
             match child_object with
             | NcBlock _ _ _ _ _ _ =>
                 do_find_member_by_path_test child_object
                   (context +:+ role +:+ ": ")
             | _ => Return tt
             end ;;;
             children l'
         end) child_objects ;;;
      (* Get ground truth role paths *)
      let role_paths := get_role_paths block in
      for_each role_paths (check_role_path block context)
  | _ => Raise AttributeError
  end.

End Query.
End Query.

(** ** Notifications: [test_32] *)

Module Notifications.
Import DeviceModel.

(** The enumeration [NcPropertyChangeType] of IS12Utils and the part of the
    Node that [test_32] talks to.  [change_type_name v] is
    [NcPropertyChangeType(v).name], absent when [v] is the value of no member
    of the enumeration.  [logged_notifications oid restore] is what
    [get_notifications()] returns after the write to [oid] of the new label
    ([restore = false]) or of the old label ([restore = true]): the
    notifications as received, JSON values. *)
Class Subscriptions := {
  ValueChanged : Z;
  change_type_name : pyval -> option string;
  NCOBJECT : list Z;
  find_members_by_class_id : nc_object -> list Z -> bool -> bool -> list nc_object;
  update_subscritions : list Z -> response unit;
  set_property : Z -> pyval -> pyval -> response unit;
  logged_notifications : Z -> bool -> list pyval
}.

Inductive test_result : Type :=
| PASS
| FAIL (message : string).

Section Notifications.
Context `{Rendering} `{IS12Utils} `{Device} `{Subscriptions}.

(** [dict.fromkeys(l, 0)]: the keys in the order of their first
    occurrence. *)
Fixpoint fromkeys (l : list Z) (d : list (Z * nat)) : list (Z * nat) :=
  match l with
  | [] => d
  | k :: l' =>
      fromkeys l' (if bool_decide (k ∈ d.*1) then d else d ++ [(k, 0%nat)])
  end.

(** [d[k] += 1] *)
Fixpoint increment (d : list (Z * nat)) (k : Z) : list (Z * nat) :=
  match d with
  | [] => []
  | (k', v) :: d' =>
      if bool_decide (k' = k) then (k', S v) :: d' else (k', v) :: increment d' k
  end.

(** The local variables [error], [error_message] and [oids] of [test_32]. *)
Record probe_state : Type := {
  error_flag : bool;
  error_message : string;
  oids : list (Z * nat)
}.

Definition report (st : probe_state) (text : string) : probe_state :=
  {| error_flag := true;
     error_message := error_message st +:+ text;
     oids := oids st |}.

(** The body of the loop [for notification in
    self.is12_utils.get_notifications()]. *)
Definition check_notification (oid : Z) (label : pyval) (context : string)
    (notification : pyval) (st : probe_state) : outcome probe_state :=
  notification_oid <- getitem_str notification "oid" ;;
  if py_eqb notification_oid (PInt oid) then
    eventId <- getitem_str notification "eventId" ;;
    let st :=
      if py_neb eventId PROPERTY_CHANGED then
        report st (context +:+ "Unexpected event type: "
                   +:+ py_str eventId +:+ ", ")
      else st in
    eventData <- getitem_str notification "eventData" ;;
    propertyId <- getitem_str eventData "propertyId" ;;
    if py_neb propertyId USER_LABEL then
      (* continue *)
      Return st
    else
      changeType <- getitem_str eventData "changeType" ;;
      st <-
        (if py_neb changeType (PInt ValueChanged) then
           (* NcPropertyChangeType(...).name *)
           match change_type_name changeType with
           | Some name =>
               Return (report st (context +:+ "Unexpected change type: "
                                  +:+ name +:+ ", "))
           | None => Raise ValueError
           end
         else Return st) ;;
      value <- getitem_str eventData "value" ;;
      let st :=
        if py_neb value label then
          report st (context +:+ "Unexpected value: " +:+ py_str value +:+ ", ")
        else st in
      sequenceItemIndex <- getitem_str eventData "sequenceItemIndex" ;;
      let st :=
        match sequenceItemIndex with
        | PNone => st
        | index =>
            report st (context +:+ "Unexpected sequence item index: "
                       +:+ py_str index +:+ ", ")
        end in
      Return {| error_flag := error_flag st;
                error_message := error_message st;
                oids := increment (oids st) oid |}
  else Return st.

(** The body of the loop [for label in [new_user_label, old_user_label]];
    [restore] tells the second round. *)
Definition probe_label (oid : Z) (context : string) (label : pyval)
    (restore : bool) (st : probe_state) : outcome probe_state :=
  match set_property oid USER_LABEL label with
  | Failure detail => Raise (NMOSTestException (Message detail))
  | Value _ =>
      for_each_st (logged_notifications oid restore)
        (check_notification oid label context) st
  end.

(** The body of the loop [for oid in oids.keys()]. *)
Definition probe_oid (oid : Z) (st : probe_state) : outcome probe_state :=
  let new_user_label := PStr ("NMOS Testing Tool " +:+ pretty oid) in
  match remote_get_property oid USER_LABEL with
  | Failure detail => Raise (NMOSTestException (Message detail))
  | Value old_user_label =>
      let context := "oid: " +:+ pretty oid +:+ ", " in
      st <- probe_label oid context new_user_label false st ;;
      probe_label oid context old_user_label true st
  end.

(** [sorted([i for i, v in oids.items() if v != 2])] *)
Definition unnotified (oids : list (Z * nat)) : list Z :=
  merge_sort Z.le (filter (fun kv => kv.2 <> 2%nat) oids).*1.

(** The end of [test_32], from [if not all(v == 2 for v in oids.values())]. *)
Definition verdict (st : probe_state) : test_result :=
  let st :=
    if negb (forallb (fun kv => (kv.2 =? 2)%nat) (oids st)) then
      report st ("Notifications not received for Oids "
                 +:+ py_str (PList (PInt <$> unnotified (oids st))))
    else if negb (existsb (fun kv => (kv.2 =? 2)%nat) (oids st)) then
      report st "No notifications received"
    else st in
  if error_flag st then FAIL (error_message st) else PASS.

(** [def test_32(self, test)], after [query_device_model] has returned
    [device_model]. *)
Definition test_32 (device_model : nc_object) : outcome test_result :=
  (* Get all oids for objects in this Device Model *)
  let device_model_objects :=
    find_members_by_class_id device_model NCOBJECT true true in
  let oids := fromkeys (ROOT_BLOCK_OID :: (nc_oid <$> device_model_objects)) [] in
  match update_subscritions oids.*1 with
  | Failure detail => Raise (NMOSTestException (Message detail))
  | Value _ =>
      st <- for_each_st oids.*1 probe_oid
              {| error_flag := false; error_message := ""; oids := oids |} ;;
      Return (verdict st)
  end.

End Notifications.
End Notifications.
(** ** Results of tests

    [Test] and the results that [test.PASS()], [test.FAIL(detail)],
    [test.UNCLEAR(detail)] and [test.WARNING(detail)] make are declared in
    TestResult, outside the sources: a result is the test with a state and
    the detail given; the link that some results carry is left out. *)

Module Results.

Record Test : Type := {
  description : string;
  name : string
}.

Inductive state : Type :=
| PASS
| WARNING (detail : fail_detail)
| FAIL (detail : fail_detail)
| UNCLEAR (detail : fail_detail).

End Results.

(** ** Validation of the model definitions: [validate_model_definitions] *)

Module ModelDefinitions.
Import Results.

(** The order of [sorted] on strings: Python compares strings by code
    points, which is the order of the bytes of their UTF-8 text. *)
Definition str_le (a b : string) : Prop := String.leb a b = true.

#[global] Instance str_le_dec a b : Decision (str_le a b).
Proof. unfold str_le. apply _. Defined.

Section ModelDefinitions.
Context `{SchemaValidator} `{SetOrder}.
Context (reference_datatype_schemas : pydict).

(** A catalog of reference descriptors as [load_model_descriptors] builds
    it: the keys are the names of the files of the descriptors. *)
Abbreviation reference_catalog := (list (string * pyval)).

(** [sorted(reference_descriptors.keys())] *)
Definition sorted_keys (reference_descriptors : reference_catalog)
  : list string :=
  merge_sort str_le reference_descriptors.*1.

(** [Test("Validate " + str(key) + " definition", "auto_" + str(key))] *)
Definition definition_test (key : string) : Test :=
  {| description := "Validate " +:+ key +:+ " definition";
     name := "auto_" +:+ key |}.

(** The body of the loop [for key in reference_descriptor_keys], with its
    [try]: the result that it appends to [results]. *)
Definition validate_definition (descriptors : pydict) (schema_name : string)
    (reference_descriptors : reference_catalog) (key : string)
  : outcome (Test * state) :=
  let test := definition_test key in
  match (if truthy (get descriptors key) then
           descriptor <- getitem descriptors (KStr key) ;;
           (* Validate the JSON schema is correct *)
           schema <- getitem reference_datatype_schemas (KStr schema_name) ;;
           _validate_schema descriptor schema "" ;;;
           (* Validate the descriptor is correct *)
           reference <-
             match list_find (fun kv => kv.1 = key) reference_descriptors with
             | Some (_, (_, reference)) => Return reference
             | None => Raise KeyError
             end ;;
           Descriptor.validate_descriptor reference descriptor "" ;;;
           Return (test, PASS)
         else Return (test, UNCLEAR (Message "Not Implemented"))) with
  | Raise (NMOSTestException detail) =>
      (* except NMOSTestException as e: results.append(e.args[0]) *)
      Return (test, FAIL detail)
  | result => result
  end.

(** The loop [for key in reference_descriptor_keys]. *)
Fixpoint validate_definitions (descriptors : pydict) (schema_name : string)
    (reference_descriptors : reference_catalog) (keys : list string)
    (results : list (Test * state)) : outcome (list (Test * state)) :=
  match keys with
  | [] => Return results
  | key :: keys' =>
      result <- validate_definition descriptors schema_name
                  reference_descriptors key ;;
      validate_definitions descriptors schema_name reference_descriptors
        keys' (results ++ [result])
  end.

(** [def validate_model_definitions(self, descriptors, schema_name,
        reference_descriptors)] *)
Definition validate_model_definitions (descriptors : pydict)
    (schema_name : string) (reference_descriptors : reference_catalog)
  : outcome (list (Test * state)) :=
  validate_definitions descriptors schema_name reference_descriptors
    (sorted_keys reference_descriptors) [].

(** [def auto_tests(self)], after [get_manager] has returned
    [class_manager]. *)
Definition auto_tests (class_manager : DeviceModel.nc_object)
    (reference_class_descriptors reference_datatype_descriptors
       : reference_catalog)
  : outcome (list (Test * state)) :=
  match class_manager with
  | DeviceModel.NcClassManager _ _ _ class_descriptors datatype_descriptors _ =>
      classes <- validate_model_definitions class_descriptors
                   "NcClassDescriptor" reference_class_descriptors ;;
      datatypes <- validate_model_definitions datatype_descriptors
                     "NcDatatypeDescriptor" reference_datatype_descriptors ;;
      Return (classes ++ datatypes)
  | _ => Raise AttributeError
  end.

End ModelDefinitions.
End ModelDefinitions.
(** ** The constraint tests: [test_33], [test_34], [test_35] *)

Module ConstraintTests.
Import DeviceModel Constraints Results.

Definition nc_class_id (o : nc_object) : list Z :=
  match o with
  | NcObject class_id _ _ _ | NcBlock class_id _ _ _ _ _
  | NcClassManager class_id _ _ _ _ _ => class_id
  end.

Definition nc_runtime_constraints (o : nc_object) : pyval :=
  match o with
  | NcObject _ _ _ runtime_constraints
  | NcBlock _ _ _ _ runtime_constraints _
  | NcClassManager _ _ _ _ _ runtime_constraints => runtime_constraints
  end.

(** [NcDatatypeType.Struct.value] of IS12Utils. *)
Class NcDatatypeType := {
  Struct : pyval
}.

Section ConstraintTests.
Context `{SchemaValidator} `{NcDatatypeType}.
Context (datatype_schemas : pydict).

(** [self.check_constraint(test, constraint, type_name, ...)] as the tests
    call it, with a constraint and a sequence flag read from a descriptor.
    A constraint that is no object has no [get]; of a flag that is no
    boolean, [isinstance(..., list) is not is_sequence] holds. *)
Definition check_constraint_of (constraint : pyval) (type_name : string)
    (datatype_descriptors : pydict) (datatype_schema is_sequence : pyval)
    (constraint_type : string) (test_metadata : metadata) (context : string)
  : outcome metadata :=
  match constraint with
  | PDict c =>
      match is_sequence with
      | PBool b =>
          check_constraint c type_name datatype_descriptors datatype_schema b
            constraint_type test_metadata context
      | _ =>
          if truthy (get c "defaultValue") then
            Return (set_error_msg (set_error test_metadata)
                      (context +:+ (if truthy is_sequence
                                    then " a default value sequence was expected"
                                    else " unexpected default value sequence.")))
          else
            check_constraint_legality c type_name datatype_descriptors
              constraint_type test_metadata context
      end
  | _ => Raise AttributeError
  end.

(** [context + nc_object.role + ": " + class_property["name"] + ": "
     + class_property.get("typeName")], with the type name *)
Definition message_root (context role : string) (class_property : pyval)
  : outcome (string * string) :=
  name <- getitem_str class_property "name" ;;
  name <- as_str name ;;
  typeName <- dot_get class_property "typeName" ;;
  typeName <- as_str typeName ;;
  Return (context +:+ role +:+ ": " +:+ name +:+ ": " +:+ typeName, typeName).

(** The body of the loop [for class_property in
    class_descriptor["properties"]] of
    [do_validate_runtime_constraints_test]. *)
Definition check_runtime_constraint (context role : string)
    (constraint : pyval) (datatype_descriptors : pydict)
    (class_property : pyval) (test_metadata : metadata) : outcome metadata :=
  id <- getitem_str class_property "id" ;;
  propertyId <- getitem_str constraint "propertyId" ;;
  if py_eqb id propertyId then
    root <- message_root context role class_property ;;
    let '(message_root, typeName) := root in
    isSequence <- getitem_str class_property "isSequence" ;;
    check_constraint_of constraint typeName datatype_descriptors
      (get datatype_schemas typeName) isSequence
      "NcPropertyConstraintsNumber" test_metadata message_root
  else Return test_metadata.

(** The part of [do_validate_runtime_constraints_test] for the object
    itself: [if nc_object.runtime_constraints: ...]. *)
Definition check_runtime_constraints (nc_object : nc_object)
    (class_descriptors datatype_descriptors : pydict) (context : string)
    (test_metadata : metadata) : outcome metadata :=
  if truthy (nc_runtime_constraints nc_object) then
    let test_metadata := set_checked test_metadata in
    constraints <- py_iter (nc_runtime_constraints nc_object) ;;
    for_each_st constraints (fun constraint test_metadata =>
      class_descriptor <-
        getitem class_descriptors
          (KStr (class_identifier_of (nc_class_id nc_object))) ;;
      properties <- getitem_str class_descriptor "properties" ;;
      properties <- py_iter properties ;;
      for_each_st properties
        (check_runtime_constraint context (nc_role nc_object) constraint
           datatype_descriptors) test_metadata) test_metadata
  else Return test_metadata.

(** [def do_validate_runtime_constraints_test(self, test, nc_object,
        class_descriptors, datatype_descriptors, context="")]: the result is
    [self.validate_runtime_constraints_metadata] after the call. *)
Fixpoint do_validate_runtime_constraints_test (nc_object : nc_object)
    (class_descriptors datatype_descriptors : pydict) (context : string)
    (test_metadata : metadata) : outcome metadata :=
  test_metadata <-
    check_runtime_constraints nc_object class_descriptors
      datatype_descriptors context test_metadata ;;
  (* Recurse through the child blocks *)
  match nc_object with
  | NcBlock _ _ role _ _ child_objects =>
      (fix children (l : list DeviceModel.nc_object) (test_metadata : metadata)
         : outcome metadata :=
         match l with
         | [] => Return test_metadata
         | child_object :: l' =>
             test_metadata <-
               do_validate_runtime_constraints_test child_object
                 class_descriptors datatype_descriptors
                 (context +:+ role +:+ ": ") test_metadata ;;
             children l' test_metadata
         end) child_objects test_metadata
  | _ => Return test_metadata
  end.

(** The end of [test_33], [test_34] and [test_35]: the result of the test
    from its metadata. *)
Definition constraints_result (test_metadata : metadata) (nothing : string)
  : state :=
  if error test_metadata then FAIL (Message (error_msg test_metadata))
  else if negb (checked test_metadata) then UNCLEAR (Message nothing)
  else PASS.

(** [def test_33(self, test)], after [query_device_model] and [get_manager]
    have returned [device_model] and [class_manager] and the schemas of the
    datatypes have been generated; [test_metadata] is
    [self.validate_runtime_constraints_metadata]. *)
Definition test_33 (device_model class_manager : nc_object)
    (test_metadata : metadata) : outcome state :=
  match class_manager with
  | NcClassManager _ _ _ class_descriptors datatype_descriptors _ =>
      test_metadata <-
        do_validate_runtime_constraints_test device_model class_descriptors
          datatype_descriptors "" test_metadata ;;
      Return (constraints_result test_metadata "No runtime constraints found.")
  | _ => Raise AttributeError
  end.

(** The body of the loop [for class_property in
    class_descriptor["properties"]] of
    [do_validate_property_constraints_test]. *)
Definition check_property_constraint (context role : string)
    (datatype_descriptors : pydict) (class_property : pyval)
    (test_metadata : metadata) : outcome metadata :=
  constraints <- getitem_str class_property "constraints" ;;
  if truthy constraints then
    let test_metadata := set_checked test_metadata in
    root <- message_root context role class_property ;;
    let '(message_root, typeName) := root in
    isSequence <- getitem_str class_property "isSequence" ;;
    check_constraint_of constraints typeName datatype_descriptors
      (get datatype_schemas typeName) isSequence
      "NcParameterConstraintsNumber" test_metadata message_root
  else Return test_metadata.

(** The part of [do_validate_property_constraints_test] for the object
    itself. *)
Definition check_property_constraints (nc_object : nc_object)
    (class_descriptors datatype_descriptors : pydict) (context : string)
    (test_metadata : metadata) : outcome metadata :=
  class_descriptor <-
    getitem class_descriptors
      (KStr (class_identifier_of (nc_class_id nc_object))) ;;
  properties <- getitem_str class_descriptor "properties" ;;
  properties <- py_iter properties ;;
  for_each_st properties
    (check_property_constraint context (nc_role nc_object)
       datatype_descriptors) test_metadata.

(** [def do_validate_property_constraints_test(self, test, nc_object,
        class_descriptors, datatype_descriptors, context="")]: the result is
    [self.validate_property_constraints_metadata] after the call. *)
Fixpoint do_validate_property_constraints_test (nc_object : nc_object)
    (class_descriptors datatype_descriptors : pydict) (context : string)
    (test_metadata : metadata) : outcome metadata :=
  test_metadata <-
    check_property_constraints nc_object class_descriptors
      datatype_descriptors context test_metadata ;;
  (* Recurse through the child blocks *)
  match nc_object with
  | NcBlock _ _ role _ _ child_objects =>
      (fix children (l : list DeviceModel.nc_object) (test_metadata : metadata)
         : outcome metadata :=
         match l with
         | [] => Return test_metadata
         | child_object :: l' =>
             test_metadata <-
               do_validate_property_constraints_test child_object
                 class_descriptors datatype_descriptors
                 (context +:+ role +:+ ": ") test_metadata ;;
             children l' test_metadata
         end) child_objects test_metadata
  | _ => Return test_metadata
  end.

(** [def test_34(self, test)], after [query_device_model] and [get_manager]
    have returned [device_model] and [class_manager] and the schemas of the
    datatypes have been generated; [test_metadata] is
    [self.validate_property_constraints_metadata]. *)
Definition test_34 (device_model class_manager : nc_object)
    (test_metadata : metadata) : outcome state :=
  match class_manager with
  | NcClassManager _ _ _ class_descriptors datatype_descriptors _ =>
      test_metadata <-
        do_validate_property_constraints_test device_model class_descriptors
          datatype_descriptors "" test_metadata ;;
      Return (constraints_result test_metadata
                "No property constraints found.")
  | _ => Raise AttributeError
  end.

(** [datatype.get("isSequence", False)] *)
Definition get_isSequence (datatype : pydict) : pyval :=
  default (PBool false) (dict_get datatype (KStr "isSequence")).

(** [def do_validate_datatype_constraints_test(self, test, datatype,
        type_name, datatype_descriptors, context="")]: the result is
    [self.validate_datatype_constraints_metadata] after the call.  [fuel]
    bounds the depth of the recursion into the fields. *)
Fixpoint do_validate_datatype_constraints_test_rec (fuel : nat)
    (datatype type_name : pyval) (datatype_descriptors : pydict)
    (context : string) (test_metadata : metadata) : outcome metadata :=
  match fuel with
  | O => Raise RecursionError
  | S fuel' =>
      match datatype with
      | PDict d =>
          test_metadata <-
            (if truthy (get d "constraints") then
               let test_metadata := set_checked test_metadata in
               schema_key <- hash_key type_name ;;
               name <- as_str type_name ;;
               check_constraint_of (get d "constraints") name
                 datatype_descriptors
                 (default PNone (dict_get datatype_schemas schema_key))
                 (get_isSequence d) "NcParameterConstraintsNumber"
                 test_metadata (context +:+ ": " +:+ name)
             else Return test_metadata) ;;
          if py_eqb (get d "type") Struct then
            fields <- py_iter (get d "fields") ;;
            for_each_st fields (fun field test_metadata =>
              typeName <- getitem_str field "typeName" ;;
              name <- as_str type_name ;;
              field_name <- getitem_str field "name" ;;
              field_name <- as_str field_name ;;
              do_validate_datatype_constraints_test_rec fuel' field typeName
                datatype_descriptors
                (context +:+ ": " +:+ name +:+ ": " +:+ field_name)
                test_metadata) test_metadata
          else Return test_metadata
      | _ => Raise AttributeError
      end
  end.

Definition do_validate_datatype_constraints_test (datatype type_name : pyval)
    (datatype_descriptors : pydict) (context : string)
    (test_metadata : metadata) : outcome metadata :=
  do_validate_datatype_constraints_test_rec (Descriptor.depth datatype)
    datatype type_name datatype_descriptors context test_metadata.

(** [def test_35(self, test)], after [get_manager] has returned
    [class_manager] and the schemas of the datatypes have been generated;
    [test_metadata] is [self.validate_datatype_constraints_metadata]. *)
Definition test_35 (class_manager : nc_object) (test_metadata : metadata)
  : outcome state :=
  match class_manager with
  | NcClassManager _ _ _ _ datatype_descriptors _ =>
      test_metadata <-
        for_each_st datatype_descriptors.*2 (fun datatype test_metadata =>
          name <- getitem_str datatype "name" ;;
          do_validate_datatype_constraints_test datatype name
            datatype_descriptors "" test_metadata) test_metadata ;;
      Return (constraints_result test_metadata
                "No datatype constraints found.")
  | _ => Raise AttributeError
  end.

End ConstraintTests.
End ConstraintTests.
(** ** The error tests: [do_error_test], [test_27] *)

Module ErrorTests.
Import Results.

(** A member of the enumeration [NcMethodStatus] of IS12Utils, an
    enumeration of integers: its value and its name. *)
Record status_member : Type := {
  value : Z;
  name : string
}.

(** [NcMethodStatus.OK], [NcMethodStatus.BadOid], [NcMethodStatus(v)] for an
    integer [v] (absent when [v] is the value of no member), and
    [str(member)]. *)
Class NcMethodStatus := {
  OK : status_member;
  BadOid : status_member;
  member_of : Z -> option status_member;
  member_str : status_member -> string
}.

(** What [create_ncp_socket] and [send_command] come to: the command is
    answered, or a failure is raised whose detail is the error message of
    the Node, an object, or a text. *)
Inductive command_outcome : Type :=
| Answered
| Rejected (error_msg : pydict)
| Failed (detail : string).

Section ErrorTests.
Context `{Rendering} `{NcMethodStatus}.

(** [NcMethodStatus(status)] for a value of an error message. *)
Definition status_of (status : pyval) : outcome status_member :=
  match status with
  | PInt n =>
      match member_of n with Some m => Return m | None => Raise ValueError end
  | PBool b =>
      match member_of (Z.b2z b) with
      | Some m => Return m
      | None => Raise ValueError
      end
  | _ => Raise ValueError
  end.

(** ["Expected: " + expected_status.name + " (" + str(expected_status) + ")"
     + ", actual: " + NcMethodStatus(error_msg['status']).name
     + " (" + str(error_msg['status']) + ")"] *)
Definition expected_actual (expected_status : option status_member)
    (status : pyval) : outcome string :=
  match expected_status with
  | None => Raise AttributeError
  | Some expected =>
      actual <- status_of status ;;
      Return ("Expected: " +:+ name expected +:+ " (" +:+ member_str expected
              +:+ ")" +:+ ", actual: " +:+ name actual
              +:+ " (" +:+ py_str status +:+ ")")
  end.

(** [def do_error_test(self, test, command_json, expected_status=None)],
    given what sending the command comes to. *)
Definition do_error_test (sent : command_outcome)
    (expected_status : option status_member) : outcome state :=
  match sent with
  | Answered => Return (FAIL (Message "Error not handled."))
  | Failed detail =>
      (* It must be some other type of error so re-throw *)
      Raise (NMOSTestException (Message detail))
  | Rejected error_msg =>
      let status := get error_msg "status" in
      if negb (truthy status) then
        Return (FAIL (Message ("Command error: " +:+ py_str (PDict error_msg))))
      else if py_eqb status (PInt (value OK)) then
        text <- expected_actual expected_status status ;;
        Return (FAIL (Message ("Error not handled. " +:+ text)))
      else if match expected_status with
              | Some expected =>
                  negb (value expected =? 0)
                  && py_neb status (PInt (value expected))
              | None => false
              end then
        text <- expected_actual expected_status status ;;
        Return (WARNING (Message ("Unexpected status. " +:+ text)))
      else Return PASS
  end.

(** [invalid_oid = max(oids) + 1] of [test_27] *)
Definition invalid_oid (oids : list Z) : outcome Z :=
  match oids with
  | [] => Raise ValueError
  | oid :: oids' => Return (foldl Z.max oid oids' + 1)
  end.

(** [def test_27(self, test)], after [query_device_model] has returned the
    device model: [oids] are its oids ([device_model.get_oids()]) and
    [send oid] is what sending the command that reads the oid of the object
    [oid] comes to. *)
Definition test_27 (oids : list Z) (send : Z -> command_outcome)
  : outcome state :=
  (* Calculate invalid oid from the max oid value in device model *)
  invalid_oid <- invalid_oid oids ;;
  do_error_test (send invalid_oid) (Some BadOid).

End ErrorTests.
End ErrorTests.
(** ** The member descriptors of a block: [do_get_member_descriptors_test] *)

Module MemberDescriptors.
Import DeviceModel.

(** [block.get_member_descriptors(recurse)] of [NcBlock] (IS12Utils), the
    member descriptors that the mirror holds for a block, and
    [is12_utils.get_member_descriptors(test, oid, recurse)], the answer of
    the Node. *)
Class MemberQueries := {
  get_member_descriptors : nc_object -> bool -> list member_descriptor;
  remote_get_member_descriptors : Z -> bool -> response pyval
}.

Section MemberDescriptors.
Context `{SchemaValidator} `{Rendering} `{MemberQueries}.
Context (reference_datatype_schemas : pydict).

(** The body of the loop [for search_condition in search_conditions], for
    [search_condition["recurse"]]. *)
Definition check_member_descriptors (block : nc_object) (context : string)
    (recurse : bool) : outcome unit :=
  let expected_members := get_member_descriptors block recurse in
  match remote_get_member_descriptors (nc_oid block) recurse with
  | Failure detail => Raise (NMOSTestException (Message detail))
  | Value queried_members =>
      match queried_members with
      | PList members =>
          if negb (length members =? length expected_members)%nat then
            Raise (NMOSTestException
                     (Message
                        (context +:+ nc_role block
                         +:+ ": Unexpected number of block members found. Expected: "
                         +:+ pretty (length expected_members) +:+ ", Actual: "
                         +:+ pretty (length members))))
          else
            let expected_members_oids :=
              (fun m => PInt (m_oid m)) <$> expected_members in
            for_each members (fun queried_member =>
              schema <- getitem reference_datatype_schemas
                          (KStr "NcBlockMemberDescriptor") ;;
              _validate_schema queried_member schema
                (context +:+ nc_role block +:+ ": NcBlockMemberDescriptor: ") ;;;
              oid <- getitem_str queried_member "oid" ;;
              if negb (py_in oid expected_members_oids) then
                Raise (NMOSTestException
                         (Message
                            (context +:+ nc_role block
                             +:+ ": Unsuccessful attempt to get member descriptors.")))
              else Return tt)
      | _ =>
          Raise (NMOSTestException
                   (Message (context +:+ nc_role block
                             +:+ ": Did not return an array of results.")))
      end
  end.

(** [def do_get_member_descriptors_test(self, test, block, context="")] *)
Fixpoint do_get_member_descriptors_test (block : nc_object) (context : string)
  : outcome unit :=
  match block with
  | NcBlock _ _ role _ _ child_objects =>
      (* Recurse through the child blocks *)
      (fix children (l : list nc_object) : outcome unit :=
         match l with
         | [] => Return tt
         | child_object :: l' =>
             match child_object with
             | NcBlock _ _ _ _ _ _ =>
                 do_get_member_descriptors_test child_object
                   (context +:+ role +:+ ": ")
             | _ => Return tt
             end ;;;
             children l'
         end) child_objects ;;;
      for_each [true; false] (check_member_descriptors block context)
  | _ => Raise AttributeError
  end.

End MemberDescriptors.
End MemberDescriptors.
(** ** The tests of the device model: [query_device_model], [get_manager],
    [check_device_model], [test_05] to [test_11], [test_17], [test_18] *)

Module DeviceModelTests.
Import DeviceModel Results.

(** What these routines reach outside the sources for: two class ids of
    [StandardClassIds], the opening of the WebSocket, the search of the
    mirror for the members of a class and of the classes derived from it
    ([find_members_by_class_id(class_id, include_derived=True)] of
    [NcBlock]), and the schemas that [generate_json_schemas] makes of
    datatype descriptors through [descriptor_to_schema] and files. *)
Class Harness := {
  NCBLOCK : list Z;
  NCCLASSMANAGER : list Z;
  open_ncp_websocket : response unit;
  find_members_by_class_id_derived : nc_object -> list Z -> list nc_object;
  generate_json_schemas : pydict -> pydict
}.

(** The suite between two tests: the flags and metadata of [set_up_tests],
    and [self.device_model] and [self.datatype_schemas], which [__init__]
    sets to [None]. *)
Record session : Type := {
  s_suite : suite;
  s_device_model : option nc_object;
  s_datatype_schemas : option pydict
}.

Definition with_suite (st : session) (s : suite) : session :=
  {| s_suite := s;
     s_device_model := s_device_model st;
     s_datatype_schemas := s_datatype_schemas st |}.

Definition with_device_model_metadata (s : suite) (md : metadata) : suite :=
  {| unique_roles_error := unique_roles_error s;
     unique_oids_error := unique_oids_error s;
     managers_are_singletons_error := managers_are_singletons_error s;
     managers_members_root_block_error := managers_members_root_block_error s;
     device_model_metadata := md;
     organization_metadata := organization_metadata s;
     touchpoints_metadata := touchpoints_metadata s;
     get_sequence_item_metadata := get_sequence_item_metadata s;
     get_sequence_length_metadata := get_sequence_length_metadata s;
     oid_cache := oid_cache s |}.

Section DeviceModelTests.
Context `{SchemaValidator} `{Rendering} `{IS12Utils} `{Device} `{Harness}.
Context (reference_class_descriptors : pydict).

(** [def create_ncp_socket(self, test)] *)
Definition create_ncp_socket : outcome unit :=
  match open_ncp_websocket with
  | Value _ => Return tt
  | Failure detail => Raise (NMOSTestException (Message detail))
  end.

(** [def query_device_model(self, test)]: the device model and the suite
    after the call.  [fuel] bounds the depth of the recursion of
    [nc_object_factory].  An object of the mirror is true in a
    condition. *)
Definition query_device_model (fuel : nat) (st : session)
  : outcome (nc_object * session) :=
  create_ncp_socket ;;;
  match s_device_model st with
  | Some device_model => Return (device_model, st)
  | None =>
      built <- nc_object_factory fuel NCBLOCK ROOT_BLOCK_OID "root"
                 (device_model_metadata (s_suite st)) ;;
      let '(device_model, device_model_metadata) := built in
      match device_model with
      | Some device_model =>
          Return (device_model,
                  {| s_suite := with_device_model_metadata (s_suite st)
                                  device_model_metadata;
                     s_device_model := Some device_model;
                     s_datatype_schemas := s_datatype_schemas st |})
      | None =>
          Raise (NMOSTestException
                   (Message ("Unable to query Device Model: "
                             +:+ error_msg device_model_metadata)))
      end
  end.

(** [def get_manager(self, test, class_id)] *)
Definition get_manager (fuel : nat) (class_id : list Z) (st : session)
  : outcome (nc_object * session) :=
  create_ncp_socket ;;;
  queried <- query_device_model fuel st ;;
  let '(device_model, st) := queried in
  match find_members_by_class_id_derived device_model class_id with
  | [] =>
      Raise (NMOSTestException (Message "Manager not found in Root Block."))
  | [member] => Return (member, st)
  | _ => Raise (NMOSTestException (Message "Manager MUST be a singleton."))
  end.

(** [class_manager.class_descriptors], [class_manager.datatype_descriptors] *)
Definition class_descriptors_of (class_manager : nc_object) : outcome pydict :=
  match class_manager with
  | NcClassManager _ _ _ class_descriptors _ _ => Return class_descriptors
  | _ => Raise AttributeError
  end.

Definition datatype_descriptors_of (class_manager : nc_object)
  : outcome pydict :=
  match class_manager with
  | NcClassManager _ _ _ _ datatype_descriptors _ => Return datatype_descriptors
  | _ => Raise AttributeError
  end.

(** [if self.datatype_schemas] *)
Definition has_schemas (st : session) : bool :=
  match s_datatype_schemas st with
  | Some (_ :: _) => true
  | _ => false
  end.

(** [def generate_device_model_datatype_schemas(self, test)] *)
Definition generate_device_model_datatype_schemas (fuel : nat) (st : session)
  : outcome session :=
  if has_schemas st then Return st
  else
    got <- get_manager fuel NCCLASSMANAGER st ;;
    let '(class_manager, st) := got in
    datatype_descriptors <- datatype_descriptors_of class_manager ;;
    (* Create JSON schemas for the queried datatypes *)
    Return {| s_suite := s_suite st;
              s_device_model := s_device_model st;
              s_datatype_schemas :=
                Some (generate_json_schemas datatype_descriptors) |}.

(** [def check_device_model(self, test)] *)
Definition check_device_model (fuel : nat) (st : session) : outcome session :=
  if negb (checked (device_model_metadata (s_suite st))) then
    let st :=
      with_suite st
        (with_device_model_metadata (s_suite st)
           (set_checked (device_model_metadata (s_suite st)))) in
    create_ncp_socket ;;;
    got <- get_manager fuel NCCLASSMANAGER st ;;
    let '(class_manager, st) := got in
    queried <- query_device_model fuel st ;;
    let '(device_model, st) := queried in
    st <- generate_device_model_datatype_schemas fuel st ;;
    class_descriptors <- class_descriptors_of class_manager ;;
    match s_datatype_schemas st with
    | Some datatype_schemas =>
        s <- check_block datatype_schemas reference_class_descriptors
               device_model class_descriptors "" (s_suite st) ;;
        Return (with_suite st s)
    | None => Raise AttributeError
    end
  else Return st.

(** [def test_05(self, test)] *)
Definition test_05 (fuel : nat) (st : session) : outcome state :=
  st <- check_device_model fuel st ;;
  if error (device_model_metadata (s_suite st))
  then Return (FAIL (Message (error_msg (device_model_metadata (s_suite st)))))
  else Return PASS.

(** The shape of [test_06] to [test_11], [test_17] and [test_18]: the walk
    of the device model inside a [try], then the result from the suite. *)
Definition after_check (fuel : nat) (st : session) (result : suite -> state)
  : outcome state :=
  match check_device_model fuel st with
  | Return st => Return (result (s_suite st))
  | Raise (NMOSTestException detail) =>
      (* Couldn't validate model so can't perform test *)
      Return (UNCLEAR detail)
  | Raise e => Raise e
  end.

(** [def test_06(self, test)] *)
Definition test_06 (fuel : nat) (st : session) : outcome state :=
  after_check fuel st (fun s =>
    if unique_roles_error s then FAIL (Message "Roles must be unique. ")
    else PASS).

(** [def test_07(self, test)] *)
Definition test_07 (fuel : nat) (st : session) : outcome state :=
  after_check fuel st (fun s =>
    if unique_oids_error s then FAIL (Message "Oids must be unique. ")
    else PASS).

(** The end of [test_08], [test_09], [test_17] and [test_18]: the result
    from a metadata dictionary. *)
Definition metadata_result (md : metadata) (nothing : string) : state :=
  if error md then FAIL (Message (error_msg md))
  else if negb (checked md) then UNCLEAR (Message nothing)
  else PASS.

(** [def test_08(self, test)] *)
Definition test_08 (fuel : nat) (st : session) : outcome state :=
  after_check fuel st (fun s =>
    metadata_result (organization_metadata s) "No non-standard classes found.").

(** [def test_09(self, test)] *)
Definition test_09 (fuel : nat) (st : session) : outcome state :=
  after_check fuel st (fun s =>
    metadata_result (touchpoints_metadata s) "No Touchpoints found.").

(** [def test_10(self, test)] *)
Definition test_10 (fuel : nat) (st : session) : outcome state :=
  after_check fuel st (fun s =>
    if managers_members_root_block_error s
    then FAIL (Message "Managers must be members of Root Block. ")
    else PASS).

(** [def test_11(self, test)] *)
Definition test_11 (fuel : nat) (st : session) : outcome state :=
  after_check fuel st (fun s =>
    if managers_are_singletons_error s
    then FAIL (Message "Managers must be singleton classes. ")
    else PASS).

(** [def test_17(self, test)] *)
Definition test_17 (fuel : nat) (st : session) : outcome state :=
  after_check fuel st (fun s =>
    metadata_result (get_sequence_item_metadata s)
      "GetSequenceItem not tested.").

(** [def test_18(self, test)] *)
Definition test_18 (fuel : nat) (st : session) : outcome state :=
  after_check fuel st (fun s =>
    metadata_result (get_sequence_length_metadata s)
      "GetSequenceItem not tested.").

End DeviceModelTests.
End DeviceModelTests.


(** * Statements

    Predicates and example data that the statements below use. *)

Module ConstraintsSpec.
Import Constraints.
Section ConstraintsSpec.
Context `{SchemaValidator}.

(** The names that [check_constraint] reads in a constraint. *)
Definition constraint_fields : list string :=
  ["defaultValue"; "minimum"; "maximum"; "step"; "maxCharacters"; "pattern"].

(** The default value of the constraint, when there is one of the expected
    sequence-ness, passes [_validate_schema]. *)
Definition default_value_accepted (c : pydict) (schema : pyval)
    (is_seq : bool) (ctx : string) : Prop :=
  truthy (get c "defaultValue") = true ->
  xorb (is_list (get c "defaultValue")) is_seq = false ->
  if is_seq then
    forall values, get c "defaultValue" = PList values ->
      Forall (fun v => _validate_schema v schema (ctx +:+ ": defaultValue ")
                       = Return tt) values
  else _validate_schema (get c "defaultValue") schema
         (ctx +:+ ": defaultValue ") = Return tt.

End ConstraintsSpec.

(** A validator that accepts every payload, for the examples. *)
Definition accept_all : SchemaValidator :=
  {| validate_schema := fun _ _ => SchemaValid |}.

(** A catalog of datatype descriptors: [NcOid] derives from [NcUint32]. *)
Definition example_datatypes : pydict :=
  [(KStr "NcOid",
    PDict [(KStr "name", PStr "NcOid"); (KStr "type", PInt 1);
           (KStr "parentType", PStr "NcUint32")]);
   (KStr "NcUint32",
    PDict [(KStr "name", PStr "NcUint32"); (KStr "type", PInt 0);
           (KStr "parentType", PNone)]);
   (KStr "NcString",
    PDict [(KStr "name", PStr "NcString"); (KStr "type", PInt 0);
           (KStr "parentType", PNone)])].

(** A range constraint of zero bounds on a property of type [NcString]. *)
Definition zero_bounds : pydict :=
  [(KStr "propertyId", PDict [(KStr "level", PInt 3); (KStr "index", PInt 1)]);
   (KStr "defaultValue", PNone);
   (KStr "maximum", PInt 0);
   (KStr "minimum", PInt 0);
   (KStr "step", PInt 0)].

(** A range constraint and a string constraint with truthy fields. *)
Definition range_1_10 : pydict :=
  [(KStr "propertyId", PDict [(KStr "level", PInt 3); (KStr "index", PInt 1)]);
   (KStr "defaultValue", PNone);
   (KStr "maximum", PInt 10);
   (KStr "minimum", PInt 1);
   (KStr "step", PInt 1)].

Definition pattern_hex : pydict :=
  [(KStr "propertyId", PDict [(KStr "level", PInt 3); (KStr "index", PInt 1)]);
   (KStr "defaultValue", PNone);
   (KStr "maxCharacters", PNone);
   (KStr "pattern", PStr "^[0-9a-f]+$")].

End ConstraintsSpec.

Module DescriptorSpec.
Import Descriptor.
Section DescriptorSpec.
Context `{SetOrder}.

(** The comparison that the loop [for key in reference_keys] of
    [validate_descriptor] makes for one key. *)
Definition compare_key (r d : pydict) (context : string) (key : pykey)
  : outcome unit :=
  reference_key <- getitem r key ;;
  if bool_decide (key = KStr "description") && negb (is_dict reference_key)
  then Return tt
  else if bool_decide (key = KStr "classId") && is_list reference_key then
    descriptor_key <- getitem d key ;;
    if py_neb reference_key descriptor_key then
      Raise (NMOSTestException
               (UnexpectedClassId context reference_key descriptor_key))
    else Return tt
  else
    descriptor_key <- getitem d key ;;
    context' <- extend_context context key ;;
    validate_descriptor reference_key descriptor_key context'.

(** The key under which the dict comprehension files an item. *)
Definition item_key (item : pyval) : outcome pykey :=
  name <- item_name item ;; hash_key name.

(** Every item has a name that can be a key. *)
Definition all_named (items : list pyval) : Prop :=
  Forall (fun item => exists k, item_key item = Return k) items.

(** The keys of the items, for items that have one. *)
Definition item_keys (items : list pyval) : list pykey :=
  omap (fun item => match item_key item with
                    | Return k => Some k
                    | Raise _ => None
                    end) items.

(** The item that the dict comprehension leaves under a key: the last one
    of that key. *)
Fixpoint find_item (items : list pyval) (k : pykey) : option pyval :=
  match items with
  | [] => None
  | item :: items' =>
      match find_item items' k with
      | Some x => Some x
      | None =>
          match item_key item with
          | Return k' => if decide (k' = k) then Some item else None
          | Raise _ => None
          end
      end
  end.

(** Descriptors as the model definitions have them: objects with distinct
    string keys, and lists of objects that carry a string [name]. *)
Inductive well_formed : pyval -> Prop :=
| wf_none : well_formed PNone
| wf_bool b : well_formed (PBool b)
| wf_int n : well_formed (PInt n)
| wf_str s : well_formed (PStr s)
| wf_list l :
    Forall well_formed l ->
    (first_is_dict l = true ->
     Forall (fun item => exists s, item_key item = Return (KStr s)) l) ->
    well_formed (PList l)
| wf_dict d :
    NoDup (keys d) ->
    Forall (fun kv => (exists s, kv.1 = KStr s) /\ well_formed kv.2) d ->
    well_formed (PDict d)
| wf_float f : well_formed (PFloat f).

End DescriptorSpec.

(** The order of [elements], as an instance for the examples. *)
Definition elements_order : SetOrder :=
  {| set_iter := fun l => elements (list_to_set (C := gset pykey) l);
     set_iter_NoDup := fun l =>
       NoDup_elements (list_to_set (C := gset pykey) l);
     set_iter_elem := fun l k =>
       iff_trans (elem_of_elements (list_to_set (C := gset pykey) l) k)
         (elem_of_list_to_set k l) |}.

Definition reference_members : pydict :=
  [(KStr "name", PStr "NcBlock"); (KStr "fixedRole", PNone);
   (KStr "description", PStr "Block class descriptor")].

Definition live_members_short : pydict :=
  [(KStr "name", PStr "NcBlock"); (KStr "description", PStr "A block")].

Definition live_members_reworded : pydict :=
  [(KStr "description", PStr "A block"); (KStr "fixedRole", PNone);
   (KStr "name", PStr "NcBlock")].

Definition named_item (name : string) (x : Z) : pyval :=
  PDict [(KStr "name", PStr name); (KStr "x", PInt x)].

End DescriptorSpec.

Module DeviceModelSpec.
Import DeviceModel.

Section DeviceModelSpec.
Context `{SchemaValidator} `{Rendering} `{IS12Utils} `{Device}.

(** The builds of the members of a block one after the other, each from the
    metadata that the one before left: [results] holds, for every member in
    order, the object built or [None]. *)
Inductive builds
    (build : member_descriptor -> metadata -> outcome (option nc_object * metadata))
  : list member_descriptor -> metadata -> list (option nc_object) -> metadata
    -> Prop :=
| builds_nil dm : builds build [] dm [] dm
| builds_cons m ms dm r dm1 rs dm' :
    build m dm = Return (r, dm1) ->
    builds build ms dm1 rs dm' ->
    builds build (m :: ms) dm (r :: rs) dm'.

(** An answer without data: a failure, [null] or the empty list. *)
Definition no_data {A} (answer : response (option (list A))) : Prop :=
  match answer with
  | Value (Some (_ :: _)) => False
  | _ => True
  end.

(** An answer that is no failure and has no data: [null] or the empty
    list. *)
Definition empty_answer {A} (answer : response (option (list A))) : Prop :=
  answer = Value None \/ answer = Value (Some []).

(** The step of the loop of [nc_object_factory] for the member [m]: the
    arguments are evaluated, then the member is built. *)
Definition member_build (fuel : nat) (m : member_descriptor)
    (device_model_metadata : metadata)
  : outcome (option nc_object * metadata) :=
  member_arguments m ;;;
  nc_object_factory fuel (m_classId m) (m_oid m) (m_role m)
    device_model_metadata.

(** The member descriptor is an object that carries its class id, its oid
    and its role, as the values that the descriptor gives. *)
Definition member_complete (m : member_descriptor) : Prop :=
  member_field m "classId" = Return (PList (PInt <$> m_classId m))
  /\ member_field m "oid" = Return (PInt (m_oid m))
  /\ member_field m "role" = Return (PStr (m_role m)).

(** Every member descriptor that the Node answers is complete. *)
Definition complete_answers : Prop :=
  forall oid ms m,
    remote_members oid = Value (Some ms) -> m ∈ ms -> member_complete m.

(** The Node answered a read that the build of the member needs with an
    empty value, without failing. *)
Definition read_empty (m : member_descriptor) : Prop :=
  if is_block_class (m_classId m) then empty_answer (remote_members (m_oid m))
  else
    is_class_manager_class (m_classId m) = true
    /\ (empty_answer (remote_model_descriptors (m_oid m) CONTROL_CLASSES)
        \/ empty_answer (remote_model_descriptors (m_oid m) DATATYPES)).

(** A read that the build of the member needs failed. *)
Definition read_failed (m : member_descriptor) : Prop :=
  if is_block_class (m_classId m) then
    exists detail, remote_members (m_oid m) = Failure detail
  else
    is_class_manager_class (m_classId m) = true
    /\ exists detail,
         remote_model_descriptors (m_oid m) CONTROL_CLASSES = Failure detail
         \/ remote_model_descriptors (m_oid m) DATATYPES = Failure detail.

(** None of the reads that the build of the member makes for the member
    itself fails: that of its runtime constraints, that of its members for a
    block, those of the two catalogs for a class manager. *)
Definition reads_succeed (m : member_descriptor) : Prop :=
  (exists v, remote_get_property (m_oid m) RUNTIME_PROPERTY_CONSTRAINTS
             = Value v)
  /\ if is_block_class (m_classId m) then
       exists v, remote_members (m_oid m) = Value v
     else
       is_class_manager_class (m_classId m) = true ->
       (exists v, remote_model_descriptors (m_oid m) CONTROL_CLASSES = Value v)
       /\ (exists v, remote_model_descriptors (m_oid m) DATATYPES = Value v).

(** The state after a failed read of a property: the failure is on record
    in the device model metadata. *)
Definition failed_read (context : string) (id : pyval) (detail : string)
    (st : property_metadata_state) : property_metadata_state :=
  {| pm_device_model :=
       add_error_msg (set_error (pm_device_model st))
         (context +:+ "Error getting property: " +:+ py_str id +:+ ": "
          +:+ detail +:+ "; ");
     pm_get_sequence_item := pm_get_sequence_item st;
     pm_get_sequence_length := pm_get_sequence_length st |}.

(** A class descriptor that has the properties [properties] and nothing
    else. *)
Definition class_of_properties (properties : list pyval) : pyval :=
  PDict [(KStr "properties", PList properties)].

(** The values that are false in a condition: [None], [False], the integer
    0, a float that is zero, the empty string, the empty list and the
    empty object. *)
Definition falsy_value (v : pyval) : Prop :=
  v = PNone \/ v = PBool false \/ v = PInt 0
  \/ (exists e, v = PFloat (Finite 0 e))
  \/ v = PStr "" \/ v = PList [] \/ v = PDict [].

(** The blocks of the Node nest to a finite depth: [rank] decreases from a
    block to its members. *)
Definition finite_depth (rank : Z -> nat) : Prop :=
  forall oid ms m,
    remote_members oid = Value (Some ms) -> m ∈ ms ->
    (rank (m_oid m) < rank oid)%nat.

End DeviceModelSpec.

(** *** An example Node *)

Definition example_str_scalar (v : pyval) : string :=
  match v with
  | PStr s => s
  | PInt n => pretty n
  | PNone => "None"
  | PBool true => "True"
  | PBool false => "False"
  | _ => "<value>"
  end.

Definition example_rendering : Rendering :=
  {| py_str := fun v =>
       match v with
       | PList l => "[" +:+ String.concat ", " (example_str_scalar <$> l) +:+ "]"
       | _ => example_str_scalar v
       end;
     str_keys := fun _ => "<keys>" |}.

Definition property_id (level index : Z) : pyval :=
  PDict [(KStr "level", PInt level); (KStr "index", PInt index)].

(** The role paths of the members of a block, and the member at a role
    path, over the child objects of a block. *)
Fixpoint example_role_paths (o : nc_object) : list (list string) :=
  match o with
  | NcBlock _ _ _ _ _ child_objects =>
      (fix go (l : list nc_object) : list (list string) :=
         match l with
         | [] => []
         | child :: l' =>
             ([nc_role child]
              :: ((fun path => nc_role child :: path) <$> example_role_paths child))
             ++ go l'
         end) child_objects
  | _ => []
  end.

Fixpoint example_find_by_path (o : nc_object) (role_path : list string)
  : option nc_object :=
  match o, role_path with
  | NcBlock _ _ _ _ _ child_objects, query_role :: rest =>
      (fix go (l : list nc_object) : option nc_object :=
         match l with
         | [] => None
         | child :: l' =>
             if String.eqb (nc_role child) query_role then
               match rest, child with
               | _ :: _, NcBlock _ _ _ _ _ _ => example_find_by_path child rest
               | _, _ => Some child
               end
             else go l'
         end) child_objects
  | _, _ => None
  end.

Fixpoint positive_prefix (class_id : list Z) : list Z :=
  match class_id with
  | v :: rest => if 0 <? v then v :: positive_prefix rest else []
  | [] => []
  end.

Definition example_utils : IS12Utils :=
  {| ROOT_BLOCK_OID := 1;
     get_base_class_id := fun class_id =>
       String.concat "." (pretty <$> positive_prefix class_id);
     is_manager := fun class_id =>
       match class_id with
       | a :: b :: _ => (a =? 1) && (b =? 3)
       | _ => false
       end;
     is_non_standard_class := fun class_id =>
       existsb (fun v => v <? 1) class_id;
     primitive_to_python_type := fun name =>
       if String.eqb name "NcString" then Some T_str
       else if String.eqb name "NcBoolean" then Some T_bool
       else if String.eqb name "NcUint32" then Some T_int
       else if String.eqb name "NcFloat64" then Some T_float
       else None;
     RUNTIME_PROPERTY_CONSTRAINTS := property_id 1 8;
     MEMBERS := property_id 2 2;
     CONTROL_CLASSES := property_id 3 1;
     DATATYPES := property_id 3 2;
     TOUCHPOINTS := property_id 1 7;
     USER_LABEL := property_id 1 6;
     PROPERTY_CHANGED := PDict [(KStr "level", PInt 1); (KStr "index", PInt 1)];
     get_role_paths := example_role_paths;
     find_members_by_path := example_find_by_path |}.

Definition member (class_id : list Z) (oid : Z) (role : string) (owner : Z)
  : member_descriptor :=
  {| m_classId := class_id; m_oid := oid; m_role := role; m_owner := owner;
     m_json := PDict [(KStr "role", PStr role); (KStr "oid", PInt oid);
                      (KStr "classId", PList (PInt <$> class_id));
                      (KStr "owner", PInt owner)] |}.

Definition class_manager_member : member_descriptor :=
  member [1; 3; 2] 2 "ClassManager" 1.
Definition channels_member : member_descriptor :=
  member [1; 1] 3 "channels" 1.
Definition nested_manager_member : member_descriptor :=
  member [1; 3; 2] 4 "ClassManager2" 3.
Definition spare_member : member_descriptor :=
  member [1; 1] 5 "spare" 1.

Definition class_descriptor (class_id : list Z) (name : string) : model_descriptor :=
  {| d_classId := class_id; d_name := name;
     d_json := PDict [(KStr "classId", PList (PInt <$> class_id));
                      (KStr "name", PStr name);
                      (KStr "properties", PList [])] |}.

Definition datatype_descriptor (name : string) : model_descriptor :=
  {| d_classId := []; d_name := name;
     d_json := PDict [(KStr "name", PStr name); (KStr "type", PInt 0);
                      (KStr "parentType", PNone)] |}.

(** A Node whose root block (oid 1) holds the class manager (oid 2), the
    block "channels" (oid 3) and the block "spare" (oid 5); "channels" holds
    a second class manager (oid 4); "spare" has no members.  Every read
    succeeds. *)
Definition example_device : Device :=
  {| remote_get_property := fun oid id => Value PNone;
     remote_members := fun oid =>
       if oid =? 1
       then Value (Some [class_manager_member; channels_member; spare_member])
       else if oid =? 3 then Value (Some [nested_manager_member])
       else if oid =? 5 then Value (Some [])
       else Value None;
     remote_model_descriptors := fun oid id =>
       if py_eqb id (property_id 3 1) then
         Value (Some [class_descriptor [1; 1] "NcBlock";
                      class_descriptor [1; 3] "NcManager";
                      class_descriptor [1; 3; 2] "NcClassManager"])
       else Value (Some [datatype_descriptor "NcString"]);
     remote_get_sequence_item := fun oid id index => Value PNone;
     remote_get_sequence_length := fun oid id => Value PNone;
     remote_find_members_by_path := fun oid role_path => Value PNone |}.

(** The descriptor of a sequence that is not nullable. *)
Definition members_property : pydict :=
  [(KStr "id", property_id 2 2); (KStr "name", PStr "members");
   (KStr "typeName", PStr "NcBlockMemberDescriptor");
   (KStr "isNullable", PBool false); (KStr "isSequence", PBool true)].

(** A Node that answers every read of a property with [0.0], and the
    descriptor of a property of a number that is not nullable. *)
Definition zero_device : Device :=
  {| remote_get_property := fun oid id => Value (PFloat (Finite 0 0));
     remote_members := fun oid => Value None;
     remote_model_descriptors := fun oid id => Value None;
     remote_get_sequence_item := fun oid id index => Value PNone;
     remote_get_sequence_length := fun oid id => Value PNone;
     remote_find_members_by_path := fun oid role_path => Value PNone |}.

Definition gain_property : pydict :=
  [(KStr "id", property_id 3 1); (KStr "name", PStr "gain");
   (KStr "typeName", PStr "NcFloat64"); (KStr "isNullable", PBool false);
   (KStr "isSequence", PBool false)].

Definition property_metadata_init : property_metadata_state :=
  {| pm_device_model := metadata_init;
     pm_get_sequence_item := metadata_init;
     pm_get_sequence_length := metadata_init |}.

(** The schemas and the reference class descriptors that the walk of the
    example Node uses. *)
Definition example_schemas : pydict :=
  [(KStr "NcBlockMemberDescriptor",
    PDict [(KStr "title", PStr "NcBlockMemberDescriptor");
           (KStr "type", PStr "object")])].

Definition example_reference_classes : pydict :=
  [(KStr "1.1", d_json (class_descriptor [1; 1] "NcBlock"));
   (KStr "1.3", d_json (class_descriptor [1; 3] "NcManager"));
   (KStr "1.3.2", d_json (class_descriptor [1; 3; 2] "NcClassManager"))].

(** The mirror of the example Node: the root block with the class manager
    and the block "channels", which holds the second class manager. *)
Definition example_class_descriptors : pydict :=
  descriptors_dict [class_descriptor [1; 1] "NcBlock";
                    class_descriptor [1; 3] "NcManager";
                    class_descriptor [1; 3; 2] "NcClassManager"].

Definition example_datatype_descriptors : pydict :=
  descriptors_dict [datatype_descriptor "NcString"].

Definition example_device_model : nc_object :=
  NcBlock [1; 1] 1 "root"
    [class_manager_member; channels_member; spare_member] PNone
    [NcClassManager [1; 3; 2] 2 "ClassManager" example_class_descriptors
       example_datatype_descriptors PNone;
     NcBlock [1; 1] 3 "channels" [nested_manager_member] PNone
       [NcClassManager [1; 3; 2] 4 "ClassManager2" example_class_descriptors
          example_datatype_descriptors PNone]].

Definition example_rank (oid : Z) : nat :=
  if oid =? 1 then 2%nat else if oid =? 3 then 1%nat else 0%nat.

End DeviceModelSpec.

Module QuerySpec.
Import DeviceModel Query.

Section QuerySpec.
Context `{SchemaValidator} `{Rendering} `{IS12Utils} `{Device}.
Context (reference_datatype_schemas : pydict).

(** The blocks of the mirror: a block and the blocks below it. *)
Fixpoint blocks_of (o : nc_object) : list nc_object :=
  match o with
  | NcBlock _ _ _ _ _ child_objects => o :: flat_map blocks_of child_objects
  | _ => []
  end.

(** The schema of a member descriptor is there and accepts the item. *)
Definition member_schema_accepts (queried_member : pyval) : Prop :=
  exists schema,
    dict_get reference_datatype_schemas (KStr "NcBlockMemberDescriptor")
    = Some schema
    /\ truthy schema = true
    /\ validate_schema queried_member schema = SchemaValid.

(** The Node answers the query for a role path with a list of exactly one
    member descriptor, valid against the schema, and the oid of that
    descriptor equals the oid of the member that the mirror finds at that
    path. *)
Definition path_agrees (block : nc_object) (role_path : list string) : Prop :=
  exists expected queried_member oid,
    find_members_by_path block role_path = Some expected
    /\ remote_find_members_by_path (nc_oid block) role_path
       = Value (PList [queried_member])
    /\ member_schema_accepts queried_member
    /\ getitem_str queried_member "oid" = Return oid
    /\ py_eqb (PInt (nc_oid expected)) oid = true.

End QuerySpec.

(** A Node with one object, of role "gain", in its root block, and the
    mirror of it. *)
Definition gain_member : member_descriptor :=
  DeviceModelSpec.member [1; 2; 1] 2 "gain" 1.

Definition gain_device : Device :=
  {| remote_get_property := fun oid id => Value PNone;
     remote_members := fun oid =>
       if oid =? 1 then Value (Some [gain_member]) else Value None;
     remote_model_descriptors := fun oid id => Value None;
     remote_get_sequence_item := fun oid id index => Value PNone;
     remote_get_sequence_length := fun oid id => Value PNone;
     remote_find_members_by_path := fun oid role_path =>
       if (oid =? 1) && bool_decide (role_path = ["gain"])
       then Value (PList [m_json gain_member])
       else Value (PList []) |}.

Definition gain_device_model : nc_object :=
  NcBlock [1; 1] 1 "root" [gain_member] PNone
    [NcObject [1; 2; 1] 2 "gain" PNone].

End QuerySpec.

Module NotificationsSpec.
Import DeviceModel Notifications.

Section NotificationsSpec.
Context `{Rendering} `{IS12Utils} `{Device} `{Subscriptions}.

(** The oids that [test_32] subscribes to and probes: the root block and the
    objects of the device model, each once. *)
Definition monitored (device_model : nc_object) : list Z :=
  (fromkeys
     (ROOT_BLOCK_OID
      :: (nc_oid <$> find_members_by_class_id device_model NCOBJECT true true))
     []).*1.

(** What [v[name]] reads in a notification, [None] when there is nothing
    to read. *)
Definition field (v : pyval) (name : string) : pyval :=
  match v with
  | PDict d => get d name
  | _ => PNone
  end.

Definition event_data (n : pyval) : pyval := field n "eventData".

(** A notification of the probed oid for the user label property. *)
Definition matching (oid : Z) (n : pyval) : bool :=
  py_eqb (field n "oid") (PInt oid)
  && py_eqb (field (event_data n) "propertyId") USER_LABEL.

(** The notifications logged around the two writes to an oid. *)
Definition received (oid : Z) : list pyval :=
  logged_notifications oid false ++ logged_notifications oid true.

Definition matching_count (oid : Z) : nat :=
  length (List.filter (matching oid) (received oid)).

(** The label of each of the two writes to an oid, given its old label. *)
Definition written (old : Z -> pyval) (oid : Z) (restore : bool) : pyval :=
  if restore then old oid else PStr ("NMOS Testing Tool " +:+ pretty oid).

(** A field of the event data is not what the write asks for. *)
Definition deviates (label : pyval) (n : pyval) : bool :=
  py_neb (field (event_data n) "changeType") (PInt ValueChanged)
  || py_neb (field (event_data n) "value") label
  || match field (event_data n) "sequenceItemIndex" with
     | PNone => false
     | _ => true
     end.

(** What [test_32] reports about one notification logged around a write of
    [label] to [oid]. *)
Definition reported (oid : Z) (label : pyval) (n : pyval) : bool :=
  py_eqb (field n "oid") (PInt oid)
  && (py_neb (field n "eventId") PROPERTY_CHANGED
      || (py_eqb (field (event_data n) "propertyId") USER_LABEL
          && deviates label n)).

(** Some notification logged around the writes to an oid is reported. *)
Definition any_reported (old : Z -> pyval) (oid : Z) : bool :=
  existsb (reported oid (written old oid false)) (logged_notifications oid false)
  || existsb (reported oid (written old oid true)) (logged_notifications oid true).

(** The notification carries what [test_32] reads in it when it probes
    [oid]: an oid; for the probed oid an event id and event data with a
    property id; for the user label property a change type, a value and a
    sequence item index; and a change type that is not the value-changed
    type is the value of a member of the enumeration. *)
Definition readable (oid : Z) (n : pyval) : Prop :=
  exists notification_oid,
    getitem_str n "oid" = Return notification_oid
    /\ (py_eqb notification_oid (PInt oid) = true ->
        exists eventId eventData propertyId,
          getitem_str n "eventId" = Return eventId
          /\ getitem_str n "eventData" = Return eventData
          /\ getitem_str eventData "propertyId" = Return propertyId
          /\ (py_eqb propertyId USER_LABEL = true ->
              exists changeType value sequenceItemIndex,
                getitem_str eventData "changeType" = Return changeType
                /\ getitem_str eventData "value" = Return value
                /\ getitem_str eventData "sequenceItemIndex"
                   = Return sequenceItemIndex
                /\ (py_eqb changeType (PInt ValueChanged) = false ->
                    is_Some (change_type_name changeType)))).

(** The dict of the counts as a list of the oids with a count each. *)
Definition counts_of (ms : list Z) (c : Z -> nat) : list (Z * nat) :=
  (fun oid => (oid, c oid)) <$> ms.

(** The state of the probe: counts [c] over the monitored oids [ms], error
    flag [e]. *)
Definition probe_state_is (ms : list Z) (c : Z -> nat) (e : bool)
    (st : probe_state) : Prop :=
  oids st = counts_of ms c /\ error_flag st = e.

(** The writes go through and the notifications can be read: the
    subscription, the read of the old label and the two writes succeed for
    every monitored oid, and every notification logged carries what the
    test reads in it. *)
Definition probes_succeed (device_model : nc_object) (old : Z -> pyval) : Prop :=
  (exists u, update_subscritions (monitored device_model) = Value u)
  /\ (forall oid, oid ∈ monitored device_model ->
        remote_get_property oid USER_LABEL = Value (old oid)
        /\ (forall label, exists u, set_property oid USER_LABEL label = Value u)
        /\ (forall restore n, n ∈ logged_notifications oid restore ->
              readable oid n)).

End NotificationsSpec.

(** The example Node under a well-behaved subscription: every write to an
    oid is followed by one notification of the new value. *)
Definition property_changed (oid : Z) (change_type value : pyval)
    (rest : pydict) : pyval :=
  PDict [(KStr "oid", PInt oid);
         (KStr "eventId", PDict [(KStr "level", PInt 1); (KStr "index", PInt 1)]);
         (KStr "eventData",
          PDict ([(KStr "propertyId", DeviceModelSpec.property_id 1 6);
                  (KStr "changeType", change_type);
                  (KStr "value", value)] ++ rest))].

Definition value_changed (oid : Z) (value : pyval) : pyval :=
  property_changed oid (PInt 0) value [(KStr "sequenceItemIndex", PNone)].

Definition example_change_type_name (v : pyval) : option string :=
  if py_eqb v (PInt 0) then Some "ValueChanged"
  else if py_eqb v (PInt 1) then Some "SequenceItemAdded"
  else if py_eqb v (PInt 2) then Some "SequenceItemChanged"
  else if py_eqb v (PInt 3) then Some "SequenceItemRemoved"
  else None.

Definition new_label (oid : Z) : pyval :=
  PStr ("NMOS Testing Tool " +:+ pretty oid).

(** A Node that sends the notifications [logged oid restore] after the
    writes, on the example device model. *)
Definition subscriptions (logged : Z -> bool -> list pyval) : Subscriptions :=
  {| ValueChanged := 0;
     change_type_name := example_change_type_name;
     NCOBJECT := [1];
     find_members_by_class_id := fun device_model class_id include_derived recurse =>
       match device_model with
       | NcBlock _ _ _ _ _ child_objects => child_objects
       | _ => []
       end;
     update_subscritions := fun oids => Value tt;
     set_property := fun oid id value => Value tt;
     logged_notifications := logged |}.

Definition faithful_subscriptions : Subscriptions :=
  subscriptions (fun oid restore =>
    [value_changed oid (if restore then PNone else new_label oid)]).

(** The same Node when it sends no notification for the object of oid 2. *)
Definition silent_subscriptions : Subscriptions :=
  subscriptions (fun oid restore =>
    if oid =? 2 then []
    else [value_changed oid (if restore then PNone else new_label oid)]).

(** A Node that sends the notification of the new value twice after the
    first write and nothing after the second. *)
Definition doubling_subscriptions : Subscriptions :=
  subscriptions (fun oid restore =>
    if restore then []
    else [value_changed oid (new_label oid); value_changed oid (new_label oid)]).

(** A Node that sends a change type that is no member of the enumeration,
    and a Node whose notifications have no key [sequenceItemIndex]. *)
Definition stray_type_subscriptions : Subscriptions :=
  subscriptions (fun oid restore =>
    [property_changed oid (PInt 7)
       (if restore then PNone else new_label oid)
       [(KStr "sequenceItemIndex", PNone)]]).

Definition no_index_subscriptions : Subscriptions :=
  subscriptions (fun oid restore =>
    [property_changed oid (PInt 0)
       (if restore then PNone else new_label oid) []]).

End NotificationsSpec.
Module DescriptorReportSpec.
Import Descriptor.

(** The text that the recursion appends to the context on its way down
    through the keys [k1], [k2], ...: [k1 + "->" + k2 + "->" + ...]. *)
Fixpoint arrow_path (path : list string) : string :=
  match path with
  | [] => ""
  | key :: path' => key +:+ "->" +:+ arrow_path path'
  end.

(** The comparison that fails at one place, under the context of that
    place: the key sets of two objects differ; the class ids of two objects
    of the same keys differ; a plain list differs from the live value; a
    value that is no list and no object differs from the live value. *)
Inductive fails_at (context : string) : pyval -> pyval -> fail_detail -> Prop :=
| fails_keys r d :
    key_set r <> key_set d ->
    fails_at context (PDict r) (PDict d)
      (KeyMismatch context
         (if bool_decide (key_difference (key_set r) (key_set d) ⊆ key_set r)
          then "Missing keys " else "Additional keys ")
         (key_difference (key_set r) (key_set d)))
| fails_class_id r d reference_key descriptor_key :
    key_set r = key_set d ->
    dict_get r (KStr "classId") = Some reference_key ->
    is_list reference_key = true ->
    dict_get d (KStr "classId") = Some descriptor_key ->
    py_eqb reference_key descriptor_key = false ->
    fails_at context (PDict r) (PDict d)
      (UnexpectedClassId context reference_key descriptor_key)
| fails_sequence l descriptor :
    first_is_dict l = false ->
    py_eqb (PList l) descriptor = false ->
    fails_at context (PList l) descriptor
      (UnexpectedSequence context (PList l) descriptor)
| fails_value reference descriptor :
    is_list reference = false -> is_dict reference = false ->
    py_eqb reference descriptor = false ->
    fails_at context reference descriptor
      (UnexpectedValue context reference descriptor).

(** The way down from a reference and a live value through the keys
    [path] to the values [reference'] and [descriptor'] that are compared
    there: a step goes from two objects of the same keys to the two values
    of a key that is compared by recursion, its name being added to the
    path; a list of objects is first made an object keyed by the names of
    its items, which adds no key. *)
Inductive reaches
  : pyval -> pyval -> list string -> pyval -> pyval -> Prop :=
| reaches_here reference descriptor :
    reaches reference descriptor [] reference descriptor
| reaches_key r d key reference_key descriptor_key path reference' descriptor' :
    key_set r = key_set d ->
    dict_get r (KStr key) = Some reference_key ->
    dict_get d (KStr key) = Some descriptor_key ->
    (key = "description" -> is_dict reference_key = true) ->
    (key = "classId" -> is_list reference_key = false) ->
    reaches reference_key descriptor_key path reference' descriptor' ->
    reaches (PDict r) (PDict d) (key :: path) reference' descriptor'
| reaches_items l descriptor items references descriptors path
    reference' descriptor' :
    first_is_dict l = true ->
    named_dict l = Return references ->
    py_iter descriptor = Return items ->
    named_dict items = Return descriptors ->
    reaches (PDict references) (PDict descriptors) path reference' descriptor' ->
    reaches (PList l) descriptor path reference' descriptor'.

(** A class descriptor as the model definitions have it, and the same
    descriptor as a Node may answer it: reworded, its members in another
    order. *)
Definition reference_worker : pyval :=
  PDict [(KStr "description", PStr "NcWorker class descriptor");
         (KStr "classId", PList [PInt 1; PInt 2]);
         (KStr "name", PStr "NcWorker");
         (KStr "fixedRole", PNone);
         (KStr "properties",
          PList [PDict [(KStr "description", PStr "TRUE iff worker is enabled");
                        (KStr "name", PStr "enabled");
                        (KStr "typeName", PStr "NcBoolean");
                        (KStr "isReadOnly", PBool false)]])].

Definition live_worker (typeName : string) : pydict :=
  [(KStr "name", PStr "NcWorker");
   (KStr "classId", PList [PInt 1; PInt 2]);
   (KStr "fixedRole", PNone);
   (KStr "description", PStr "Worker base class");
   (KStr "properties",
    PList [PDict [(KStr "name", PStr "enabled");
                  (KStr "description", PNone);
                  (KStr "typeName", PStr typeName);
                  (KStr "isReadOnly", PBool false)]])].

End DescriptorReportSpec.
Module WalkSpec.
Import DeviceModel.
Section WalkSpec.
Context `{IS12Utils}.

(** The member descriptors of a block of the mirror. *)
Definition members_of (o : nc_object) : list member_descriptor :=
  match o with
  | NcBlock _ _ _ member_descriptors _ _ => member_descriptors
  | _ => []
  end.

(** The member descriptors in the order in which [check_block] visits them:
    those of the child blocks first, then those of the block. *)
Fixpoint walked_members (o : nc_object) : list member_descriptor :=
  match o with
  | NcBlock _ _ _ member_descriptors _ child_objects =>
      flat_map walked_members child_objects ++ member_descriptors
  | _ => []
  end.

(** [class_descriptors[base_id]["name"]] for the base class of a class id. *)
Definition base_class_name (class_descriptors : pydict) (class_id : list Z)
  : outcome pyval :=
  base_class <- getitem class_descriptors (KStr (get_base_class_id class_id)) ;;
  getitem_str base_class "name".

(** A member of a manager class that another block than the root block
    owns. *)
Definition misplaced_manager (m : member_descriptor) : Prop :=
  is_manager (m_classId m) = true /\ m_owner m <> ROOT_BLOCK_OID.

(** Two of the member descriptors are of manager classes whose base classes
    have the same name. *)
Definition repeated_manager (class_descriptors : pydict)
    (ms : list member_descriptor) : Prop :=
  exists i j m1 m2 n1 n2,
    (i < j)%nat /\ ms !! i = Some m1 /\ ms !! j = Some m2
    /\ is_manager (m_classId m1) = true /\ is_manager (m_classId m2) = true
    /\ base_class_name class_descriptors (m_classId m1) = Return n1
    /\ base_class_name class_descriptors (m_classId m2) = Return n2
    /\ py_eqb n2 n1 = true.

(** What holds of the manager flag and of [manager_cache] after the loop of
    [check_block] has gone through the member descriptors [visited] of a
    block, [flag0] being the flag before the loop: the cache holds names of
    base classes of managers visited, the flag is set when a manager came
    twice, and every manager visited is in the cache unless the flag is
    set. *)
Definition manager_cache_inv (class_descriptors : pydict)
    (visited : list member_descriptor) (flag0 flag : bool)
    (manager_cache : list pyval) : Prop :=
  (forall n, n ∈ manager_cache ->
     exists i m, visited !! i = Some m /\ is_manager (m_classId m) = true
       /\ base_class_name class_descriptors (m_classId m) = Return n)
  /\ (flag = true
      <-> flag0 = true \/ repeated_manager class_descriptors visited)
  /\ (forall i m n,
        visited !! i = Some m -> is_manager (m_classId m) = true ->
        base_class_name class_descriptors (m_classId m) = Return n ->
        flag = true \/ n ∈ manager_cache).

End WalkSpec.

(** What a run of uniqueness checks over the items [l] makes of the error
    flag [e] and the cache [c]: the cache holds every item once, and the
    flag is set when an item came twice. *)
Definition unique_run {A} (e : bool) (c l : list A) (e' : bool) (c' : list A)
  : Prop :=
  NoDup c' /\ (forall x, x ∈ c' <-> x ∈ c \/ x ∈ l)
  /\ (e' = true <-> e = true \/ ~ NoDup (c ++ l)).

(** *** Mirrors for the examples

    A root block with two members of the role "gain", and a root block
    that holds a class manager twice, the second time under the oid of the
    first. *)
Definition twin_roles_model : nc_object :=
  NcBlock [1; 1] 1 "root"
    [DeviceModelSpec.member [1; 1] 2 "gain" 1;
     DeviceModelSpec.member [1; 1] 3 "gain" 1] PNone [].

Definition twin_managers_model : nc_object :=
  NcBlock [1; 1] 1 "root"
    [DeviceModelSpec.member [1; 3; 2] 2 "ClassManager" 1;
     DeviceModelSpec.member [1; 3; 2] 2 "ClassManager2" 1] PNone [].

End WalkSpec.
Module PropertyChecksSpec.
Import DeviceModel.
Section PropertyChecksSpec.
Context `{Device}.

(** The Node answers [GetSequenceItem] for the index [i] of the property
    [id] of [oid] with an item equal to [v]. *)
Definition item_agrees (oid : Z) (id : pyval) (i : nat) (v : pyval) : Prop :=
  exists a, remote_get_sequence_item oid id i = Value a /\ py_eqb v a = true.

End PropertyChecksSpec.

(** A Node that answers [GetSequenceItem] with the items of ["a"; "b"] for
    the indices 0 and 1 and with ["x"] beyond, and fails no read. *)
Definition letters_device : Device :=
  {| remote_get_property := fun oid id => Value PNone;
     remote_members := fun oid => Value None;
     remote_model_descriptors := fun oid id => Value None;
     remote_get_sequence_item := fun oid id index =>
       match index with
       | 0%nat => Value (PStr "a")
       | 1%nat => Value (PStr "b")
       | _ => Value (PStr "x")
       end;
     remote_get_sequence_length := fun oid id => Value (PInt 2);
     remote_find_members_by_path := fun oid role_path => Value PNone |}.

(** The answer of a Class Manager that lists the class of id [1, 2] twice
    and a datatype. *)
Definition repeated_descriptors : list model_descriptor :=
  [DeviceModelSpec.class_descriptor [1; 2] "NcWorker";
   DeviceModelSpec.datatype_descriptor "NcString";
   DeviceModelSpec.class_descriptor [1; 2] "NcWorker2"].

Definition repeating_device : Device :=
  {| remote_get_property := fun oid id => Value PNone;
     remote_members := fun oid => Value None;
     remote_model_descriptors := fun oid id => Value (Some repeated_descriptors);
     remote_get_sequence_item := fun oid id index => Value PNone;
     remote_get_sequence_length := fun oid id => Value PNone;
     remote_find_members_by_path := fun oid role_path => Value PNone |}.

End PropertyChecksSpec.
Module ModelDefinitionsSpec.
Import Results ModelDefinitions.

(** Two reference definitions and the catalog of a Node that advertises
    the first verbatim, the second not at all, and a definition of its
    own. *)
Definition reference_definitions : list (string * pyval) :=
  [("NcWorker", DescriptorReportSpec.reference_worker);
   ("NcBlock", PDict DescriptorSpec.reference_members)].

Definition advertised_definitions : pydict :=
  [(KStr "NcWorker", DescriptorReportSpec.reference_worker);
   (KStr "VendorThing", PDict [(KStr "name", PStr "VendorThing")])].

Definition descriptor_schemas : pydict :=
  [(KStr "NcClassDescriptor", PDict [(KStr "type", PStr "object")])].

End ModelDefinitionsSpec.
Module ConstraintTestsSpec.
Import DeviceModel Constraints Results ConstraintTests.

(** The objects of the mirror: an object and, for a block, the objects
    below it. *)
Fixpoint objects_of (o : nc_object) : list nc_object :=
  o :: match o with
       | NcBlock _ _ _ _ _ child_objects => flat_map objects_of child_objects
       | _ => []
       end.

Definition children_of (o : nc_object) : list nc_object :=
  match o with
  | NcBlock _ _ _ _ _ child_objects => child_objects
  | _ => []
  end.

(** The flags of a metadata dictionary are only ever set: what is checked
    stays checked, and an error stays an error. *)
Definition only_sets (before after : metadata) : Prop :=
  (checked before = true -> checked after = true)
  /\ (error before = true -> error after = true).

(** The constraint names a property id that none of the properties has. *)
Definition names_no_property (properties : list pyval) (constraint : pyval)
  : Prop :=
  exists propertyId,
    getitem_str constraint "propertyId" = Return propertyId
    /\ Forall (fun class_property =>
                 exists id, getitem_str class_property "id" = Return id
                            /\ py_eqb id propertyId = false) properties.

(** The class of the object is advertised, and none of its properties has
    constraints. *)
Definition unconstrained_class (class_descriptors : pydict) (o : nc_object)
  : Prop :=
  exists class_descriptor properties,
    getitem class_descriptors (KStr (class_identifier_of (nc_class_id o)))
    = Return class_descriptor
    /\ getitem_str class_descriptor "properties" = Return (PList properties)
    /\ Forall (fun class_property =>
                 exists constraints,
                   getitem_str class_property "constraints" = Return constraints
                   /\ truthy constraints = false) properties.

(** *** Examples

    A gain object with a runtime constraint for the property 9p9, which its
    class does not have, below a root block; the class manager that
    describes both classes. *)
Definition gain_class : pyval :=
  PDict [(KStr "classId", PList [PInt 1; PInt 2; PInt 1]);
         (KStr "name", PStr "NcGain");
         (KStr "properties",
          PList [PDict [(KStr "id", DeviceModelSpec.property_id 3 1);
                        (KStr "name", PStr "gainValue");
                        (KStr "typeName", PStr "NcUint32");
                        (KStr "isSequence", PBool false);
                        (KStr "constraints", PNone)]])].

Definition stray_constraint : pyval :=
  PDict [(KStr "propertyId", DeviceModelSpec.property_id 9 9);
         (KStr "defaultValue", PNone);
         (KStr "maximum", PInt 10); (KStr "minimum", PInt 1);
         (KStr "step", PInt 1)].

Definition pattern_constraint : pyval :=
  PDict [(KStr "propertyId", DeviceModelSpec.property_id 3 1);
         (KStr "defaultValue", PNone);
         (KStr "maxCharacters", PNone);
         (KStr "pattern", PStr "^[0-9]+$")].

Definition gain_classes : pydict :=
  [(KStr "1.1", d_json (DeviceModelSpec.class_descriptor [1; 1] "NcBlock"));
   (KStr "1.2.1", gain_class)].

Definition gain_datatypes : pydict :=
  [(KStr "NcUint32",
    PDict [(KStr "name", PStr "NcUint32"); (KStr "type", PInt 0);
           (KStr "parentType", PNone)])].

Definition gain_manager : nc_object :=
  NcClassManager [1; 3; 2] 3 "ClassManager" gain_classes gain_datatypes PNone.

Definition constrained_model (constraints : pyval) : nc_object :=
  NcBlock [1; 1] 1 "root" [QuerySpec.gain_member] PNone
    [NcObject [1; 2; 1] 2 "gain" constraints].

Definition struct_is_2 : NcDatatypeType := {| Struct := PInt 2 |}.

End ConstraintTestsSpec.
Module ErrorTestsSpec.
Import Results ErrorTests.

(** Some members of [NcMethodStatus], for the examples. *)
Definition status_ok : status_member := {| value := 200; name := "OK" |}.
Definition status_bad_oid : status_member :=
  {| value := 404; name := "BadOid" |}.
Definition status_read_only : status_member :=
  {| value := 405; name := "Readonly" |}.

Definition example_statuses : NcMethodStatus :=
  {| OK := status_ok;
     BadOid := status_bad_oid;
     member_of := fun v =>
       if v =? 200 then Some status_ok
       else if v =? 404 then Some status_bad_oid
       else if v =? 405 then Some status_read_only
       else None;
     member_str := fun m => pretty (value m) |}.

Definition error_message (status : Z) : pydict :=
  [(KStr "status", PInt status); (KStr "errorMessage", PStr "refused")].

(** A Node with the objects 1, 2, 3 and 5 that refuses reads of other
    oids with the status 404. *)
Definition send_to_known (oid : Z) : command_outcome :=
  if bool_decide (oid ∈ [1; 2; 5; 3]) then Answered
  else Rejected (error_message 404).

End ErrorTestsSpec.
Module MemberDescriptorsSpec.
Import DeviceModel MemberDescriptors.
Section MemberDescriptorsSpec.
Context `{SchemaValidator} `{MemberQueries}.
Context (reference_datatype_schemas : pydict).

(** The Node answers the query for the member descriptors of a block with a
    list of as many items as the mirror holds, each valid against the schema
    of a member descriptor and with the oid of some member descriptor of the
    mirror. *)
Definition members_agree (block : nc_object) (recurse : bool) : Prop :=
  exists members,
    remote_get_member_descriptors (nc_oid block) recurse = Value (PList members)
    /\ length members = length (get_member_descriptors block recurse)
    /\ Forall (fun queried_member =>
                 QuerySpec.member_schema_accepts reference_datatype_schemas
                   queried_member
                 /\ exists oid,
                      getitem_str queried_member "oid" = Return oid
                      /\ py_in oid ((fun m => PInt (m_oid m))
                                      <$> get_member_descriptors block recurse)
                         = true) members.

End MemberDescriptorsSpec.

(** A Node with the members 2 and 3 in its root block that answers the
    query with the descriptor of the member 2 twice. *)
Definition pair_model : nc_object :=
  NcBlock [1; 1] 1 "root"
    [DeviceModelSpec.member [1; 2; 1] 2 "gain" 1;
     DeviceModelSpec.member [1; 2; 1] 3 "level" 1] PNone
    [NcObject [1; 2; 1] 2 "gain" PNone; NcObject [1; 2; 1] 3 "level" PNone].

Definition repeating_queries : MemberQueries :=
  {| get_member_descriptors := fun block recurse =>
       match block with
       | NcBlock _ _ _ member_descriptors _ _ => member_descriptors
       | _ => []
       end;
     remote_get_member_descriptors := fun oid recurse =>
       Value (PList [m_json (DeviceModelSpec.member [1; 2; 1] 2 "gain" 1);
                     m_json (DeviceModelSpec.member [1; 2; 1] 2 "gain" 1)]) |}.

End MemberDescriptorsSpec.
Module DeviceModelTestsSpec.
Import DeviceModel DeviceModelTests.

(** The suite before its first test: the state of [set_up_tests], no device
    model, no schemas. *)
Definition fresh_session : session :=
  {| s_suite := set_up_tests;
     s_device_model := None;
     s_datatype_schemas := None |}.

(** *** An example harness

    The search of the example looks at the child objects of the block
    only. *)
Fixpoint is_prefix (class_id other : list Z) : bool :=
  match class_id, other with
  | [], _ => true
  | a :: class_id', b :: other' => (a =? b) && is_prefix class_id' other'
  | _ :: _, [] => false
  end.

Definition example_class_id (o : nc_object) : list Z :=
  match o with
  | NcObject class_id _ _ _ | NcBlock class_id _ _ _ _ _
  | NcClassManager class_id _ _ _ _ _ => class_id
  end.

Definition example_harness : Harness :=
  {| NCBLOCK := [1; 1];
     NCCLASSMANAGER := [1; 3; 2];
     open_ncp_websocket := Value tt;
     find_members_by_class_id_derived := fun device_model class_id =>
       match device_model with
       | NcBlock _ _ _ _ _ child_objects =>
           List.filter (fun o => is_prefix class_id (example_class_id o))
             child_objects
       | _ => []
       end;
     generate_json_schemas := fun _ => DeviceModelSpec.example_schemas |}.

(** A Node whose root block cannot be read. *)
Definition unreachable_device : Device :=
  {| remote_get_property := fun oid id => Value PNone;
     remote_members := fun oid => Failure "timeout";
     remote_model_descriptors := fun oid id => Value None;
     remote_get_sequence_item := fun oid id index => Value PNone;
     remote_get_sequence_length := fun oid id => Value PNone;
     remote_find_members_by_path := fun oid role_path => Value PNone |}.

End DeviceModelTestsSpec.


(** * Properties *)

(** ** Loops and dictionaries *)

Module PyFacts.

Lemma float_eqb_refl f : float_eqb f f = true.
Proof.
  destruct f as [m e|b]; cbn; [apply Z.eqb_refl | by destruct b].
Qed.

Lemma for_each_all_return {A} (l : list A) (body : A -> outcome unit) :
  Forall (fun x => body x = Return tt) l -> for_each l body = Return tt.
Proof.
  induction 1 as [|x l Hx _ IH]; cbn; [reflexivity|].
  rewrite Hx. cbn. exact IH.
Qed.

Lemma for_each_ext {A} (l : list A) (f g : A -> outcome unit) :
  (forall x, x ∈ l -> f x = g x) -> for_each l f = for_each l g.
Proof.
  induction l as [|x l IH]; intros Hfg; cbn; [reflexivity|].
  rewrite (Hfg x) by left. rewrite IH; [reflexivity|].
  intros y Hy. apply Hfg. by right.
Qed.

Lemma for_each_return {A} (l : list A) (body : A -> outcome unit) :
  for_each l body = Return tt <-> Forall (fun x => body x = Return tt) l.
Proof.
  split; [|apply for_each_all_return].
  induction l as [|x l IH]; cbn; [constructor|].
  destruct (body x) as [[]|e] eqn:Hx; cbn; [|discriminate].
  intros Hl. constructor; [exact Hx | by apply IH].
Qed.

Lemma for_each_st_app {A S} (l1 l2 : list A) (body : A -> S -> outcome S) s :
  for_each_st (l1 ++ l2) body s
  = (s1 <- for_each_st l1 body s ;; for_each_st l2 body s1).
Proof.
  revert s. induction l1 as [|x l1 IH]; intros s; cbn; [reflexivity|].
  destruct (body x s) as [s1|e]; cbn; [apply IH | reflexivity].
Qed.

(** A loop over an item whose body always raises does not return. *)
Lemma for_each_st_raises {A S} (l : list A) (body : A -> S -> outcome S) x :
  x ∈ l -> (forall s, exists e, body x s = Raise e) ->
  forall s, exists e, for_each_st l body s = Raise e.
Proof.
  intros Hx Hraise. induction l as [|y l IH]; [by apply elem_of_nil in Hx|].
  intros s. cbn [for_each_st].
  destruct (body y s) as [s1|e] eqn:Hy; cbn [bind]; [|by eexists].
  apply elem_of_cons in Hx as [->|Hx]; [|by apply IH].
  destruct (Hraise s) as [e He]. congruence.
Qed.

(** A loop that raises stops at the first item whose body raises. *)
Lemma for_each_raise {A} (l : list A) (body : A -> outcome unit) e :
  for_each l body = Raise e <->
  exists l1 x l2, l = l1 ++ x :: l2
    /\ Forall (fun y => body y = Return tt) l1 /\ body x = Raise e.
Proof.
  induction l as [|x l IH]; cbn.
  - split; [discriminate|]. intros (l1 & y & l2 & Hl & _). by destruct l1.
  - destruct (body x) as [[]|e'] eqn:Hx; cbn.
    + rewrite IH. split.
      * intros (l1 & y & l2 & -> & Hl1 & Hy).
        exists (x :: l1), y, l2. repeat split; [by constructor | done].
      * intros (l1 & y & l2 & Hl & Hl1 & Hy).
        destruct l1 as [|z l1]; cbn in Hl; simplify_eq; [congruence|].
        inversion Hl1; subst. by exists l1, y, l2.
    + split.
      * intros [= ->]. exists [], x, l. repeat split; [constructor | done].
      * intros (l1 & y & l2 & Hl & Hl1 & Hy).
        destruct l1 as [|z l1]; cbn in Hl; simplify_eq; [congruence|].
        inversion Hl1; subst. congruence.
Qed.

Lemma dict_get_dict_del {V} (d : list (pykey * V)) k k' :
  dict_get (dict_del d k) k' = if decide (k = k') then None else dict_get d k'.
Proof.
  unfold dict_del. induction d as [|[k0 v] d IH].
  - cbn. by destruct (decide (k = k')).
  - rewrite filter_cons. cbn [fst].
    destruct (decide (k0 <> k)) as [Hne|Heq]; cbn [dict_get].
    + destruct (decide (k0 = k')) as [->|]; [|exact IH].
      by destruct (decide (k = k')) as [->|].
    + apply dec_stable in Heq. subst k0. rewrite IH.
      destruct (decide (k = k')); reflexivity.
Qed.

Lemma dict_get_Some_elem {V} (d : list (pykey * V)) k v :
  dict_get d k = Some v -> (k, v) ∈ d.
Proof.
  induction d as [|[k0 v0] d IH]; cbn; [discriminate|].
  destruct (decide (k0 = k)) as [->|]; [intros [= ->]; left|].
  intros Hd. right. by apply IH.
Qed.

Lemma dict_get_is_Some {V} (d : list (pykey * V)) k :
  is_Some (dict_get d k) <-> k ∈ key_set d.
Proof.
  unfold key_set, keys. rewrite elem_of_list_to_set.
  induction d as [|[k0 v0] d IH]; cbn.
  - rewrite elem_of_nil. split; [by intros [? ?] | done].
  - rewrite elem_of_cons. destruct (decide (k0 = k)) as [->|Hne].
    + split; [by left | by eexists].
    + rewrite IH. naive_solver.
Qed.

Lemma dict_get_None {V} (d : list (pykey * V)) k :
  dict_get d k = None <-> k ∉ key_set d.
Proof.
  rewrite <- dict_get_is_Some, eq_None_not_Some. reflexivity.
Qed.

Lemma dict_get_dict_set {V} (d : list (pykey * V)) k v k' :
  dict_get (dict_set d k v) k'
  = if decide (k = k') then Some v else dict_get d k'.
Proof.
  induction d as [|[k0 v0] d IH]; cbn.
  - reflexivity.
  - destruct (decide (k0 = k)) as [->|Hne]; cbn.
    + destruct (decide (k = k')); reflexivity.
    + destruct (decide (k0 = k')) as [->|].
      * destruct (decide (k = k')); [congruence | reflexivity].
      * exact IH.
Qed.

Lemma key_set_dict_set {V} (d : list (pykey * V)) k v :
  key_set (dict_set d k v) = {[k]} ∪ key_set d.
Proof.
  apply set_eq. intros k'.
  rewrite elem_of_union, elem_of_singleton, <- !dict_get_is_Some.
  rewrite dict_get_dict_set.
  destruct (decide (k = k')) as [->|]; [split; eauto|].
  naive_solver.
Qed.

Lemma getitem_Return d k v : getitem d k = Return v <-> dict_get d k = Some v.
Proof.
  unfold getitem. destruct (dict_get d k); split; congruence.
Qed.

Lemma getitem_elem d k v : getitem d k = Return v -> (k, v) ∈ d.
Proof. rewrite getitem_Return. apply dict_get_Some_elem. Qed.

End PyFacts.



(** ** Constraint validation *)

Module ConstraintsProofs.
Import Constraints ConstraintsSpec PyFacts.

(** Membership of a literal in a literal list. *)
Ltac in_list :=
  set_unfold; first [tauto | intuition discriminate].



Lemma resolve_datatype_def_fuel n args :
  (2 <= n)%nat -> resolve_datatype_def n args = resolve_datatype_def 2 args.
Proof.
  intros Hn. destruct n as [|[|n]]; [lia | lia |].
  destruct args as [|self [|datatype [|dds [|x args]]]]; reflexivity.
Qed.

(** The recursive call passes four positional arguments to a routine of
    three parameters. *)
Lemma resolve_datatype_parent_raises t d desc :
  dict_get d (KStr t) = Some (PDict desc) ->
  truthy (get desc "parentType") = true ->
  resolve_datatype t d = Raise TypeError.
Proof.
  intros Hd Hp. unfold resolve_datatype. cbn.
  unfold getitem. rewrite Hd. cbn. rewrite Hp. reflexivity.
Qed.

Lemma resolve_datatype_no_parent t d desc :
  dict_get d (KStr t) = Some (PDict desc) ->
  truthy (get desc "parentType") = false ->
  resolve_datatype t d = Return t.
Proof.
  intros Hd Hp. unfold resolve_datatype. cbn.
  unfold getitem. rewrite Hd. cbn. rewrite Hp. reflexivity.
Qed.

(** When [resolve_datatype] returns, it returns its own argument. *)
Lemma resolve_datatype_returns_argument t d b :
  resolve_datatype t d = Return b -> b = t.
Proof.
  unfold resolve_datatype. cbn.
  destruct (getitem d (KStr t)) as [descriptor|e]; cbn; [|discriminate].
  destruct (dot_get descriptor "parentType") as [p|e]; cbn; [|discriminate].
  destruct (truthy p); [discriminate|]. congruence.
Qed.

(** C1, at a datatype that declares a parent: [resolve_datatype] raises
    [TypeError] on [NcOid], whose descriptor declares the parent type
    [NcUint32], where following the [parentType] links gives [NcUint32];
    on [NcUint32], which declares no parent, it returns [NcUint32]. *)
Theorem resolve_datatype_parent_type_error :
  resolve_datatype "NcOid" example_datatypes = Raise TypeError
  /\ spec_ResolveBaseType 3 "NcOid" example_datatypes = Some "NcUint32"
  /\ resolve_datatype "NcUint32" example_datatypes = Return "NcUint32".
Proof. repeat split; reflexivity. Qed.


Section ConstraintFacts.
Context `{SchemaValidator}.

Lemma get_dict_del c f g :
  get (dict_del c (KStr f)) g = if decide (f = g) then PNone else get c g.
Proof.
  unfold get. rewrite dict_get_dict_del.
  destruct (decide (f = g)) as [->|Hne].
  - by destruct (decide (KStr g = KStr g)).
  - destruct (decide (KStr f = KStr g)); [congruence | reflexivity].
Qed.


(** [check_constraint] reads the constraint through the default value and
    the truth values of the five other fields. *)
Lemma check_constraint_ext c c' t d schema is_seq ctype md ctx :
  (if truthy (get c "defaultValue") then get c' "defaultValue" = get c "defaultValue"
   else truthy (get c' "defaultValue") = false) ->
  (forall f, f ∈ constraint_fields -> truthy (get c' f) = truthy (get c f)) ->
  check_constraint c' t d schema is_seq ctype md ctx
  = check_constraint c t d schema is_seq ctype md ctx.
Proof.
  intros Hdv Hf.
  assert (Hn : has_number_constraint c' = has_number_constraint c).
  { unfold has_number_constraint.
    rewrite !Hf by (unfold constraint_fields; in_list). reflexivity. }
  assert (Hs : has_string_constraint c' = has_string_constraint c).
  { unfold has_string_constraint.
    rewrite !Hf by (unfold constraint_fields; in_list). reflexivity. }
  assert (Hl : check_constraint_legality c' t d ctype md ctx
               = check_constraint_legality c t d ctype md ctx).
  { unfold check_constraint_legality. rewrite Hn, Hs. reflexivity. }
  unfold check_constraint. cbn zeta.
  destruct (truthy (get c "defaultValue")) eqn:Hdvc.
  - rewrite Hdv, Hdvc, Hl. reflexivity.
  - rewrite Hdv, Hl. reflexivity.
Qed.

(** C10: a field of the constraint whose value is falsy ([None], [0], [""],
    [[]], [False]) is read as if it were absent: removing it does not change
    the result of [check_constraint]; and when the default value and all of
    minimum, maximum, step, maxCharacters and pattern are falsy,
    [check_constraint] validates no default value and runs no legality check:
    it only resolves the base type and leaves the metadata as it was. *)
Theorem check_constraint_ignores_falsy_fields
    c t d schema is_seq ctype md ctx :
  (forall f, f ∈ constraint_fields -> truthy (get c f) = false ->
     check_constraint (dict_del c (KStr f)) t d schema is_seq ctype md ctx
     = check_constraint c t d schema is_seq ctype md ctx)
  /\ (truthy (get c "defaultValue") = false ->
      has_number_constraint c = false ->
      has_string_constraint c = false ->
      check_constraint c t d schema is_seq ctype md ctx
      = (resolve_datatype t d ;;; Return md)).
Proof.
  split.
  - intros f Hin Hfalsy. apply check_constraint_ext.
    + rewrite get_dict_del.
      destruct (decide (f = "defaultValue")) as [->|Hne].
      * rewrite Hfalsy. reflexivity.
      * destruct (truthy (get c "defaultValue")); reflexivity.
    + intros g _. rewrite get_dict_del.
      destruct (decide (f = g)) as [->|]; [by rewrite Hfalsy | reflexivity].
  - intros Hdv Hn Hs. unfold check_constraint. cbn zeta. rewrite Hdv.
    unfold check_constraint_legality. rewrite Hn, Hs. reflexivity.
Qed.

Lemma check_constraint_after_default c t d schema is_seq ctype md ctx :
  default_value_accepted c schema is_seq ctx ->
  (truthy (get c "defaultValue") = true ->
   xorb (is_list (get c "defaultValue")) is_seq = false) ->
  check_constraint c t d schema is_seq ctype md ctx
  = check_constraint_legality c t d ctype md ctx.
Proof.
  intros Hacc Hseq. unfold check_constraint. cbn zeta.
  destruct (truthy (get c "defaultValue")) eqn:Hdv; [|reflexivity].
  specialize (Hseq eq_refl). specialize (Hacc Hdv Hseq). rewrite Hseq.
  destruct is_seq.
  - destruct (get c "defaultValue") as [| | | |values| |] eqn:E;
      try discriminate Hseq.
    rewrite (for_each_all_return _ _ (Hacc values eq_refl)). reflexivity.
  - rewrite Hacc. reflexivity.
Qed.

(** C2, as the code has it: when [resolve_datatype] returns a base type and
    the default value of the constraint, if any, is accepted, then
    [check_constraint] records a defect for a truthy minimum, maximum or step
    on a base type that is none of the eight numeric primitives, records a
    defect for a truthy maxCharacters or pattern on a base type other than
    [NcString], and leaves the metadata as it was for a truthy minimum,
    maximum or step on an integer primitive when no string constraint is
    truthy and the default value has the expected sequence-ness. *)
Theorem check_constraint_flags_truthy_fields
    c t d schema is_seq ctype md ctx b :
  resolve_datatype t d = Return b ->
  default_value_accepted c schema is_seq ctx ->
  (has_number_constraint c = true -> b ∉ numeric_primitives ->
   exists md', check_constraint c t d schema is_seq ctype md ctx = Return md'
               /\ error md' = true)
  /\ (has_string_constraint c = true -> b ∉ string_primitives ->
      exists md', check_constraint c t d schema is_seq ctype md ctx = Return md'
                  /\ error md' = true)
  /\ (has_number_constraint c = true -> has_string_constraint c = false ->
      b ∈ integer_primitives ->
      (truthy (get c "defaultValue") = true ->
       xorb (is_list (get c "defaultValue")) is_seq = false) ->
      check_constraint c t d schema is_seq ctype md ctx = Return md).
Proof.
  intros Hres Hacc.
  assert (Hcases :
    (exists md', check_constraint c t d schema is_seq ctype md ctx = Return md'
                 /\ error md' = true)
    \/ check_constraint c t d schema is_seq ctype md ctx
       = check_constraint_legality c t d ctype md ctx).
  { destruct (truthy (get c "defaultValue")) eqn:Hdv;
      [destruct (xorb (is_list (get c "defaultValue")) is_seq) eqn:Hx|].
    - left. eexists. split; [|shelve].
      unfold check_constraint. cbn zeta. rewrite Hdv, Hx. reflexivity.
      Unshelve. reflexivity.
    - right. apply check_constraint_after_default; [exact Hacc | intros _; exact Hx].
    - right. apply check_constraint_after_default; [exact Hacc | intros; congruence]. }
  assert (Hleg : check_constraint_legality c t d ctype md ctx
    = Return
        (let md1 :=
           if has_number_constraint c then
             if negb (bool_decide (b ∈ numeric_primitives)) then
               set_error_msg (set_error md)
                 (ctx +:+ " of type " +:+ b
                  +:+ " can not be constrainted by " +:+ ctype +:+ ".")
             else md
           else md in
         if has_string_constraint c then
           if negb (bool_decide (b ∈ string_primitives)) then
             set_error_msg (set_error md1)
               (ctx +:+ "of type " +:+ b
                +:+ " can not be constrainted by " +:+ ctype +:+ ".")
           else md1
         else md1)).
  { unfold check_constraint_legality. rewrite Hres. reflexivity. }
  split; [|split].
  - intros Hn Hb. destruct Hcases as [?|Heq]; [done|].
    rewrite Heq, Hleg. eexists. split; [reflexivity|].
    cbn zeta. rewrite Hn.
    rewrite (bool_decide_eq_false_2 (b ∈ numeric_primitives)) by exact Hb.
    cbn [negb]. destruct (has_string_constraint c); [|reflexivity].
    destruct (bool_decide (b ∈ string_primitives)); reflexivity.
  - intros Hs Hb. destruct Hcases as [?|Heq]; [done|].
    rewrite Heq, Hleg. eexists. split; [reflexivity|].
    cbn zeta. rewrite Hs.
    rewrite (bool_decide_eq_false_2 (b ∈ string_primitives)) by exact Hb.
    reflexivity.
  - intros Hn Hs Hb Hseq.
    rewrite check_constraint_after_default by done.
    rewrite Hleg. cbn zeta. rewrite Hn, Hs.
    rewrite bool_decide_eq_true_2; [reflexivity|].
    unfold integer_primitives, numeric_primitives in *.
    set_unfold. tauto.
Qed.

End ConstraintFacts.


Lemma check_constraint_ignores_falsy_fields_witness :
  @check_constraint accept_all (dict_del zero_bounds (KStr "minimum"))
     "NcString" example_datatypes PNone false "NcPropertyConstraintsNumber"
     metadata_init "root: label: NcString"
  = @check_constraint accept_all zero_bounds
     "NcString" example_datatypes PNone false "NcPropertyConstraintsNumber"
     metadata_init "root: label: NcString"
  /\ @check_constraint accept_all zero_bounds
       "NcString" example_datatypes PNone false "NcPropertyConstraintsNumber"
       metadata_init "root: label: NcString"
     = Return metadata_init.
Proof.
  destruct (@check_constraint_ignores_falsy_fields accept_all zero_bounds
              "NcString" example_datatypes PNone false
              "NcPropertyConstraintsNumber" metadata_init
              "root: label: NcString") as [Hdel Hall].
  split.
  - apply Hdel; [unfold constraint_fields; in_list | reflexivity].
  - rewrite Hall; reflexivity.
Defined.


(** C2 as stated fails: a constraint that contains a minimum, a maximum and
    a step, all zero, on [NcString], whose resolved base type is [NcString]
    and not a numeric primitive, records no defect. *)
Lemma check_constraint_zero_bounds_not_flagged :
  dict_get zero_bounds (KStr "minimum") = Some (PInt 0)
  /\ resolve_datatype "NcString" example_datatypes = Return "NcString"
  /\ ("NcString" ∉ numeric_primitives)
  /\ @check_constraint accept_all zero_bounds "NcString" example_datatypes
       PNone false "NcPropertyConstraintsNumber" metadata_init
       "root: label: NcString"
     = Return metadata_init
  /\ error metadata_init = false.
Proof.
  repeat split; try reflexivity.
  unfold numeric_primitives. in_list.
Qed.


Lemma check_constraint_flags_truthy_fields_witness :
  (exists md', @check_constraint accept_all range_1_10 "NcString"
                 example_datatypes PNone false "NcPropertyConstraintsNumber"
                 metadata_init "ctx" = Return md' /\ error md' = true)
  /\ (exists md', @check_constraint accept_all pattern_hex "NcUint32"
                    example_datatypes PNone false "NcPropertyConstraintsString"
                    metadata_init "ctx" = Return md' /\ error md' = true)
  /\ @check_constraint accept_all range_1_10 "NcUint32" example_datatypes
       PNone false "NcPropertyConstraintsNumber" metadata_init "ctx"
     = Return metadata_init.
Proof.
  split; [|split].
  - refine (proj1 (@check_constraint_flags_truthy_fields accept_all range_1_10
             "NcString" example_datatypes PNone false
             "NcPropertyConstraintsNumber" metadata_init "ctx" "NcString"
             eq_refl _) eq_refl _).
    + intros Hdv. discriminate Hdv.
    + unfold numeric_primitives. in_list.
  - refine (proj1 (proj2 (@check_constraint_flags_truthy_fields accept_all
             pattern_hex "NcUint32" example_datatypes PNone false
             "NcPropertyConstraintsString" metadata_init "ctx" "NcUint32"
             eq_refl _)) eq_refl _).
    + intros Hdv. discriminate Hdv.
    + unfold string_primitives. in_list.
  - refine (proj2 (proj2 (@check_constraint_flags_truthy_fields accept_all
             range_1_10 "NcUint32" example_datatypes PNone false
             "NcPropertyConstraintsNumber" metadata_init "ctx" "NcUint32"
             eq_refl _)) eq_refl eq_refl _ _).
    + intros Hdv. discriminate Hdv.
    + unfold integer_primitives. in_list.
    + intros Hdv. discriminate Hdv.
Defined.

End ConstraintsProofs.

(** ** Structural comparison of descriptors *)

Module DescriptorProofs.
Import Descriptor DescriptorSpec PyFacts.

Section DescriptorFacts.
Context `{SetOrder}.

Lemma depth_elem (v : pyval) (l : list pyval) :
  v ∈ l -> (depth v <= foldr (fun x acc => Nat.max (depth x) acc) 0 l)%nat.
Proof.
  induction 1 as [v l|v w l _ IH]; cbn [foldr]; lia.
Qed.

Lemma depth_value (k : pykey) (v : pyval) (d : pydict) :
  (k, v) ∈ d ->
  (depth v <= foldr (fun kv acc => Nat.max (depth kv.2) acc) 0 d)%nat.
Proof.
  induction d as [|[k0 v0] d IH]; [by intros ?%elem_of_nil|].
  rewrite elem_of_cons. cbn [foldr snd]. intros [[= -> ->]|Hin]; [lia|].
  specialize (IH Hin). lia.
Qed.

Lemma depth_pos v : (1 <= depth v)%nat.
Proof. destruct v; cbn; lia. Qed.

(** The values of the dict that the comprehension builds are items of the
    list, or values of [acc]. *)
Lemma named_dict_from_values items acc d k v :
  named_dict_from items acc = Return d -> (k, v) ∈ d ->
  v ∈ items \/ (k, v) ∈ acc.
Proof.
  revert acc. induction items as [|item items IH]; intros acc; cbn.
  - intros [= ->]. by right.
  - destruct (item_name item) as [name|e]; cbn; [|discriminate].
    destruct (hash_key name) as [k0|e]; cbn; [|discriminate].
    intros Hd Hkv. destruct (IH _ Hd Hkv) as [Hin|Hin].
    + left. by right.
    + assert (Hset : forall (a : pydict), (k, v) ∈ dict_set a k0 item ->
                       v = item \/ (k, v) ∈ a).
      { clear. induction a as [|[k1 v1] a IHa]; cbn.
        - rewrite list_elem_of_singleton. intros [= -> ->]. by left.
        - destruct (decide (k1 = k0)) as [->|].
          + rewrite !elem_of_cons. intros [[= -> ->]|?]; [by left|]. right. by right.
          + rewrite !elem_of_cons. intros [[= -> ->]|?]; [right; by left|].
            destruct (IHa H) as [?|?]; [by left|]. right. by right. }
      destruct (Hset _ Hin) as [->|?]; [left; by left | by right].
Qed.

Lemma named_dict_depth l d :
  named_dict l = Return d -> (S (depth (PDict d)) <= depth (PList l))%nat.
Proof.
  intros Hd. cbn [depth].
  assert (foldr (fun kv acc => Nat.max (depth kv.2) acc) 0 d
          <= foldr (fun x acc => Nat.max (depth x) acc) 0 l)%nat; [|lia].
  assert (Hall : forall k v, (k, v) ∈ d -> v ∈ l).
  { intros k v Hkv.
    destruct (named_dict_from_values _ _ _ _ _ Hd Hkv) as [?|Hnil]; [done|].
    by apply elem_of_nil in Hnil. }
  clear Hd. induction d as [|[k v] d IH]; cbn [foldr]; [lia|].
  apply Nat.max_lub.
  - apply depth_elem, (Hall k). left.
  - apply IH. intros k' v' ?. apply (Hall k'). by right.
Qed.

(** Enough fuel: the result no longer depends on it. *)
Lemma validate_descriptor_rec_fuel n m reference descriptor context :
  (depth reference <= n)%nat -> (depth reference <= m)%nat ->
  validate_descriptor_rec n reference descriptor context
  = validate_descriptor_rec m reference descriptor context.
Proof.
  revert m reference descriptor context.
  induction n as [|n IH]; intros m reference descriptor context Hn Hm.
  { pose proof (depth_pos reference). lia. }
  destruct m as [|m]; [pose proof (depth_pos reference); lia|].
  destruct reference as [| | | |l|r|]; try reflexivity.
  - cbn [validate_descriptor_rec].
    destruct (first_is_dict l); [|reflexivity].
    destruct (named_dict l) as [references|e] eqn:Hrefs; cbn [bind]; [|reflexivity].
    destruct (py_iter descriptor) as [items|e]; cbn [bind]; [|reflexivity].
    destruct (named_dict items) as [descriptors|e]; cbn [bind]; [|reflexivity].
    pose proof (named_dict_depth _ _ Hrefs). apply IH; lia.
  - cbn [validate_descriptor_rec].
    destruct descriptor as [| | | | |d|]; try reflexivity.
    destruct (bool_decide _); [reflexivity|].
    apply for_each_ext. intros key _.
    destruct (getitem r key) as [reference_key|] eqn:Hk; cbn [bind]; [|reflexivity].
    destruct (_ && _); [reflexivity|].
    destruct (_ && _); [reflexivity|].
    destruct (getitem d key); cbn [bind]; [|reflexivity].
    destruct (extend_context context key); cbn [bind]; [|reflexivity].
    apply getitem_elem, depth_value in Hk.
    cbn [depth] in Hn, Hm. apply IH; lia.
Qed.

Lemma validate_descriptor_fuel n reference descriptor context :
  (depth reference <= n)%nat ->
  validate_descriptor_rec n reference descriptor context
  = validate_descriptor reference descriptor context.
Proof.
  intros Hn. unfold validate_descriptor.
  by apply validate_descriptor_rec_fuel.
Qed.

Lemma validate_descriptor_rec_list n l descriptor context :
  validate_descriptor_rec (S n) (PList l) descriptor context
  = if first_is_dict l then
      references <- named_dict l ;;
      items <- py_iter descriptor ;;
      descriptors <- named_dict items ;;
      validate_descriptor_rec n (PDict references) (PDict descriptors) context
    else if py_neb (PList l) descriptor then
      Raise (NMOSTestException
               (UnexpectedSequence context (PList l) descriptor))
    else Return tt.
Proof. reflexivity. Qed.

(** The equations of [validate_descriptor], one per kind of reference. *)
Lemma validate_descriptor_dict_eq r d context :
  validate_descriptor (PDict r) (PDict d) context
  = if bool_decide (0 < size (key_difference (key_set r) (key_set d)))%nat then
      Raise (NMOSTestException
               (KeyMismatch context
                  (if bool_decide (key_difference (key_set r) (key_set d)
                                     ⊆ key_set r)
                   then "Missing keys " else "Additional keys ")
                  (key_difference (key_set r) (key_set d))))
    else for_each (set_iter (keys r)) (compare_key r d context).
Proof.
  unfold validate_descriptor. cbn [depth Nat.add validate_descriptor_rec].
  destruct (bool_decide _); [reflexivity|].
  apply for_each_ext. intros key _. unfold compare_key.
  destruct (getitem r key) as [reference_key|] eqn:Hk; cbn [bind]; [|reflexivity].
  destruct (_ && _); [reflexivity|].
  destruct (_ && _); [reflexivity|].
  destruct (getitem d key); cbn [bind]; [|reflexivity].
  destruct (extend_context context key); cbn [bind]; [|reflexivity].
  apply validate_descriptor_fuel.
  by apply getitem_elem, depth_value in Hk.
Qed.

Lemma validate_descriptor_list_eq l descriptor context :
  validate_descriptor (PList l) descriptor context
  = if first_is_dict l then
      references <- named_dict l ;;
      items <- py_iter descriptor ;;
      descriptors <- named_dict items ;;
      validate_descriptor (PDict references) (PDict descriptors) context
    else if py_neb (PList l) descriptor then
      Raise (NMOSTestException
               (UnexpectedSequence context (PList l) descriptor))
    else Return tt.
Proof.
  unfold validate_descriptor at 1.
  change (depth (PList l))
    with (S (S (foldr (fun x acc => Nat.max (depth x) acc) 0%nat l))).
  rewrite validate_descriptor_rec_list.
  destruct (first_is_dict l); [|reflexivity].
  destruct (named_dict l) as [references|e] eqn:Hrefs; cbn [bind]; [|reflexivity].
  destruct (py_iter descriptor) as [items|e]; cbn [bind]; [|reflexivity].
  destruct (named_dict items) as [descriptors|e]; cbn [bind]; [|reflexivity].
  apply validate_descriptor_fuel.
  pose proof (named_dict_depth _ _ Hrefs) as Hd. cbn [depth] in Hd.
  cbn [depth]. lia.
Qed.

Lemma bind_no_recursion_error {A B} (m : outcome A) (f : A -> outcome B) :
  m <> Raise RecursionError ->
  (forall a, m = Return a -> f a <> Raise RecursionError) ->
  bind m f <> Raise RecursionError.
Proof.
  intros Hm Hf. destruct m as [a|e]; cbn; [by apply Hf|].
  intros [= ->]. by apply Hm.
Qed.

Lemma getitem_no_recursion_error d k : getitem d k <> Raise RecursionError.
Proof. unfold getitem. by destruct (dict_get d k). Qed.

Lemma named_dict_from_no_recursion_error items acc :
  named_dict_from items acc <> Raise RecursionError.
Proof.
  revert acc. induction items as [|item items IH]; intros acc; cbn; [done|].
  apply bind_no_recursion_error.
  - destruct item; cbn; try done. apply getitem_no_recursion_error.
  - intros name _. apply bind_no_recursion_error; [by destruct name|].
    intros k _. apply IH.
Qed.

(** [validate_descriptor] never exhausts its recursion budget. *)
Lemma validate_descriptor_rec_total n reference descriptor context :
  (depth reference <= n)%nat ->
  validate_descriptor_rec n reference descriptor context <> Raise RecursionError.
Proof.
  revert reference descriptor context.
  induction n as [|n IH]; intros reference descriptor context Hn.
  { pose proof (depth_pos reference). lia. }
  destruct reference as [| | | |l|r|]; cbn [validate_descriptor_rec];
    try (destruct (py_neb _ _); discriminate).
  - destruct (first_is_dict l); [|destruct (py_neb _ _); discriminate].
    apply bind_no_recursion_error; [apply named_dict_from_no_recursion_error|].
    intros references Hrefs.
    apply bind_no_recursion_error; [by destruct descriptor|].
    intros items _.
    apply bind_no_recursion_error; [apply named_dict_from_no_recursion_error|].
    intros descriptors _.
    apply IH. pose proof (named_dict_depth _ _ Hrefs). lia.
  - destruct descriptor as [| | | | |d|]; try discriminate.
    destruct (bool_decide _); [discriminate|].
    intros (l1 & key & l2 & _ & _ & Hraise)%for_each_raise. revert Hraise.
    apply bind_no_recursion_error; [apply getitem_no_recursion_error|].
    intros reference_key Hk.
    destruct (_ && _); [discriminate|].
    destruct (_ && _).
    + apply bind_no_recursion_error; [apply getitem_no_recursion_error|].
      intros descriptor_key _. destruct (py_neb _ _); discriminate.
    + apply bind_no_recursion_error; [apply getitem_no_recursion_error|].
      intros descriptor_key _.
      apply bind_no_recursion_error; [by destruct key|].
      intros context' _. apply IH.
      apply getitem_elem, depth_value in Hk. cbn [depth] in Hn. lia.
Qed.

Lemma validate_descriptor_total reference descriptor context :
  validate_descriptor reference descriptor context <> Raise RecursionError.
Proof. by apply validate_descriptor_rec_total. Qed.

Lemma key_difference_spec (R D : gset pykey) k :
  k ∈ key_difference R D <-> (k ∈ R /\ k ∉ D) \/ (k ∈ D /\ k ∉ R).
Proof.
  unfold key_difference.
  rewrite elem_of_difference, elem_of_union, elem_of_intersection. tauto.
Qed.

Lemma key_difference_empty (R D : gset pykey) :
  (0 < size (key_difference R D))%nat <-> R <> D.
Proof.
  assert (Hempty : key_difference R D = ∅ <-> R = D).
  { split.
    - intros He. apply set_eq. intros k.
      assert (Hk : k ∉ key_difference R D) by (rewrite He; apply not_elem_of_empty).
      rewrite key_difference_spec in Hk.
      destruct (decide (k ∈ R)), (decide (k ∈ D)); tauto.
    - intros ->. apply set_eq. intros k.
      rewrite key_difference_spec. split; [tauto|].
      by intros ?%not_elem_of_empty. }
  rewrite <- Hempty. unfold_leibniz. rewrite <- size_empty_iff. lia.
Qed.

(** *** The dict made of a list of named items *)

Lemma named_dict_from_lookup items acc :
  all_named items ->
  exists d, named_dict_from items acc = Return d
    /\ forall k, dict_get d k = match find_item items k with
                               | Some x => Some x
                               | None => dict_get acc k
                               end.
Proof.
  revert acc. induction items as [|item items IH]; intros acc Hall.
  - exists acc. by split.
  - inversion Hall as [|? ? [k0 Hk0] Hall']; subst.
    destruct (IH (dict_set acc k0 item) Hall') as (d & Hd & Hlookup).
    exists d. split.
    + cbn. unfold item_key in Hk0.
      destruct (item_name item) as [name|e]; cbn in *; [|discriminate].
      rewrite Hk0. cbn. exact Hd.
    + intros k. rewrite Hlookup. cbn [find_item].
      destruct (find_item items k); [reflexivity|].
      rewrite Hk0, dict_get_dict_set. by destruct (decide (k0 = k)).
Qed.

Lemma find_item_Some items k x :
  find_item items k = Some x -> x ∈ items /\ item_key x = Return k.
Proof.
  induction items as [|item items IH]; cbn; [discriminate|].
  destruct (find_item items k) as [y|].
  - intros [= ->]. destruct (IH eq_refl). split; [by right | done].
  - destruct (item_key item) as [k'|e] eqn:Hk; [|discriminate].
    destruct (decide (k' = k)) as [->|]; [|discriminate].
    intros [= ->]. split; [by left | done].
Qed.

Lemma elem_of_item_keys items x k :
  x ∈ items -> item_key x = Return k -> k ∈ item_keys items.
Proof.
  intros Hx Hk. unfold item_keys. apply list_elem_of_omap.
  exists x. by rewrite Hk.
Qed.

Lemma item_keys_cons item items :
  item_keys (item :: items)
  = match item_key item with
    | Return k => k :: item_keys items
    | Raise _ => item_keys items
    end.
Proof. unfold item_keys. cbn. by destruct (item_key item). Qed.

Lemma find_item_unique items k x :
  NoDup (item_keys items) -> x ∈ items -> item_key x = Return k ->
  find_item items k = Some x.
Proof.
  induction items as [|item items IH]; [by intros _ ?%elem_of_nil|].
  intros Hnd Hx Hk. rewrite item_keys_cons in Hnd.
  cbn [find_item]. apply elem_of_cons in Hx as [->|Hx].
  - rewrite Hk in Hnd |- *. apply NoDup_cons in Hnd as [Hnotin _].
    destruct (find_item items k) as [y|] eqn:Hy.
    + apply find_item_Some in Hy as [Hy1 Hy2].
      destruct Hnotin. by apply (elem_of_item_keys _ y).
    + by destruct (decide (k = k)).
  - assert (Hnd' : NoDup (item_keys items)).
    { destruct (item_key item); [by apply NoDup_cons in Hnd as [_ ?] | done]. }
    by rewrite (IH Hnd' Hx Hk).
Qed.

Lemma item_keys_Permutation items items' :
  items' ≡ₚ items -> item_keys items' ≡ₚ item_keys items.
Proof. intros Hp. unfold item_keys. by rewrite Hp. Qed.

Lemma find_item_Permutation items items' k :
  NoDup (item_keys items) -> items' ≡ₚ items ->
  find_item items' k = find_item items k.
Proof.
  intros Hnd Hp.
  assert (Hnd' : NoDup (item_keys items')).
  { by rewrite (item_keys_Permutation _ _ Hp). }
  destruct (find_item items k) as [x|] eqn:Hx.
  - apply find_item_Some in Hx as [Hx1 Hx2].
    apply find_item_unique; [done | by rewrite Hp | done].
  - destruct (find_item items' k) as [y|] eqn:Hy; [|reflexivity].
    apply find_item_Some in Hy as [Hy1 Hy2]. rewrite Hp in Hy1.
    by rewrite (find_item_unique _ _ _ Hnd Hy1 Hy2) in Hx.
Qed.

Lemma all_named_Permutation items items' :
  items' ≡ₚ items -> all_named items -> all_named items'.
Proof. intros Hp. unfold all_named. by rewrite Hp. Qed.

(** Two lists of named items with distinct names that are permutations of
    each other make dicts of the same lookups. *)
Lemma named_dict_Permutation items items' :
  all_named items -> NoDup (item_keys items) -> items' ≡ₚ items ->
  exists d d', named_dict items = Return d /\ named_dict items' = Return d'
    /\ forall k, dict_get d' k = dict_get d k.
Proof.
  intros Hall Hnd Hp.
  destruct (named_dict_from_lookup items [] Hall) as (d & Hd & Hl).
  destruct (named_dict_from_lookup items' []
              (all_named_Permutation _ _ Hp Hall)) as (d' & Hd' & Hl').
  exists d, d'. repeat split; [done..|].
  intros k. by rewrite Hl, Hl', (find_item_Permutation _ _ _ Hnd Hp).
Qed.

Lemma set_iter_key_set (r : pydict) k : k ∈ set_iter (keys r) <-> k ∈ key_set r.
Proof. unfold key_set. by rewrite set_iter_elem, elem_of_list_to_set. Qed.

(** Two dicts pass when their key sets are the same and the comparison of
    every key returns: the order of the loop decides only which failure
    comes first. *)
Lemma validate_descriptor_dict_return r d context :
  validate_descriptor (PDict r) (PDict d) context = Return tt
  <-> key_set r = key_set d
      /\ forall key, key ∈ key_set r -> compare_key r d context key = Return tt.
Proof.
  rewrite validate_descriptor_dict_eq.
  destruct (bool_decide (0 < _)%nat) eqn:Hdiff.
  - apply bool_decide_eq_true_1, key_difference_empty in Hdiff.
    split; [discriminate | by intros [? _]].
  - apply bool_decide_eq_false_1 in Hdiff.
    rewrite key_difference_empty in Hdiff. apply dec_stable in Hdiff.
    rewrite for_each_return, Forall_forall. split.
    + intros Hall. split; [done|]. intros key Hkey.
      by apply Hall, set_iter_key_set.
    + intros [_ Hall] key Hkey. by apply Hall, set_iter_key_set.
Qed.

(** [validate_descriptor] reads two dicts through their lookups. *)
Lemma validate_descriptor_dict_ext r r' d d' context :
  (forall k, dict_get r' k = dict_get r k) ->
  (forall k, dict_get d' k = dict_get d k) ->
  validate_descriptor (PDict r') (PDict d') context = Return tt
  <-> validate_descriptor (PDict r) (PDict d) context = Return tt.
Proof.
  intros Hr Hd.
  assert (HR : key_set r' = key_set r).
  { apply set_eq. intros k. by rewrite <- !dict_get_is_Some, Hr. }
  assert (HD : key_set d' = key_set d).
  { apply set_eq. intros k. by rewrite <- !dict_get_is_Some, Hd. }
  rewrite !validate_descriptor_dict_return, HR, HD.
  assert (Hkey : forall key,
            compare_key r' d' context key = compare_key r d context key).
  { intros key. unfold compare_key, getitem. by rewrite Hr, Hd. }
  split; intros [Heq Hall]; (split; [done|]); intros key Hin;
    [rewrite <- Hkey | rewrite Hkey]; by apply Hall.
Qed.

Lemma all_named_first_is_dict item items :
  all_named (item :: items) -> first_is_dict (item :: items) = true.
Proof.
  intros Hall. inversion Hall as [|? ? [k Hk] _]; subst.
  by destruct item.
Qed.

(** The order of the items of the reference list and of the live list does
    not decide whether the comparison passes, when the names are
    distinct. *)
Lemma validate_descriptor_Permutation ref ref' live live' context :
  ref <> [] ->
  all_named ref -> NoDup (item_keys ref) -> ref' ≡ₚ ref ->
  all_named live -> NoDup (item_keys live) -> live' ≡ₚ live ->
  validate_descriptor (PList ref') (PList live') context = Return tt
  <-> validate_descriptor (PList ref) (PList live) context = Return tt.
Proof.
  intros Hne Hall Hnd Hp Hall_l Hnd_l Hp_l.
  destruct (named_dict_Permutation _ _ Hall Hnd Hp) as (r & r' & Hr & Hr' & Hlr).
  destruct (named_dict_Permutation _ _ Hall_l Hnd_l Hp_l)
    as (d & d' & Hd & Hd' & Hld).
  rewrite !validate_descriptor_list_eq.
  destruct ref as [|item ref]; [done|].
  rewrite (all_named_first_is_dict _ _ Hall).
  destruct ref' as [|item' ref']; [by apply Permutation_nil_cons in Hp|].
  rewrite (all_named_first_is_dict _ _ (all_named_Permutation _ _ Hp Hall)).
  rewrite Hr, Hr'. cbn [bind py_iter]. rewrite Hd, Hd'. cbn [bind].
  by apply validate_descriptor_dict_ext.
Qed.

(** *** A well-formed descriptor compares equal to itself *)

Lemma py_eqb_list l1 l2 :
  py_eqb (PList l1) (PList l2) = true
  <-> Forall2 (fun x y => py_eqb x y = true) l1 l2.
Proof.
  revert l2. induction l1 as [|x l1 IH]; intros [|y l2]; cbn.
  - split; [constructor | done].
  - split; [discriminate | inversion 1].
  - split; [discriminate | inversion 1].
  - rewrite andb_true_iff. change ((fix go (l1 l2 : list pyval) {struct l1} :=
      match l1, l2 with
      | [], [] => true
      | x :: l1', y :: l2' => py_eqb x y && go l1' l2'
      | _, _ => false
      end) l1 l2) with (py_eqb (PList l1) (PList l2)).
    rewrite IH. split.
    + intros [? ?]. by constructor.
    + inversion 1; subst. by split.
Qed.

Lemma py_eqb_dict d1 d2 :
  py_eqb (PDict d1) (PDict d2)
  = (length d1 =? length d2)%nat
    && forallb (fun kv => match dict_get d2 kv.1 with
                          | Some w => py_eqb kv.2 w
                          | None => false
                          end) d1.
Proof.
  cbn [py_eqb]. f_equal.
  induction d1 as [|[k v] d1 IH]; [reflexivity|].
  cbn [forallb fst snd]. by rewrite <- IH.
Qed.

Lemma dict_get_NoDup {V} (d : list (pykey * V)) k v :
  NoDup (keys d) -> (k, v) ∈ d -> dict_get d k = Some v.
Proof.
  unfold keys. induction d as [|[k0 v0] d IH]; cbn; [by intros _ ?%elem_of_nil|].
  rewrite NoDup_cons, elem_of_cons. intros [Hnotin Hnd] [[= -> ->]|Hin].
  - by destruct (decide (k0 = k0)).
  - destruct (decide (k0 = k)) as [->|]; [|by apply IH].
    destruct Hnotin. apply list_elem_of_fmap. by exists (k, v).
Qed.

Lemma py_eqb_refl_fuel n v :
  (depth v <= n)%nat -> well_formed v -> py_eqb v v = true.
Proof.
  revert v. induction n as [|n IH]; intros v Hn Hwf.
  { pose proof (depth_pos v). lia. }
  destruct Hwf as [|b|z|s|l Hl _|d Hnd Hd|f];
    [| | | | | |apply float_eqb_refl].
  - reflexivity.
  - by destruct b.
  - apply Z.eqb_refl.
  - apply String.eqb_refl.
  - apply py_eqb_list. apply Forall2_same_length_lookup_2; [done|].
    intros i x y Hx Hy. simplify_eq.
    apply IH.
    + apply list_elem_of_lookup_2, depth_elem in Hx. cbn [depth] in Hn. lia.
    + by apply (Forall_lookup_1 _ _ _ _ Hl Hx).
  - rewrite py_eqb_dict, Nat.eqb_refl. cbn [andb].
    apply forallb_forall. intros [k v] Hkv%list_elem_of_In. cbn [fst snd].
    rewrite (dict_get_NoDup _ _ _ Hnd Hkv). apply IH.
    + apply depth_value in Hkv. cbn [depth] in Hn. lia.
    + rewrite Forall_forall in Hd. by destruct (Hd _ Hkv).
Qed.

Lemma py_eqb_refl v : well_formed v -> py_eqb v v = true.
Proof. by apply (py_eqb_refl_fuel (depth v)). Qed.

Lemma keys_dict_set_eq {V} (a : list (pykey * V)) k v :
  keys (dict_set a k v)
  = if bool_decide (k ∈ keys a) then keys a else keys a ++ [k].
Proof.
  unfold keys. induction a as [|[k0 v0] a IHa]; cbn; [reflexivity|].
  destruct (decide (k0 = k)) as [->|Hne]; cbn.
  - rewrite bool_decide_eq_true_2 by left. reflexivity.
  - rewrite IHa. destruct (bool_decide (k ∈ a.*1)) eqn:Hk.
    + apply bool_decide_eq_true_1 in Hk.
      rewrite bool_decide_eq_true_2 by by right. reflexivity.
    + apply bool_decide_eq_false_1 in Hk.
      rewrite bool_decide_eq_false_2; [reflexivity|].
      rewrite elem_of_cons. naive_solver.
Qed.

Lemma keys_dict_set {V} (d : list (pykey * V)) k v :
  NoDup (keys d) -> NoDup (keys (dict_set d k v)).
Proof.
  intros Hnd. rewrite keys_dict_set_eq.
  destruct (bool_decide (k ∈ keys d)) eqn:Hk; [done|].
  apply bool_decide_eq_false_1 in Hk.
  apply NoDup_app. repeat split; [done| |apply NoDup_singleton].
  intros x Hx ->%list_elem_of_singleton. done.
Qed.

Lemma named_dict_from_keys items acc d :
  named_dict_from items acc = Return d ->
  NoDup (keys acc) ->
  NoDup (keys d)
  /\ forall k, k ∈ keys d ->
       k ∈ keys acc \/ exists item, item ∈ items /\ item_key item = Return k.
Proof.
  revert acc. induction items as [|item items IH]; intros acc; cbn.
  - intros [= ->] Hnd. split; [done|]. intros k ?. by left.
  - unfold item_key in *.
    destruct (item_name item) as [name|e] eqn:Hname; cbn; [|discriminate].
    destruct (hash_key name) as [k0|e] eqn:Hk0; cbn; [|discriminate].
    intros Hd Hnd.
    destruct (IH _ Hd (keys_dict_set _ _ _ Hnd)) as [Hnd' Hkeys].
    split; [done|]. intros k Hk.
    destruct (Hkeys k Hk) as [Hin|(x & Hx & Hxk)].
    + rewrite keys_dict_set_eq in Hin.
      assert (Hcase : k = k0 \/ k ∈ keys acc).
      { destruct (bool_decide (k0 ∈ keys acc)); [by right|].
        apply elem_of_app in Hin as [?|Hin%list_elem_of_singleton];
          [by right | by left]. }
      destruct Hcase as [->|?]; [|by left].
      right. exists item. split; [by left|]. by rewrite Hname.
    + right. exists x. split; [by right | done].
Qed.

Lemma validate_descriptor_refl_fuel n v context :
  (depth v <= n)%nat -> well_formed v ->
  validate_descriptor v v context = Return tt.
Proof.
  revert v context. induction n as [|n IH]; intros v context Hn Hwf.
  { pose proof (depth_pos v). lia. }
  pose proof (py_eqb_refl v Hwf) as Hrefl.
  destruct Hwf as [|b|z|s|l Hl Hnamed|d Hnd Hd|f];
    try (unfold validate_descriptor; cbn [depth validate_descriptor_rec];
         unfold py_neb; by rewrite Hrefl).
  - rewrite validate_descriptor_list_eq.
    destruct (first_is_dict l) eqn:Hfirst;
      [|unfold py_neb; by rewrite Hrefl].
    specialize (Hnamed eq_refl).
    assert (Hall : all_named l).
    { eapply Forall_impl; [exact Hnamed|]. intros item [s Hs]. by exists (KStr s). }
    destruct (named_dict_from_lookup l [] Hall) as (refs & Hrefs & _).
    fold (named_dict l) in Hrefs. rewrite Hrefs. cbn [bind py_iter].
    rewrite Hrefs. cbn [bind].
    pose proof (named_dict_depth _ _ Hrefs) as Hdepth.
    destruct (named_dict_from_keys _ _ _ Hrefs) as [Hnd Hkeys];
      [apply NoDup_nil_2|].
    apply IH; [lia|]. constructor; [done|].
    apply Forall_forall. intros [k v] Hkv. cbn [fst snd]. split.
    + destruct (Hkeys k) as [Hin|(item & Hitem & Hk)].
      * unfold keys. apply list_elem_of_fmap. by exists (k, v).
      * by apply elem_of_nil in Hin.
      * rewrite Forall_forall in Hnamed.
        destruct (Hnamed _ Hitem) as [s Hs]. exists s. congruence.
    + destruct (named_dict_from_values _ _ _ _ _ Hrefs Hkv) as [Hin|Hin];
        [|by apply elem_of_nil in Hin].
      rewrite Forall_forall in Hl. by apply Hl.
  - rewrite validate_descriptor_dict_eq.
    rewrite bool_decide_eq_false_2 by (rewrite key_difference_empty; tauto).
    apply for_each_return, Forall_forall. intros key Hkey%set_iter_key_set.
    apply dict_get_is_Some in Hkey as [v Hv]. unfold compare_key.
    rewrite (proj2 (getitem_Return _ _ _) Hv). cbn [bind].
    pose proof (dict_get_Some_elem _ _ _ Hv) as Hin.
    rewrite Forall_forall in Hd. destruct (Hd _ Hin) as [[s Hs] Hwfv].
    cbn [fst snd] in *. subst key.
    destruct (_ && _); [reflexivity|].
    unfold py_neb. rewrite (py_eqb_refl v Hwfv).
    destruct (_ && _); [reflexivity|]. cbn [negb extend_context bind].
    apply IH; [|done]. apply depth_value in Hin. cbn [depth] in Hn. lia.
Qed.

Lemma validate_descriptor_refl v context :
  well_formed v -> validate_descriptor v v context = Return tt.
Proof. by apply (validate_descriptor_refl_fuel (depth v)). Qed.

(** C3: on two dicts, [validate_descriptor] raises the failure of the key
    check exactly when the two key sets differ; the failure carries the
    symmetric difference of the key sets and is labelled "Missing keys " when
    every key of the difference is a key of the reference, "Additional keys "
    otherwise.  When the key sets are equal the result is that of the loop
    over the keys of the reference, which compares the two values of each
    key and stops at the first comparison that raises: the exception raised
    is that of the first failing key, and the call returns only when the
    comparison of every key returns. *)
Theorem validate_descriptor_key_check r d context :
  (forall k, k ∈ key_difference (key_set r) (key_set d)
             <-> (k ∈ key_set r /\ k ∉ key_set d)
                 \/ (k ∈ key_set d /\ k ∉ key_set r))
  /\ (key_set r <> key_set d ->
      validate_descriptor (PDict r) (PDict d) context
      = Raise (NMOSTestException
                 (KeyMismatch context
                    (if bool_decide (key_difference (key_set r) (key_set d)
                                       ⊆ key_set r)
                     then "Missing keys " else "Additional keys ")
                    (key_difference (key_set r) (key_set d)))))
  /\ (key_set r = key_set d ->
      validate_descriptor (PDict r) (PDict d) context
      = for_each (set_iter (keys r)) (compare_key r d context)
      /\ (forall e,
            validate_descriptor (PDict r) (PDict d) context = Raise e ->
            exists l1 key l2,
              set_iter (keys r) = l1 ++ key :: l2
              /\ Forall (fun k => compare_key r d context k = Return tt) l1
              /\ compare_key r d context key = Raise e)
      /\ (validate_descriptor (PDict r) (PDict d) context = Return tt
          <-> forall key, key ∈ key_set r ->
                compare_key r d context key = Return tt)).
Proof.
  split; [intros k; apply key_difference_spec|].
  split.
  - intros Hne. rewrite validate_descriptor_dict_eq.
    rewrite bool_decide_eq_true_2 by by apply key_difference_empty.
    reflexivity.
  - intros Heq.
    assert (Hloop : validate_descriptor (PDict r) (PDict d) context
                    = for_each (set_iter (keys r)) (compare_key r d context)).
    { rewrite validate_descriptor_dict_eq.
      rewrite bool_decide_eq_false_2; [reflexivity|].
      rewrite key_difference_empty. tauto. }
    split; [exact Hloop|]. rewrite Hloop. split.
    + intros e He. by apply for_each_raise.
    + rewrite for_each_return, Forall_forall.
      split; intros Hall key Hkey; apply Hall; by apply set_iter_key_set.
Qed.

(** C8, as the code has it.  A reference list whose first element is an
    object is compared by making a dict of each list, keyed by the [name] of
    the items, and comparing the two dicts.  When the items of each list
    have names that are pairwise distinct, whether the comparison passes is
    the same for every order of the items of either list (of several
    mismatches, the one that is raised follows the order in which the keys
    are visited), and a well-formed list of objects with distinct names
    compares equal to every permutation of itself.  A reference list whose
    first element is no object is compared with [==]:
    the call returns exactly when the live value is a list of the same
    length whose elements are equal one by one, in order, and raises the
    failure "Unexpected sequence" otherwise. *)
Theorem validate_descriptor_lists :
  (forall l descriptor context,
     first_is_dict l = true ->
     validate_descriptor (PList l) descriptor context
     = (references <- named_dict l ;;
        items <- py_iter descriptor ;;
        descriptors <- named_dict items ;;
        validate_descriptor (PDict references) (PDict descriptors) context))
  /\ (forall ref ref' live live' context,
        ref <> [] ->
        all_named ref -> NoDup (item_keys ref) -> ref' ≡ₚ ref ->
        all_named live -> NoDup (item_keys live) -> live' ≡ₚ live ->
        (validate_descriptor (PList ref') (PList live') context = Return tt
         <-> validate_descriptor (PList ref) (PList live) context
             = Return tt))
  /\ (forall l l' context,
        well_formed (PList l) -> first_is_dict l = true ->
        NoDup (item_keys l) -> l' ≡ₚ l ->
        validate_descriptor (PList l) (PList l') context = Return tt)
  /\ (forall l descriptor context,
        first_is_dict l = false ->
        validate_descriptor (PList l) descriptor context
        = (if py_eqb (PList l) descriptor then Return tt
           else Raise (NMOSTestException
                         (UnexpectedSequence context (PList l) descriptor)))
        /\ (py_eqb (PList l) descriptor = true
            <-> exists l', descriptor = PList l'
                  /\ Forall2 (fun x y => py_eqb x y = true) l l')).
Proof.
  split; [|split; [|split]].
  - intros l descriptor context Hfirst.
    by rewrite validate_descriptor_list_eq, Hfirst.
  - intros. by apply validate_descriptor_Permutation.
  - intros l l' context Hwf Hfirst Hnd Hp.
    assert (Hall : all_named l).
    { inversion Hwf as [| | | |? _ Hnamed| |]; subst.
      eapply Forall_impl; [exact (Hnamed Hfirst)|].
      intros item [s Hs]. by exists (KStr s). }
    assert (Hne : l <> []) by (by intros ->).
    apply (validate_descriptor_Permutation l l l l' context);
      [done.. | by apply validate_descriptor_refl].
  - intros l descriptor context Hfirst.
    rewrite validate_descriptor_list_eq, Hfirst. unfold py_neb. split.
    + by destruct (py_eqb _ _).
    + split.
      * destruct descriptor as [| | | |l'| |]; try discriminate.
        intros Heq. exists l'. split; [done | by apply py_eqb_list].
      * intros (l' & -> & Hall). by apply py_eqb_list.
Qed.

End DescriptorFacts.

Lemma validate_descriptor_key_check_witness :
  @validate_descriptor elements_order (PDict reference_members)
     (PDict live_members_short) "NcBlock: "
  = Raise (NMOSTestException
             (KeyMismatch "NcBlock: " "Missing keys " {[KStr "fixedRole"]}))
  /\ @validate_descriptor elements_order (PDict reference_members)
       (PDict live_members_reworded) "NcBlock: "
     = Return tt.
Proof.
  destruct (@validate_descriptor_key_check elements_order reference_members
              live_members_short "NcBlock: ") as (_ & Hdiff & _).
  destruct (@validate_descriptor_key_check elements_order reference_members
              live_members_reworded "NcBlock: ") as (_ & _ & Hsame).
  split.
  - rewrite Hdiff.
    + by vm_compute.
    + intros Heq.
      assert (Hin : KStr "fixedRole" ∈ key_set live_members_short).
      { rewrite <- Heq. compute_done. }
      revert Hin. change (KStr "fixedRole" ∉ key_set live_members_short).
      compute_done.
  - destruct Hsame as (_ & _ & Hret).
    + compute_done.
    + apply Hret. intros key Hkey.
      assert (Hcases : key = KStr "name" \/ key = KStr "fixedRole"
                       \/ key = KStr "description").
      { revert Hkey. unfold key_set, reference_members. cbn.
        rewrite !elem_of_union, !elem_of_singleton, elem_of_empty. tauto. }
      destruct Hcases as [->|[->| ->]]; reflexivity.
Defined.


(** C8 as stated fails on a list that holds two items of the same name: the
    dict made of the list keeps the last item of a name, so the list and
    its reversal make different dicts and the comparison raises. *)
Lemma validate_descriptor_duplicate_names :
  [named_item "a" 2; named_item "a" 1] ≡ₚ [named_item "a" 1; named_item "a" 2]
  /\ @validate_descriptor elements_order
       (PList [named_item "a" 1; named_item "a" 2])
       (PList [named_item "a" 2; named_item "a" 1]) ""
     = Raise (NMOSTestException (UnexpectedValue "a->x->" (PInt 2) (PInt 1))).
Proof.
  split; [apply Permutation_swap | by vm_compute].
Qed.

Lemma named_item_well_formed name x : well_formed (named_item name x).
Proof.
  constructor.
  - unfold keys. cbn. apply NoDup_cons. split; [|apply NoDup_singleton].
    by intros [=]%list_elem_of_singleton.
  - constructor; [split; [by eexists | constructor]|].
    constructor; [split; [by eexists | constructor]|]. constructor.
Qed.

Lemma validate_descriptor_lists_witness :
  @validate_descriptor elements_order
     (PList [named_item "a" 1; named_item "b" 2])
     (PList [named_item "b" 2; named_item "a" 1]) "properties->"
  = Return tt
  /\ @validate_descriptor elements_order
       (PList [PInt 1; PInt 2]) (PList [PInt 2; PInt 1]) "classId->"
     = Raise (NMOSTestException
                (UnexpectedSequence "classId->" (PList [PInt 1; PInt 2])
                   (PList [PInt 2; PInt 1]))).
Proof.
  destruct (@validate_descriptor_lists elements_order)
    as (_ & _ & Hperm & Hplain).
  split.
  - apply Hperm.
    + constructor.
      * constructor; [apply named_item_well_formed|].
        constructor; [apply named_item_well_formed|]. constructor.
      * intros _. constructor; [by exists "a"|].
        constructor; [by exists "b"|]. constructor.
    + reflexivity.
    + unfold item_keys. cbn. apply NoDup_cons. split; [|apply NoDup_singleton].
      by intros [=]%list_elem_of_singleton.
    + apply Permutation_swap.
  - destruct (Hplain [PInt 1; PInt 2] (PList [PInt 2; PInt 1]) "classId->"
                eq_refl) as [Heq _].
    rewrite Heq. reflexivity.
Defined.

End DescriptorProofs.

(** ** The mirror of the device model *)

Module DeviceModelProofs.
Import DeviceModel DeviceModelSpec ConstraintsSpec PyFacts.

#[local] Arguments descriptors_dict : simpl never.
#[local] Arguments build_members : simpl never.

Section FactoryFacts.
Context `{SchemaValidator} `{Rendering} `{IS12Utils} `{Device}.

Lemma get_property_error {A} (none : A) answer id context dm :
  error dm = true ->
  error (get_property none answer id context dm).2 = true.
Proof. intros Hdm. by destruct answer. Qed.

(** A failed read leaves the error flag set. *)
Lemma get_property_failure {A} (none : A) detail id context dm :
  error (get_property none (Failure detail) id context dm).2 = true.
Proof. reflexivity. Qed.

Lemma get_class_manager_descriptors_error oid id role dm :
  error dm = true ->
  error (get_class_manager_descriptors oid id role dm).2 = true.
Proof.
  intros Hdm. unfold get_class_manager_descriptors.
  destruct (remote_model_descriptors oid id) as [[[|r rs]|]|detail]; cbn; done.
Qed.

Lemma dict_set_nonempty {V} (d : list (pykey * V)) k v : dict_set d k v <> [].
Proof. destruct d as [|[k0 v0] d]; cbn; [done|]. by destruct (decide _). Qed.

Lemma descriptors_dict_nonempty r rs : descriptors_dict (r :: rs) <> [].
Proof.
  unfold descriptors_dict. cbn [foldl].
  generalize (dict_set_nonempty ([] : pydict)
                (KStr (key_lambda (d_classId r) (d_name r))) (d_json r)).
  generalize (dict_set ([] : pydict)
                (KStr (key_lambda (d_classId r) (d_name r))) (d_json r)).
  induction rs as [|x rs IH]; intros d Hd; cbn [foldl]; [done|].
  apply IH, dict_set_nonempty.
Qed.

(** The loop over the members and the relation [builds]. *)
Lemma build_members_builds build ms children dm children' dm' :
  build_members build ms children dm = Return (children', dm')
  <-> exists rs, builds build ms dm rs dm'
        /\ children' = children ++ omap id rs.
Proof.
  revert children dm.
  induction ms as [|m ms IH]; intros children dm; unfold build_members;
    fold build_members; cbn [bind].
  - split.
    + intros [= <- <-]. exists []. split; [constructor|].
      by rewrite app_nil_r.
    + intros (rs & Hb & ->). inversion Hb; subst. by rewrite app_nil_r.
  - destruct (build m dm) as [[r dm1]|e] eqn:Hm; cbn.
    + rewrite IH. split.
      * intros (rs & Hb & ->). exists (r :: rs). split; [by econstructor|].
        destruct r; cbn; by rewrite <- ?app_assoc.
      * intros (rs & Hb & ->).
        inversion Hb as [|? ? ? r0 dm2 rs0 ? Hm' Hb']; subst.
        rewrite Hm in Hm'. injection Hm' as <- <-.
        exists rs0. split; [exact Hb'|].
        destruct r; cbn; by rewrite <- ?app_assoc.
    + split; [discriminate|]. intros (rs & Hb & _). inversion Hb; congruence.
Qed.

Lemma builds_length build ms dm rs dm' :
  builds build ms dm rs dm' -> length rs = length ms.
Proof. induction 1; cbn; congruence. Qed.

(** The loop stops at the first member whose step raises. *)
Lemma build_members_raise build pre m post children dm e :
  (forall m' dm0, m' ∈ pre -> exists r dm1, build m' dm0 = Return (r, dm1)) ->
  (forall dm0, build m dm0 = Raise e) ->
  build_members build (pre ++ m :: post) children dm = Raise e.
Proof.
  revert children dm. induction pre as [|m0 pre IH]; intros children dm Hpre Hm;
    cbn [app]; unfold build_members; fold build_members.
  - by rewrite Hm.
  - destruct (Hpre m0 dm) as (r & dm1 & ->); [by left|]. cbn [bind].
    apply IH; [|done]. intros m' dm0 Hin. apply Hpre. by right.
Qed.

(** The reads of the arguments of the recursive call. *)
Lemma member_arguments_complete m :
  member_complete m -> member_arguments m = Return tt.
Proof.
  unfold member_arguments. intros (-> & -> & ->). reflexivity.
Qed.

Lemma member_arguments_raise m e :
  member_arguments m = Raise e -> e = KeyError \/ e = TypeError.
Proof.
  assert (Hfield : forall name e', member_field m name = Raise e' ->
            e' = KeyError \/ e' = TypeError).
  { intros name e'. unfold member_field, getitem_str, getitem.
    destruct (m_json m); try (intros [= <-]; by right).
    destruct (dict_get _ _); [discriminate|]. intros [= <-]. by left. }
  unfold member_arguments.
  destruct (member_field m "classId") as [class_id|e1] eqn:Hc; cbn [bind];
    [|intros [= <-]; by eapply Hfield].
  destruct (member_field m "oid") as [oid|e2] eqn:Ho; cbn [bind];
    [|intros [= <-]; by eapply Hfield].
  destruct (member_field m "role") as [role|e3] eqn:Hr; cbn [bind];
    [|intros [= <-]; by eapply Hfield].
  destruct role; cbn [as_str bind]; try discriminate; intros [= <-]; by right.
Qed.

Lemma member_build_eq fuel m dm :
  member_complete m ->
  member_build fuel m dm
  = nc_object_factory fuel (m_classId m) (m_oid m) (m_role m) dm.
Proof.
  intros Hm%member_arguments_complete. unfold member_build. by rewrite Hm.
Qed.

Lemma member_build_return fuel m dm r dm' :
  member_build fuel m dm = Return (r, dm') ->
  nc_object_factory fuel (m_classId m) (m_oid m) (m_role m) dm
  = Return (r, dm').
Proof. unfold member_build. by destruct (member_arguments m) as [[]|]. Qed.

(** The equation of [nc_object_factory] on a block. *)
Lemma nc_object_factory_block_eq fuel class_id oid role dm :
  is_block_class class_id = true ->
  nc_object_factory (S fuel) class_id oid role dm
  = let '(runtime_constraints, dm1) :=
      get_property PNone (remote_get_property oid RUNTIME_PROPERTY_CONSTRAINTS)
        RUNTIME_PROPERTY_CONSTRAINTS (role +:+ ": ") dm in
    let '(member_descriptors, dm2) :=
      get_property None (remote_members oid) MEMBERS (role +:+ ": ") dm1 in
    match member_descriptors with
    | None | Some [] => Return (None, dm2)
    | Some ms =>
        built <- build_members (member_build fuel) ms [] dm2 ;;
        let '(children, dm3) := built in
        Return (Some (NcBlock class_id oid role ms runtime_constraints children),
                dm3)
    end.
Proof. intros Hblock. cbn [nc_object_factory]. by rewrite Hblock. Qed.

(** The error flag of the metadata, once set, stays set. *)
Lemma nc_object_factory_error fuel class_id oid role dm r dm' :
  nc_object_factory fuel class_id oid role dm = Return (r, dm') ->
  error dm = true -> error dm' = true.
Proof.
  revert class_id oid role dm r dm'.
  induction fuel as [|fuel IH]; intros class_id oid role dm r dm';
    [discriminate|].
  destruct (is_block_class class_id) eqn:Hblock.
  - rewrite nc_object_factory_block_eq by done. intros Hf Hdm.
    pose proof (get_property_error PNone
                  (remote_get_property oid RUNTIME_PROPERTY_CONSTRAINTS)
                  RUNTIME_PROPERTY_CONSTRAINTS (role +:+ ": ") dm Hdm) as Hrc.
    destruct (get_property PNone _ _ _ dm) as [rc dm1]. cbn [snd] in Hrc.
    pose proof (get_property_error None (remote_members oid) MEMBERS
                  (role +:+ ": ") dm1 Hrc) as Hms.
    destruct (get_property None _ _ _ dm1) as [ms dm2]. cbn [snd] in Hms.
    destruct ms as [[|m ms]|]; try by simplify_eq.
    destruct (build_members _ _ _ _) as [[children dm3]|e] eqn:Hb;
      cbn in Hf; [|discriminate].
    simplify_eq. apply build_members_builds in Hb as (rs & Hb & _).
    clear -IH Hb Hms. induction Hb as [|m0 ms0 dm0 r0 dm1 rs0 dm2 Hm _ IHb];
      [done|].
    apply IHb. apply member_build_return in Hm. by eapply IH.
  - cbn [nc_object_factory]. rewrite Hblock. intros Hf Hdm.
    pose proof (get_property_error PNone
                  (remote_get_property oid RUNTIME_PROPERTY_CONSTRAINTS)
                  RUNTIME_PROPERTY_CONSTRAINTS (role +:+ ": ") dm Hdm) as Hrc.
    destruct (get_property PNone _ _ _ dm) as [rc dm1]. cbn [snd] in Hrc.
    destruct (is_class_manager_class class_id).
    + pose proof (get_class_manager_descriptors_error oid CONTROL_CLASSES
                    (role +:+ ": ") dm1 Hrc) as Hc.
      destruct (get_class_manager_descriptors oid CONTROL_CLASSES _ dm1)
        as [cds dm2]. cbn [snd] in Hc.
      pose proof (get_class_manager_descriptors_error oid DATATYPES
                    (role +:+ ": ") dm2 Hc) as Hd.
      destruct (get_class_manager_descriptors oid DATATYPES _ dm2)
        as [dds dm3]. cbn [snd] in Hd.
      destruct cds as [[|? ?]|], dds as [[|? ?]|]; by simplify_eq.
    + by simplify_eq.
Qed.

Lemma builds_error build ms dm rs dm' :
  (forall m dm0 r dm1, build m dm0 = Return (r, dm1) ->
     error dm0 = true -> error dm1 = true) ->
  builds build ms dm rs dm' -> error dm = true -> error dm' = true.
Proof. intros Hbuild. induction 1; eauto. Qed.

Lemma member_build_error fuel m dm0 r dm1 :
  member_build fuel m dm0 = Return (r, dm1) ->
  error dm0 = true -> error dm1 = true.
Proof. intros Hm%member_build_return. by eapply nc_object_factory_error. Qed.

(** What [get_class_manager_descriptors] leaves in the metadata. *)
Lemma get_class_manager_descriptors_value oid id role dm v :
  remote_model_descriptors oid id = Value v ->
  (get_class_manager_descriptors oid id role dm).2 = dm.
Proof.
  intros Hv. unfold get_class_manager_descriptors. rewrite Hv.
  by destruct v as [[|r rs]|].
Qed.

Lemma get_class_manager_descriptors_cases oid id role dm :
  no_descriptors (get_class_manager_descriptors oid id role dm).1 = true ->
  ((exists detail, remote_model_descriptors oid id = Failure detail)
   /\ error (get_class_manager_descriptors oid id role dm).2 = true)
  \/ empty_answer (remote_model_descriptors oid id).
Proof.
  unfold get_class_manager_descriptors, empty_answer.
  destruct (remote_model_descriptors oid id) as [[[|r rs]|]|detail]; cbn;
    eauto.
  pose proof (descriptors_dict_nonempty r rs).
  by destruct (descriptors_dict (r :: rs)).
Qed.

(** Why a build yields no object: a read that it needs failed, which is on
    record, or the Node answered such a read with an empty value; and when no
    read for the member fails, nothing is recorded. *)
Lemma nc_object_factory_none fuel m dm dm' :
  nc_object_factory fuel (m_classId m) (m_oid m) (m_role m) dm
  = Return (None, dm') ->
  ((read_failed m /\ error dm' = true) \/ read_empty m)
  /\ (reads_succeed m -> dm' = dm).
Proof.
  destruct fuel as [|fuel]; [discriminate|].
  unfold read_failed, read_empty, reads_succeed.
  destruct (is_block_class (m_classId m)) eqn:Hblock.
  - rewrite nc_object_factory_block_eq by done. unfold empty_answer.
    destruct (remote_get_property (m_oid m) RUNTIME_PROPERTY_CONSTRAINTS)
      as [rc|detail0] eqn:Hrc; cbn [get_property];
      (destruct (remote_members (m_oid m)) as [[[|m0 ms]|]|detail] eqn:Hms;
       cbn [get_property];
       [ intros [= <-]
       | destruct (build_members _ _ _ _) as [[children dm3]|e]; cbn;
         discriminate
       | intros [= <-]
       | intros [= <-] ]);
      (split; [eauto | intros [[? ?] [? ?]]; congruence]).
  - cbn [nc_object_factory]. rewrite Hblock.
    destruct (is_class_manager_class (m_classId m)) eqn:Hcm;
      [|destruct (get_property PNone _ _ _ dm); discriminate].
    destruct (get_property PNone _ _ _ dm) as [rc dm1] eqn:Hget.
    assert (Hdm1 : (exists v, remote_get_property (m_oid m)
                                RUNTIME_PROPERTY_CONSTRAINTS = Value v) ->
              dm1 = dm).
    { intros [v Hv]. rewrite Hv in Hget. cbn in Hget. congruence. }
    clear Hget.
    pose proof (get_class_manager_descriptors_cases (m_oid m) CONTROL_CLASSES
                  (m_role m +:+ ": ") dm1) as Hc.
    pose proof (get_class_manager_descriptors_error (m_oid m) DATATYPES
                  (m_role m +:+ ": ")
                  (get_class_manager_descriptors (m_oid m) CONTROL_CLASSES
                     (m_role m +:+ ": ") dm1).2) as Hmono.
    pose proof (fun v => get_class_manager_descriptors_value (m_oid m)
                  CONTROL_CLASSES (m_role m +:+ ": ") dm1 v) as Hcv.
    destruct (get_class_manager_descriptors (m_oid m) CONTROL_CLASSES _ dm1)
      as [cds dm2]. cbn [fst snd] in Hc, Hmono, Hcv.
    pose proof (get_class_manager_descriptors_cases (m_oid m) DATATYPES
                  (m_role m +:+ ": ") dm2) as Hd.
    pose proof (fun v => get_class_manager_descriptors_value (m_oid m)
                  DATATYPES (m_role m +:+ ": ") dm2 v) as Hdv.
    destruct (get_class_manager_descriptors (m_oid m) DATATYPES _ dm2)
      as [dds dm3]. cbn [fst snd] in Hd, Hmono, Hdv.
    assert (Hsilent : reads_succeed m -> dm3 = dm).
    { unfold reads_succeed. rewrite Hblock.
      intros [Hrc Hrest]. destruct (Hrest Hcm) as [[v Hv] [w Hw]].
      rewrite (Hdv _ Hw), (Hcv _ Hv). by apply Hdm1. }
    unfold reads_succeed in Hsilent. rewrite Hblock in Hsilent.
    assert (Hcause :
      no_descriptors cds = true \/ no_descriptors dds = true ->
      (is_true true
       /\ (exists detail,
             remote_model_descriptors (m_oid m) CONTROL_CLASSES = Failure detail
             \/ remote_model_descriptors (m_oid m) DATATYPES = Failure detail))
      /\ error dm3 = true
      \/ is_true true
         /\ (empty_answer (remote_model_descriptors (m_oid m) CONTROL_CLASSES)
             \/ empty_answer (remote_model_descriptors (m_oid m) DATATYPES))).
    { intros [Hno|Hno].
      - destruct (Hc Hno) as [[[detail Hf] He]|Hempty].
        + left. split; [split; [done|]; exists detail; by left | auto].
        + right. split; [done | by left].
      - destruct (Hd Hno) as [[[detail Hf] He]|Hempty].
        + left. split; [split; [done|]; exists detail; by right | done].
        + right. split; [done | by right]. }
    unfold is_true in Hcause.
    destruct cds as [[|c cs]|], dds as [[|d ds]|]; try discriminate;
      intros [= <-];
      (split; [apply Hcause; cbn; auto
              |intros [Hrc Hrest]; apply Hsilent; split; [done|];
               intros _; by apply Hrest]).
Qed.

Lemma member_build_none fuel m dm dm' :
  member_build fuel m dm = Return (None, dm') ->
  ((read_failed m /\ error dm' = true) \/ read_empty m)
  /\ (reads_succeed m -> dm' = dm).
Proof. intros Hm%member_build_return. by eapply nc_object_factory_none. Qed.

Lemma build_members_total build ms children dm :
  (forall m dm0, m ∈ ms -> exists r dm1, build m dm0 = Return (r, dm1)) ->
  exists children' dm', build_members build ms children dm
                        = Return (children', dm').
Proof.
  revert children dm. induction ms as [|m ms IH]; intros children dm Hall;
    unfold build_members; fold build_members.
  - eauto.
  - destruct (Hall m dm) as (r & dm1 & Hm); [by left|].
    rewrite Hm. cbn [bind]. apply IH. intros m' dm0 Hin. apply Hall. by right.
Qed.

(** On a Node whose blocks nest to a finite depth and whose member
    descriptors are complete the build returns. *)
Lemma nc_object_factory_total rank fuel class_id oid role dm :
  finite_depth rank -> complete_answers -> (rank oid < fuel)%nat ->
  exists r dm', nc_object_factory fuel class_id oid role dm = Return (r, dm').
Proof.
  intros Hrank Hcomplete. revert class_id oid role dm.
  induction fuel as [|fuel IH]; intros class_id oid role dm Hfuel; [lia|].
  destruct (is_block_class class_id) eqn:Hblock.
  - rewrite nc_object_factory_block_eq by done.
    destruct (get_property PNone _ _ _ dm) as [rc dm1].
    destruct (remote_members oid) as [[[|m ms]|]|detail] eqn:Hms;
      cbn [get_property]; eauto.
    destruct (build_members_total (member_build fuel) (m :: ms) [] dm1)
      as (children & dm2 & Hb).
    + intros m' dm0 Hin.
      rewrite member_build_eq by (by eapply Hcomplete).
      apply IH. specialize (Hrank oid (m :: ms) m' Hms Hin). lia.
    + rewrite Hb. cbn. eauto.
  - cbn [nc_object_factory]. rewrite Hblock.
    destruct (get_property PNone _ _ _ dm) as [rc dm1].
    destruct (is_class_manager_class class_id); [|eauto].
    destruct (get_class_manager_descriptors oid CONTROL_CLASSES _ dm1)
      as [cds dm2].
    destruct (get_class_manager_descriptors oid DATATYPES _ dm2)
      as [dds dm3].
    destruct cds as [[|? ?]|], dds as [[|? ?]|]; eauto.
Qed.

Lemma builds_failed_child build (P Q : member_descriptor -> Prop)
    ms dm rs dm' i child :
  (forall m dm0 r dm1, build m dm0 = Return (r, dm1) ->
     error dm0 = true -> error dm1 = true) ->
  (forall m dm0 dm1, build m dm0 = Return (None, dm1) ->
     (Q m /\ error dm1 = true) \/ P m) ->
  builds build ms dm rs dm' ->
  ms !! i = Some child -> rs !! i = Some None ->
  (Q child /\ error dm' = true) \/ P child.
Proof.
  intros Hmono Hnone Hb. revert i.
  induction Hb as [|m ms dm r dm1 rs dm' Hm Hb IH]; intros i; [done|].
  destruct i as [|i]; cbn.
  - intros [= ->] [= ->].
    destruct (Hnone _ _ _ Hm) as [[HQ Herr]|?]; [|by right].
    left. split; [done|]. by eapply builds_error.
  - apply IH.
Qed.

(** C5, as the code has it, on a Node whose blocks nest to a finite depth.
    The build of a node of the block family yields no node when the read of
    the member list fails or answers with no data; a failed read sets the
    error flag of the device model metadata, and an empty answer after a
    read of the runtime constraints that did not fail leaves the metadata as
    they were.  When the read answers with members that are all complete
    (here: on a Node all of whose answers are), the build yields the block,
    every member is built in order from the metadata that the one before
    left, whatever the result of the others, and the child objects are the
    members that were built, in order.  A member whose build yields no
    object is left out for one of two reasons: a read that its build needs
    failed, and then the error flag is set; or the Node answered such a read
    with an empty value.  Whenever none of the reads for that member fails
    its build leaves the metadata as they were: the omission is on no
    record.  When a member descriptor lacks the class id, the oid or the
    role, or is no object, or its role is no string, the step for that
    member raises [KeyError] or [TypeError] and so does the whole build:
    the members after it are not built and no block is returned. *)
Theorem nc_object_factory_block rank fuel class_id oid role dm :
  finite_depth rank -> (rank oid < fuel)%nat ->
  is_block_class class_id = true ->
  (no_data (remote_members oid) ->
   exists dm',
     nc_object_factory fuel class_id oid role dm = Return (None, dm')
     /\ ((exists detail, remote_members oid = Failure detail) ->
         error dm' = true)
     /\ ((exists v, remote_get_property oid RUNTIME_PROPERTY_CONSTRAINTS
                    = Value v) ->
         empty_answer (remote_members oid) -> dm' = dm))
  /\ (forall m ms,
        complete_answers ->
        remote_members oid = Value (Some (m :: ms)) ->
        exists rc rs dm1 dm',
          nc_object_factory fuel class_id oid role dm
          = Return (Some (NcBlock class_id oid role (m :: ms) rc (omap id rs)),
                    dm')
          /\ builds (member_build (pred fuel)) (m :: ms) dm1 rs dm'
          /\ forall i child,
               (m :: ms) !! i = Some child -> rs !! i = Some None ->
               (read_failed child /\ error dm' = true) \/ read_empty child)
  /\ (forall child dm0 dm1,
        member_build (pred fuel) child dm0 = Return (None, dm1) ->
        reads_succeed child -> dm1 = dm0)
  /\ (forall pre m post e,
        remote_members oid = Value (Some (pre ++ m :: post)) ->
        (forall m' dm0, m' ∈ pre ->
           exists r dm1, member_build (pred fuel) m' dm0 = Return (r, dm1)) ->
        member_arguments m = Raise e ->
        (e = KeyError \/ e = TypeError)
        /\ nc_object_factory fuel class_id oid role dm = Raise e).
Proof.
  intros Hrank Hfuel Hblock.
  destruct fuel as [|fuel]; [lia|]. cbn [pred].
  rewrite nc_object_factory_block_eq by done.
  split; [|split; [|split]].
  - intros Hno. unfold empty_answer.
    destruct (remote_get_property oid RUNTIME_PROPERTY_CONSTRAINTS)
      as [rc|detail0]; cbn [get_property];
      (destruct (remote_members oid) as [[[|m ms]|]|detail];
       cbn [get_property]; [| done | |]);
      (eexists; split; [reflexivity|]; split;
       [intros [? ?]; by simplify_eq
       |intros [? ?] [?|?]; by simplify_eq]).
  - intros m ms Hcomplete Hms.
    destruct (get_property PNone _ _ _ dm) as [rc dm1].
    rewrite Hms. cbn [get_property].
    destruct (build_members_total (member_build fuel) (m :: ms) [] dm1)
      as (children & dm2 & Hb).
    { intros m' dm0 Hin.
      rewrite member_build_eq by (by eapply Hcomplete).
      apply (nc_object_factory_total rank); [done..|].
      specialize (Hrank oid (m :: ms) m' Hms Hin). lia. }
    rewrite Hb. cbn [bind].
    apply build_members_builds in Hb as (rs & Hb & ->).
    exists rc, rs, dm1, dm2. split; [done|]. split; [done|].
    intros i child Hi Hr.
    eapply builds_failed_child; [| |exact Hb|exact Hi|exact Hr].
    + intros ? ? ? ?. apply member_build_error.
    + intros ? ? ? Hnone. by apply member_build_none in Hnone as [? _].
  - intros child dm0 dm1 Hnone. by apply member_build_none in Hnone as [_ ?].
  - intros pre m post e Hms Hpre Hm.
    split; [by eapply member_arguments_raise|].
    destruct (get_property PNone _ _ _ dm) as [rc dm1].
    rewrite Hms. cbn [get_property].
    assert (Hraise : build_members (member_build fuel) (pre ++ m :: post) []
                       dm1 = Raise e).
    { apply build_members_raise; [done|]. intros dm0. unfold member_build.
      by rewrite Hm. }
    destruct (pre ++ m :: post) as [|m0 ms0] eqn:Hl;
      [by destruct pre|].
    by rewrite Hraise.
Qed.

End FactoryFacts.

Section PropertyFacts.
Context `{SchemaValidator} `{Rendering} `{IS12Utils} `{Device}.
Context (datatype_schemas : pydict).

Lemma truthy_false v : truthy v = false <-> falsy_value v.
Proof.
  unfold falsy_value. split.
  - destruct v as [|[]|n|s|[|x l]|[|kv d]|[m e|b]]; cbn; try discriminate;
      try tauto.
    + intros ->%negb_false_iff%Z.eqb_eq. tauto.
    + destruct s; [tauto | discriminate].
    + intros ->%negb_false_iff%Z.eqb_eq. right. right. right. left.
      by exists e.
  - intros [->|[->|[->|[[e ->]|[->|[->| ->]]]]]]; reflexivity.
Qed.

(** The step of the loop of [check_object_properties] for a property whose
    read answers with a falsy value, and for one whose read fails. *)
Lemma check_object_property_falsy oid context cp st v :
  remote_get_property oid (get cp "id") = Value v -> truthy v = false ->
  check_object_property datatype_schemas oid context (PDict cp) st = Return st.
Proof.
  intros Hread Hfalsy. unfold check_object_property.
  cbn [Constraints.dot_get bind]. rewrite Hread. cbn [get_property].
  rewrite Hfalsy. cbn [negb]. by destruct st.
Qed.

Lemma check_object_property_failed oid context cp st detail :
  remote_get_property oid (get cp "id") = Failure detail ->
  check_object_property datatype_schemas oid context (PDict cp) st
  = Return (failed_read context (get cp "id") detail st).
Proof.
  intros Hread. unfold check_object_property.
  cbn [Constraints.dot_get bind]. rewrite Hread. reflexivity.
Qed.

Lemma check_object_properties_eq d properties oid context st :
  dict_get d (KStr "properties") = Some (PList properties) ->
  check_object_properties datatype_schemas (PDict d) oid context st
  = for_each_st properties (check_object_property datatype_schemas oid context)
      st.
Proof.
  intros Hd. unfold check_object_properties, getitem_str, getitem.
  by rewrite Hd.
Qed.

(** C9: [check_object_properties] on a class descriptor, at a property whose
    read answers with a falsy value; the falsy values are [None], [False],
    [0], a float that is zero ([0.0]), [""], [[]] and [{}].  The call is
    the walk over the properties before that one followed by the walk over
    the properties after it, from the state that the first walk left: for
    the property itself nothing is validated, no sequence method is called,
    nothing is recorded and nothing is raised, whatever its descriptor says
    of its type, its nullability and its being a sequence.  When the read
    fails instead, the failure is recorded in the device model metadata
    between the two walks, and nothing else is done for the property. *)
Theorem check_object_properties_skips_falsy d before cp after oid context st :
  dict_get d (KStr "properties") = Some (PList (before ++ PDict cp :: after)) ->
  (forall v, truthy v = false <-> falsy_value v)
  /\ (forall v,
        remote_get_property oid (get cp "id") = Value v -> truthy v = false ->
        check_object_properties datatype_schemas (PDict d) oid context st
        = (st1 <- check_object_properties datatype_schemas
                    (class_of_properties before) oid context st ;;
           check_object_properties datatype_schemas
             (class_of_properties after) oid context st1))
  /\ (forall detail,
        remote_get_property oid (get cp "id") = Failure detail ->
        check_object_properties datatype_schemas (PDict d) oid context st
        = (st1 <- check_object_properties datatype_schemas
                    (class_of_properties before) oid context st ;;
           check_object_properties datatype_schemas
             (class_of_properties after) oid context
             (failed_read context (get cp "id") detail st1))).
Proof.
  intros Hd. split; [apply truthy_false|].
  rewrite (check_object_properties_eq _ _ _ _ _ Hd), for_each_st_app.
  unfold class_of_properties.
  rewrite (check_object_properties_eq _ before) by reflexivity.
  split.
  - intros v Hread Hfalsy.
    destruct (for_each_st before _ st) as [st1|e]; cbn [bind]; [|reflexivity].
    rewrite (check_object_properties_eq _ after) by reflexivity.
    cbn [for_each_st]. by rewrite (check_object_property_falsy _ _ _ _ v).
  - intros detail Hread.
    destruct (for_each_st before _ st) as [st1|e]; cbn [bind]; [|reflexivity].
    rewrite (check_object_properties_eq _ after) by reflexivity.
    cbn [for_each_st]. by rewrite (check_object_property_failed _ _ _ _ detail).
Qed.

End PropertyFacts.
#[local] Existing Instances accept_all example_rendering example_utils
  example_device.

(** The root block of the example Node as [nc_object_factory] builds it: the
    class manager and the block "channels"; the block "spare" is left
    out. *)
Lemma example_device_finite_depth : finite_depth example_rank.
Proof.
  intros oid ms m. cbn. unfold example_rank.
  destruct (oid =? 1) eqn:H1; [|destruct (oid =? 3) eqn:H3;
                                 [|destruct (oid =? 5); [|discriminate]]].
  - intros [= <-]. rewrite !elem_of_cons, elem_of_nil.
    intros [->|[->|[->|[]]]]; cbn; lia.
  - intros [= <-]. intros ->%list_elem_of_singleton. cbn. lia.
  - intros [= <-]. by intros ?%elem_of_nil.
Qed.

(** C5 as stated fails: the block "spare" of the example Node answers the
    read of its members with the empty list; its build yields no object, it
    is left out of the child objects of the root block, and the device model
    metadata records no error. *)
Lemma nc_object_factory_empty_block_unrecorded :
  remote_members 5 = Value (Some [])
  /\ nc_object_factory 2 [1; 1] 5 "spare" metadata_init
     = Return (None, metadata_init)
  /\ exists rc children,
       nc_object_factory 3 [1; 1] 1 "root" metadata_init
       = Return (Some (NcBlock [1; 1] 1 "root"
                         [class_manager_member; channels_member; spare_member]
                         rc children),
                 metadata_init)
       /\ nc_oid <$> children = [2; 3]
       /\ error metadata_init = false.
Proof.
  split; [reflexivity|]. split; [reflexivity|].
  eexists _, _. split; [by vm_compute|]. split; reflexivity.
Qed.

Lemma example_device_complete : complete_answers.
Proof.
  intros oid ms m. cbn.
  destruct (oid =? 1); [|destruct (oid =? 3); [|destruct (oid =? 5)]];
    intros [= <-]; rewrite ?elem_of_cons, elem_of_nil;
    intros Hm; repeat destruct Hm as [->|Hm]; try done;
    by repeat split.
Qed.

Lemma nc_object_factory_block_witness :
  nc_object_factory 2 [1; 1] 5 "spare" metadata_init
  = Return (None, metadata_init)
  /\ exists rc rs dm',
       nc_object_factory 3 [1; 1] 1 "root" metadata_init
       = Return (Some (NcBlock [1; 1] 1 "root"
                         [class_manager_member; channels_member; spare_member]
                         rc (omap id rs)),
                 dm')
       /\ length rs = 3%nat.
Proof.
  split.
  - destruct (nc_object_factory_block example_rank 2 [1; 1] 5 "spare"
                metadata_init example_device_finite_depth
                ltac:(cbn; lia) eq_refl) as (Hnone & _).
    destruct (Hnone I) as (dm' & Heq & _ & Hsame).
    rewrite Heq, Hsame; [reflexivity | by eexists | by right].
  - destruct (nc_object_factory_block example_rank 3 [1; 1] 1 "root"
                metadata_init example_device_finite_depth
                ltac:(cbn; lia) eq_refl) as (_ & Hdata & _).
    destruct (Hdata class_manager_member [channels_member; spare_member]
                example_device_complete eq_refl)
      as (rc & rs & dm1 & dm' & Heq & Hb & _).
    exists rc, rs, dm'. split; [exact Heq|].
    by apply builds_length in Hb.
Defined.

(** A property of a number that is not nullable and reads as [0.0] is
    skipped: the walk over the class that has this property alone returns
    the metadata as they were. *)
Lemma check_object_properties_skips_falsy_witness :
  @check_object_properties _ _ _ zero_device []
    (class_of_properties [PDict gain_property]) 1 "root: "
    property_metadata_init
  = Return property_metadata_init.
Proof.
  destruct (@check_object_properties_skips_falsy _ _ _ zero_device []
              [(KStr "properties", PList [PDict gain_property])]
              [] gain_property [] 1 "root: " property_metadata_init eq_refl)
    as (_ & Hfalsy & _).
  unfold class_of_properties.
  rewrite (Hfalsy (PFloat (Finite 0 0)) eq_refl eq_refl). reflexivity.
Defined.

(** C4, at a second manager in a nested block.  The example Node has a class
    manager in the root block and a second one, of the same class, in the
    block "channels".  The walk of its mirror by [check_block] returns; the
    second manager, whose owner is not the root block, sets
    [managers_members_root_block_error], but [managers_are_singletons_error]
    stays unset: the list of the managers seen is made anew for every
    block. *)
Theorem check_block_second_manager_in_nested_block :
  nc_object_factory 3 [1; 1] 1 "root" metadata_init
  = Return (Some example_device_model, metadata_init)
  /\ is_manager (m_classId class_manager_member) = true
  /\ is_manager (m_classId nested_manager_member) = true
  /\ get_base_class_id (m_classId class_manager_member)
     = get_base_class_id (m_classId nested_manager_member)
  /\ exists s,
       check_block example_schemas example_reference_classes
         example_device_model example_class_descriptors "" set_up_tests
       = Return s
       /\ managers_are_singletons_error s = false
       /\ managers_members_root_block_error s = true.
Proof.
  split; [by vm_compute|]. repeat (split; [reflexivity|]).
  eexists. split; [by vm_compute|]. split; reflexivity.
Qed.

End DeviceModelProofs.

(** ** Search parity by role path *)

Module QueryProofs.
Import DeviceModel Query QuerySpec PyFacts.

Section QueryFacts.
Context `{SchemaValidator} `{Rendering} `{IS12Utils} `{Device}.
Context (reference_datatype_schemas : pydict).

(** Induction over the mirror, with the child objects of a block. *)
Lemma nc_object_nested_ind (P : nc_object -> Prop) :
  (forall class_id oid role rc, P (NcObject class_id oid role rc)) ->
  (forall class_id oid role ms rc children,
     Forall P children -> P (NcBlock class_id oid role ms rc children)) ->
  (forall class_id oid role cds dds rc,
     P (NcClassManager class_id oid role cds dds rc)) ->
  forall o, P o.
Proof.
  intros Hobject Hblock Hmanager.
  fix IH 1. intros [class_id oid role rc|class_id oid role ms rc children|
                    class_id oid role cds dds rc].
  - apply Hobject.
  - apply Hblock. induction children as [|child children IHc];
      constructor; [apply IH | exact IHc].
  - apply Hmanager.
Qed.

Lemma _validate_schema_return payload schema context :
  _validate_schema payload schema context = Return tt
  <-> truthy schema = true /\ validate_schema payload schema = SchemaValid.
Proof.
  unfold _validate_schema. destruct (truthy schema); cbn.
  - destruct (validate_schema payload schema); split; try done;
      by intros [_ ?].
  - split; [done | by intros [? _]].
Qed.

Lemma member_oids_singleton m oids :
  member_oids [m] = Return oids
  <-> exists oid, getitem_str m "oid" = Return oid /\ oids = [oid].
Proof.
  cbn. destruct (getitem_str m "oid") as [oid|e]; cbn.
  - split; [intros [= <-]; eauto | intros (? & [= <-] & ->); done].
  - split; [done | by intros (? & ? & _)].
Qed.

(** One role path passes the check exactly when the Node and the mirror
    agree on it. *)
Lemma check_role_path_return block context role_path :
  check_role_path reference_datatype_schemas block context role_path
  = Return tt
  <-> path_agrees reference_datatype_schemas block role_path.
Proof.
  unfold check_role_path, path_agrees, member_schema_accepts.
  destruct (remote_find_members_by_path (nc_oid block) role_path)
    as [queried|detail]; [|split; [done | by intros (? & ? & ? & _ & ? & _)]].
  destruct queried as [| | | |members| |];
    try (split; [done | by intros (? & ? & ? & _ & ? & _)]).
  destruct members as [|m [|m' members]].
  - cbn. split; [done | by intros (? & ? & ? & _ & ? & _)].
  - cbn [for_each length Nat.eqb negb].
    unfold getitem.
    destruct (dict_get reference_datatype_schemas
                (KStr "NcBlockMemberDescriptor")) as [schema|] eqn:Hs;
      cbn [bind];
      [|split; [done | by intros (? & ? & ? & _ & _ & (? & ? & _) & _)]].
    destruct (_validate_schema m schema _) as [[]|e] eqn:Hv; cbn [bind].
    + apply _validate_schema_return in Hv as [Ht Hv].
      destruct (member_oids [m]) as [oids|e] eqn:Ho; cbn [bind].
      * apply member_oids_singleton in Ho as (oid & Hoid & ->).
        destruct (find_members_by_path block role_path) as [expected|];
          [|split; [done | by intros (? & ? & ? & ? & _)]].
        cbn [py_in existsb]. rewrite orb_false_r.
        destruct (py_eqb (PInt (nc_oid expected)) oid) eqn:Heq; cbn [negb].
        -- split; [|done]. intros _. exists expected, m, oid.
           repeat split; try done. by exists schema.
        -- split; [done|].
           intros (? & ? & ? & [= <-] & [= <-] & _ & Hoid' & Heq').
           congruence.
      * split; [done|].
        intros (? & ? & oid & _ & [= <-] & _ & Hoid & _).
        assert (member_oids [m] = Return [oid]) as Ho'
          by (apply member_oids_singleton; eauto).
        congruence.
    + split; [done|].
      intros (? & ? & ? & _ & [= <-] & (schema' & Hs' & Ht & Hv') & _).
      simplify_eq.
      assert (_validate_schema m schema'
                (context +:+ nc_role block +:+ ": NcBlockMemberDescriptor: ")
              = Return tt) as Hv'' by (by apply _validate_schema_return).
      congruence.
  - split; [|by intros (? & ? & ? & _ & ? & _)].
    cbn [length Nat.eqb negb].
    destruct (for_each _ _); cbn; discriminate.
Qed.

(** The equation of [do_find_member_by_path_test] on a block. *)
Lemma do_find_member_by_path_test_block class_id oid role ms rc children
    context :
  do_find_member_by_path_test reference_datatype_schemas
    (NcBlock class_id oid role ms rc children) context
  = (for_each children (fun child_object =>
       match child_object with
       | NcBlock _ _ _ _ _ _ =>
           do_find_member_by_path_test reference_datatype_schemas child_object
             (context +:+ role +:+ ": ")
       | _ => Return tt
       end) ;;;
     for_each (get_role_paths (NcBlock class_id oid role ms rc children))
       (check_role_path reference_datatype_schemas
          (NcBlock class_id oid role ms rc children) context)).
Proof.
  cbn [do_find_member_by_path_test]. f_equal.
  induction children as [|child children IH]; [reflexivity|].
  cbn [for_each]. by rewrite <- IH.
Qed.

Lemma bind_return_tt (m k : outcome unit) :
  (m ;;; k) = Return tt <-> m = Return tt /\ k = Return tt.
Proof.
  destruct m as [[]|e]; cbn; [|split; [done | by intros [? _]]].
  split; [done | by intros [_ ?]].
Qed.

Lemma do_find_member_by_path_test_blocks o context :
  is_Some (head (blocks_of o)) ->
  do_find_member_by_path_test reference_datatype_schemas o context = Return tt
  <-> forall block role_path,
        block ∈ blocks_of o -> role_path ∈ get_role_paths block ->
        path_agrees reference_datatype_schemas block role_path.
Proof.
  revert context.
  induction o as [|class_id oid role ms rc children IH|]
    using nc_object_nested_ind; intros context [b Hb]; try discriminate.
  clear b Hb.
  rewrite do_find_member_by_path_test_block, bind_return_tt.
  rewrite !for_each_return, !Forall_forall.
  set (o := NcBlock class_id oid role ms rc children).
  rewrite Forall_forall in IH. split.
  - intros [Hchildren Hpaths] block role_path Hblock Hpath.
    cbn [blocks_of] in Hblock. apply elem_of_cons in Hblock as [->|Hblock].
    + apply check_role_path_return with (context := context).
      by apply Hpaths.
    + apply list_elem_of_In, in_flat_map in Hblock as (child & Hchild & Hin).
      apply list_elem_of_In in Hchild, Hin.
      specialize (Hchildren child Hchild).
      destruct child as [|c' o' r' m' rc' ch'|]; try by apply elem_of_nil in Hin.
      eapply (IH _ Hchild); [by eexists|exact Hchildren|exact Hin|exact Hpath].
  - intros Hall. split.
    + intros child Hchild.
      destruct child as [|c' o' r' m' rc' ch'|]; try reflexivity.
      apply (IH _ Hchild); [by eexists|].
      intros block role_path Hblock Hpath. apply Hall; [|exact Hpath].
      cbn [blocks_of]. right. apply list_elem_of_In, in_flat_map.
      exists (NcBlock c' o' r' m' rc' ch').
      split; by apply list_elem_of_In.
    + intros role_path Hpath. apply check_role_path_return.
      apply Hall; [left | exact Hpath].
Qed.

(** C7: the check of a block of the mirror passes exactly when, for every
    block of the mirror from that block down and every role path that the
    block enumerates, the mirror resolves the path to a member and the Node
    answers the query for the path with a list of exactly one member
    descriptor, valid against the schema, whose oid equals the oid of that
    member.  So an answer that is no list, an answer of zero or of several
    items, or an answer without the oid of the local member, makes the check
    raise. *)
Theorem do_find_member_by_path_test_passes
    class_id oid role ms rc children context :
  do_find_member_by_path_test reference_datatype_schemas
    (NcBlock class_id oid role ms rc children) context = Return tt
  <-> forall block role_path,
        block ∈ blocks_of (NcBlock class_id oid role ms rc children) ->
        role_path ∈ get_role_paths block ->
        path_agrees reference_datatype_schemas block role_path.
Proof. apply do_find_member_by_path_test_blocks. by eexists. Qed.

End QueryFacts.
#[local] Existing Instances ConstraintsSpec.accept_all
  DeviceModelSpec.example_rendering DeviceModelSpec.example_utils gain_device.

(** On the Node with one object the check passes, and the Node and the
    mirror agree on the path to that object. *)
Lemma do_find_member_by_path_test_passes_witness :
  do_find_member_by_path_test DeviceModelSpec.example_schemas
    gain_device_model "" = Return tt
  /\ path_agrees DeviceModelSpec.example_schemas gain_device_model ["gain"].
Proof.
  assert (Hpass : do_find_member_by_path_test DeviceModelSpec.example_schemas
                    gain_device_model "" = Return tt) by reflexivity.
  split; [exact Hpass|].
  apply (proj1 (do_find_member_by_path_test_passes
                  DeviceModelSpec.example_schemas [1; 1] 1 "root"
                  [gain_member] PNone [NcObject [1; 2; 1] 2 "gain" PNone] "")
           Hpass gain_device_model ["gain"]).
  - left.
  - left.
Defined.

End QueryProofs.

(** ** Notifications *)

Module NotificationsProofs.
Import DeviceModel Notifications NotificationsSpec PyFacts.

Section NotificationFacts.
Context `{Rendering} `{IS12Utils} `{Device} `{Subscriptions}.

Lemma counts_of_keys ms c : (counts_of ms c).*1 = ms.
Proof.
  unfold counts_of. rewrite <- list_fmap_compose.
  induction ms as [|m ms IH]; cbn; [reflexivity | by rewrite IH].
Qed.

Lemma counts_of_ext ms c c' :
  (forall oid, oid ∈ ms -> c oid = c' oid) -> counts_of ms c = counts_of ms c'.
Proof.
  intros Hc. unfold counts_of. apply list_fmap_ext.
  intros i oid Hi. rewrite (Hc oid); [reflexivity|].
  by apply list_elem_of_lookup_2 in Hi.
Qed.

Lemma fromkeys_counts l ms :
  NoDup ms ->
  exists ms', fromkeys l (counts_of ms (fun _ => 0%nat))
              = counts_of ms' (fun _ => 0%nat)
    /\ NoDup ms' /\ (forall oid, oid ∈ ms' <-> oid ∈ ms \/ oid ∈ l).
Proof.
  revert ms. induction l as [|k l IH]; intros ms Hnd; cbn [fromkeys].
  - exists ms. split; [done|]. split; [done|].
    intros oid. rewrite elem_of_nil. tauto.
  - rewrite counts_of_keys. destruct (bool_decide (k ∈ ms)) eqn:Hk.
    + apply bool_decide_eq_true_1 in Hk.
      destruct (IH ms Hnd) as (ms' & Heq & Hnd' & Hin).
      exists ms'. split; [done|]. split; [done|].
      intros oid. rewrite Hin, elem_of_cons. naive_solver.
    + apply bool_decide_eq_false_1 in Hk.
      assert (Hnd1 : NoDup (ms ++ [k])).
      { apply NoDup_app. repeat split; [done| |apply NoDup_singleton].
        intros x Hx Hx'%list_elem_of_singleton. by subst. }
      destruct (IH (ms ++ [k]) Hnd1) as (ms' & Heq & Hnd' & Hin).
      exists ms'. split; [|split; [done|]].
      * rewrite <- Heq. f_equal. unfold counts_of. by rewrite fmap_app.
      * intros oid. rewrite Hin, elem_of_app, list_elem_of_singleton,
          elem_of_cons. tauto.
Qed.

Lemma increment_counts ms c oid :
  NoDup ms -> oid ∈ ms ->
  increment (counts_of ms c) oid
  = counts_of ms (fun k => if bool_decide (k = oid) then S (c k) else c k).
Proof.
  induction ms as [|m ms IH]; [by intros _ ?%elem_of_nil|].
  rewrite NoDup_cons. intros [Hnotin Hnd] Hin. cbn.
  destruct (bool_decide (m = oid)) eqn:Hm.
  - apply bool_decide_eq_true_1 in Hm. subst m. f_equal.
    apply counts_of_ext. intros k Hk.
    rewrite bool_decide_eq_false_2; [done|]. by intros ->.
  - apply bool_decide_eq_false_1 in Hm. f_equal.
    apply IH; [done|]. apply elem_of_cons in Hin as [?|?]; [congruence|done].
Qed.

Lemma report_state ms c e st text :
  probe_state_is ms c e st -> probe_state_is ms c true (report st text).
Proof. intros [Ho _]. by split. Qed.

Lemma getitem_str_field v name x :
  getitem_str v name = Return x -> field v name = x.
Proof.
  destruct v; try discriminate. cbn. unfold getitem, get.
  destruct (dict_get d (KStr name)); [|discriminate]. by intros [= ->].
Qed.

Lemma check_notification_state ms c e st oid label context n :
  NoDup ms -> oid ∈ ms ->
  readable oid n ->
  probe_state_is ms c e st ->
  exists st',
    check_notification oid label context n st = Return st'
    /\ probe_state_is ms
         (fun k => if bool_decide (k = oid) && matching oid n
                   then S (c k) else c k)
         (e || reported oid label n) st'.
Proof.
  intros Hnd Hin (notification_oid & Hoid & Hreads) Hst.
  unfold check_notification, matching, reported, deviates, event_data.
  rewrite Hoid, (getitem_str_field _ _ _ Hoid). cbn [bind].
  destruct (py_eqb notification_oid (PInt oid)) eqn:Hmatch; cbn [andb];
    [|exists st; split; [done|]; rewrite orb_false_r;
      destruct Hst as [Ho He]; split; [|done];
      rewrite Ho; apply counts_of_ext; intros k _;
      by rewrite andb_false_r].
  destruct (Hreads eq_refl)
    as (eventId & eventData & propertyId & HeventId & HeventData & HpropertyId
        & Hlabel).
  rewrite (getitem_str_field _ _ _ HeventId),
    (getitem_str_field _ _ _ HeventData),
    (getitem_str_field _ _ _ HpropertyId).
  rewrite HeventId. cbn [bind]. rewrite HeventData. cbn [bind].
  rewrite HpropertyId. cbn [bind].
  set (st1 := if py_neb eventId PROPERTY_CHANGED then _ else st).
  assert (Hst1 : probe_state_is ms c (e || py_neb eventId PROPERTY_CHANGED) st1).
  { subst st1. destruct (py_neb eventId PROPERTY_CHANGED).
    - rewrite orb_true_r. by eapply report_state.
    - by rewrite orb_false_r. }
  clearbody st1. unfold py_neb at 1.
  destruct (py_eqb propertyId USER_LABEL) eqn:Hpid; cbn [negb andb].
  2:{ exists st1. split; [done|]. rewrite orb_false_r.
      destruct Hst1 as [Ho He]. split; [|done].
      rewrite Ho. apply counts_of_ext. intros k _.
      by rewrite andb_false_r. }
  destruct (Hlabel eq_refl)
    as (changeType & value & index & HchangeType & Hvalue & Hindex & Hname).
  rewrite (getitem_str_field _ _ _ HchangeType),
    (getitem_str_field _ _ _ Hvalue), (getitem_str_field _ _ _ Hindex).
  rewrite HchangeType. cbn [bind].
  set (m2 := if py_neb changeType (PInt ValueChanged) then _ else Return st1).
  assert (Hm2 : exists st2, m2 = Return st2
            /\ probe_state_is ms c
                 (e || py_neb eventId PROPERTY_CHANGED
                  || py_neb changeType (PInt ValueChanged)) st2).
  { subst m2. unfold py_neb at 1 3.
    destruct (py_eqb changeType (PInt ValueChanged)) eqn:Htype; cbn [negb].
    - exists st1. by rewrite orb_false_r.
    - destruct (Hname eq_refl) as [name ->]. eexists. split; [done|].
      rewrite orb_true_r. by eapply report_state. }
  destruct Hm2 as (st2 & -> & Hst2). cbn [bind].
  rewrite Hvalue. cbn [bind]. rewrite Hindex. cbn [bind].
  set (st3 := if py_neb value label then _ else st2).
  assert (Hst3 : probe_state_is ms c
                   (e || py_neb eventId PROPERTY_CHANGED
                    || py_neb changeType (PInt ValueChanged)
                    || py_neb value label) st3).
  { subst st3. destruct (py_neb value label).
    - rewrite orb_true_r. by eapply report_state.
    - by rewrite orb_false_r. }
  clearbody st3.
  set (st4 := match index with PNone => st3 | _ => _ end).
  assert (Hst4 : probe_state_is ms c
                   (e || py_neb eventId PROPERTY_CHANGED
                    || py_neb changeType (PInt ValueChanged)
                    || py_neb value label
                    || match index with
                       | PNone => false
                       | _ => true
                       end) st4).
  { subst st4. destruct index;
      first [by rewrite orb_false_r
            | rewrite orb_true_r; by eapply report_state]. }
  clearbody st4. destruct Hst4 as [Ho He].
  eexists. split; [reflexivity|]. split; cbn.
  - rewrite Ho, increment_counts by done. apply counts_of_ext.
    intros k _. by rewrite andb_true_r.
  - rewrite He.
    destruct e, (py_neb eventId PROPERTY_CHANGED),
      (py_neb changeType (PInt ValueChanged)), (py_neb value label),
      index; reflexivity.
Qed.

(** A notification of the probed oid for the user label property whose
    change type is the value of no member of the enumeration, and one whose
    event data have no key [sequenceItemIndex]. *)
Lemma check_notification_raises oid label context n st eventId eventData
    propertyId changeType :
  getitem_str n "oid" = Return (PInt oid) ->
  getitem_str n "eventId" = Return eventId ->
  getitem_str n "eventData" = Return (PDict eventData) ->
  dict_get eventData (KStr "propertyId") = Some propertyId ->
  py_eqb propertyId USER_LABEL = true ->
  dict_get eventData (KStr "changeType") = Some changeType ->
  (py_eqb changeType (PInt ValueChanged) = false ->
   change_type_name changeType = None ->
   check_notification oid label context n st = Raise ValueError)
  /\ (py_eqb changeType (PInt ValueChanged) = true ->
      is_Some (dict_get eventData (KStr "value")) ->
      dict_get eventData (KStr "sequenceItemIndex") = None ->
      check_notification oid label context n st = Raise KeyError).
Proof.
  intros Hoid HeventId HeventData HpropertyId Hpid HchangeType.
  unfold check_notification. rewrite Hoid. cbn [bind py_eqb].
  rewrite Z.eqb_refl, HeventId. cbn [bind]. rewrite HeventData.
  cbn [bind getitem_str]. unfold getitem.
  rewrite HpropertyId. cbn [bind]. unfold py_neb. rewrite Hpid, HchangeType.
  cbn [negb bind]. split.
  - intros -> ->. reflexivity.
  - intros -> [value ->] ->. reflexivity.
Qed.

Lemma probe_state_is_ext ms c c' e st :
  (forall k, c k = c' k) -> probe_state_is ms c e st ->
  probe_state_is ms c' e st.
Proof.
  intros Hc [Ho He]. split; [|done]. rewrite Ho.
  apply counts_of_ext. intros k _. apply Hc.
Qed.

Lemma notifications_state ms c e st oid label context ns :
  NoDup ms -> oid ∈ ms ->
  (forall n, n ∈ ns -> readable oid n) ->
  probe_state_is ms c e st ->
  exists st',
    for_each_st ns (check_notification oid label context) st = Return st'
    /\ probe_state_is ms
         (fun k => if bool_decide (k = oid)
                   then (c k + length (List.filter (matching oid) ns))%nat
                   else c k)
         (e || existsb (reported oid label) ns) st'.
Proof.
  intros Hnd Hin. revert c e st.
  induction ns as [|n ns IH]; intros c e st Hnames Hst; cbn [for_each_st].
  - exists st. split; [done|]. cbn. rewrite orb_false_r.
    eapply probe_state_is_ext; [|exact Hst].
    intros k. destruct (bool_decide (k = oid)); lia.
  - destruct (check_notification_state ms c e st oid label context n Hnd Hin)
      as (st1 & -> & Hst1); [apply Hnames; left | done |].
    cbn [bind].
    destruct (IH _ _ st1 (fun n' Hn' => Hnames n' (list_elem_of_further _ _ _ Hn'))
                Hst1) as (st2 & -> & Hst2).
    exists st2. split; [done|]. cbn [existsb List.filter].
    rewrite orb_assoc.
    eapply probe_state_is_ext; [|exact Hst2].
    intros k. cbn beta. destruct (bool_decide (k = oid)); cbn [andb]; [|done].
    destruct (matching oid n); cbn [length]; lia.
Qed.

Lemma probe_oid_state ms c e st oid old :
  NoDup ms -> oid ∈ ms ->
  remote_get_property oid USER_LABEL = Value (old oid) ->
  (forall label, exists u, set_property oid USER_LABEL label = Value u) ->
  (forall restore n, n ∈ logged_notifications oid restore ->
     readable oid n) ->
  probe_state_is ms c e st ->
  exists st',
    probe_oid oid st = Return st'
    /\ probe_state_is ms
         (fun k => if bool_decide (k = oid)
                   then (c k + matching_count oid)%nat else c k)
         (e || any_reported old oid) st'.
Proof.
  intros Hnd Hin Hget Hset Hnames Hst. unfold probe_oid, probe_label.
  rewrite Hget.
  destruct (Hset (PStr ("NMOS Testing Tool " +:+ pretty oid))) as [u ->].
  destruct (notifications_state ms c e st oid
              (PStr ("NMOS Testing Tool " +:+ pretty oid))
              ("oid: " +:+ pretty oid +:+ ", ")
              (logged_notifications oid false) Hnd Hin (Hnames false) Hst)
    as (st1 & -> & Hst1).
  cbn [bind]. destruct (Hset (old oid)) as [u' ->].
  destruct (notifications_state ms _ _ st1 oid (old oid)
              ("oid: " +:+ pretty oid +:+ ", ")
              (logged_notifications oid true) Hnd Hin (Hnames true) Hst1)
    as (st2 & -> & Hst2).
  exists st2. split; [done|].
  unfold any_reported, written. rewrite orb_assoc.
  eapply probe_state_is_ext; [|exact Hst2].
  intros k. cbn beta. destruct (bool_decide (k = oid)); [|done].
  unfold matching_count, received.
  rewrite List.filter_app, length_app. lia.
Qed.

Lemma probe_oids_state ms c e st l old :
  NoDup ms -> NoDup l -> l ⊆ ms ->
  (forall oid, oid ∈ l ->
     remote_get_property oid USER_LABEL = Value (old oid)
     /\ (forall label, exists u, set_property oid USER_LABEL label = Value u)
     /\ (forall restore n, n ∈ logged_notifications oid restore ->
           readable oid n)) ->
  probe_state_is ms c e st ->
  exists st',
    for_each_st l probe_oid st = Return st'
    /\ probe_state_is ms
         (fun k => if bool_decide (k ∈ l)
                   then (c k + matching_count k)%nat else c k)
         (e || existsb (any_reported old) l) st'.
Proof.
  intros Hnd. revert c e st.
  induction l as [|oid l IH]; intros c e st Hndl Hsub Hok Hst;
    cbn [for_each_st].
  - exists st. split; [done|]. cbn. rewrite orb_false_r.
    eapply probe_state_is_ext; [|exact Hst].
    intros k. by rewrite bool_decide_eq_false_2 by apply not_elem_of_nil.
  - apply NoDup_cons in Hndl as [Hnotin Hndl].
    destruct (Hok oid) as (Hget & Hset & Hnames); [left|].
    destruct (probe_oid_state ms c e st oid old Hnd) as (st1 & -> & Hst1);
      [apply Hsub; left | done..|].
    cbn [bind].
    assert (Hsub' : l ⊆ ms) by (intros k Hk; apply Hsub; by right).
    assert (Hok' := fun k (Hk : k ∈ l) => Hok k (list_elem_of_further _ _ _ Hk)).
    destruct (IH _ _ st1 Hndl Hsub' Hok' Hst1) as (st2 & -> & Hst2).
    exists st2. split; [done|]. cbn [existsb]. rewrite orb_assoc.
    eapply probe_state_is_ext; [|exact Hst2].
    intros k. cbn beta.
    destruct (decide (k = oid)) as [->|Hne].
    + rewrite (bool_decide_eq_true_2 (oid = oid)) by done.
      rewrite (bool_decide_eq_false_2 (oid ∈ l)) by done.
      rewrite (bool_decide_eq_true_2 (oid ∈ oid :: l)) by left. done.
    + rewrite (bool_decide_eq_false_2 (k = oid)) by done.
      destruct (bool_decide (k ∈ l)) eqn:Hk.
      * apply bool_decide_eq_true_1 in Hk.
        by rewrite (bool_decide_eq_true_2 (k ∈ oid :: l)) by by right.
      * apply bool_decide_eq_false_1 in Hk.
        rewrite (bool_decide_eq_false_2 (k ∈ oid :: l)); [done|].
        rewrite elem_of_cons. tauto.
Qed.

(** The counts at the end and the verdict. *)
Lemma all_two_counts ms c :
  forallb (fun kv : Z * nat => (kv.2 =? 2)%nat) (counts_of ms c) = true
  <-> filter (fun oid => c oid <> 2%nat) ms = [].
Proof.
  induction ms as [|m ms IH]; [done|].
  unfold counts_of in *. rewrite fmap_cons. cbn [forallb snd].
  rewrite filter_cons, andb_true_iff, IH, Nat.eqb_eq.
  destruct (decide (c m <> 2%nat)) as [Hne|Heq].
  - split; [by intros [? _] | done].
  - apply dec_stable in Heq. tauto.
Qed.

Lemma unnotified_counts ms c :
  unnotified (counts_of ms c)
  = merge_sort Z.le (filter (fun oid => c oid <> 2%nat) ms).
Proof.
  unfold unnotified. f_equal.
  induction ms as [|m ms IH]; [reflexivity|].
  unfold counts_of in *. rewrite fmap_cons, !filter_cons. cbn [snd].
  destruct (decide (c m <> 2%nat)); [rewrite fmap_cons|]; by rewrite IH.
Qed.

Lemma monitored_counts device_model :
  fromkeys
    (ROOT_BLOCK_OID
     :: (nc_oid <$> find_members_by_class_id device_model NCOBJECT true true))
    []
  = counts_of (monitored device_model) (fun _ => 0%nat)
  /\ NoDup (monitored device_model)
  /\ ROOT_BLOCK_OID ∈ monitored device_model.
Proof.
  unfold monitored.
  destruct (fromkeys_counts
              (ROOT_BLOCK_OID
               :: (nc_oid <$> find_members_by_class_id device_model NCOBJECT
                                true true)) [] (NoDup_nil_2))
    as (ms & Heq & Hnd & Hin).
  change (counts_of [] (fun _ => 0%nat)) with ([] : list (Z * nat)) in Heq.
  rewrite Heq, counts_of_keys. split; [done|]. split; [done|].
  apply Hin. right. left.
Qed.

(** A notification for which the step of the loop raises makes the test
    raise. *)
Lemma test_32_raises device_model oid restore n :
  oid ∈ monitored device_model ->
  n ∈ logged_notifications oid restore ->
  (forall label context st,
     exists e, check_notification oid label context n st = Raise e) ->
  exists e, test_32 device_model = Raise e.
Proof.
  intros Hoid Hn Hraise. unfold test_32. cbn zeta.
  destruct (update_subscritions _); [|by eexists].
  assert (Hlabel : forall r label context st,
            r = restore ->
            exists e, probe_label oid context label r st = Raise e).
  { intros r label context st ->. unfold probe_label.
    destruct (set_property oid USER_LABEL label); [|by eexists].
    by apply (for_each_st_raises _ _ n). }
  assert (Hprobe : forall st, exists e, probe_oid oid st = Raise e).
  { intros st. unfold probe_oid.
    destruct (remote_get_property oid USER_LABEL) as [old_label|];
      [|by eexists].
    destruct restore.
    - destruct (probe_label oid _ _ false st) as [st1|] eqn:Hfirst;
        cbn [bind]; [by apply Hlabel | by eexists].
    - destruct (Hlabel false (PStr ("NMOS Testing Tool " +:+ pretty oid))
                  ("oid: " +:+ pretty oid +:+ ", ") st eq_refl) as [e ->].
      by eexists. }
  destruct (for_each_st_raises _ probe_oid oid Hoid Hprobe
              {| error_flag := false; error_message := "";
                 oids := fromkeys
                           (ROOT_BLOCK_OID
                            :: (nc_oid <$> find_members_by_class_id
                                             device_model NCOBJECT true true))
                           [] |}) as [e He].
  unfold monitored in He. rewrite He. by eexists.
Qed.

(** C6, as the code has it.  When the subscription, the reads and the
    writes of the probe succeed and every notification logged carries what
    [test_32] reads in it, the test returns a verdict that depends on the
    counts of the matching notifications and on the notifications reported.
    A matching notification is one of the probed oid for the user label
    property; the count of an oid is taken over its two writes together.
    When some monitored oid has a count other than 2, the verdict is a
    failure whose message ends with the sorted list of exactly those oids;
    when every count is 2, the verdict is a failure if some notification is
    reported, a pass otherwise.  A matching notification whose change type
    is not the value-changed type, whose value is not the value of the write
    after which it was logged or whose sequence item index is not null is
    reported, so it always makes the verdict a failure.  A matching
    notification whose change type is the value of no member of the
    enumeration is not reported: the step of the loop for it raises
    [ValueError]; and one whose event data have no key [sequenceItemIndex]
    raises [KeyError].  A notification of a monitored oid for which the
    step of the loop raises leaves the test without a verdict: the test
    raises. *)
Theorem test_32_verdict device_model old :
  (probes_succeed device_model old ->
   (exists field_errors,
      test_32 device_model
      = Return
          (if decide (filter (fun oid => matching_count oid <> 2%nat)
                        (monitored device_model) = [])
           then if existsb (any_reported old) (monitored device_model)
                then FAIL field_errors else PASS
           else FAIL (field_errors
                      +:+ "Notifications not received for Oids "
                      +:+ py_str
                            (PList
                               (PInt <$>
                                merge_sort Z.le
                                  (filter (fun oid => matching_count oid <> 2%nat)
                                     (monitored device_model)))))))
   /\ (forall oid restore n,
         oid ∈ monitored device_model ->
         n ∈ logged_notifications oid restore ->
         matching oid n = true ->
         deviates (written old oid restore) n = true ->
         exists message, test_32 device_model = Return (FAIL message)))
  /\ (forall oid label context n st eventId eventData propertyId changeType,
        getitem_str n "oid" = Return (PInt oid) ->
        getitem_str n "eventId" = Return eventId ->
        getitem_str n "eventData" = Return (PDict eventData) ->
        dict_get eventData (KStr "propertyId") = Some propertyId ->
        py_eqb propertyId USER_LABEL = true ->
        dict_get eventData (KStr "changeType") = Some changeType ->
        (py_eqb changeType (PInt ValueChanged) = false ->
         change_type_name changeType = None ->
         check_notification oid label context n st = Raise ValueError)
        /\ (py_eqb changeType (PInt ValueChanged) = true ->
            is_Some (dict_get eventData (KStr "value")) ->
            dict_get eventData (KStr "sequenceItemIndex") = None ->
            check_notification oid label context n st = Raise KeyError))
  /\ (forall oid restore n,
        oid ∈ monitored device_model ->
        n ∈ logged_notifications oid restore ->
        (forall label context st,
           exists e, check_notification oid label context n st = Raise e) ->
        exists e, test_32 device_model = Raise e).
Proof.
  split; [|split; [intros; by eapply check_notification_raises
                  |apply test_32_raises]].
  intros [[u Hsub] Hok].
  destruct (monitored_counts device_model) as (Hkeys & Hnd & Hroot).
  assert (Hmain : exists field_errors,
     test_32 device_model
     = Return
         (if decide (filter (fun oid => matching_count oid <> 2%nat)
                       (monitored device_model) = [])
          then if existsb (any_reported old) (monitored device_model)
               then FAIL field_errors else PASS
          else FAIL (field_errors
                     +:+ "Notifications not received for Oids "
                     +:+ py_str
                           (PList
                              (PInt <$>
                               merge_sort Z.le
                                 (filter (fun oid => matching_count oid <> 2%nat)
                                    (monitored device_model))))))).
  { unfold test_32. cbn zeta. rewrite Hkeys, counts_of_keys, Hsub.
    destruct (probe_oids_state (monitored device_model) (fun _ => 0%nat) false
                {| error_flag := false; error_message := "";
                   oids := counts_of (monitored device_model) (fun _ => 0%nat) |}
                (monitored device_model) old Hnd Hnd) as (st & -> & Ho & He);
      [done | exact Hok | by split |].
    cbn [bind orb] in *. exists (error_message st). f_equal.
    assert (Hcounts : oids st = counts_of (monitored device_model)
                                  matching_count).
    { rewrite Ho. apply counts_of_ext. intros k Hk.
      by rewrite bool_decide_eq_true_2. }
    unfold verdict. rewrite Hcounts, unnotified_counts.
    destruct (decide (filter (fun oid => matching_count oid <> 2%nat)
                        (monitored device_model) = [])) as [Hbad|Hbad].
    - rewrite (proj2 (all_two_counts _ _) Hbad). cbn [negb].
      assert (Hany : existsb (fun kv : Z * nat => (kv.2 =? 2)%nat)
                       (counts_of (monitored device_model) matching_count)
                     = true).
      { pose proof (proj2 (all_two_counts _ _) Hbad) as Hall.
        destruct (monitored device_model) as [|m ms];
          [by apply elem_of_nil in Hroot|].
        unfold counts_of in *. rewrite fmap_cons in *.
        cbn [forallb existsb] in *.
        apply andb_true_iff in Hall as [-> _]. reflexivity. }
      rewrite Hany. cbn [negb]. by rewrite He.
    - destruct (forallb _ _) eqn:Hall;
        [by apply all_two_counts in Hall|].
      reflexivity. }
  split; [exact Hmain|].
  intros oid restore n Hoid Hn Hmatch Hdev.
  destruct Hmain as [field_errors ->].
  destruct (decide _); [|eauto].
  assert (Hrep : existsb (any_reported old) (monitored device_model) = true).
  { apply existsb_exists. exists oid. split; [by apply list_elem_of_In|].
    unfold any_reported. apply orb_true_iff.
    assert (Hr : reported oid (written old oid restore) n = true).
    { unfold reported, matching in *.
      apply andb_true_iff in Hmatch as [-> ->]. cbn [andb].
      by rewrite Hdev, orb_true_r. }
    destruct restore; [right | left]; apply existsb_exists; exists n;
      (split; [by apply list_elem_of_In | exact Hr]). }
  rewrite Hrep. eauto.
Qed.

End NotificationFacts.
#[local] Existing Instances DeviceModelSpec.example_rendering
  DeviceModelSpec.example_utils QuerySpec.gain_device.

Lemma faithful_readable logged oid restore n :
  (forall oid restore,
     Forall (fun n => exists value, n = value_changed oid value)
       (logged oid restore)) ->
  n ∈ @logged_notifications (subscriptions logged) oid restore ->
  @readable _ (subscriptions logged) oid n.
Proof.
  intros Hlogged Hn. specialize (Hlogged oid restore).
  rewrite Forall_forall in Hlogged. destruct (Hlogged n Hn) as [value ->].
  eexists. split; [reflexivity|]. intros _.
  eexists _, _, _. repeat (split; [reflexivity|]). intros _.
  eexists _, _, _. repeat (split; [reflexivity|]). discriminate.
Qed.

(** On the Node with one object: with one notification of the written value
    after every write the verdict is a pass. *)
Lemma test_32_verdict_witness :
  @test_32 _ _ _ faithful_subscriptions QuerySpec.gain_device_model
  = Return PASS.
Proof.
  destruct (@test_32_verdict _ _ _ faithful_subscriptions
              QuerySpec.gain_device_model (fun _ => PNone))
    as [Hverdict _].
  destruct Hverdict as [[field_errors Heq] _].
  - split; [by exists tt|]. intros oid _. split; [reflexivity|].
    split; [intros label; by exists tt|].
    intros restore n. apply faithful_readable.
    intros oid' restore'. apply Forall_singleton. by eexists.
  - rewrite Heq. reflexivity.
Defined.

(** C6 as stated fails.  The claim asks that each of the two writes be
    followed by a matching notification: the Node that sends two
    notifications of the new value after the first write to an object and
    none after the second passes the test.  The claim has a deviating change
    type reported: a change type that is the value of no member of the
    enumeration makes the test raise [ValueError].  The claim asks for an
    absent sequence item index: a notification without that key makes the
    test raise [KeyError]; what passes is the key with the value null. *)
Lemma test_32_counts_over_both_writes :
  @logged_notifications doubling_subscriptions 2 true = []
  /\ @test_32 _ _ _ doubling_subscriptions QuerySpec.gain_device_model
     = Return PASS
  /\ @test_32 _ _ _ silent_subscriptions QuerySpec.gain_device_model
     = Return (FAIL "Notifications not received for Oids [2]")
  /\ @test_32 _ _ _ stray_type_subscriptions QuerySpec.gain_device_model
     = Raise ValueError
  /\ @test_32 _ _ _ no_index_subscriptions QuerySpec.gain_device_model
     = Raise KeyError.
Proof. repeat split; reflexivity. Qed.

End NotificationsProofs.
(** ** More on [validate_descriptor] *)

Module DescriptorReport.
Import Descriptor DescriptorSpec DescriptorReportSpec PyFacts DescriptorProofs.

Lemma string_app_assoc (a b c : string) : (a +:+ b) +:+ c = a +:+ (b +:+ c).
Proof.
  induction a as [|x a IH]; [reflexivity|].
  change (String x ((a +:+ b) +:+ c) = String x (a +:+ (b +:+ c))).
  by f_equal.
Qed.

Lemma string_app_empty_r (a : string) : a +:+ "" = a.
Proof.
  induction a as [|x a IH]; [reflexivity|].
  change (String x (a +:+ "") = String x a). by f_equal.
Qed.

Lemma getitem_raise d k e : getitem d k = Raise e -> e = KeyError.
Proof. unfold getitem. destruct (dict_get d k); congruence. Qed.

Lemma py_iter_raise v e : py_iter v = Raise e -> e = TypeError.
Proof. destruct v; cbn; congruence. Qed.

Lemma named_dict_from_raise items acc e :
  named_dict_from items acc = Raise e -> e = TypeError \/ e = KeyError.
Proof.
  revert acc. induction items as [|item items IH]; intros acc; cbn;
    [discriminate|].
  unfold item_name, getitem_str.
  destruct item as [| | | | |d|]; cbn [bind]; try (intros [= <-]; by left).
  destruct (getitem d (KStr "name")) as [name|e'] eqn:Hname; cbn [bind].
  - destruct name; cbn [hash_key bind]; try apply IH; intros [= <-]; by left.
  - apply getitem_raise in Hname as ->. intros [= <-]. by right.
Qed.

Section DescriptorReportFacts.
Context `{SetOrder}.

Lemma arrow_path_step context key path :
  (context +:+ key +:+ "->") +:+ arrow_path path
  = context +:+ arrow_path (key :: path).
Proof. cbn [arrow_path]. by rewrite !string_app_assoc. Qed.

Lemma validate_descriptor_failure_path_fuel n reference descriptor context detail :
  (depth reference <= n)%nat ->
  validate_descriptor reference descriptor context
  = Raise (NMOSTestException detail) ->
  exists path reference' descriptor',
    reaches reference descriptor path reference' descriptor'
    /\ fails_at (context +:+ arrow_path path) reference' descriptor' detail.
Proof.
  revert reference descriptor context detail.
  induction n as [|n IH]; intros reference descriptor context detail Hn.
  { pose proof (depth_pos reference). lia. }
  assert (Hhere : fails_at context reference descriptor detail ->
            exists path reference' descriptor',
              reaches reference descriptor path reference' descriptor'
              /\ fails_at (context +:+ arrow_path path) reference' descriptor'
                   detail).
  { intros Hfails. exists [], reference, descriptor.
    split; [constructor|]. cbn [arrow_path].
    by rewrite string_app_empty_r. }
  destruct reference as [|b|z|s|l|r|f].
  1-4, 7: unfold validate_descriptor; cbn [depth validate_descriptor_rec];
       unfold py_neb; destruct (py_eqb _ _) eqn:Heq; [discriminate|];
       intros [= <-]; apply Hhere; by constructor.
  - rewrite validate_descriptor_list_eq.
    destruct (first_is_dict l) eqn:Hfirst.
    + destruct (named_dict l) as [refs|e] eqn:Hrefs; cbn [bind];
        [|by destruct (named_dict_from_raise _ _ _ Hrefs) as [-> | ->]].
      destruct (py_iter descriptor) as [items|e] eqn:Hitems; cbn [bind];
        [|by rewrite (py_iter_raise _ _ Hitems)].
      destruct (named_dict items) as [descs|e] eqn:Hdescs; cbn [bind];
        [|by destruct (named_dict_from_raise _ _ _ Hdescs) as [-> | ->]].
      intros Hfail. apply IH in Hfail as (path & r' & d' & Hreach & Hfails).
      * exists path, r', d'. split; [by econstructor | done].
      * pose proof (named_dict_depth _ _ Hrefs). lia.
    + unfold py_neb. destruct (py_eqb _ _) eqn:Heq; [discriminate|].
      intros [= <-]. apply Hhere. by constructor.
  - destruct descriptor as [| | | | |d|];
      try (unfold validate_descriptor; cbn [depth validate_descriptor_rec];
           discriminate).
    rewrite validate_descriptor_dict_eq.
    destruct (bool_decide (0 < _)%nat) eqn:Hdiff.
    { apply bool_decide_eq_true_1, key_difference_empty in Hdiff.
      intros [= <-]. apply Hhere. by constructor. }
    apply bool_decide_eq_false_1 in Hdiff.
    rewrite key_difference_empty in Hdiff. apply dec_stable in Hdiff.
    intros (l1 & key & l2 & _ & _ & Hkey)%for_each_raise.
    unfold compare_key in Hkey.
    destruct (getitem r key) as [reference_key|e] eqn:Hr; cbn [bind] in Hkey;
      [|by rewrite (getitem_raise _ _ _ Hr) in Hkey].
    destruct (bool_decide (key = KStr "description")
              && negb (is_dict reference_key)) eqn:Hdescription;
      [discriminate|].
    destruct (bool_decide (key = KStr "classId") && is_list reference_key)
      eqn:HclassId.
    + destruct (getitem d key) as [descriptor_key|e] eqn:Hd;
        cbn [bind] in Hkey; [|by rewrite (getitem_raise _ _ _ Hd) in Hkey].
      unfold py_neb in Hkey.
      destruct (py_eqb _ _) eqn:Heq; [discriminate|].
      injection Hkey as <-.
      apply andb_true_iff in HclassId as [->%bool_decide_eq_true_1 Hlist].
      apply getitem_Return in Hr, Hd. apply Hhere. by econstructor.
    + destruct (getitem d key) as [descriptor_key|e] eqn:Hd;
        cbn [bind] in Hkey; [|by rewrite (getitem_raise _ _ _ Hd) in Hkey].
      destruct key as [|z|s|f]; cbn [extend_context bind] in Hkey;
        try discriminate.
      apply IH in Hkey as (path & r' & d' & Hreach & Hfails).
      * exists (s :: path), r', d'. rewrite <- arrow_path_step.
        split; [|done]. apply getitem_Return in Hr, Hd.
        eapply reaches_key; [done..| | |done].
        -- intros ->. rewrite bool_decide_eq_true_2 in Hdescription by done.
           by destruct (is_dict reference_key).
        -- intros ->. rewrite bool_decide_eq_true_2 in HclassId by done.
           by destruct (is_list reference_key).
      * apply getitem_elem, depth_value in Hr. cbn [depth] in Hn. lia.
Qed.

(** X1: every failure that [validate_descriptor] raises is located: there
    is a way down from the reference and the live value, through objects of
    the same keys (a list of objects being read as the object of its named
    items), to two values whose comparison fails there; the context of
    the failure is the context that the caller gave followed by the keys on
    that way, each followed by an arrow, and the failure is that of the
    comparison at that place. *)
Theorem validate_descriptor_failure_path reference descriptor context detail :
  validate_descriptor reference descriptor context
  = Raise (NMOSTestException detail) ->
  exists path reference' descriptor',
    reaches reference descriptor path reference' descriptor'
    /\ fails_at (context +:+ arrow_path path) reference' descriptor' detail.
Proof. by apply (validate_descriptor_failure_path_fuel (depth reference)). Qed.

(** X2: a well-formed descriptor passes the comparison with itself, under
    any context. *)
Theorem validate_descriptor_accepts_itself v context :
  well_formed v -> validate_descriptor v v context = Return tt.
Proof. apply validate_descriptor_refl. Qed.

(** X3: the text under the key "description" of the descriptor is not
    compared when the reference holds no object there: any other text
    gives the same outcome. *)
Theorem validate_descriptor_description_free r d context text :
  is_dict (get r "description") = false ->
  KStr "description" ∈ key_set d ->
  validate_descriptor (PDict r)
    (PDict (dict_set d (KStr "description") text)) context
  = validate_descriptor (PDict r) (PDict d) context.
Proof.
  intros Hr Hd. rewrite !validate_descriptor_dict_eq.
  assert (Hkeys : key_set (dict_set d (KStr "description") text) = key_set d).
  { rewrite key_set_dict_set. set_solver. }
  rewrite Hkeys. destruct (bool_decide (0 < _)%nat); [reflexivity|].
  apply for_each_ext. intros key _. unfold compare_key.
  destruct (getitem r key) as [reference_key|e] eqn:Hkey; cbn [bind];
    [|reflexivity].
  destruct (decide (key = KStr "description")) as [->|Hne].
  - apply getitem_Return in Hkey. unfold get in Hr. rewrite Hkey in Hr.
    simpl in Hr. rewrite Hr.
    by rewrite bool_decide_eq_true_2.
  - rewrite (bool_decide_eq_false_2 (key = KStr "description")) by done.
    cbn [andb].
    assert (Hget : getitem (dict_set d (KStr "description") text) key
                   = getitem d key).
    { unfold getitem. rewrite dict_get_dict_set.
      by destruct (decide (KStr "description" = key)) as [<-|]. }
    by rewrite Hget.
Qed.

End DescriptorReportFacts.

Lemma validate_descriptor_failure_path_witness :
  exists path reference' descriptor',
    reaches reference_worker (PDict (live_worker "NcString")) path
      reference' descriptor'
    /\ fails_at ("1.2: " +:+ arrow_path path) reference' descriptor'
         (UnexpectedValue "1.2: properties->enabled->typeName->"
            (PStr "NcBoolean") (PStr "NcString")).
Proof.
  apply (@validate_descriptor_failure_path elements_order reference_worker
           (PDict (live_worker "NcString")) "1.2: ").
  vm_compute. reflexivity.
Defined.

Lemma reference_worker_well_formed : well_formed reference_worker.
Proof.
  unfold reference_worker.
  repeat first
    [ apply wf_none | apply wf_bool | apply wf_int | apply wf_str
    | apply wf_dict; [compute_done|]
    | apply wf_list; [|first [discriminate | intros _]]
    | apply Forall_cons; split
    | apply Forall_nil
    | split; [by eexists|]
    | by eexists ].
Qed.

Lemma validate_descriptor_accepts_itself_witness :
  @validate_descriptor elements_order reference_worker reference_worker "1.2: "
  = Return tt.
Proof.
  apply (@validate_descriptor_accepts_itself elements_order).
  apply reference_worker_well_formed.
Defined.

Lemma validate_descriptor_description_free_witness :
  @validate_descriptor elements_order reference_worker
    (PDict (dict_set (live_worker "NcBoolean") (KStr "description")
              (PStr "NcWorker class descriptor"))) ""
  = @validate_descriptor elements_order reference_worker
      (PDict (live_worker "NcBoolean")) "".
Proof.
  apply (@validate_descriptor_description_free elements_order);
    [reflexivity | compute_done].
Defined.

End DescriptorReport.

(** ** The flags that the walk of the device model sets *)

Module WalkProofs.
Import DeviceModel DeviceModelSpec QuerySpec WalkSpec PyFacts QueryProofs.

Section UniqueFacts.
Context {A : Type} `{EqDecision A}.

Lemma unique_run_nil (e : bool) (c : list A) :
  NoDup c -> unique_run e c [] e c.
Proof.
  intros Hc. split; [done|]. split.
  - intros x. rewrite elem_of_nil. tauto.
  - rewrite app_nil_r. tauto.
Qed.

Lemma unique_run_step (x : A) (e : bool) (c : list A) :
  NoDup c ->
  unique_run e c [x]
    (if bool_decide (x ∈ c) then true else e)
    (if bool_decide (x ∈ c) then c else c ++ [x]).
Proof.
  intros Hc. case_bool_decide as Hx.
  - split; [done|]. split.
    + intros y. rewrite list_elem_of_singleton. naive_solver.
    + split; [|done]. intros _. right. rewrite NoDup_app.
      intros (_ & Hdisj & _). apply (Hdisj x Hx). by left.
  - assert (Hnd : NoDup (c ++ [x])).
    { apply NoDup_app. split; [done|]. split; [|apply NoDup_singleton].
      intros y Hy ->%list_elem_of_singleton. done. }
    split; [done|]. split.
    + intros y. by rewrite elem_of_app.
    + tauto.
Qed.

Lemma unique_run_app (e e1 e2 : bool) (c c1 c2 l1 l2 : list A) :
  NoDup c ->
  unique_run e c l1 e1 c1 -> unique_run e1 c1 l2 e2 c2 ->
  unique_run e c (l1 ++ l2) e2 c2.
Proof.
  intros Hc (Hc1 & Hin1 & He1) (Hc2 & Hin2 & He2).
  split; [done|]. split.
  - intros x. rewrite Hin2, Hin1, elem_of_app. tauto.
  - rewrite He2, He1.
    assert (Hnd : NoDup (c ++ l1 ++ l2)
                  <-> NoDup (c ++ l1) /\ NoDup (c1 ++ l2)).
    { rewrite (assoc_L (++)), !NoDup_app. split.
      - intros ((Hnc & Hdisj1 & Hl1) & Hdisj & Hl2).
        split; [done|]. split; [done|]. split; [|done].
        intros x Hx. apply Hdisj. rewrite elem_of_app. by apply Hin1.
      - intros ((Hnc & Hdisj1 & Hl1) & _ & Hdisj & Hl2).
        split; [done|]. split; [|done].
        intros x Hx. apply Hdisj. apply Hin1. by rewrite elem_of_app in Hx. }
    rewrite Hnd. split; [tauto|].
    intros [?|Hno]; [tauto|].
    destruct (decide (NoDup (c ++ l1))); [|tauto].
    destruct (decide (NoDup (c1 ++ l2))); tauto.
Qed.

End UniqueFacts.

Section WalkFacts.
Context `{SchemaValidator} `{Rendering} `{IS12Utils} `{Device}.
Context (datatype_schemas reference_class_descriptors class_descriptors : pydict).

Abbreviation member_check :=
  (check_member datatype_schemas reference_class_descriptors class_descriptors).
Abbreviation block_check :=
  (fun block => check_block datatype_schemas reference_class_descriptors block
                  class_descriptors).

(** What one round of the loop over the member descriptors does to the
    flags and the caches. *)
Lemma check_member_flags context m st st' :
  member_check context m st = Return st' ->
  check_unique_roles (m_role m) (bs_role_cache st)
    (unique_roles_error (bs_suite st))
  = (unique_roles_error (bs_suite st'), bs_role_cache st')
  /\ check_unique_oid (m_oid m) (oid_cache (bs_suite st))
       (unique_oids_error (bs_suite st))
     = (unique_oids_error (bs_suite st'), oid_cache (bs_suite st'))
  /\ check_manager (m_classId m) (m_owner m) class_descriptors
       {| ms_singletons_error := managers_are_singletons_error (bs_suite st);
          ms_root_block_error := managers_members_root_block_error (bs_suite st);
          ms_cache := bs_manager_cache st |}
     = Return
         {| ms_singletons_error := managers_are_singletons_error (bs_suite st');
            ms_root_block_error :=
              managers_members_root_block_error (bs_suite st');
            ms_cache := bs_manager_cache st' |}.
Proof.
  unfold check_member.
  destruct (_validate_schema _ _ _); cbn [bind]; [|discriminate].
  do 4 (match goal with
        | |- bind (member_field ?d ?n) _ = _ -> _ =>
            destruct (member_field d n); cbn [bind]; [|discriminate]
        end).
  destruct (check_unique_roles _ _ _) as [roles_error role_cache].
  destruct (check_unique_oid _ _ _) as [oids_error oids].
  destruct (check_manager _ _ _ _) as [[se re cache]|]; cbn [bind];
    [|discriminate].
  destruct (check_touchpoints _ _ _ _ _) as [[device_model touchpoints]|];
    cbn [bind]; [|discriminate].
  match goal with
  | |- bind ?m _ = _ -> _ => destruct m as [properties|]
  end; cbn [bind]; [|discriminate].
  intros [= <-]. done.
Qed.

Lemma check_block_eq class_id oid role ms rc children context s :
  block_check (NcBlock class_id oid role ms rc children) context s
  = (s <- for_each_st children (fun child_object s =>
            match child_object with
            | NcBlock _ _ role _ _ _ =>
                block_check child_object (context +:+ role +:+ ": ") s
            | _ => Return s
            end) s ;;
     st <- for_each_st ms (member_check context)
             {| bs_suite := s; bs_role_cache := []; bs_manager_cache := [] |} ;;
     Return (bs_suite st)).
Proof.
  cbn [check_block]. f_equal.
  revert s. induction children as [|child children IH]; intros s;
    [reflexivity|].
  cbn [for_each_st]. destruct child; cbn [bind]; try apply IH.
  destruct (check_block _ _ _ _ _ _); cbn [bind]; [apply IH | reflexivity].
Qed.

Lemma blocks_of_walked o m :
  m ∈ walked_members o
  <-> exists b, b ∈ blocks_of o /\ m ∈ members_of b.
Proof.
  induction o as [|class_id oid role ms rc children IH|]
    using nc_object_nested_ind; cbn [walked_members blocks_of];
    try (rewrite elem_of_nil; split; [done|];
         by intros (b & ?%elem_of_nil & _)).
  rewrite Forall_forall in IH.
  rewrite elem_of_app. split.
  - intros [Hin|Hin].
    + apply list_elem_of_In, in_flat_map in Hin as (child & Hchild & Hin).
      apply list_elem_of_In in Hchild, Hin.
      apply (IH _ Hchild) in Hin as (b & Hb & Hm).
      exists b. split; [|done]. right.
      apply list_elem_of_In, in_flat_map. exists child.
      split; by apply list_elem_of_In.
    + eexists. split; [left|]. done.
  - intros (b & Hb & Hm). apply elem_of_cons in Hb as [->|Hb]; [by right|].
    left. apply list_elem_of_In, in_flat_map in Hb as (child & Hchild & Hb).
    apply list_elem_of_In in Hchild, Hb.
    apply list_elem_of_In, in_flat_map. exists child.
    split; [by apply list_elem_of_In|]. apply list_elem_of_In.
    apply (IH _ Hchild). by exists b.
Qed.

(** *** Flags that each block settles on its own *)

Section BlockFlag.
Variable flag : suite -> bool.
Variable bad : list member_descriptor -> Prop.
Hypothesis members_flag : forall context ms s st',
  for_each_st ms (member_check context)
    {| bs_suite := s; bs_role_cache := []; bs_manager_cache := [] |}
  = Return st' ->
  (flag (bs_suite st') = true <-> flag s = true \/ bad ms).

Lemma check_block_flag block context s s' :
  block_check block context s = Return s' ->
  (flag s' = true
   <-> flag s = true \/ exists b, b ∈ blocks_of block /\ bad (members_of b)).
Proof.
  revert context s s'.
  induction block as [|class_id oid role ms rc children IH|]
    using nc_object_nested_ind; intros context s s'; try discriminate.
  rewrite check_block_eq.
  match goal with
  | |- bind ?m _ = _ -> _ => destruct m as [s1|] eqn:Hchildren
  end; cbn [bind]; [|discriminate].
  destruct (for_each_st ms _ _) as [st|] eqn:Hmembers; cbn [bind];
    [|discriminate].
  intros [= <-]. rewrite (members_flag _ _ _ _ Hmembers).
  assert (Hs1 : flag s1 = true
                <-> flag s = true
                    \/ exists child b, child ∈ children /\ b ∈ blocks_of child
                                       /\ bad (members_of b)).
  { clear Hmembers. revert s Hchildren.
    induction children as [|child children IHc]; intros s; cbn [for_each_st].
    - intros [= ->]. split; [tauto|].
      intros [?|(child & b & ?%elem_of_nil & _)]; done.
    - apply Forall_cons in IH as [IHchild IH].
      match goal with
      | |- bind ?m _ = _ -> _ => destruct m as [s0|] eqn:Hchild
      end; cbn [bind]; [|discriminate].
      intros Hrest. rewrite (IHc IH _ Hrest).
      assert (Hs0 : flag s0 = true
                    <-> flag s = true
                        \/ exists b, b ∈ blocks_of child /\ bad (members_of b)).
      { destruct child; try (injection Hchild as <-; split; [tauto|];
          by intros [?|(b & ?%elem_of_nil & _)]).
        by eapply IHchild. }
      rewrite Hs0. split.
      + intros [[?|(b & Hb & Hbad)]|(c & b & Hc & Hb & Hbad)]; [tauto|..];
          right.
        * exists child, b. split; [left|]; done.
        * exists c, b. split; [by right|]. done.
      + intros [?|(c & b & Hc & Hb & Hbad)]; [tauto|].
        apply elem_of_cons in Hc as [->|Hc].
        * left. right. by exists b.
        * right. by exists c, b. }
  rewrite Hs1. cbn [blocks_of]. split.
  - intros [[?|(child & b & Hc & Hb & Hbad)]|Hbad]; [tauto|..]; right.
    + exists b. split; [|done]. right. apply list_elem_of_In, in_flat_map.
      exists child. split; by apply list_elem_of_In.
    + eexists. split; [left|]. done.
  - intros [?|(b & Hb & Hbad)]; [tauto|].
    apply elem_of_cons in Hb as [->|Hb]; [by right|].
    left. right.
    apply list_elem_of_In, in_flat_map in Hb as (child & Hchild & Hb).
    exists child, b. split; [by apply list_elem_of_In|].
    split; [by apply list_elem_of_In | done].
Qed.

End BlockFlag.

(** *** Roles *)

Lemma check_members_roles context ms st st' :
  NoDup (bs_role_cache st) ->
  for_each_st ms (member_check context) st = Return st' ->
  unique_run (unique_roles_error (bs_suite st)) (bs_role_cache st)
    (m_role <$> ms)
    (unique_roles_error (bs_suite st')) (bs_role_cache st').
Proof.
  revert st. induction ms as [|m ms IH]; intros st Hnd; cbn [for_each_st].
  - intros [= <-]. by apply unique_run_nil.
  - destruct (member_check context m st) as [st1|] eqn:Hm; cbn [bind];
      [|discriminate].
    intros Hrest. apply check_member_flags in Hm as (Hroles & _ & _).
    pose proof (unique_run_step (m_role m) (unique_roles_error (bs_suite st))
                  (bs_role_cache st) Hnd) as Hstep.
    unfold check_unique_roles in Hroles.
    assert (Heq : (if bool_decide (m_role m ∈ bs_role_cache st) then true
                   else unique_roles_error (bs_suite st))
                  = unique_roles_error (bs_suite st1)
                  /\ (if bool_decide (m_role m ∈ bs_role_cache st)
                      then bs_role_cache st else bs_role_cache st ++ [m_role m])
                     = bs_role_cache st1).
    { destruct (bool_decide _); by injection Hroles as <- <-. }
    destruct Heq as [He Hc]. rewrite He, Hc in Hstep.
    change (m_role <$> m :: ms) with ([m_role m] ++ (m_role <$> ms)).
    eapply unique_run_app; [done | exact Hstep|].
    apply IH; [|done]. apply Hstep.
Qed.

Lemma check_members_roles_flag context ms s st' :
  for_each_st ms (member_check context)
    {| bs_suite := s; bs_role_cache := []; bs_manager_cache := [] |}
  = Return st' ->
  (unique_roles_error (bs_suite st') = true
   <-> unique_roles_error s = true \/ ~ NoDup (m_role <$> ms)).
Proof.
  intros Hms.
  apply check_members_roles in Hms as (_ & _ & Hflag); [|apply NoDup_nil_2].
  exact Hflag.
Qed.

Lemma members_misplaced block :
  (exists m, m ∈ walked_members block /\ misplaced_manager m)
  <-> exists b, b ∈ blocks_of block
        /\ exists m, m ∈ members_of b /\ misplaced_manager m.
Proof.
  split.
  - intros (m & Hm & Hbad).
    apply blocks_of_walked in Hm as (b & Hb & Hm). exists b.
    split; [done|]. by exists m.
  - intros (b & Hb & m & Hm & Hbad). exists m. split; [|done].
    apply blocks_of_walked. by exists b.
Qed.

(** X4: [unique_roles_error] is set by the walk exactly when some block of the
    mirror holds two member descriptors of the same role; the same role in
    two different blocks does not set it. *)
Theorem check_block_unique_roles block context s s' :
  check_block datatype_schemas reference_class_descriptors block
    class_descriptors context s = Return s' ->
  (unique_roles_error s' = true
   <-> unique_roles_error s = true
       \/ exists b, b ∈ blocks_of block /\ ~ NoDup (m_role <$> members_of b)).
Proof.
  intros Hcheck.
  apply (check_block_flag unique_roles_error
           (fun ms => ~ NoDup (m_role <$> ms))
           check_members_roles_flag _ _ _ _ Hcheck).
Qed.

(** *** Oids *)

Lemma check_members_oids context ms st st' :
  NoDup (oid_cache (bs_suite st)) ->
  for_each_st ms (member_check context) st = Return st' ->
  unique_run (unique_oids_error (bs_suite st)) (oid_cache (bs_suite st))
    (m_oid <$> ms)
    (unique_oids_error (bs_suite st')) (oid_cache (bs_suite st')).
Proof.
  revert st. induction ms as [|m ms IH]; intros st Hnd; cbn [for_each_st].
  - intros [= <-]. by apply unique_run_nil.
  - destruct (member_check context m st) as [st1|] eqn:Hm; cbn [bind];
      [|discriminate].
    intros Hrest. apply check_member_flags in Hm as (_ & Hoids & _).
    pose proof (unique_run_step (m_oid m) (unique_oids_error (bs_suite st))
                  (oid_cache (bs_suite st)) Hnd) as Hstep.
    unfold check_unique_oid in Hoids.
    assert (Heq : (if bool_decide (m_oid m ∈ oid_cache (bs_suite st)) then true
                   else unique_oids_error (bs_suite st))
                  = unique_oids_error (bs_suite st1)
                  /\ (if bool_decide (m_oid m ∈ oid_cache (bs_suite st))
                      then oid_cache (bs_suite st)
                      else oid_cache (bs_suite st) ++ [m_oid m])
                     = oid_cache (bs_suite st1)).
    { destruct (bool_decide _); by injection Hoids as <- <-. }
    destruct Heq as [He Hc]. rewrite He, Hc in Hstep.
    change (m_oid <$> m :: ms) with ([m_oid m] ++ (m_oid <$> ms)).
    eapply unique_run_app; [done | exact Hstep|].
    apply IH; [|done]. apply Hstep.
Qed.

Lemma check_block_oids block context s s' :
  NoDup (oid_cache s) ->
  block_check block context s = Return s' ->
  unique_run (unique_oids_error s) (oid_cache s)
    (m_oid <$> walked_members block)
    (unique_oids_error s') (oid_cache s').
Proof.
  revert context s s'.
  induction block as [|class_id oid role ms rc children IH|]
    using nc_object_nested_ind; intros context s s' Hnd; try discriminate.
  rewrite check_block_eq.
  match goal with
  | |- bind ?m _ = _ -> _ => destruct m as [s1|] eqn:Hchildren
  end; cbn [bind]; [|discriminate].
  destruct (for_each_st ms _ _) as [st|] eqn:Hmembers; cbn [bind];
    [|discriminate].
  intros [= <-]. cbn [walked_members]. rewrite fmap_app.
  assert (Hs1 : unique_run (unique_oids_error s) (oid_cache s)
                  (m_oid <$> flat_map walked_members children)
                  (unique_oids_error s1) (oid_cache s1)).
  { clear Hmembers. revert s Hnd Hchildren.
    induction children as [|child children IHc]; intros s Hnd;
      cbn [for_each_st flat_map].
    - intros [= ->]. by apply unique_run_nil.
    - apply Forall_cons in IH as [IHchild IH].
      match goal with
      | |- bind ?m _ = _ -> _ => destruct m as [s0|] eqn:Hchild
      end; cbn [bind]; [|discriminate].
      intros Hrest. rewrite fmap_app.
      assert (Hs0 : unique_run (unique_oids_error s) (oid_cache s)
                      (m_oid <$> walked_members child)
                      (unique_oids_error s0) (oid_cache s0)).
      { destruct child; try (injection Hchild as <-; by apply unique_run_nil).
        by eapply IHchild. }
      eapply unique_run_app; [done | exact Hs0|].
      apply IHc; [done | apply Hs0 | done]. }
  eapply unique_run_app; [done | exact Hs1|].
  apply check_members_oids in Hmembers; [exact Hmembers | exact (proj1 Hs1)].
Qed.

(** X5: the walk checks the oids across the whole mirror, not block by
    block: [unique_oids_error] is set exactly when an oid comes twice among
    the oids known before and the member descriptors of all the blocks, and
    [oid_cache] ends with each of these oids once.  The oid of the block
    that the walk starts from is no member descriptor and is not among
    them. *)
Theorem check_block_unique_oids block context s s' :
  NoDup (oid_cache s) ->
  check_block datatype_schemas reference_class_descriptors block
    class_descriptors context s = Return s' ->
  (unique_oids_error s' = true
   <-> unique_oids_error s = true
       \/ ~ NoDup (oid_cache s ++ (m_oid <$> walked_members block)))
  /\ NoDup (oid_cache s')
  /\ (forall oid, oid ∈ oid_cache s'
       <-> oid ∈ oid_cache s \/ oid ∈ m_oid <$> walked_members block).
Proof.
  intros Hnd Hcheck.
  destruct (check_block_oids block context s s' Hnd Hcheck)
    as (Hnd' & Hin & Hflag).
  split; [exact Hflag|]. split; [exact Hnd' | exact Hin].
Qed.

(** *** Managers *)

Lemma check_manager_root class_id owner st st' :
  check_manager class_id owner class_descriptors st = Return st' ->
  ms_root_block_error st'
  = ms_root_block_error st
    || (is_manager class_id && negb (owner =? ROOT_BLOCK_OID)).
Proof.
  unfold check_manager.
  destruct (getitem _ _); cbn [bind]; [|discriminate].
  destruct (getitem_str _ _); cbn [bind]; [|discriminate].
  destruct (is_manager class_id); cbn [andb].
  - destruct (py_in _ _); intros [= <-]; cbn;
      destruct (owner =? ROOT_BLOCK_OID); cbn;
      by rewrite ?orb_true_r, ?orb_false_r.
  - intros [= <-]. by rewrite orb_false_r.
Qed.

Lemma check_members_root context ms st st' :
  for_each_st ms (member_check context) st = Return st' ->
  (managers_members_root_block_error (bs_suite st') = true
   <-> managers_members_root_block_error (bs_suite st) = true
       \/ exists m, m ∈ ms /\ misplaced_manager m).
Proof.
  revert st. induction ms as [|m ms IH]; intros st; cbn [for_each_st].
  - intros [= <-]. split; [tauto|].
    intros [?|(m & ?%elem_of_nil & _)]; done.
  - destruct (member_check context m st) as [st1|] eqn:Hm; cbn [bind];
      [|discriminate].
    intros Hrest. rewrite (IH _ Hrest).
    apply check_member_flags in Hm as (_ & _ & Hmanager).
    apply check_manager_root in Hmanager. cbn in Hmanager.
    rewrite Hmanager, orb_true_iff, andb_true_iff, negb_true_iff, Z.eqb_neq.
    unfold misplaced_manager. split.
    + intros [[?|Hm]|(m' & Hin & Hm')]; [tauto|..]; right.
      * exists m. split; [left|]; done.
      * exists m'. split; [by right|]. done.
    + intros [?|(m' & Hin & Hm')]; [tauto|].
      apply elem_of_cons in Hin as [->|Hin]; [tauto|].
      right. by exists m'.
Qed.

(** X6: [managers_members_root_block_error] is set by the walk exactly when,
    somewhere in the mirror, a member descriptor of a manager class has an
    owner other than the root block. *)
Theorem check_block_managers_in_root block context s s' :
  check_block datatype_schemas reference_class_descriptors block
    class_descriptors context s = Return s' ->
  (managers_members_root_block_error s' = true
   <-> managers_members_root_block_error s = true
       \/ exists m, m ∈ walked_members block /\ misplaced_manager m).
Proof.
  intros Hcheck.
  rewrite (check_block_flag managers_members_root_block_error
             (fun ms => exists m, m ∈ ms /\ misplaced_manager m)
             (fun ctx ms s0 st' Hms => check_members_root ctx ms _ st' Hms)
             _ _ _ _ Hcheck).
  by rewrite members_misplaced.
Qed.

Lemma check_manager_single class_id owner st st' :
  check_manager class_id owner class_descriptors st = Return st' ->
  if is_manager class_id then
    exists n, base_class_name class_descriptors class_id = Return n
      /\ if py_in n (ms_cache st)
         then ms_singletons_error st' = true /\ ms_cache st' = ms_cache st
         else ms_singletons_error st' = ms_singletons_error st
              /\ ms_cache st' = ms_cache st ++ [n]
  else st' = st.
Proof.
  unfold check_manager, base_class_name.
  destruct (getitem _ _) as [base_class|]; cbn [bind]; [|discriminate].
  destruct (getitem_str _ _) as [n|]; cbn [bind]; [|discriminate].
  destruct (is_manager class_id); [|by intros [= <-]].
  intros Hret. exists n. split; [done|].
  destruct (py_in n (ms_cache st)); injection Hret as <-; done.
Qed.

Lemma repeated_manager_snoc visited m :
  repeated_manager class_descriptors visited ->
  repeated_manager class_descriptors (visited ++ [m]).
Proof.
  intros (i & j & m1 & m2 & n1 & n2 & Hij & Hi & Hj & Hrest).
  exists i, j, m1, m2, n1, n2. split; [done|].
  split; [by apply lookup_app_l_Some|]. split; [by apply lookup_app_l_Some|].
  done.
Qed.

Lemma check_member_managers context visited flag0 m st st' :
  manager_cache_inv class_descriptors visited flag0
    (managers_are_singletons_error (bs_suite st)) (bs_manager_cache st) ->
  member_check context m st = Return st' ->
  manager_cache_inv class_descriptors (visited ++ [m]) flag0
    (managers_are_singletons_error (bs_suite st')) (bs_manager_cache st').
Proof.
  intros (Hcache & Hflag & Hseen) (_ & _ & Hmanager)%check_member_flags.
  apply check_manager_single in Hmanager. cbn in Hmanager.
  destruct (is_manager (m_classId m)) eqn:Hm.
  - destruct Hmanager as (n & Hn & Hstep). revert Hstep.
    destruct (existsb (py_eqb n) (bs_manager_cache st)) eqn:Hin;
      intros [Hflag' Hcache']; rewrite Hflag', Hcache'.
    + (* the base class is in the cache: the flag is set *)
      split; [|split].
      * intros n' (i & m' & Hi & Hrest)%Hcache.
        exists i, m'. split; [by apply lookup_app_l_Some | done].
      * split; [|done]. intros _. right.
        apply existsb_exists in Hin as (c & Hc%list_elem_of_In & Heq).
        destruct (Hcache _ Hc) as (i & m1 & Hi & Hm1 & Hn1).
        exists i, (length visited), m1, m, c, n.
        split; [by apply lookup_lt_Some in Hi|].
        split; [by apply lookup_app_l_Some|].
        split; [apply list_lookup_middle; done|]. done.
      * intros. by left.
    + (* a new base class: it joins the cache *)
      split; [|split].
      * intros n' [Hn'|Hs]%elem_of_app.
        -- destruct (Hcache _ Hn') as (i & m' & Hi & Hrest).
           exists i, m'. split; [by apply lookup_app_l_Some | done].
        -- apply list_elem_of_singleton in Hs as ->.
           exists (length visited), m.
           split; [apply list_lookup_middle; done | done].
      * rewrite Hflag. split.
        -- intros [?|?]; [by left|]. right. by apply repeated_manager_snoc.
        -- intros [?|Hrep]; [by left|].
           destruct Hrep as (i & j & m1 & m2 & n1 & n2 & Hij & Hi & Hj
                             & Hm1 & Hm2 & Hn1 & Hn2 & Heq).
           apply lookup_snoc_Some in Hj as [[Hlt Hj]|[-> <-]].
           ++ right. exists i, j, m1, m2, n1, n2. split; [done|].
              split; [|done].
              apply lookup_snoc_Some in Hi as [[_ Hi]|[-> _]]; [done | lia].
           ++ apply lookup_snoc_Some in Hi as [[_ Hi]|[-> _]]; [|lia].
              assert (n2 = n) as -> by congruence.
              destruct (Hseen _ _ _ Hi Hm1 Hn1) as [Hset|Hc].
              ** apply Hflag in Hset. tauto.
              ** assert (existsb (py_eqb n) (bs_manager_cache st) = true);
                   [|congruence].
                 apply existsb_exists. exists n1.
                 split; [by apply list_elem_of_In | done].
      * intros i m' n' Hi Hm' Hn'.
        apply lookup_snoc_Some in Hi as [[_ Hi]|[_ <-]].
        -- destruct (Hseen _ _ _ Hi Hm' Hn') as [?|?]; [by left|].
           right. apply elem_of_app. by left.
        -- right. apply elem_of_app. right.
           apply list_elem_of_singleton. congruence.
  - (* no manager: neither the flag nor the cache changes *)
    injection Hmanager as Hflag' _ Hcache'. rewrite Hflag', Hcache'.
    split; [|split].
    + intros n' (i & m' & Hi & Hrest)%Hcache.
      exists i, m'. split; [by apply lookup_app_l_Some | done].
    + rewrite Hflag. split.
      * intros [?|?]; [by left|]. right. by apply repeated_manager_snoc.
      * intros [?|Hrep]; [by left|]. right.
        destruct Hrep as (i & j & m1 & m2 & n1 & n2 & Hij & Hi & Hj
                          & Hm1 & Hm2 & Hrest).
        apply lookup_snoc_Some in Hj as [[Hlt Hj]|[-> <-]]; [|congruence].
        exists i, j, m1, m2, n1, n2. split; [done|]. split; [|done].
        apply lookup_snoc_Some in Hi as [[_ Hi]|[-> _]]; [done | lia].
    + intros i m' n' Hi Hm' Hn'.
      apply lookup_snoc_Some in Hi as [[_ Hi]|[_ <-]]; [|congruence].
      by eapply Hseen.
Qed.

Lemma check_members_managers context visited flag0 ms st st' :
  manager_cache_inv class_descriptors visited flag0
    (managers_are_singletons_error (bs_suite st)) (bs_manager_cache st) ->
  for_each_st ms (member_check context) st = Return st' ->
  manager_cache_inv class_descriptors (visited ++ ms) flag0
    (managers_are_singletons_error (bs_suite st')) (bs_manager_cache st').
Proof.
  revert visited st. induction ms as [|m ms IH]; intros visited st Hinv;
    cbn [for_each_st].
  - intros [= <-]. by rewrite app_nil_r.
  - destruct (member_check context m st) as [st1|] eqn:Hm; cbn [bind];
      [|discriminate].
    intros Hrest. rewrite cons_middle, (assoc_L (++)).
    eapply IH; [|exact Hrest]. by eapply check_member_managers.
Qed.

Lemma check_members_managers_flag context ms s st' :
  for_each_st ms (member_check context)
    {| bs_suite := s; bs_role_cache := []; bs_manager_cache := [] |}
  = Return st' ->
  (managers_are_singletons_error (bs_suite st') = true
   <-> managers_are_singletons_error s = true
       \/ repeated_manager class_descriptors ms).
Proof.
  intros Hms.
  apply (check_members_managers _ [] (managers_are_singletons_error s))
    in Hms as (_ & Hflag & _); [exact Hflag|].
  split; [|split].
  - by intros n ?%elem_of_nil.
  - cbn. split; [tauto|].
    intros [?|(i & j & m1 & m2 & n1 & n2 & _ & Hi & _)]; [done|].
    by rewrite lookup_nil in Hi.
  - intros i m n Hi. by rewrite lookup_nil in Hi.
Qed.

(** X7: [managers_are_singletons_error] is set by the walk exactly when one
    block of the mirror holds two member descriptors of manager classes
    whose base classes have the same name; managers of the same base class
    in two different blocks do not set it. *)
Theorem check_block_managers_repeated block context s s' :
  check_block datatype_schemas reference_class_descriptors block
    class_descriptors context s = Return s' ->
  (managers_are_singletons_error s' = true
   <-> managers_are_singletons_error s = true
       \/ exists b, b ∈ blocks_of block
                    /\ repeated_manager class_descriptors (members_of b)).
Proof.
  intros Hcheck.
  apply (check_block_flag managers_are_singletons_error
           (repeated_manager class_descriptors)
           check_members_managers_flag _ _ _ _ Hcheck).
Qed.

End WalkFacts.

#[local] Existing Instances ConstraintsSpec.accept_all example_rendering
  example_utils
  example_device.

Lemma check_block_unique_roles_witness :
  exists s',
    check_block example_schemas example_reference_classes twin_roles_model
      example_class_descriptors "" set_up_tests = Return s'
    /\ unique_roles_error s' = true.
Proof.
  eexists. split; [vm_compute; reflexivity|].
  apply (check_block_unique_roles example_schemas example_reference_classes
           example_class_descriptors twin_roles_model "" set_up_tests);
    [vm_compute; reflexivity|].
  right. exists twin_roles_model. split; [left|].
  cbn. rewrite NoDup_cons. intros [Hnotin _]. apply Hnotin. left.
Defined.

Lemma check_block_unique_oids_witness :
  exists s',
    check_block example_schemas example_reference_classes twin_managers_model
      example_class_descriptors "" set_up_tests = Return s'
    /\ unique_oids_error s' = true
    /\ forall oid, oid ∈ oid_cache s' <-> oid ∈ [] \/ oid ∈ [2; 2].
Proof.
  eexists. split; [vm_compute; reflexivity|].
  match goal with
  | |- unique_oids_error ?s' = true /\ _ =>
      destruct (check_block_unique_oids example_schemas
                  example_reference_classes example_class_descriptors
                  twin_managers_model "" set_up_tests s')
        as (Hflag & _ & Hin); [apply NoDup_nil_2 | vm_compute; reflexivity|]
  end.
  split; [|exact Hin].
  apply Hflag. right. cbn. rewrite NoDup_cons. intros [Hnotin _].
  apply Hnotin. left.
Defined.

Lemma check_block_managers_in_root_witness :
  exists s',
    check_block example_schemas example_reference_classes example_device_model
      example_class_descriptors "" set_up_tests = Return s'
    /\ managers_members_root_block_error s' = true.
Proof.
  eexists. split; [vm_compute; reflexivity|].
  apply (check_block_managers_in_root example_schemas
           example_reference_classes example_class_descriptors
           example_device_model "" set_up_tests);
    [vm_compute; reflexivity|].
  right. exists nested_manager_member. split; [left | split; done].
Defined.

Lemma check_block_managers_repeated_witness :
  exists s',
    check_block example_schemas example_reference_classes twin_managers_model
      example_class_descriptors "" set_up_tests = Return s'
    /\ managers_are_singletons_error s' = true.
Proof.
  eexists. split; [vm_compute; reflexivity|].
  apply (check_block_managers_repeated example_schemas
           example_reference_classes example_class_descriptors
           twin_managers_model "" set_up_tests);
    [vm_compute; reflexivity|].
  right. exists twin_managers_model. split; [left|].
  exists 0%nat, 1%nat, (member [1; 3; 2] 2 "ClassManager" 1),
    (member [1; 3; 2] 2 "ClassManager2" 1), (PStr "NcClassManager"),
    (PStr "NcClassManager").
  split; [lia|]. do 4 (split; [reflexivity|]).
  split; [vm_compute; reflexivity|]. split; [vm_compute; reflexivity|].
  reflexivity.
Defined.

End WalkProofs.

(** ** Checks of the properties of an object *)

Module PropertyChecks.
Import DeviceModel DeviceModelSpec PropertyChecksSpec PyFacts.

Section SequenceFacts.
Context `{Rendering} `{Device}.

Lemma get_sequence_items_agree oid pm context values k md id :
  getitem_str pm "id" = Return id ->
  (forall i v, values !! i = Some v -> item_agrees oid id (k + i) v) ->
  get_sequence_items oid pm context values k md = (md, Return tt).
Proof.
  intros Hid. revert k. induction values as [|v values IH]; intros k Hall;
    cbn [get_sequence_items]; [reflexivity|].
  rewrite Hid.
  destruct (Hall 0%nat v eq_refl) as (a & Ha & Heq).
  rewrite Nat.add_0_r in Ha. rewrite Ha. unfold py_neb. rewrite Heq.
  cbn [negb]. apply IH. intros i w Hi.
  replace (S k + i)%nat with (k + S i)%nat by lia. by apply Hall.
Qed.

Lemma get_sequence_items_split oid pm context values1 values2 k md id :
  getitem_str pm "id" = Return id ->
  (forall i v, values1 !! i = Some v -> item_agrees oid id (k + i) v) ->
  get_sequence_items oid pm context (values1 ++ values2) k md
  = get_sequence_items oid pm context values2 (k + length values1) md.
Proof.
  intros Hid. revert k. induction values1 as [|v values1 IH]; intros k Hall.
  - cbn [app length]. by rewrite Nat.add_0_r.
  - cbn [app get_sequence_items length]. rewrite Hid.
    destruct (Hall 0%nat v eq_refl) as (a & Ha & Heq).
    rewrite Nat.add_0_r in Ha. rewrite Ha. unfold py_neb. rewrite Heq.
    cbn [negb]. rewrite IH.
    + f_equal. lia.
    + intros i w Hi.
      replace (S k + i)%nat with (k + S i)%nat by lia. by apply Hall.
Qed.

Lemma sequence_values_split (values : list pyval) i v :
  values !! i = Some v ->
  values = take i values ++ v :: drop (S i) values
  /\ length (take i values) = i.
Proof.
  intros Hi. split.
  - by rewrite <- (take_drop_middle _ _ _ Hi) at 1.
  - apply length_take_le. apply lookup_lt_Some in Hi. lia.
Qed.

(** X8: [check_get_sequence_item] on a list of values, for a property whose
    descriptor has an id and a name; the result is the metadata that the
    call leaves and how the call ends.  When the Node answers every index
    with an equal item, the metadata is marked as checked, nothing else
    changes and the call returns.  At the first index whose answer differs
    the call sets the error flag and then raises [TypeError]: the text of
    the report adds the index, an integer, to a string; so the flag stays
    set, no text about the item is added to the message, and the exception
    leaves the routine.  At the first index whose read fails the flag is set,
    the failure is added to the message and the call returns. *)
Theorem check_get_sequence_item_outcome oid values pm context md id name :
  getitem_str pm "id" = Return id ->
  getitem_str pm "name" = Return name ->
  ((forall i v, values !! i = Some v -> item_agrees oid id i v) ->
   check_get_sequence_item oid (PList values) pm context md
   = (set_checked md, Return tt))
  /\ (forall i expected actual,
        values !! i = Some expected ->
        (forall j v, (j < i)%nat -> values !! j = Some v ->
           item_agrees oid id j v) ->
        remote_get_sequence_item oid id i = Value actual ->
        py_eqb expected actual = false ->
        check_get_sequence_item oid (PList values) pm context md
        = (set_error (set_checked md), Raise TypeError))
  /\ (forall i expected detail text,
        values !! i = Some expected ->
        (forall j v, (j < i)%nat -> values !! j = Some v ->
           item_agrees oid id j v) ->
        remote_get_sequence_item oid id i = Failure detail ->
        name = PStr text ->
        check_get_sequence_item oid (PList values) pm context md
        = (add_error_msg (set_error (set_checked md))
             (context +:+ text +:+ ": " +:+ detail +:+ ", "),
           Return tt)).
Proof.
  intros Hid Hname. unfold check_get_sequence_item.
  cbn [null_not_nullable py_iter].
  split; [|split].
  - intros Hall. by apply (get_sequence_items_agree _ _ _ _ 0%nat _ id).
  - intros i expected actual Hi Hbefore Hactual Hne.
    destruct (sequence_values_split _ _ _ Hi) as [Hsplit Hlen].
    rewrite Hsplit, (get_sequence_items_split _ _ _ _ _ 0%nat _ id), Hlen;
      [|done|].
    + cbn [get_sequence_items Nat.add]. rewrite Hid.
      rewrite Hactual. unfold py_neb. rewrite Hne. cbn [negb].
      unfold property_name. rewrite Hname. cbn [bind]. by destruct name.
    + intros j v Hj. cbn [Nat.add].
      pose proof (lookup_lt_Some _ _ _ Hj) as Hlt. rewrite Hlen in Hlt.
      rewrite lookup_take_lt in Hj by done. by apply Hbefore.
  - intros i expected detail text Hi Hbefore Hfail ->.
    destruct (sequence_values_split _ _ _ Hi) as [Hsplit Hlen].
    rewrite Hsplit, (get_sequence_items_split _ _ _ _ _ 0%nat _ id), Hlen;
      [|done|].
    + cbn [get_sequence_items Nat.add]. rewrite Hid.
      rewrite Hfail. unfold property_name. rewrite Hname. reflexivity.
    + intros j v Hj. cbn [Nat.add].
      pose proof (lookup_lt_Some _ _ _ Hj) as Hlt. rewrite Hlen in Hlt.
      rewrite lookup_take_lt in Hj by done. by apply Hbefore.
Qed.

End SequenceFacts.

Section TypeFacts.
Context `{SchemaValidator} `{Rendering} `{IS12Utils}.
Context (datatype_schemas : pydict).

(** X9: where the type of a property is a primitive that Python holds as an
    [int] or a [float], [validate_property_type] accepts a JSON boolean
    ([bool] is a subclass of [int]) and an integer, whatever the schemas
    say. *)
Theorem validate_property_type_accepts_bool data_type is_nullable context :
  primitive_to_python_type data_type = Some T_int
  \/ primitive_to_python_type data_type = Some T_float ->
  (forall b,
     validate_property_type datatype_schemas (PBool b) (PStr data_type)
       is_nullable context = Return tt)
  /\ (forall n,
        validate_property_type datatype_schemas (PInt n) (PStr data_type)
          is_nullable context = Return tt).
Proof.
  intros [Ht|Ht]; split; intros; unfold validate_property_type;
    cbn [hash_key bind]; rewrite Ht; reflexivity.
Qed.

End TypeFacts.

Section CatalogFacts.
Context `{Rendering} `{Device}.

Lemma descriptors_dict_snoc rs r :
  descriptors_dict (rs ++ [r])
  = dict_set (descriptors_dict rs)
      (KStr (key_lambda (d_classId r) (d_name r))) (d_json r).
Proof. unfold descriptors_dict. by rewrite foldl_app. Qed.

Lemma descriptors_dict_lookup rs k :
  dict_get (descriptors_dict rs) (KStr k)
  = d_json <$> last (filter (fun r => key_lambda (d_classId r) (d_name r) = k)
                       rs).
Proof.
  induction rs as [|r rs IH] using rev_ind; [reflexivity|].
  rewrite descriptors_dict_snoc, dict_get_dict_set, filter_app.
  rewrite filter_cons, filter_nil.
  destruct (decide (key_lambda (d_classId r) (d_name r) = k)) as [->|Hne].
  - rewrite decide_True by done. by rewrite last_snoc.
  - rewrite decide_False by congruence. by rewrite app_nil_r.
Qed.

(** X10: the catalog that [get_class_manager_descriptors] makes of a
    non-empty answer of the Node files every descriptor under its key, the
    class id joined by dots or else the name; of several descriptors of the
    same key the last one stays. *)
Theorem get_class_manager_descriptors_lookup oid id role md r rs :
  remote_model_descriptors oid id = Value (Some (r :: rs)) ->
  exists catalog,
    get_class_manager_descriptors oid id role md = (Some catalog, md)
    /\ forall k,
         dict_get catalog (KStr k)
         = d_json <$> last (filter (fun r => key_lambda (d_classId r) (d_name r)
                                             = k) (r :: rs)).
Proof.
  intros Hanswer. exists (descriptors_dict (r :: rs)).
  split; [|apply descriptors_dict_lookup].
  unfold get_class_manager_descriptors. by rewrite Hanswer.
Qed.

End CatalogFacts.

#[local] Existing Instances ConstraintsSpec.accept_all example_rendering
  example_utils.

Lemma check_get_sequence_item_outcome_witness :
  @check_get_sequence_item letters_device 1
     (PList [PStr "a"; PStr "b"]) (PDict members_property) "root: "
     metadata_init
  = (set_checked metadata_init, Return tt)
  /\ @check_get_sequence_item letters_device 1
       (PList [PStr "a"; PStr "c"]) (PDict members_property) "root: "
       metadata_init
     = (set_error (set_checked metadata_init), Raise TypeError).
Proof.
  destruct (@check_get_sequence_item_outcome letters_device 1
              [PStr "a"; PStr "b"] (PDict members_property) "root: "
              metadata_init (property_id 2 2) (PStr "members")
              eq_refl eq_refl) as (Hagree & _ & _).
  destruct (@check_get_sequence_item_outcome letters_device 1
              [PStr "a"; PStr "c"] (PDict members_property) "root: "
              metadata_init (property_id 2 2) (PStr "members")
              eq_refl eq_refl) as (_ & Hdiffer & _).
  split.
  - apply Hagree. intros [|[|i]] v Hv; cbn in Hv.
    + injection Hv as <-. eexists. split; reflexivity.
    + injection Hv as <-. eexists. split; reflexivity.
    + discriminate Hv.
  - apply (Hdiffer 1%nat (PStr "c") (PStr "b")); try reflexivity.
    intros [|j] v Hj Hv; [|lia]. injection Hv as <-.
    eexists. split; reflexivity.
Defined.

Lemma validate_property_type_accepts_bool_witness :
  validate_property_type [] (PBool true) (PStr "NcUint32") (PBool false)
    "root: NcUint32: oid: "
  = Return tt.
Proof.
  apply (@validate_property_type_accepts_bool ConstraintsSpec.accept_all
           example_rendering example_utils [] "NcUint32" (PBool false)
           "root: NcUint32: oid: ").
  left. reflexivity.
Defined.

Lemma get_class_manager_descriptors_lookup_witness :
  exists catalog,
    @get_class_manager_descriptors example_rendering repeating_device 2
      (property_id 3 1) "ClassManager: " metadata_init
    = (Some catalog, metadata_init)
    /\ dict_get catalog (KStr "1.2")
       = Some (d_json (class_descriptor [1; 2] "NcWorker2"))
    /\ dict_get catalog (KStr "NcString")
       = Some (d_json (datatype_descriptor "NcString")).
Proof.
  destruct (@get_class_manager_descriptors_lookup example_rendering
              repeating_device 2 (property_id 3 1) "ClassManager: "
              metadata_init _ _ eq_refl) as (catalog & Hcatalog & Hlookup).
  exists catalog. split; [exact Hcatalog|].
  split; rewrite Hlookup; reflexivity.
Defined.

End PropertyChecks.

(** ** Validation of the model definitions *)

Module ModelDefinitionsProofs.
Import Results ModelDefinitions ModelDefinitionsSpec PyFacts.

Lemma ascii_compare_spec (a b : Ascii.ascii) :
  CompareSpec (Ascii.N_of_ascii a = Ascii.N_of_ascii b)
    (Ascii.N_of_ascii a < Ascii.N_of_ascii b)%N
    (Ascii.N_of_ascii b < Ascii.N_of_ascii a)%N (Ascii.compare a b).
Proof. unfold Ascii.compare. apply N.compare_spec. Qed.

Lemma string_compare_trans (a b c : string) :
  String.compare a b <> Gt -> String.compare b c <> Gt ->
  String.compare a c <> Gt.
Proof.
  revert b c. induction a as [|x a IH]; intros [|y b] [|z c]; cbn;
    try congruence.
  destruct (ascii_compare_spec x y) as [Hxy|Hxy|Hxy];
    destruct (ascii_compare_spec y z) as [Hyz|Hyz|Hyz];
    destruct (ascii_compare_spec x z) as [Hxz|Hxz|Hxz];
    try congruence; try lia.
  apply IH.
Qed.

#[local] Instance str_le_transitive : Transitive str_le.
Proof.
  intros a b c. unfold str_le, String.leb. intros Hab Hbc.
  pose proof (string_compare_trans a b c) as Htrans.
  destruct (String.compare a b), (String.compare b c),
    (String.compare a c); try done; exfalso; by apply Htrans.
Qed.

#[local] Instance str_le_total : Total str_le.
Proof. intros a b. apply String.leb_total. Qed.

Section ModelDefinitionsFacts.
Context `{SchemaValidator} `{SetOrder}.
Context (reference_datatype_schemas : pydict).

Abbreviation definition_check :=
  (validate_definition reference_datatype_schemas).

Lemma sorted_keys_elem refs key : key ∈ sorted_keys refs <-> key ∈ refs.*1.
Proof. unfold sorted_keys. by rewrite merge_sort_Permutation. Qed.

(** The result of one definition is a result of the test of its key, and
    the [try] lets no failure of the test through. *)
Lemma validate_definition_result ds sn refs key :
  (forall detail,
     definition_check ds sn refs key <> Raise (NMOSTestException detail))
  /\ forall r, definition_check ds sn refs key = Return r ->
       r.1 = definition_test key.
Proof.
  unfold validate_definition.
  match goal with
  | |- context [match ?m with Return _ => _ | Raise _ => _ end] =>
      destruct m as [r|[]] eqn:Hm
  end; (split; [done|]); try done.
  - intros r' [= <-]. revert Hm.
    destruct (truthy _); [|by intros [= <-]].
    destruct (getitem _ _); cbn [bind]; [|done].
    destruct (getitem _ _); cbn [bind]; [|done].
    destruct (_validate_schema _ _ _); cbn [bind]; [|done].
    destruct (list_find _ _) as [[? [? ?]]|]; cbn [bind]; [|done].
    destruct (Descriptor.validate_descriptor _ _ _); cbn [bind]; [|done].
    by intros [= <-].
  - by intros r [= <-].
Qed.

Lemma validate_definitions_results ds sn refs keys acc :
  (forall detail,
     validate_definitions reference_datatype_schemas ds sn refs keys acc
     <> Raise (NMOSTestException detail))
  /\ forall results,
       validate_definitions reference_datatype_schemas ds sn refs keys acc
       = Return results ->
       exists rs, results = acc ++ rs
         /\ Forall2 (fun key r => definition_check ds sn refs key = Return r)
              keys rs.
Proof.
  revert acc. induction keys as [|key keys IH]; intros acc;
    cbn [validate_definitions].
  - split; [done|]. intros results [= <-]. exists [].
    split; [by rewrite app_nil_r | constructor].
  - destruct (validate_definition_result ds sn refs key) as [Hno _].
    destruct (definition_check ds sn refs key) as [r|e] eqn:Hkey; cbn [bind].
    + destruct (IH (acc ++ [r])) as [IHno IHres]. split; [exact IHno|].
      intros results (rs & -> & Hrs)%IHres. exists (r :: rs).
      split; [by rewrite <- (assoc_L (++)) | by constructor].
    + split; [|done]. intros detail [= ->]. by eapply Hno.
Qed.

(** X11: [validate_model_definitions] lets no failure of a test through: a
    definition that fails gives a result and the loop goes on.  What it
    returns holds one result for every key of the reference catalog, each
    under the test named after its key, in the ascending order of the
    keys. *)
Theorem validate_model_definitions_results ds sn refs :
  (forall detail,
     validate_model_definitions reference_datatype_schemas ds sn refs
     <> Raise (NMOSTestException detail))
  /\ forall results,
       validate_model_definitions reference_datatype_schemas ds sn refs
       = Return results ->
       results.*1 = definition_test <$> sorted_keys refs
       /\ sorted_keys refs ≡ₚ refs.*1
       /\ StronglySorted str_le (sorted_keys refs).
Proof.
  unfold validate_model_definitions.
  destruct (validate_definitions_results ds sn refs (sorted_keys refs) [])
    as [Hno Hres].
  split; [exact Hno|]. intros results (rs & -> & Hrs)%Hres.
  split; [|split].
  - cbn [app]. clear Hno Hres.
    induction Hrs as [|key r keys rs Hr _ IH]; [reflexivity|].
    cbn [fmap list_fmap]. f_equal; [|exact IH].
    by apply (validate_definition_result ds sn refs key).
  - apply merge_sort_Permutation.
  - apply (StronglySorted_merge_sort _).
Qed.

(** X12: a definition that the Node does not advertise, or advertises as an
    empty value, is never held against it: its result is UNCLEAR, "Not
    Implemented". *)
Theorem validate_model_definitions_unadvertised ds sn refs results key :
  validate_model_definitions reference_datatype_schemas ds sn refs
  = Return results ->
  key ∈ refs.*1 ->
  truthy (get ds key) = false ->
  (definition_test key, UNCLEAR (Message "Not Implemented")) ∈ results.
Proof.
  unfold validate_model_definitions.
  intros (rs & -> & Hrs)%validate_definitions_results Hkey Hfalsy.
  apply sorted_keys_elem, list_elem_of_lookup in Hkey as [i Hi].
  destruct (Forall2_lookup_l _ _ _ _ _ Hrs Hi) as (r & Hr & Hcheck).
  cbn [app]. apply list_elem_of_lookup. exists i. rewrite Hr. f_equal.
  unfold validate_definition in Hcheck. rewrite Hfalsy in Hcheck.
  by injection Hcheck as <-.
Qed.

(** X13: what the Node advertises beyond the keys of the reference catalog
    is not looked at: two catalogs of the Node that agree on the keys of
    the reference give the same results. *)
Theorem validate_model_definitions_reference_keys ds ds' sn refs :
  (forall key, key ∈ refs.*1 ->
     dict_get ds' (KStr key) = dict_get ds (KStr key)) ->
  validate_model_definitions reference_datatype_schemas ds' sn refs
  = validate_model_definitions reference_datatype_schemas ds sn refs.
Proof.
  intros Hagree. unfold validate_model_definitions.
  assert (Hkeys : forall key, key ∈ sorted_keys refs -> key ∈ refs.*1)
    by (intros key; apply sorted_keys_elem).
  generalize (@nil (Test * state)).
  induction (sorted_keys refs) as [|key keys IH]; intros acc; [reflexivity|].
  cbn [validate_definitions].
  assert (Hkey : definition_check ds' sn refs key
                 = definition_check ds sn refs key).
  { unfold validate_definition, get, getitem.
    rewrite Hagree; [reflexivity|]. apply Hkeys. left. }
  rewrite Hkey. destruct (definition_check ds sn refs key); cbn [bind];
    [|reflexivity].
  apply IH. intros k Hk. apply Hkeys. by right.
Qed.

Lemma list_find_key (refs : list (string * pyval)) key v :
  NoDup refs.*1 -> (key, v) ∈ refs ->
  exists i, list_find (fun kv => kv.1 = key) refs = Some (i, (key, v)).
Proof.
  induction refs as [|[k w] refs IH]; cbn [fmap list_fmap];
    [by intros _ ?%elem_of_nil|].
  rewrite NoDup_cons. intros [Hnotin Hnd] [Heq|Hin]%elem_of_cons.
  - injection Heq as <- <-. exists 0%nat. cbn. by rewrite decide_True.
  - destruct (IH Hnd Hin) as [i Hi]. exists (S i). cbn.
    rewrite decide_False.
    + by rewrite Hi.
    + cbn. intros ->. apply Hnotin. apply list_elem_of_fmap.
      by exists (key, v).
Qed.

(** X14: a Node that advertises every reference definition verbatim passes
    every definition test, when the definitions are well-formed and accepted
    by the schema. *)
Theorem validate_model_definitions_verbatim ds sn refs schema :
  NoDup refs.*1 ->
  dict_get reference_datatype_schemas (KStr sn) = Some schema ->
  truthy schema = true ->
  (forall key v, (key, v) ∈ refs ->
     dict_get ds (KStr key) = Some v /\ truthy v = true
     /\ DescriptorSpec.well_formed v
     /\ validate_schema v schema = SchemaValid) ->
  validate_model_definitions reference_datatype_schemas ds sn refs
  = Return ((fun key => (definition_test key, PASS)) <$> sorted_keys refs).
Proof.
  intros Hnd Hschema Htruthy Hrefs. unfold validate_model_definitions.
  assert (Hkeys : forall key, key ∈ sorted_keys refs -> key ∈ refs.*1)
    by (intros key; apply sorted_keys_elem).
  change ((fun key => (definition_test key, PASS)) <$> sorted_keys refs)
    with ([] ++ ((fun key => (definition_test key, PASS))
                   <$> sorted_keys refs)).
  generalize (@nil (Test * state)).
  induction (sorted_keys refs) as [|key keys IH]; intros acc;
    cbn [validate_definitions fmap list_fmap].
  { by rewrite app_nil_r. }
  assert (Hkey : key ∈ refs.*1) by (apply Hkeys; left).
  apply list_elem_of_fmap in Hkey as ([k v] & -> & Hin). cbn [fst].
  destruct (Hrefs _ _ Hin) as (Hds & Hv & Hwf & Hvalid).
  destruct (list_find_key _ _ _ Hnd Hin) as [i Hfind].
  assert (Hcheck : definition_check ds sn refs k
                   = Return (definition_test k, PASS)).
  { unfold validate_definition, get, getitem. rewrite Hds. cbn [default].
    simpl. rewrite Hv, Hschema. cbn [bind].
    unfold _validate_schema. rewrite Htruthy, Hvalid. cbn [negb bind].
    rewrite Hfind. cbn [bind].
    by rewrite (DescriptorProofs.validate_descriptor_refl v "" Hwf). }
  rewrite Hcheck. cbn [bind]. rewrite IH.
  - by rewrite <- (assoc_L (++)).
  - intros k' Hk'. apply Hkeys. by right.
Qed.

End ModelDefinitionsFacts.

#[local] Existing Instances ConstraintsSpec.accept_all
  DescriptorSpec.elements_order.


Lemma validate_model_definitions_results_witness :
  exists results,
    validate_model_definitions descriptor_schemas advertised_definitions
      "NcClassDescriptor" reference_definitions = Return results
    /\ results.*1 = [definition_test "NcBlock"; definition_test "NcWorker"].
Proof.
  eexists. split; [vm_compute; reflexivity|].
  apply (proj2 (validate_model_definitions_results descriptor_schemas
                  advertised_definitions "NcClassDescriptor"
                  reference_definitions)).
  vm_compute. reflexivity.
Defined.

Lemma validate_model_definitions_unadvertised_witness :
  (definition_test "NcBlock", UNCLEAR (Message "Not Implemented"))
  ∈ [(definition_test "NcBlock", UNCLEAR (Message "Not Implemented"));
     (definition_test "NcWorker", PASS)].
Proof.
  apply (validate_model_definitions_unadvertised descriptor_schemas
           advertised_definitions "NcClassDescriptor" reference_definitions
           _ "NcBlock").
  - vm_compute. reflexivity.
  - compute_done.
  - reflexivity.
Defined.

Lemma validate_model_definitions_reference_keys_witness :
  validate_model_definitions descriptor_schemas
    [(KStr "NcWorker", DescriptorReportSpec.reference_worker)]
    "NcClassDescriptor" reference_definitions
  = validate_model_definitions descriptor_schemas advertised_definitions
      "NcClassDescriptor" reference_definitions.
Proof.
  apply (validate_model_definitions_reference_keys descriptor_schemas).
  intros key Hkey.
  assert (key = "NcWorker" \/ key = "NcBlock") as [-> | ->]
    by (cbn in Hkey; set_solver).
  - reflexivity.
  - reflexivity.
Defined.

Lemma validate_model_definitions_verbatim_witness :
  validate_model_definitions descriptor_schemas
    [(KStr "NcWorker", DescriptorReportSpec.reference_worker)]
    "NcClassDescriptor"
    [("NcWorker", DescriptorReportSpec.reference_worker)]
  = Return [(definition_test "NcWorker", PASS)].
Proof.
  apply (validate_model_definitions_verbatim descriptor_schemas
           [(KStr "NcWorker", DescriptorReportSpec.reference_worker)]
           "NcClassDescriptor"
           [("NcWorker", DescriptorReportSpec.reference_worker)]
           (PDict [(KStr "type", PStr "object")])).
  - apply NoDup_singleton.
  - reflexivity.
  - reflexivity.
  - intros key v Hin%list_elem_of_singleton. injection Hin as -> ->.
    split; [reflexivity|]. split; [reflexivity|].
    split; [apply DescriptorReport.reference_worker_well_formed | reflexivity].
Defined.

End ModelDefinitionsProofs.

(** ** The constraint tests *)

Module ConstraintTestsProofs.
Import DeviceModel Constraints Results ConstraintTests ConstraintTestsSpec.
Import PyFacts QueryProofs.

Lemma only_sets_refl md : only_sets md md.
Proof. by split. Qed.

Lemma only_sets_trans md1 md2 md3 :
  only_sets md1 md2 -> only_sets md2 md3 -> only_sets md1 md3.
Proof. intros [? ?] [? ?]. split; auto. Qed.

Lemma only_sets_checked md : only_sets md (set_checked md).
Proof. by split. Qed.

Lemma only_sets_error md text : only_sets md (set_error_msg (set_error md) text).
Proof. by split. Qed.

Lemma for_each_st_only_sets {A} (l : list A) body md md' :
  (forall x md1 md2, x ∈ l -> body x md1 = Return md2 -> only_sets md1 md2) ->
  for_each_st l body md = Return md' -> only_sets md md'.
Proof.
  revert md. induction l as [|x l IH]; intros md Hbody; cbn [for_each_st].
  - intros [= <-]. apply only_sets_refl.
  - destruct (body x md) as [md1|] eqn:Hx; cbn [bind]; [|discriminate].
    intros Hrest. eapply only_sets_trans.
    + eapply Hbody; [left | exact Hx].
    + apply IH; [|exact Hrest]. intros y m1 m2 Hy. apply Hbody. by right.
Qed.

Lemma for_each_st_unchanged {A S} (l : list A) (body : A -> S -> outcome S) s :
  (forall x, x ∈ l -> body x s = Return s) ->
  for_each_st l body s = Return s.
Proof.
  induction l as [|x l IH]; intros Hbody; cbn [for_each_st]; [reflexivity|].
  rewrite Hbody by left. cbn [bind]. apply IH.
  intros y Hy. apply Hbody. by right.
Qed.

Lemma resolve_datatype_no_recursion_error t d :
  resolve_datatype t d <> Raise RecursionError.
Proof.
  unfold resolve_datatype. cbn [resolve_datatype_def].
  destruct (subscript _ _) as [descriptor|e] eqn:Hs; cbn [bind].
  - destruct (dot_get descriptor "parentType") as [parent|e] eqn:Hp.
    + destruct (truthy parent); [discriminate|]. discriminate.
    + destruct descriptor; cbn in Hp; congruence.
  - cbn in Hs. destruct (getitem d (KStr t)) eqn:Hg; [discriminate|].
    unfold getitem in Hg. destruct (dict_get d (KStr t)); congruence.
Qed.

Section ConstraintTestsFacts.
Context `{SchemaValidator} `{NcDatatypeType}.
Context (datatype_schemas : pydict).

Lemma check_constraint_legality_only_sets c t d ct md ctx md' :
  check_constraint_legality c t d ct md ctx = Return md' -> only_sets md md'.
Proof.
  unfold check_constraint_legality.
  destruct (resolve_datatype t d) as [datatype|]; cbn [bind]; [|discriminate].
  intros [= <-].
  repeat match goal with
         | |- context [if ?b then _ else _] => destruct b
         end;
    repeat first [ apply only_sets_refl
                 | eapply only_sets_trans; [|apply only_sets_error] ].
Qed.

Lemma check_constraint_only_sets c t d schema b ct md ctx md' :
  check_constraint c t d schema b ct md ctx = Return md' -> only_sets md md'.
Proof.
  unfold check_constraint. destruct (truthy _).
  - destruct (xorb _ _); [intros [= <-]; apply only_sets_error|].
    match goal with
    | |- bind ?m _ = _ -> _ => destruct m
    end; cbn [bind]; [|discriminate].
    apply check_constraint_legality_only_sets.
  - apply check_constraint_legality_only_sets.
Qed.

Lemma check_constraint_of_only_sets c t d schema is_seq ct md ctx md' :
  check_constraint_of c t d schema is_seq ct md ctx = Return md' ->
  only_sets md md'.
Proof.
  unfold check_constraint_of. destruct c; try discriminate.
  destruct is_seq; try apply check_constraint_only_sets;
    (destruct (truthy _);
     [intros [= <-]; apply only_sets_error
     |apply check_constraint_legality_only_sets]).
Qed.

Lemma _validate_schema_no_recursion_error payload schema context :
  _validate_schema payload schema context <> Raise RecursionError.
Proof.
  unfold _validate_schema. destruct (negb _); [discriminate|].
  destruct (validate_schema _ _); discriminate.
Qed.

Lemma check_constraint_legality_no_recursion_error c t d ct md ctx :
  check_constraint_legality c t d ct md ctx <> Raise RecursionError.
Proof.
  unfold check_constraint_legality.
  pose proof (resolve_datatype_no_recursion_error t d).
  destruct (resolve_datatype t d); cbn [bind]; [discriminate | congruence].
Qed.

Lemma check_constraint_of_no_recursion_error c t d schema is_seq ct md ctx :
  check_constraint_of c t d schema is_seq ct md ctx <> Raise RecursionError.
Proof.
  unfold check_constraint_of. destruct c; try discriminate.
  assert (Hcheck : forall b,
            check_constraint d0 t d schema b ct md ctx <> Raise RecursionError).
  { intros b. unfold check_constraint. destruct (truthy _);
      [|apply check_constraint_legality_no_recursion_error].
    destruct (xorb _ _); [discriminate|].
    match goal with
    | |- bind ?m _ <> _ => destruct m as [[]|e] eqn:Hm
    end; cbn [bind]; [apply check_constraint_legality_no_recursion_error|].
    intros [= ->]. revert Hm. destruct b.
    - destruct (get d0 "defaultValue"); try discriminate.
      intros (l1 & x & l2 & _ & _ & Hx)%for_each_raise.
      by apply _validate_schema_no_recursion_error in Hx.
    - apply _validate_schema_no_recursion_error. }
  destruct is_seq; try apply Hcheck;
    (destruct (truthy _);
     [discriminate | apply check_constraint_legality_no_recursion_error]).
Qed.

(** *** Runtime constraints *)

Lemma do_validate_runtime_constraints_test_eq o cds dds context md :
  do_validate_runtime_constraints_test datatype_schemas o cds dds context md
  = (md <- check_runtime_constraints datatype_schemas o cds dds context md ;;
     match o with
     | NcBlock _ _ role _ _ child_objects =>
         for_each_st child_objects (fun child_object md =>
           do_validate_runtime_constraints_test datatype_schemas child_object
             cds dds (context +:+ role +:+ ": ") md) md
     | _ => Return md
     end).
Proof.
  destruct o as [|class_id oid role ms rc children|];
    cbn [do_validate_runtime_constraints_test]; try reflexivity.
  destruct (check_runtime_constraints _ _ _ _ _ _) as [md1|]; cbn [bind];
    [|reflexivity].
  revert md1. induction children as [|child children IH]; intros md1;
    [reflexivity|].
  cbn [for_each_st].
  destruct (do_validate_runtime_constraints_test _ child _ _ _ _); cbn [bind];
    [apply IH | reflexivity].
Qed.

Lemma check_runtime_constraint_only_sets context role c dds p md md' :
  check_runtime_constraint datatype_schemas context role c dds p md
  = Return md' ->
  only_sets md md'.
Proof.
  unfold check_runtime_constraint, message_root.
  destruct (getitem_str p "id"); cbn [bind]; [|discriminate].
  destruct (getitem_str c "propertyId"); cbn [bind]; [|discriminate].
  destruct (py_eqb _ _); [|intros [= <-]; apply only_sets_refl].
  destruct (getitem_str p "name") as [name|]; cbn [bind]; [|discriminate].
  destruct (as_str name); cbn [bind]; [|discriminate].
  destruct (dot_get p "typeName") as [typeName|]; cbn [bind]; [|discriminate].
  destruct (as_str typeName); cbn [bind]; [|discriminate].
  destruct (getitem_str p "isSequence"); cbn [bind]; [|discriminate].
  apply check_constraint_of_only_sets.
Qed.

Lemma check_runtime_constraints_only_sets o cds dds context md md' :
  check_runtime_constraints datatype_schemas o cds dds context md = Return md' ->
  only_sets md md'.
Proof.
  unfold check_runtime_constraints.
  destruct (truthy _); [|intros [= <-]; apply only_sets_refl].
  destruct (py_iter _) as [constraints|]; cbn [bind]; [|discriminate].
  intros Hloop. eapply only_sets_trans; [apply only_sets_checked|].
  eapply for_each_st_only_sets; [|exact Hloop].
  intros c md1 md2 _.
  destruct (getitem _ _) as [cd|]; cbn [bind]; [|discriminate].
  destruct (getitem_str cd "properties") as [ps|]; cbn [bind]; [|discriminate].
  destruct (py_iter ps) as [properties|]; cbn [bind]; [|discriminate].
  apply for_each_st_only_sets. intros p m1 m2 _.
  apply check_runtime_constraint_only_sets.
Qed.

Lemma do_validate_runtime_constraints_test_only_sets o cds dds context md md' :
  do_validate_runtime_constraints_test datatype_schemas o cds dds context md
  = Return md' ->
  only_sets md md'.
Proof.
  revert context md md'.
  induction o as [|class_id oid role ms rc children IH|]
    using nc_object_nested_ind; intros context md md';
    rewrite do_validate_runtime_constraints_test_eq;
    (destruct (check_runtime_constraints _ _ _ _ _ _) as [md1|] eqn:Hown;
     cbn [bind]; [|discriminate]);
    apply check_runtime_constraints_only_sets in Hown;
    try (intros [= <-]; exact Hown).
  intros Hchildren. eapply only_sets_trans; [exact Hown|].
  eapply for_each_st_only_sets; [|exact Hchildren].
  intros child m1 m2 Hchild. rewrite Forall_forall in IH. by apply IH.
Qed.

Lemma do_validate_runtime_constraints_test_none device_model cds dds
    context md :
  (forall o, o ∈ objects_of device_model ->
     truthy (nc_runtime_constraints o) = false) ->
  do_validate_runtime_constraints_test datatype_schemas device_model cds dds
    context md = Return md.
Proof.
  revert context md.
  induction device_model as [|class_id' oid' role' ms rc' children IH|]
    using nc_object_nested_ind; intros context md Hnone;
    rewrite do_validate_runtime_constraints_test_eq;
    unfold check_runtime_constraints;
    (rewrite Hnone by (cbn [objects_of]; left)); cbn [bind];
    try reflexivity.
  apply for_each_st_unchanged. intros child Hchild.
  rewrite Forall_forall in IH. apply (IH _ Hchild).
  intros o Ho. apply Hnone. cbn [objects_of]. right.
  apply list_elem_of_In, in_flat_map. exists child.
  split; by apply list_elem_of_In.
Qed.

(** X15: a device model none of whose objects has runtime constraints leaves
    the metadata of [test_33] as it was, so that the test, run on fresh
    metadata, is UNCLEAR: "No runtime constraints found." *)
Theorem test_33_no_runtime_constraints device_model class_id oid role cds dds
    rc context md :
  (forall o, o ∈ objects_of device_model ->
     truthy (nc_runtime_constraints o) = false) ->
  do_validate_runtime_constraints_test datatype_schemas device_model cds dds
    context md = Return md
  /\ test_33 datatype_schemas device_model
       (NcClassManager class_id oid role cds dds rc) metadata_init
     = Return (UNCLEAR (Message "No runtime constraints found.")).
Proof.
  intros Hnone. split; [by apply do_validate_runtime_constraints_test_none|].
  unfold test_33. by rewrite do_validate_runtime_constraints_test_none.
Qed.

Lemma check_runtime_constraint_unmatched context role c dds properties md :
  names_no_property properties c ->
  for_each_st properties
    (check_runtime_constraint datatype_schemas context role c dds) md
  = Return md.
Proof.
  intros (pid & Hpid & Hprops). apply for_each_st_unchanged.
  intros p Hp. rewrite Forall_forall in Hprops.
  destruct (Hprops _ Hp) as (id & Hid & Hne).
  unfold check_runtime_constraint. rewrite Hid, Hpid. cbn [bind].
  by rewrite Hne.
Qed.

(** X16: a runtime constraint that names a property id that the class of the
    object does not have is counted as checked and never examined: an
    object all of whose runtime constraints are such, above objects
    without runtime constraints, makes [test_33] pass. *)
Theorem test_33_unmatched_constraints device_model class_id oid role cds dds
    rc c cs cd properties :
  nc_runtime_constraints device_model = PList (c :: cs) ->
  getitem cds (KStr (class_identifier_of (nc_class_id device_model)))
  = Return cd ->
  getitem_str cd "properties" = Return (PList properties) ->
  Forall (names_no_property properties) (c :: cs) ->
  (forall child o, child ∈ children_of device_model -> o ∈ objects_of child ->
     truthy (nc_runtime_constraints o) = false) ->
  test_33 datatype_schemas device_model
    (NcClassManager class_id oid role cds dds rc) metadata_init
  = Return PASS.
Proof.
  intros Hrc Hcd Hproperties Hunmatched Hbelow.
  assert (Hown : forall context md,
            check_runtime_constraints datatype_schemas device_model cds dds
              context md = Return (set_checked md)).
  { intros context md. unfold check_runtime_constraints. rewrite Hrc.
    cbn [truthy py_iter bind]. apply for_each_st_unchanged.
    intros c' Hc'. rewrite Hcd. cbn [bind]. rewrite Hproperties.
    cbn [bind py_iter]. apply check_runtime_constraint_unmatched.
    rewrite Forall_forall in Hunmatched. by apply Hunmatched. }
  unfold test_33. rewrite do_validate_runtime_constraints_test_eq, Hown.
  cbn [bind].
  assert (Hchildren :
            for_each_st (children_of device_model) (fun child_object md =>
              do_validate_runtime_constraints_test datatype_schemas
                child_object cds dds ("" +:+ nc_role device_model +:+ ": ") md)
              (set_checked metadata_init)
            = Return (set_checked metadata_init)).
  { apply for_each_st_unchanged. intros child Hchild.
    apply do_validate_runtime_constraints_test_none.
    intros o Ho. by apply (Hbelow child). }
  destruct device_model; cbn [children_of nc_role] in Hchildren;
    try reflexivity.
  by rewrite Hchildren.
Qed.

(** *** Property constraints *)

Lemma do_validate_property_constraints_test_eq o cds dds context md :
  do_validate_property_constraints_test datatype_schemas o cds dds context md
  = (md <- check_property_constraints datatype_schemas o cds dds context md ;;
     match o with
     | NcBlock _ _ role _ _ child_objects =>
         for_each_st child_objects (fun child_object md =>
           do_validate_property_constraints_test datatype_schemas child_object
             cds dds (context +:+ role +:+ ": ") md) md
     | _ => Return md
     end).
Proof.
  destruct o as [|class_id oid role ms rc children|];
    cbn [do_validate_property_constraints_test]; try reflexivity.
  destruct (check_property_constraints _ _ _ _ _ _) as [md1|]; cbn [bind];
    [|reflexivity].
  revert md1. induction children as [|child children IH]; intros md1;
    [reflexivity|].
  cbn [for_each_st].
  destruct (do_validate_property_constraints_test _ child _ _ _ _);
    cbn [bind]; [apply IH | reflexivity].
Qed.

Lemma check_property_constraint_only_sets context role dds p md md' :
  check_property_constraint datatype_schemas context role dds p md
  = Return md' ->
  only_sets md md'.
Proof.
  unfold check_property_constraint, message_root.
  destruct (getitem_str p "constraints") as [c|]; cbn [bind]; [|discriminate].
  destruct (truthy c); [|intros [= <-]; apply only_sets_refl].
  destruct (getitem_str p "name") as [name|]; cbn [bind]; [|discriminate].
  destruct (as_str name); cbn [bind]; [|discriminate].
  destruct (dot_get p "typeName") as [typeName|]; cbn [bind]; [|discriminate].
  destruct (as_str typeName); cbn [bind]; [|discriminate].
  destruct (getitem_str p "isSequence"); cbn [bind]; [|discriminate].
  intros Hcheck. eapply only_sets_trans; [apply only_sets_checked|].
  by apply check_constraint_of_only_sets in Hcheck.
Qed.

Lemma check_property_constraints_only_sets o cds dds context md md' :
  check_property_constraints datatype_schemas o cds dds context md
  = Return md' ->
  only_sets md md'.
Proof.
  unfold check_property_constraints.
  destruct (getitem _ _) as [cd|]; cbn [bind]; [|discriminate].
  destruct (getitem_str cd "properties") as [ps|]; cbn [bind]; [|discriminate].
  destruct (py_iter ps) as [properties|]; cbn [bind]; [|discriminate].
  apply for_each_st_only_sets. intros p m1 m2 _.
  apply check_property_constraint_only_sets.
Qed.

Lemma do_validate_property_constraints_test_only_sets o cds dds context md
    md' :
  do_validate_property_constraints_test datatype_schemas o cds dds context md
  = Return md' ->
  only_sets md md'.
Proof.
  revert context md md'.
  induction o as [|class_id oid role ms rc children IH|]
    using nc_object_nested_ind; intros context md md';
    rewrite do_validate_property_constraints_test_eq;
    (destruct (check_property_constraints _ _ _ _ _ _) as [md1|] eqn:Hown;
     cbn [bind]; [|discriminate]);
    apply check_property_constraints_only_sets in Hown;
    try (intros [= <-]; exact Hown).
  intros Hchildren. eapply only_sets_trans; [exact Hown|].
  eapply for_each_st_only_sets; [|exact Hchildren].
  intros child m1 m2 Hchild. rewrite Forall_forall in IH. by apply IH.
Qed.

Lemma for_each_st_elem {A S} (l : list A) (body : A -> S -> outcome S) s s' x :
  for_each_st l body s = Return s' -> x ∈ l ->
  exists s1 s2, body x s1 = Return s2.
Proof.
  revert s. induction l as [|y l IH]; intros s; cbn [for_each_st];
    [by intros _ ?%elem_of_nil|].
  destruct (body y s) as [s1|] eqn:Hy; cbn [bind]; [|discriminate].
  intros Hrest [->|Hx]%elem_of_cons; [by exists s, s1|].
  by apply (IH s1).
Qed.

(** X17: the walk of [test_34] looks up the class of every object of the
    device model: it completes only when the Class Manager advertises the
    class of each object; an object of another class makes it raise
    (a [KeyError] at the object itself). *)
Theorem do_validate_property_constraints_test_needs_classes device_model cds
    dds context md :
  (dict_get cds (KStr (class_identifier_of (nc_class_id device_model))) = None ->
   do_validate_property_constraints_test datatype_schemas device_model cds dds
     context md = Raise KeyError)
  /\ forall md',
       do_validate_property_constraints_test datatype_schemas device_model
         cds dds context md = Return md' ->
       forall o, o ∈ objects_of device_model ->
         is_Some (dict_get cds (KStr (class_identifier_of (nc_class_id o)))).
Proof.
  split.
  { intros Hnone. rewrite do_validate_property_constraints_test_eq.
    unfold check_property_constraints, getitem. by rewrite Hnone. }
  revert context md.
  induction device_model as [class_id oid role rc
                            |class_id oid role ms rc children IH
                            |class_id oid role cds' dds' rc]
    using nc_object_nested_ind; intros context md md';
    rewrite do_validate_property_constraints_test_eq;
    unfold check_property_constraints, getitem at 1;
    (destruct (dict_get cds _) as [cd|] eqn:Hcd; cbn [bind];
     [|discriminate]).
  1,3: intros _ o ->%list_elem_of_singleton; by eexists.
  match goal with
  | |- bind ?m _ = _ -> _ => destruct m as [md1|]
  end; cbn [bind]; [|discriminate].
  intros Hchildren o. cbn [objects_of].
  intros [->|Ho]%elem_of_cons; [by eexists|].
  apply list_elem_of_In, in_flat_map in Ho as (child & Hchild & Ho).
  apply list_elem_of_In in Hchild, Ho.
  destruct (for_each_st_elem _ _ _ _ _ Hchildren Hchild) as (m1 & m2 & Hm).
  rewrite Forall_forall in IH. by eapply (IH _ Hchild).
Qed.

Lemma do_validate_property_constraints_test_none device_model cds dds
    context md :
  (forall o, o ∈ objects_of device_model -> unconstrained_class cds o) ->
  do_validate_property_constraints_test datatype_schemas device_model cds dds
    context md = Return md.
Proof.
  revert context md.
  induction device_model as [|class_id' oid' role' ms rc' children IH|]
    using nc_object_nested_ind; intros context md Hnone;
    rewrite do_validate_property_constraints_test_eq;
    (destruct (Hnone _ ltac:(cbn [objects_of]; left))
       as (cd & properties & Hcd & Hproperties & Hfree));
    unfold check_property_constraints;
    rewrite Hcd; cbn [bind]; rewrite Hproperties; cbn [bind py_iter];
    (rewrite for_each_st_unchanged;
     [cbn [bind]
     |intros p Hp; rewrite Forall_forall in Hfree;
      destruct (Hfree _ Hp) as (c & Hc & Hfalsy);
      unfold check_property_constraint; rewrite Hc; cbn [bind];
      by rewrite Hfalsy]);
    try reflexivity.
  apply for_each_st_unchanged. intros child Hchild.
  rewrite Forall_forall in IH. apply (IH _ Hchild).
  intros o Ho. apply Hnone. cbn [objects_of]. right.
  apply list_elem_of_In, in_flat_map. exists child.
  split; by apply list_elem_of_In.
Qed.

(** X18: when the Class Manager advertises the class of every object of the
    device model and no property of these classes has constraints, the
    metadata of [test_34] stays as it was, so that the test, run on fresh
    metadata, is UNCLEAR: "No property constraints found." *)
Theorem test_34_no_property_constraints device_model class_id oid role cds
    dds rc :
  (forall o, o ∈ objects_of device_model -> unconstrained_class cds o) ->
  test_34 datatype_schemas device_model
    (NcClassManager class_id oid role cds dds rc) metadata_init
  = Return (UNCLEAR (Message "No property constraints found.")).
Proof.
  intros Hnone. unfold test_34.
  by rewrite do_validate_property_constraints_test_none.
Qed.

(** *** Datatype constraints *)

Lemma do_validate_datatype_constraints_test_rec_only_sets n dt tn dds context
    md md' :
  do_validate_datatype_constraints_test_rec datatype_schemas n dt tn dds
    context md = Return md' ->
  only_sets md md'.
Proof.
  revert dt tn context md md'. induction n as [|n IH];
    intros dt tn context md md'; [discriminate|].
  cbn [do_validate_datatype_constraints_test_rec].
  destruct dt as [| | | | |d|]; try discriminate.
  match goal with
  | |- bind ?m _ = _ -> _ => destruct m as [md1|] eqn:Hown
  end; cbn [bind]; [|discriminate].
  assert (Hmd1 : only_sets md md1).
  { revert Hown. destruct (truthy _); [|intros [= <-]; apply only_sets_refl].
    destruct (hash_key tn); cbn [bind]; [|discriminate].
    destruct (as_str tn); cbn [bind]; [|discriminate].
    intros Hcheck. eapply only_sets_trans; [apply only_sets_checked|].
    by apply check_constraint_of_only_sets in Hcheck. }
  destruct (py_eqb _ _); [|by intros [= <-]].
  destruct (py_iter _) as [fields|]; cbn [bind]; [|discriminate].
  intros Hfields. eapply only_sets_trans; [exact Hmd1|].
  eapply for_each_st_only_sets; [|exact Hfields].
  intros field m1 m2 _. cbv beta.
  destruct (getitem_str field "typeName"); cbn [bind]; [|discriminate].
  destruct (as_str tn); cbn [bind]; [|discriminate].
  destruct (getitem_str field "name") as [fname|]; cbn [bind]; [|discriminate].
  destruct (as_str fname); cbn [bind]; [|discriminate].
  apply IH.
Qed.

Lemma for_each_st_no_recursion_error {A S} (l : list A)
    (body : A -> S -> outcome S) s :
  (forall x s, x ∈ l -> body x s <> Raise RecursionError) ->
  for_each_st l body s <> Raise RecursionError.
Proof.
  revert s. induction l as [|x l IH]; intros s Hbody; cbn [for_each_st];
    [discriminate|].
  pose proof (Hbody x s ltac:(left)) as Hx.
  destruct (body x s); cbn [bind]; [|congruence].
  apply IH. intros y s' Hy. apply Hbody. by right.
Qed.

Lemma do_validate_datatype_constraints_test_rec_total n dt tn dds context md :
  (Descriptor.depth dt <= n)%nat ->
  do_validate_datatype_constraints_test_rec datatype_schemas n dt tn dds
    context md <> Raise RecursionError.
Proof.
  revert dt tn context md. induction n as [|n IH]; intros dt tn context md Hn.
  { pose proof (DescriptorProofs.depth_pos dt). lia. }
  cbn [do_validate_datatype_constraints_test_rec].
  destruct dt as [| | | | |d|]; try discriminate.
  match goal with
  | |- bind ?m _ <> _ => assert (Hown : m <> Raise RecursionError)
  end.
  { destruct (truthy _); [|discriminate].
    destruct tn; cbn [hash_key as_str bind]; try discriminate.
    apply check_constraint_of_no_recursion_error. }
  match goal with
  | |- bind ?m _ <> _ => destruct m as [md1|]
  end; cbn [bind]; [|congruence].
  destruct (py_eqb _ _); [|discriminate].
  destruct (py_iter (get d "fields")) as [fields|e] eqn:Hfields; cbn [bind].
  - apply for_each_st_no_recursion_error. intros field m1 Hfield. cbv beta.
    destruct (getitem_str field "typeName") as [typeName|e] eqn:Htn;
      cbn [bind].
    + destruct tn; cbn [as_str bind]; try discriminate.
      destruct (getitem_str field "name") as [fname|e] eqn:Hname; cbn [bind].
      * destruct fname; cbn [as_str bind]; try discriminate.
        apply IH.
        (* the field is below the datatype *)
        destruct field as [| | | | |f|]; try discriminate.
        unfold get in Hfields.
        destruct (dict_get d (KStr "fields")) as [fs|] eqn:Hfs;
          [|discriminate].
        cbn [default] in Hfields. simpl in Hfields.
        apply dict_get_Some_elem, DescriptorProofs.depth_value in Hfs.
        cbn [Descriptor.depth] in Hn.
        destruct fs as [| | |text|l|d'|]; try discriminate.
        -- (* a string of fields: its characters are no objects *)
           injection Hfields as <-. exfalso. clear -Hfield.
           induction text as [|c text IHs]; cbn in Hfield;
             [by apply elem_of_nil in Hfield|].
           apply elem_of_cons in Hfield as [?|?]; [discriminate | auto].
        -- injection Hfields as <-.
           apply DescriptorProofs.depth_elem in Hfield.
           cbn [Descriptor.depth] in Hfs. lia.
        -- injection Hfields as <-. exfalso.
           apply list_elem_of_fmap in Hfield as (k & Hk & _).
           by destruct k.
      * destruct field; cbn in Hname; try congruence.
        unfold getitem in Hname. destruct (dict_get _ _); congruence.
    + destruct field; cbn in Htn; try congruence.
      unfold getitem in Htn. destruct (dict_get _ _); congruence.
  - destruct (get d "fields"); cbn in Hfields; congruence.
Qed.

(** X19: the three walks of the constraint tests only ever set the flags of
    their metadata: what is checked stays checked and an error, once found,
    is not cleared by a later constraint; and the recursion of the walk
    over the fields of a datatype ends. *)
Theorem constraint_tests_only_set_flags :
  (forall o cds dds context md md',
     do_validate_runtime_constraints_test datatype_schemas o cds dds context md
     = Return md' -> only_sets md md')
  /\ (forall o cds dds context md md',
        do_validate_property_constraints_test datatype_schemas o cds dds
          context md = Return md' -> only_sets md md')
  /\ (forall dt tn dds context md md',
        do_validate_datatype_constraints_test datatype_schemas dt tn dds
          context md = Return md' -> only_sets md md')
  /\ (forall dt tn dds context md,
        do_validate_datatype_constraints_test datatype_schemas dt tn dds
          context md <> Raise RecursionError).
Proof.
  split; [apply do_validate_runtime_constraints_test_only_sets|].
  split; [apply do_validate_property_constraints_test_only_sets|].
  split.
  - intros dt tn dds context md md'.
    apply do_validate_datatype_constraints_test_rec_only_sets.
  - intros dt tn dds context md.
    by apply do_validate_datatype_constraints_test_rec_total.
Qed.

End ConstraintTestsFacts.

#[local] Existing Instances ConstraintsSpec.accept_all struct_is_2.

Lemma test_33_no_runtime_constraints_witness :
  do_validate_runtime_constraints_test [] (constrained_model PNone)
    gain_classes gain_datatypes "" metadata_init = Return metadata_init
  /\ test_33 [] (constrained_model PNone) gain_manager metadata_init
     = Return (UNCLEAR (Message "No runtime constraints found.")).
Proof.
  apply (test_33_no_runtime_constraints [] (constrained_model PNone)).
  intros o Ho.
  assert (o = constrained_model PNone \/ o = NcObject [1; 2; 1] 2 "gain" PNone)
    as [-> | ->] by (cbn in Ho; set_solver); reflexivity.
Defined.

Lemma test_33_unmatched_constraints_witness :
  test_33 [] (NcObject [1; 2; 1] 2 "gain" (PList [stray_constraint]))
    gain_manager metadata_init
  = Return PASS.
Proof.
  apply (test_33_unmatched_constraints []
           (NcObject [1; 2; 1] 2 "gain" (PList [stray_constraint]))
           [1; 3; 2] 3 "ClassManager" gain_classes gain_datatypes PNone
           stray_constraint [] gain_class
           [PDict [(KStr "id", DeviceModelSpec.property_id 3 1);
                   (KStr "name", PStr "gainValue");
                   (KStr "typeName", PStr "NcUint32");
                   (KStr "isSequence", PBool false);
                   (KStr "constraints", PNone)]]);
    try reflexivity.
  - apply Forall_singleton. exists (DeviceModelSpec.property_id 9 9).
    split; [reflexivity|]. apply Forall_singleton.
    exists (DeviceModelSpec.property_id 3 1). split; reflexivity.
  - intros child o Hchild. by apply elem_of_nil in Hchild.
Defined.

Lemma do_validate_property_constraints_test_needs_classes_witness :
  do_validate_property_constraints_test []
    (NcObject [1; 2; 7] 5 "vendor" PNone) gain_classes gain_datatypes ""
    metadata_init
  = Raise KeyError.
Proof.
  apply (do_validate_property_constraints_test_needs_classes []
           (NcObject [1; 2; 7] 5 "vendor" PNone)).
  reflexivity.
Defined.

Lemma test_34_no_property_constraints_witness :
  test_34 [] (constrained_model PNone) gain_manager metadata_init
  = Return (UNCLEAR (Message "No property constraints found.")).
Proof.
  apply (test_34_no_property_constraints [] (constrained_model PNone)).
  intros o Ho.
  assert (o = constrained_model PNone \/ o = NcObject [1; 2; 1] 2 "gain" PNone)
    as [-> | ->] by (cbn in Ho; set_solver).
  - eexists _, []. split; [reflexivity|]. split; [reflexivity|].
    apply Forall_nil_2.
  - eexists _, _. split; [reflexivity|]. split; [reflexivity|].
    apply Forall_singleton. exists PNone. split; reflexivity.
Defined.

Lemma constraint_tests_only_set_flags_witness :
  exists md',
    do_validate_runtime_constraints_test []
      (constrained_model (PList [pattern_constraint])) gain_classes
      gain_datatypes "" metadata_init = Return md'
    /\ error md' = true
    /\ only_sets metadata_init md'.
Proof.
  eexists. split; [vm_compute; reflexivity|]. split; [reflexivity|].
  apply (proj1 (constraint_tests_only_set_flags [])
           (constrained_model (PList [pattern_constraint])) gain_classes
           gain_datatypes "" metadata_init).
  vm_compute. reflexivity.
Defined.

End ConstraintTestsProofs.

(** ** The tests of the device model *)

Module DeviceModelTestsProofs.
Import DeviceModel DeviceModelSpec Results DeviceModelTests.
Import DeviceModelTestsSpec QuerySpec WalkSpec PyFacts DeviceModelProofs.

Section DeviceModelTestsFacts.
Context `{SchemaValidator} `{Rendering} `{IS12Utils} `{Device} `{Harness}.
Context (reference_class_descriptors : pydict).

(** *** Reads keep the mark [checked] of the device model metadata *)

Lemma get_property_checked {A} (none : A) answer id context md :
  checked (get_property none answer id context md).2 = checked md.
Proof. by destruct answer. Qed.

Lemma get_class_manager_descriptors_checked oid id role md :
  checked (get_class_manager_descriptors oid id role md).2 = checked md.
Proof.
  unfold get_class_manager_descriptors.
  pose proof (get_property_checked None (remote_model_descriptors oid id) id
                role md) as Hc.
  destruct (get_property None _ _ _ md) as [[[|r rs]|] md1]; exact Hc.
Qed.

Lemma nc_object_factory_checked fuel class_id oid role md r md' :
  nc_object_factory fuel class_id oid role md = Return (r, md') ->
  checked md' = checked md.
Proof.
  revert class_id oid role md r md'.
  induction fuel as [|fuel IH]; intros class_id oid role md r md';
    [discriminate|].
  destruct (is_block_class class_id) eqn:Hblock.
  - rewrite nc_object_factory_block_eq by done. intros Hf.
    pose proof (get_property_checked PNone
                  (remote_get_property oid RUNTIME_PROPERTY_CONSTRAINTS)
                  RUNTIME_PROPERTY_CONSTRAINTS (role +:+ ": ") md) as Hrc.
    destruct (get_property PNone _ _ _ md) as [rc md1]. cbn [snd] in Hrc.
    pose proof (get_property_checked None (remote_members oid) MEMBERS
                  (role +:+ ": ") md1) as Hms.
    destruct (get_property None _ _ _ md1) as [ms md2]. cbn [snd] in Hms.
    destruct ms as [[|m ms]|]; try (simplify_eq; congruence).
    destruct (build_members _ _ _ _) as [[children md3]|e] eqn:Hb;
      cbn in Hf; [|discriminate].
    simplify_eq. apply build_members_builds in Hb as (rs & Hb & _).
    rewrite <- Hrc, <- Hms. clear -IH Hb.
    induction Hb as [|m0 ms0 md0 r0 md1 rs0 md2 Hm _ IHb]; [done|].
    rewrite IHb. apply member_build_return in Hm. by eapply IH.
  - cbn [nc_object_factory]. rewrite Hblock. intros Hf.
    pose proof (get_property_checked PNone
                  (remote_get_property oid RUNTIME_PROPERTY_CONSTRAINTS)
                  RUNTIME_PROPERTY_CONSTRAINTS (role +:+ ": ") md) as Hrc.
    destruct (get_property PNone _ _ _ md) as [rc md1]. cbn [snd] in Hrc.
    destruct (is_class_manager_class class_id).
    + pose proof (get_class_manager_descriptors_checked oid CONTROL_CLASSES
                    (role +:+ ": ") md1) as Hc.
      destruct (get_class_manager_descriptors oid CONTROL_CLASSES _ md1)
        as [cds md2]. cbn [snd] in Hc.
      pose proof (get_class_manager_descriptors_checked oid DATATYPES
                    (role +:+ ": ") md2) as Hd.
      destruct (get_class_manager_descriptors oid DATATYPES _ md2)
        as [dds md3]. cbn [snd] in Hd.
      destruct cds as [[|? ?]|], dds as [[|? ?]|]; simplify_eq; congruence.
    + simplify_eq. congruence.
Qed.

Section WalkChecked.
Context (datatype_schemas class_descriptors : pydict).

Lemma check_object_property_checked oid context cp st st' :
  check_object_property datatype_schemas oid context cp st = Return st' ->
  checked (pm_device_model st') = checked (pm_device_model st).
Proof.
  unfold check_object_property.
  destruct (Constraints.dot_get cp "id") as [id|]; cbn [bind]; [|discriminate].
  pose proof (get_property_checked PNone (remote_get_property oid id) id
                context (pm_device_model st)) as Hc.
  destruct (get_property PNone _ _ _ _) as [v md1]. cbn [snd] in Hc.
  destruct (negb (truthy v)); [by intros [= <-]|].
  destruct (getitem_str cp "isSequence") as [isSequence|]; cbn [bind];
    [|discriminate].
  destruct (truthy isSequence).
  - destruct (py_iter v); cbn [bind]; [|discriminate].
    destruct (for_each _ _); cbn [bind]; [|discriminate].
    unfold check_sequence_methods.
    destruct (check_get_sequence_item _ _ _ _ _) as [item [[]|]];
      cbn [bind]; [|discriminate].
    destruct (check_get_sequence_length _ _ _ _ _) as [len [[]|]];
      cbn [bind]; [|discriminate].
    by intros [= <-].
  - destruct (getitem_str cp "typeName") as [typeName|]; cbn [bind];
      [|discriminate].
    destruct (getitem_str cp "isNullable"); cbn [bind]; [|discriminate].
    destruct (as_str typeName); cbn [bind]; [|discriminate].
    destruct (getitem_str cp "name") as [name|]; cbn [bind]; [|discriminate].
    destruct (as_str name); cbn [bind]; [|discriminate].
    destruct (validate_property_type _ _ _ _ _); cbn [bind]; [|discriminate].
    by intros [= <-].
Qed.

Lemma check_object_properties_checked cd oid context st st' :
  check_object_properties datatype_schemas cd oid context st = Return st' ->
  checked (pm_device_model st') = checked (pm_device_model st).
Proof.
  unfold check_object_properties.
  destruct (getitem_str cd "properties") as [ps|]; cbn [bind]; [|discriminate].
  destruct (py_iter ps) as [properties|]; cbn [bind]; [|discriminate].
  revert st. induction properties as [|cp properties IH]; intros st;
    cbn [for_each_st]; [by intros [= <-]|].
  destruct (check_object_property _ _ _ _ _) as [st1|] eqn:Hcp; cbn [bind];
    [|discriminate].
  intros Hrest. rewrite (IH _ Hrest).
  by eapply check_object_property_checked.
Qed.

Lemma check_member_checked context m st st' :
  check_member datatype_schemas reference_class_descriptors class_descriptors
    context m st = Return st' ->
  checked (device_model_metadata (bs_suite st'))
  = checked (device_model_metadata (bs_suite st)).
Proof.
  unfold check_member.
  destruct (_validate_schema _ _ _); cbn [bind]; [|discriminate].
  do 4 (match goal with
        | |- bind (member_field ?d ?n) _ = _ -> _ =>
            destruct (member_field d n); cbn [bind]; [|discriminate]
        end).
  destruct (check_unique_roles _ _ _) as [roles_error role_cache].
  destruct (check_unique_oid _ _ _) as [oids_error oids].
  destruct (check_manager _ _ _ _) as [managers|]; cbn [bind];
    [|discriminate].
  destruct (check_touchpoints _ _ _ _ _) as [[device_model touchpoints]|]
    eqn:Htouch; cbn [bind]; [|discriminate].
  assert (Hdm : checked device_model
                = checked (device_model_metadata (bs_suite st))).
  { revert Htouch. unfold check_touchpoints.
    pose proof (get_property_checked PNone
                  (remote_get_property (m_oid m) TOUCHPOINTS) TOUCHPOINTS
                  (context +:+ m_role m +:+ ": ")
                  (device_model_metadata (bs_suite st))) as Hc.
    destruct (get_property PNone _ _ _ _) as [touch md1]. cbn [snd] in Hc.
    destruct touch; try (intros [= <- _]; exact Hc);
      (match goal with
       | |- match ?m with _ => _ end = _ -> _ => destruct m as [?|[]]
       end; try discriminate; intros [= <- _]; exact Hc). }
  match goal with
  | |- bind ?m _ = _ -> _ => destruct m as [properties|] eqn:Hprops
  end; cbn [bind]; [|discriminate].
  intros [= <-]. cbn. rewrite <- Hdm. revert Hprops.
  destruct (if negb _ then _ else _) as [class_descriptor|].
  - intros Hprops%check_object_properties_checked. exact Hprops.
  - by intros [= <-].
Qed.

Lemma check_members_checked context ms st st' :
  for_each_st ms
    (check_member datatype_schemas reference_class_descriptors
       class_descriptors context) st = Return st' ->
  checked (device_model_metadata (bs_suite st'))
  = checked (device_model_metadata (bs_suite st)).
Proof.
  revert st. induction ms as [|m ms IHm]; intros st; cbn [for_each_st];
    [by intros [= <-]|].
  destruct (check_member _ _ _ _ _ _) as [st1|] eqn:Hm; cbn [bind];
    [|discriminate].
  intros Hrest. rewrite (IHm _ Hrest). by eapply check_member_checked.
Qed.

Lemma check_block_checked block context s s' :
  check_block datatype_schemas reference_class_descriptors block
    class_descriptors context s = Return s' ->
  checked (device_model_metadata s') = checked (device_model_metadata s).
Proof.
  revert context s s'.
  induction block as [|class_id oid role ms rc children IH|]
    using QueryProofs.nc_object_nested_ind; intros context s s';
    try discriminate.
  rewrite WalkProofs.check_block_eq.
  match goal with
  | |- bind ?m _ = _ -> _ => destruct m as [s1|] eqn:Hchildren
  end; cbn [bind]; [|discriminate].
  destruct (for_each_st ms _ _) as [st|] eqn:Hmembers; cbn [bind];
    [|discriminate].
  intros [= <-].
  assert (Hs1 : checked (device_model_metadata s1)
                = checked (device_model_metadata s)).
  { clear Hmembers. revert s Hchildren.
    induction children as [|child children IHc]; intros s; cbn [for_each_st];
      [by intros [= <-]|].
    apply Forall_cons in IH as [IHchild IH].
    match goal with
    | |- bind ?m _ = _ -> _ => destruct m as [s0|] eqn:Hchild
    end; cbn [bind]; [|discriminate].
    intros Hrest. rewrite (IHc IH _ Hrest).
    destruct child; try by injection Hchild as <-.
    by eapply IHchild. }
  rewrite <- Hs1. apply check_members_checked in Hmembers. exact Hmembers.
Qed.

End WalkChecked.

(** *** The course of [check_device_model] *)

Lemma create_ncp_socket_return :
  create_ncp_socket = Return tt \/ exists e, create_ncp_socket = Raise e.
Proof.
  unfold create_ncp_socket. destruct open_ncp_websocket; eauto.
Qed.

(** A device model that is there is returned as it is. *)
Lemma query_device_model_cached fuel st dm :
  create_ncp_socket = Return tt ->
  s_device_model st = Some dm ->
  query_device_model fuel st = Return (dm, st).
Proof.
  intros Hopen Hdm. unfold query_device_model. by rewrite Hopen, Hdm.
Qed.

(** What [query_device_model] returns is the device model that the suite
    holds from then on; of the suite, only the device model metadata
    changes, and its mark [checked] stays. *)
Lemma query_device_model_return fuel st dm st' :
  query_device_model fuel st = Return (dm, st') ->
  create_ncp_socket = Return tt
  /\ s_device_model st' = Some dm
  /\ s_datatype_schemas st' = s_datatype_schemas st
  /\ (forall dm0, s_device_model st = Some dm0 -> dm0 = dm)
  /\ exists md,
       s_suite st' = with_device_model_metadata (s_suite st) md
       /\ checked md = checked (device_model_metadata (s_suite st)).
Proof.
  unfold query_device_model.
  destruct create_ncp_socket as [[]|]; cbn [bind]; [|discriminate].
  destruct (s_device_model st) as [dm0|] eqn:Hdm.
  - intros [= <- <-]. repeat split; try done.
    + by intros ? [= ->].
    + exists (device_model_metadata (s_suite st)). split; [|done].
      by destruct (s_suite st).
  - destruct (nc_object_factory _ _ _ _ _) as [[[dm1|] md]|] eqn:Hf;
      cbn [bind]; try discriminate.
    intros [= <- <-]. repeat split; try done.
    exists md. split; [done|]. by eapply nc_object_factory_checked.
Qed.

Lemma get_manager_return fuel class_id st member st' :
  get_manager fuel class_id st = Return (member, st') ->
  exists dm, query_device_model fuel st = Return (dm, st')
    /\ find_members_by_class_id_derived dm class_id = [member].
Proof.
  unfold get_manager.
  destruct create_ncp_socket as [[]|]; cbn [bind]; [|discriminate].
  destruct (query_device_model fuel st) as [[dm st1]|]; cbn [bind];
    [|discriminate].
  destruct (find_members_by_class_id_derived dm class_id) as [|m [|m' ms]]
    eqn:Hfind; try discriminate.
  intros [= <- <-]. by exists dm.
Qed.

Lemma generate_device_model_datatype_schemas_return fuel st dm st' :
  create_ncp_socket = Return tt ->
  s_device_model st = Some dm ->
  generate_device_model_datatype_schemas fuel st = Return st' ->
  s_suite st' = s_suite st /\ s_device_model st' = Some dm
  /\ is_Some (s_datatype_schemas st').
Proof.
  intros Hopen Hdm. unfold generate_device_model_datatype_schemas.
  destruct (has_schemas st) eqn:Hhas.
  - intros [= <-]. split; [done|]. split; [done|].
    unfold has_schemas in Hhas. by destruct (s_datatype_schemas st).
  - unfold get_manager. rewrite Hopen. cbn [bind].
    rewrite (query_device_model_cached _ _ _ Hopen Hdm). cbn [bind].
    cbv beta iota.
    destruct (find_members_by_class_id_derived dm NCCLASSMANAGER)
      as [|m [|m' ms]]; cbn [bind]; try discriminate.
    cbv beta iota.
    destruct (datatype_descriptors_of m); cbn [bind]; [|discriminate].
    intros [= <-]. cbn. by eauto.
Qed.

Lemma with_device_model_metadata_twice s md1 md2 :
  with_device_model_metadata (with_device_model_metadata s md1) md2
  = with_device_model_metadata s md2.
Proof. reflexivity. Qed.

(** A walk that completes starts from the suite as it was, but for the
    device model metadata, and goes over the device model that the suite
    then holds, with the class descriptors of the one class manager that
    the search finds. *)
Lemma check_device_model_walk fuel st st' :
  checked (device_model_metadata (s_suite st)) = false ->
  check_device_model reference_class_descriptors fuel st = Return st' ->
  exists dm class_manager cds schemas md,
    s_device_model st' = Some dm
    /\ (forall dm0, s_device_model st = Some dm0 -> dm0 = dm)
    /\ find_members_by_class_id_derived dm NCCLASSMANAGER = [class_manager]
    /\ class_descriptors_of class_manager = Return cds
    /\ s_datatype_schemas st' = Some schemas
    /\ checked md = true
    /\ check_block schemas reference_class_descriptors dm cds ""
         (with_device_model_metadata (s_suite st) md)
       = Return (s_suite st').
Proof.
  intros Hfresh. unfold check_device_model. rewrite Hfresh. cbn [negb].
  destruct create_ncp_socket as [[]|] eqn:Hopen; cbn [bind]; [|discriminate].
  destruct (get_manager _ _ _) as [[class_manager st1]|] eqn:Hmanager;
    cbn [bind]; [|discriminate].
  apply get_manager_return in Hmanager as (dm & Hquery & Hfind).
  apply query_device_model_return
    in Hquery as (_ & Hdm1 & Hschemas1 & Hsame & md1 & Hsuite1 & Hmd1).
  rewrite (query_device_model_cached _ _ _ Hopen Hdm1). cbn [bind].
  destruct (generate_device_model_datatype_schemas fuel st1) as [st2|]
    eqn:Hst2; cbn [bind]; [|discriminate].
  destruct (generate_device_model_datatype_schemas_return _ _ _ _ Hopen Hdm1
              Hst2) as (Hsuite2 & Hdm2 & [schemas Hschemas2]).
  destruct (class_descriptors_of class_manager) as [cds|] eqn:Hcds;
    cbn [bind]; [|discriminate].
  rewrite Hschemas2.
  destruct (check_block _ _ _ _ _ _) as [s|] eqn:Hwalk; cbn [bind];
    [|discriminate].
  intros [= <-]. exists dm, class_manager, cds, schemas, md1.
  cbn [s_device_model s_datatype_schemas s_suite with_suite].
  split; [done|]. split; [exact Hsame|]. split; [done|]. split; [done|].
  split; [done|]. split; [by rewrite Hmd1|].
  rewrite <- Hwalk, Hsuite2, Hsuite1. reflexivity.
Qed.

(** X20: the first query of the device model, on a Node whose blocks nest to
    a finite depth.  When the read of the members of the root block gives
    data and the member descriptors that the Node answers are complete, the
    result is a block of the class id of blocks, the oid of the root block
    and the role "root", with these members; the suite keeps it, and a
    second query returns it without a read.  When the read gives no data,
    the query raises the failure "Unable to query Device Model", which
    [test_05] lets through and [test_06] turns into UNCLEAR. *)
Theorem query_device_model_first rank fuel st :
  finite_depth rank -> (rank ROOT_BLOCK_OID < fuel)%nat ->
  is_block_class NCBLOCK = true ->
  create_ncp_socket = Return tt ->
  s_device_model st = None ->
  (forall m ms,
     complete_answers ->
     remote_members ROOT_BLOCK_OID = Value (Some (m :: ms)) ->
     exists rc children st',
       query_device_model fuel st
       = Return (NcBlock NCBLOCK ROOT_BLOCK_OID "root" (m :: ms) rc children,
                 st')
       /\ query_device_model fuel st'
          = Return (NcBlock NCBLOCK ROOT_BLOCK_OID "root" (m :: ms) rc children,
                    st'))
  /\ (no_data (remote_members ROOT_BLOCK_OID) ->
      exists text,
        let failure :=
          NMOSTestException
            (Message ("Unable to query Device Model: " +:+ text)) in
        query_device_model fuel st = Raise failure
        /\ (checked (device_model_metadata (s_suite st)) = false ->
            test_05 reference_class_descriptors fuel st = Raise failure
            /\ test_06 reference_class_descriptors fuel st
               = Return (UNCLEAR
                           (Message ("Unable to query Device Model: "
                                     +:+ text))))).
Proof.
  intros Hrank Hfuel Hblock Hopen Hnone.
  destruct fuel as [|fuel]; [lia|]. split.
  - intros m ms Hcomplete Hms. unfold query_device_model at 1.
    rewrite Hopen, Hnone. cbn [bind].
    rewrite nc_object_factory_block_eq by done.
    destruct (get_property PNone _ _ _ _) as [rc md1].
    rewrite Hms. cbn [get_property].
    destruct (build_members_total (member_build fuel) (m :: ms) [] md1)
      as (children & md2 & Hb).
    { intros m' md0 Hin.
      rewrite member_build_eq by (by eapply Hcomplete).
      apply (nc_object_factory_total rank); [done..|].
      specialize (Hrank ROOT_BLOCK_OID (m :: ms) m' Hms Hin). lia. }
    rewrite Hb. cbn [bind]. eexists rc, children, _. split; [reflexivity|].
    by apply query_device_model_cached.
  - intros Hno.
    assert (Hquery : forall st0,
              s_device_model st0 = None ->
              exists text,
                query_device_model (S fuel) st0
                = Raise (NMOSTestException
                           (Message ("Unable to query Device Model: "
                                     +:+ text)))
                /\ text = error_msg
                            (get_property None (remote_members ROOT_BLOCK_OID)
                               MEMBERS ("root" +:+ ": ")
                               (get_property PNone
                                  (remote_get_property ROOT_BLOCK_OID
                                     RUNTIME_PROPERTY_CONSTRAINTS)
                                  RUNTIME_PROPERTY_CONSTRAINTS
                                  ("root" +:+ ": ")
                                  (device_model_metadata (s_suite st0))).2).2).
    { intros st0 Hst0. eexists. split; [|reflexivity].
      unfold query_device_model. rewrite Hopen, Hst0.
      cbn [bind]. rewrite nc_object_factory_block_eq by done.
      destruct (get_property PNone _ _ _ _) as [rc md1].
      cbn [snd].
      destruct (remote_members ROOT_BLOCK_OID) as [[[|m ms]|]|detail];
        cbn; done. }
    destruct (Hquery st Hnone) as (text & Hq & Htext).
    exists text. cbn zeta. split; [exact Hq|]. intros Hfresh.
    set (st0 := with_suite st
                  (with_device_model_metadata (s_suite st)
                     (set_checked (device_model_metadata (s_suite st))))).
    assert (Hst0 : query_device_model (S fuel) st0
                   = Raise (NMOSTestException
                              (Message ("Unable to query Device Model: "
                                        +:+ text)))).
    { destruct (Hquery st0 Hnone) as (text0 & Hq0 & Htext0). rewrite Hq0.
      do 4 f_equal. rewrite Htext0, Htext. subst st0. cbn [s_suite with_suite].
      generalize (device_model_metadata (s_suite st)). intros md.
      cbn [device_model_metadata with_device_model_metadata].
      destruct (remote_get_property ROOT_BLOCK_OID RUNTIME_PROPERTY_CONSTRAINTS),
        (remote_members ROOT_BLOCK_OID); reflexivity. }
    assert (Hcheck : check_device_model reference_class_descriptors (S fuel) st
                     = Raise (NMOSTestException
                                (Message ("Unable to query Device Model: "
                                          +:+ text)))).
    { unfold check_device_model. rewrite Hfresh. cbn [negb]. fold st0.
      rewrite Hopen. cbn [bind]. unfold get_manager.
      rewrite Hopen. cbn [bind]. by rewrite Hst0. }
    unfold test_05, test_06, after_check. by rewrite Hcheck.
Qed.

(** X21: the device model is walked once: after a walk that completes, the
    device model metadata is marked as checked, so that a later call of
    [check_device_model] returns at once and leaves the suite, with all its
    flags, as the walk left it. *)
Theorem check_device_model_once fuel st st' :
  check_device_model reference_class_descriptors fuel st = Return st' ->
  checked (device_model_metadata (s_suite st')) = true
  /\ check_device_model reference_class_descriptors fuel st' = Return st'.
Proof.
  intros Hcheck.
  assert (Hchecked : checked (device_model_metadata (s_suite st')) = true).
  { destruct (checked (device_model_metadata (s_suite st))) eqn:Hst.
    - revert Hcheck. unfold check_device_model. rewrite Hst.
      by intros [= <-].
    - apply check_device_model_walk in Hcheck
        as (dm & cm & cds & schemas & md & _ & _ & _ & _ & _ & Hmd & Hwalk);
        [|done].
      apply check_block_checked in Hwalk. by rewrite Hwalk. }
  split; [exact Hchecked|].
  unfold check_device_model. by rewrite Hchecked.
Qed.

(** X22: what the four structural tests decide, each run as the first test
    after [set_up_tests], when the walk of the device model completes:
    [test_06] passes exactly when no block holds two members of the same
    role, [test_07] when no oid comes twice among the members of all the
    blocks, [test_10] when every member of a manager class is owned by the
    root block, and [test_11] when no block holds two managers of the same
    base class name. *)
Theorem structural_tests_results fuel st st' :
  s_suite st = set_up_tests ->
  check_device_model reference_class_descriptors fuel st = Return st' ->
  exists dm class_manager cds,
    s_device_model st' = Some dm
    /\ find_members_by_class_id_derived dm NCCLASSMANAGER = [class_manager]
    /\ class_descriptors_of class_manager = Return cds
    /\ (test_06 reference_class_descriptors fuel st = Return PASS
        <-> forall b, b ∈ blocks_of dm -> NoDup (m_role <$> members_of b))
    /\ (test_07 reference_class_descriptors fuel st = Return PASS
        <-> NoDup (m_oid <$> walked_members dm))
    /\ (test_10 reference_class_descriptors fuel st = Return PASS
        <-> forall m, m ∈ walked_members dm -> ~ misplaced_manager m)
    /\ (test_11 reference_class_descriptors fuel st = Return PASS
        <-> forall b, b ∈ blocks_of dm ->
              ~ repeated_manager cds (members_of b)).
Proof.
  intros Hfresh Hcheck.
  destruct (check_device_model_walk fuel st st')
    as (dm & cm & cds & schemas & md & Hdm & _ & Hfind & Hcds & _ & _ & Hwalk);
    [by rewrite Hfresh | done|].
  exists dm, cm, cds. split; [done|]. split; [done|]. split; [done|].
  unfold test_06, test_07, test_10, test_11, after_check. rewrite Hcheck.
  rewrite Hfresh in Hwalk.
  pose proof (WalkProofs.check_block_flag schemas reference_class_descriptors
                cds unique_roles_error (fun ms => ~ NoDup (m_role <$> ms))
                (WalkProofs.check_members_roles_flag _ _ _)
                _ _ _ _ Hwalk) as Hroles.
  pose proof (WalkProofs.check_block_oids schemas reference_class_descriptors
                cds _ _ _ _ (NoDup_nil_2 : NoDup (oid_cache
                   (with_device_model_metadata set_up_tests md))) Hwalk)
    as (_ & _ & Hoids).
  pose proof (WalkProofs.check_block_flag schemas reference_class_descriptors
                cds managers_members_root_block_error
                (fun ms => exists m, m ∈ ms /\ misplaced_manager m)
                (fun ctx ms s0 st0 Hms =>
                   WalkProofs.check_members_root _ _ _ ctx ms _ st0 Hms)
                _ _ _ _ Hwalk) as Hroot.
  rewrite <- WalkProofs.members_misplaced in Hroot.
  pose proof (WalkProofs.check_block_flag schemas reference_class_descriptors
                cds managers_are_singletons_error (repeated_manager cds)
                (WalkProofs.check_members_managers_flag _ _ _)
                _ _ _ _ Hwalk) as Hsingle.
  cbn in Hroles, Hoids, Hroot, Hsingle.
  split; [|split; [|split]].
  - destruct (unique_roles_error (s_suite st')).
    + split; [discriminate|]. intros Hall.
      destruct (proj1 Hroles eq_refl) as [?|(b & Hb & Hdup)]; [done|].
      destruct Hdup. by apply Hall.
    + split; [|done]. intros _ b Hb.
      destruct (decide (NoDup (m_role <$> members_of b))) as [|Hdup]; [done|].
      assert (false = true); [|done]. apply Hroles. right. by exists b.
  - destruct (unique_oids_error (s_suite st')).
    + split; [discriminate|]. intros Hnd.
      destruct (proj1 Hoids eq_refl) as [?|?]; done.
    + split; [|done]. intros _.
      destruct (decide (NoDup (m_oid <$> walked_members dm))) as [|Hdup];
        [done|].
      assert (false = true); [|done]. apply Hoids. by right.
  - destruct (managers_members_root_block_error (s_suite st')).
    + split; [discriminate|]. intros Hall.
      destruct (proj1 Hroot eq_refl) as [?|(m & Hm & Hbad)]; [done|].
      by destruct (Hall m Hm).
    + split; [|done]. intros _ m Hm Hbad.
      assert (false = true); [|done]. apply Hroot. right. by exists m.
  - destruct (managers_are_singletons_error (s_suite st')).
    + split; [discriminate|]. intros Hall.
      destruct (proj1 Hsingle eq_refl) as [?|(b & Hb & Hbad)]; [done|].
      by destruct (Hall b Hb).
    + split; [|done]. intros _ b Hb Hbad.
      assert (false = true); [|done]. apply Hsingle. right. by exists b.
Qed.

End DeviceModelTestsFacts.

#[local] Existing Instances ConstraintsSpec.accept_all example_rendering
  example_utils example_harness.

Lemma query_device_model_first_witness :
  (exists rc children st',
     @query_device_model _ _ gain_device _ 3 fresh_session
     = Return (NcBlock [1; 1] 1 "root" [gain_member] rc children, st')
     /\ @query_device_model _ _ gain_device _ 3 st'
        = Return (NcBlock [1; 1] 1 "root" [gain_member] rc children, st'))
  /\ exists text,
       @test_06 _ _ _ unreachable_device _ example_reference_classes 3
         fresh_session
       = Return (UNCLEAR (Message ("Unable to query Device Model: " +:+ text))).
Proof.
  split.
  - assert (Hdepth : @finite_depth gain_device
                       (fun oid => if oid =? 1 then 1%nat else 0%nat)).
    { intros oid ms m. cbn. destruct (oid =? 1); [|discriminate].
      intros [= <-] ->%list_elem_of_singleton. cbn. lia. }
    destruct (@query_device_model_first _ _ _ gain_device _
                example_reference_classes
                (fun oid => if oid =? 1 then 1%nat else 0%nat) 3 fresh_session)
      as [Hdata _]; [exact Hdepth | cbn; lia | reflexivity..|].
    apply (Hdata gain_member []); [|reflexivity].
    intros oid ms m. cbn. destruct (oid =? 1); [|discriminate].
    intros [= <-] ->%list_elem_of_singleton. by repeat split.
  - assert (Hdepth : @finite_depth unreachable_device (fun _ => 0%nat))
      by (intros oid ms m; discriminate).
    destruct (@query_device_model_first _ _ _ unreachable_device _
                example_reference_classes (fun _ => 0%nat) 3 fresh_session)
      as [_ Hnone]; [exact Hdepth | lia | reflexivity..|].
    destruct (Hnone I) as (text & _ & Htests). exists text.
    apply Htests. reflexivity.
Defined.

Lemma check_device_model_once_witness :
  exists st',
    @check_device_model _ _ _ example_device _ example_reference_classes 3
      fresh_session = Return st'
    /\ @check_device_model _ _ _ example_device _ example_reference_classes 3
         st' = Return st'.
Proof.
  eexists. split; [vm_compute; reflexivity|].
  apply (@check_device_model_once _ _ _ example_device _
           example_reference_classes 3 fresh_session).
  vm_compute. reflexivity.
Defined.

Lemma structural_tests_results_witness :
  exists st',
    @check_device_model _ _ _ example_device _ example_reference_classes 3
      fresh_session = Return st'
    /\ exists dm,
         s_device_model st' = Some dm
         /\ (@test_07 _ _ _ example_device _ example_reference_classes 3
               fresh_session = Return PASS
             <-> NoDup (m_oid <$> walked_members dm))
         /\ (@test_10 _ _ _ example_device _ example_reference_classes 3
               fresh_session = Return PASS
             <-> forall m, m ∈ walked_members dm -> ~ misplaced_manager m).
Proof.
  eexists. split; [vm_compute; reflexivity|].
  match goal with
  | |- exists dm, s_device_model ?st' = _ /\ _ =>
      destruct (@structural_tests_results _ _ _ example_device _
                  example_reference_classes 3 fresh_session st' eq_refl)
        as (dm & cm & cds & Hdm & _ & _ & _ & Hoids & Hroot & _);
        [vm_compute; reflexivity|]
  end.
  exists dm. split; [exact Hdm|]. split; [exact Hoids | exact Hroot].
Defined.

End DeviceModelTestsProofs.

(** ** The error tests *)

Module ErrorTestsProofs.
Import Results ErrorTests ErrorTestsSpec.

Section ErrorTestsFacts.
Context `{Rendering} `{NcMethodStatus}.

(** X23: [do_error_test] passes exactly when the Node refuses the command
    with an error message whose status is true in a condition, is not OK
    and, where a status other than zero is expected, equals the expected
    status.  A command that the Node answers fails the test; and when no
    status is expected, an error message of status OK makes the routine
    raise [AttributeError] on the name of the expected status. *)
Theorem do_error_test_passes sent expected_status :
  (do_error_test sent expected_status = Return PASS
   <-> exists error_msg,
         sent = Rejected error_msg
         /\ truthy (get error_msg "status") = true
         /\ py_eqb (get error_msg "status") (PInt (value OK)) = false
         /\ forall expected,
              expected_status = Some expected -> value expected <> 0 ->
              py_eqb (get error_msg "status") (PInt (value expected)) = true)
  /\ do_error_test Answered expected_status
     = Return (FAIL (Message "Error not handled."))
  /\ forall error_msg,
       truthy (get error_msg "status") = true ->
       py_eqb (get error_msg "status") (PInt (value OK)) = true ->
       do_error_test (Rejected error_msg) None = Raise AttributeError.
Proof.
  split; [|split].
  - split.
    + destruct sent as [|error_msg|detail]; try discriminate.
      unfold do_error_test.
      destruct (truthy (get error_msg "status")) eqn:Htruthy;
        [|discriminate]. cbn [negb].
      destruct (py_eqb (get error_msg "status") (PInt (value OK))) eqn:Hok.
      { destruct (expected_actual _ _); discriminate. }
      destruct expected_status as [expected|].
      * destruct (value expected =? 0) eqn:Hzero; cbn [negb andb].
        -- intros _. exists error_msg. repeat split; try done.
           intros e [= <-] Hne. apply Z.eqb_eq in Hzero. done.
        -- unfold py_neb.
           destruct (py_eqb (get error_msg "status") (PInt (value expected)))
             eqn:Heq; cbn [negb].
           ++ intros _. exists error_msg. repeat split; try done.
              by intros e [= <-] _.
           ++ destruct (expected_actual _ _); discriminate.
      * intros _. exists error_msg. by repeat split.
    + intros (error_msg & -> & Htruthy & Hok & Hexpected).
      unfold do_error_test. rewrite Htruthy, Hok. cbn [negb].
      destruct expected_status as [expected|]; [|reflexivity].
      destruct (value expected =? 0) eqn:Hzero; [reflexivity|].
      apply Z.eqb_neq in Hzero. unfold py_neb.
      by rewrite (Hexpected expected eq_refl Hzero).
  - reflexivity.
  - intros error_msg Htruthy Hok. unfold do_error_test.
    by rewrite Htruthy, Hok.
Qed.

Lemma foldl_max_le (oid : Z) (oids : list Z) :
  oid <= foldl Z.max oid oids
  /\ forall o, o ∈ oids -> o <= foldl Z.max oid oids.
Proof.
  revert oid. induction oids as [|x oids IH]; intros oid; cbn [foldl].
  - split; [lia|]. by intros o ?%elem_of_nil.
  - destruct (IH (Z.max oid x)) as [Hmax Hall]. split; [lia|].
    intros o [->|Ho]%elem_of_cons; [lia | by apply Hall].
Qed.

(** X24: the oid that [test_27] sends its command to is above every oid of
    the device model, so that it is the oid of none of its objects: the
    test is [do_error_test] of that command with the expected status
    BadOid.  Of a device model without oids the test raises
    [ValueError]. *)
Theorem test_27_probes_unused_oid oids send :
  test_27 [] send = Raise ValueError
  /\ (oids <> [] ->
      exists oid,
        (oid ∉ oids) /\ (forall o, o ∈ oids -> o < oid)
        /\ test_27 oids send = do_error_test (send oid) (Some BadOid)).
Proof.
  split; [reflexivity|].
  destruct oids as [|first rest]; [done|]. intros _.
  exists (foldl Z.max first rest + 1).
  destruct (foldl_max_le first rest) as [Hfirst Hrest].
  assert (Hall : forall o, o ∈ first :: rest -> o < foldl Z.max first rest + 1).
  { intros o [->|Ho]%elem_of_cons; [lia|]. specialize (Hrest o Ho). lia. }
  split; [|split; [exact Hall | reflexivity]]. intros Hin%Hall. lia.
Qed.

End ErrorTestsFacts.

#[local] Existing Instances DeviceModelSpec.example_rendering example_statuses.

Lemma do_error_test_passes_witness :
  do_error_test (Rejected (error_message 404)) (Some status_bad_oid)
  = Return PASS
  /\ do_error_test (Rejected (error_message 200)) None = Raise AttributeError.
Proof.
  destruct (do_error_test_passes (Rejected (error_message 404))
              (Some status_bad_oid)) as (Hpass & _ & Hok).
  split.
  - apply Hpass. exists (error_message 404). split; [reflexivity|].
    split; [reflexivity|]. split; [reflexivity|].
    by intros expected [= <-] _.
  - apply Hok; reflexivity.
Defined.

Lemma test_27_probes_unused_oid_witness :
  exists oid,
    (oid ∉ [1; 2; 5; 3]) /\ (forall o, o ∈ [1; 2; 5; 3] -> o < oid)
    /\ test_27 [1; 2; 5; 3] send_to_known
       = do_error_test (send_to_known oid) (Some BadOid).
Proof.
  apply (proj2 (test_27_probes_unused_oid [1; 2; 5; 3] send_to_known)).
  discriminate.
Defined.

End ErrorTestsProofs.

(** ** The member descriptors of a block *)

Module MemberDescriptorsProofs.
Import DeviceModel MemberDescriptors MemberDescriptorsSpec QuerySpec.
Import PyFacts QueryProofs.

Section MemberDescriptorsFacts.
Context `{SchemaValidator} `{Rendering} `{MemberQueries}.
Context (reference_datatype_schemas : pydict).

Lemma check_member_descriptors_return block context recurse :
  check_member_descriptors reference_datatype_schemas block context recurse
  = Return tt
  <-> members_agree reference_datatype_schemas block recurse.
Proof.
  unfold check_member_descriptors, members_agree.
  destruct (remote_get_member_descriptors (nc_oid block) recurse)
    as [queried|detail]; [|split; [done | by intros (? & ? & _)]].
  destruct queried as [| | | |members| |];
    try (split; [done | by intros (? & ? & _)]).
  destruct (length members =? length (get_member_descriptors block recurse))%nat
    eqn:Hlen; cbn [negb].
  - apply Nat.eqb_eq in Hlen. rewrite for_each_return. split.
    + intros Hall. exists members. split; [done|]. split; [done|].
      eapply Forall_impl; [exact Hall|]. intros m Hm. cbv beta in Hm.
      unfold member_schema_accepts.
      destruct (getitem reference_datatype_schemas _) as [schema|] eqn:Hschema;
        cbn [bind] in Hm; [|discriminate].
      apply getitem_Return in Hschema.
      destruct (_validate_schema m schema _) as [[]|] eqn:Hvalid;
        cbn [bind] in Hm; [|discriminate].
      apply _validate_schema_return in Hvalid as [Htruthy Hvalid].
      destruct (getitem_str m "oid") as [oid|]; cbn [bind] in Hm;
        [|discriminate].
      destruct (py_in oid _) eqn:Hin; [|discriminate].
      split; [by exists schema | by exists oid].
    + intros (members' & [= <-] & _ & Hall).
      eapply Forall_impl; [exact Hall|].
      intros m [(schema & Hschema & Htruthy & Hvalid) (oid & Hoid & Hin)].
      cbv beta. rewrite (proj2 (getitem_Return _ _ _) Hschema). cbn [bind].
      rewrite (proj2 (_validate_schema_return _ _ _) (conj Htruthy Hvalid)).
      cbn [bind]. rewrite Hoid. cbn [bind]. by rewrite Hin.
  - apply Nat.eqb_neq in Hlen. split; [done|].
    intros (members' & [= <-] & Hlen' & _). done.
Qed.

Lemma do_get_member_descriptors_test_block class_id oid role ms rc children
    context :
  do_get_member_descriptors_test reference_datatype_schemas
    (NcBlock class_id oid role ms rc children) context
  = (for_each children (fun child_object =>
       match child_object with
       | NcBlock _ _ _ _ _ _ =>
           do_get_member_descriptors_test reference_datatype_schemas
             child_object (context +:+ role +:+ ": ")
       | _ => Return tt
       end) ;;;
     for_each [true; false]
       (check_member_descriptors reference_datatype_schemas
          (NcBlock class_id oid role ms rc children) context)).
Proof.
  cbn [do_get_member_descriptors_test]. f_equal.
  induction children as [|child children IH]; [reflexivity|].
  cbn [for_each]. by rewrite <- IH.
Qed.

(** X25: the check of the member descriptors of a block passes exactly when,
    for every block of the mirror from that block down, with and without
    recursion, the Node answers with a list of as many items as the mirror
    holds, each valid against the schema and with the oid of some member
    descriptor of the mirror.  The items are not asked to be different: an
    answer that repeats one member in the place of another passes. *)
Theorem do_get_member_descriptors_test_passes
    class_id oid role ms rc children context :
  do_get_member_descriptors_test reference_datatype_schemas
    (NcBlock class_id oid role ms rc children) context = Return tt
  <-> forall block recurse,
        block ∈ blocks_of (NcBlock class_id oid role ms rc children) ->
        members_agree reference_datatype_schemas block recurse.
Proof.
  set (o := NcBlock class_id oid role ms rc children).
  assert (Hblock : is_Some (head (blocks_of o))) by (by eexists).
  clearbody o. revert context Hblock.
  induction o as [|class_id' oid' role' ms' rc' children' IH|]
    using nc_object_nested_ind; intros context [b Hb]; try discriminate.
  clear b Hb.
  rewrite do_get_member_descriptors_test_block, bind_return_tt.
  rewrite !for_each_return, !Forall_forall.
  set (o := NcBlock class_id' oid' role' ms' rc' children').
  rewrite Forall_forall in IH. split.
  - intros [Hchildren Hown] block recurse Hblock.
    cbn [blocks_of] in Hblock. apply elem_of_cons in Hblock as [->|Hblock].
    + apply check_member_descriptors_return with (context := context).
      apply Hown. destruct recurse; set_solver.
    + apply list_elem_of_In, in_flat_map in Hblock as (child & Hchild & Hin).
      apply list_elem_of_In in Hchild, Hin.
      specialize (Hchildren child Hchild).
      destruct child as [|c' o' r' m' rc'' ch'|];
        try by apply elem_of_nil in Hin.
      eapply (IH _ Hchild); [by eexists | exact Hchildren | exact Hin].
  - intros Hall. split.
    + intros child Hchild.
      destruct child as [|c' o' r' m' rc'' ch'|]; try reflexivity.
      apply (IH _ Hchild); [by eexists|].
      intros block recurse Hblock. apply Hall.
      cbn [blocks_of]. right. apply list_elem_of_In, in_flat_map.
      exists (NcBlock c' o' r' m' rc'' ch').
      split; by apply list_elem_of_In.
    + intros recurse _. apply check_member_descriptors_return.
      apply Hall. left.
Qed.

End MemberDescriptorsFacts.

#[local] Existing Instances ConstraintsSpec.accept_all
  DeviceModelSpec.example_rendering repeating_queries.

Lemma do_get_member_descriptors_test_passes_witness :
  do_get_member_descriptors_test DeviceModelSpec.example_schemas pair_model ""
  = Return tt.
Proof.
  apply (do_get_member_descriptors_test_passes
           DeviceModelSpec.example_schemas).
  intros block recurse Hblock.
  assert (block = pair_model) as -> by (cbn in Hblock; set_solver).
  eexists. split; [reflexivity|]. split; [reflexivity|].
  repeat (apply Forall_cons; split;
          [split; [eexists; split; [reflexivity|]; split; reflexivity
                  |eexists; split; reflexivity]|]).
  apply Forall_nil_2.
Defined.

End MemberDescriptorsProofs.

